(* ===== verification/_CoqProject ===== *)
-Q . S2P
Prelude.v
Numeric.v
Units.v
Policy.v
Contract.v
Bolt.v
Element.v
Weld.v
Parts.v
Connection.v
FloatOrder.v
FloatRound.v
FloatSum.v
FloatCompare.v
FloatOverflow.v
Accuracy.v
AccuracyParts.v
Binary64.v
