(* ===== verification/Prelude.v ===== *)
(** * Steel connection limit states: a verification library

    The program verified here is the package [Steel] of the repository
    structural-engineering-tools: three Python modules of pure functions
    that compute the design strength of bolted and welded steel connections
    from physical quantities carried by the unit library [pint].

    ** The program and its parts

    - [src/Steel/bolt.py]: [nominal_fastener_strength] (nominal shear and
      tensile stress of a fastener, 0.45 and 0.75 of its ultimate strength)
      and the four bolt limit states [shear_strength_bolts],
      [tensile_strength_bolts], [bearing_strength_bolts] and
      [tearout_strength_bolts].
    - [src/Steel/connected_element.py]: the four limit states of the
      connected parts, [connected_elem_shear_yield_str],
      [connected_elem_shear_rupture_str], [connected_elem_tensile_yield_str]
      and [connected_elem_tensile_rupture_str].
    - [src/Steel/weld.py]: [min_weld_size] (a table on the thinner part),
      [weld_material_strength] (strength of the weld metal) and
      [weld_rupture_strength] (the same, reduced when the base metal is too
      thin), which calls [weld_material_strength].

    Every calculator has the same shape: it converts each quantity to inch
    or ksi with [Quantity.to] (which raises [DimensionalityError] on a wrong
    dimension), computes a nominal strength, and then branches on the
    design-method string: ["ASD"] divides by a safety factor, ["LRFD"]
    multiplies by a resistance factor, anything else raises [ValueError].
    Two operations of the nominal strengths raise on large numbers, before
    the method is looked at: the square [bolt_dia ** 2] of the bolt
    calculators and the conversion of the integers [bolt_count] and
    [weld_sides] by the multiplication they meet, both with
    [OverflowError].
    The functions share no state; the only interaction is by calls
    ([nominal_fastener_strength] from the bolt calculators,
    [weld_material_strength] from [weld_rupture_strength]) and through the
    unit registry [ureg], which is only read.

    ** The files of the development

    - [Prelude] (this file): the exceptions as the inductive type [exn], the
      error monad [result] with its notation [x <- c ;; k], Python's
      short-circuit [and] and [or] on tests that may raise ([and_then],
      [or_else]), the traversal [mapM] of a list through the monad with
      its lemmas, results compared up to a relation ([res_rel], [pair_rel],
      [opt_rel]) and the shared tactics.
    - [Numeric]: the arithmetic the program uses, as the class [Number] of
      operations.  Two instances: [Q_Number], exact rational arithmetic, in
      which theorems are proved up to [Qeq]; and [Float_Number], IEEE 754
      binary64 ([PrimFloat]), which is Python's [float] and in which the
      definitions run bit for bit.  The constants [math.pi] and
      [math.sqrt(2)] are, at the rational instance, the exact values of the
      doubles Python uses ([Q_pi], [Q_sqrt2], with proved bounds).  An
      [int] operand is converted by [pof_Z]: to the nearest double
      ([float_of_Z], the rounding [binary_normalize] of the kernel's
      specification of the floats), or [OverflowError] from
      [float_int_limit] on.  The law [NumberOrder] (the order is total)
      holds of the rationals and fails of the doubles because of NaN.
    - [Units]: a model of the part of [pint] the program relies on, written
      from its documented behaviour since the library is not part of the
      sources: dimensions as exponents of length and force, units as a
      positive rational scale to the canonical unit of their dimension
      together with that dimension (so two unit expressions with the same
      scale and dimension, such as [ksi * inch ** 2] and [kip], are the same
      unit), the registry [ureg], quantities, [to] and the arithmetic and
      comparisons on quantities, among them the product [muli] of a
      quantity by an [int] and the comparison [qlt_num] with a plain
      number, which raises pint's [ValueError] on a quantity that has a
      dimension.  Two equivalences: [qty_eq] (same unit,
      equal magnitudes) and [phys_eq] (same physical quantity, whatever the
      unit), with the [Proper] instances that make rewriting under them work.
    - [Policy]: the design-method policy as an abstract specification:
      [parse_method], the table of factors [asd_factor] and [lrfd_factor]
      per [LimitState], [apply_factor], and [governing], [governing2]: what a
      calculator must return given the nominal strength.  In the program the
      policy is not a function: it is the [if design_method == ...] chain
      that ends each calculator, and the refinement theorems show that each
      chain implements the same policy with the factors of its limit state.
    - [Contract]: the promise every calculator but [min_weld_size] and
      [weld_rupture_strength] makes to its caller, as the classes
      [Calculator] and [Calculator2], and what follows from the promise
      alone.  The component files provide one instance per calculator.
    - [Bolt], [Element], [Weld]: one file per source module.  Section
      [Program] of each holds the translation of the module's functions,
      statement by statement, generic in the arithmetic; the definitions
      [Rn_...] are the nominal strengths as closed formulas on canonical
      magnitudes.
    - [Parts]: the statements the source writes once per part
      ([convert_t_ult], [bearing_nominal], [shear_rupture_nominal], ... and
      the method branch [available]), the operation over an ordered
      sequence of parts built from them ([strength_per_part], asked for by
      the design notes; the source has it for two parts only), and the
      governing value [governing_strength], Python's [min] over the
      strengths.
    - [Connection]: facts about several calculators together, proved
      against the interface of [Contract]: the governing part, bearing
      against tearout, allowable against available strength.
    - [FloatOrder]: the IEEE 754 order on the kernel's floats, derived from
      their specification: comparisons with NaN are false, and on the other
      doubles the order is total and transitive.
    - [FloatRound]: the rounding of products and quotients of normal
      doubles, derived from the kernel's specification [SpecFloat] of
      [binary_round_aux]: the result is the exact one times [1 + delta],
      [|delta| <= 2^-53]; the value [B2Q] of a double and the enclosure
      [approximates] of a computed double by a rational.
    - [FloatSum]: the same for the sums and the differences of positive
      normal doubles, from the specification of [SFadd], [SFsub],
      [shl_align] and [binary_round], and for the conversion of an integer;
      the enclosure of a difference, with the amplification of the errors
      of its operands by cancellation.
    - [FloatCompare]: on positive normal doubles [<] is the order of the
      values; a division by such a double does not raise; Python's [min]
      of two enclosed doubles.
    - [FloatOverflow]: where rounding overflows, from the same
      specification and on every double and every integer: the square of a
      double is infinite exactly from [2^512] on, and the double nearest to
      an integer is infinite exactly from [2^1024 - 2^970] on.
    - [Accuracy]: the relative error of the binary64 calculators against
      the rational formula, limit state by limit state.
    - [AccuracyParts]: the same bounds for the operation of [Parts] over
      any number of parts, part by part.
    - [Binary64]: the calculators at the binary64 instance: runs on
      concrete inputs, [min_weld_size] on every pair of doubles, the
      governing strength of a list of doubles, and the inputs on which the
      calculators raise [OverflowError].

    ** What the theorems show

    - Refinement ([..._refines]): on inputs of the right dimensions, in any
      units, each calculator returns what the policy returns on the closed
      formula of its nominal strength evaluated on the canonical magnitudes,
      and raises the policy's error on an invalid selector.
    - Outcomes ([..._outcome], [weld_rupture_strength_error_order],
      [..._dimension_error], [weld_rupture_strength_invalid_sides]): in any
      arithmetic (doubles included), which exception is raised and when;
      success exactly on well-dimensioned inputs with a valid selector (and
      a square and an integer that do not overflow); the order in which the
      errors take precedence.  For
      [weld_rupture_strength] the outcome theorem is a safety statement: a
      result is a force in kip on well-dimensioned inputs, and the only
      exceptions that can escape are the four the code can raise.
    - Any number of parts ([Parts]): on two parts the operation over a
      sequence is, in any arithmetic and errors included, the two-part
      function of the source ([..._parts_two]); on any number of parts it
      succeeds exactly when the source succeeds on each part and returns
      the source's result for each ([..._parts_per_part]); it refines the
      policy part by part ([..._parts_refines]); the governing strength is
      a least element of the results ([..._parts_governing]).
    - Accuracy ([FloatRound], [FloatSum], [Accuracy]): for the shear,
      tensile and bearing strengths of a bolt, the shear and tensile yield
      strengths of an element and the strength of the weld metal, under
      either method: on normal doubles between [2^-100] and [2^100] in inch
      and ksi, the binary64 program succeeds and its result is within a
      relative error of [2^-50] of the rational formula on the values of
      its inputs.  For the tearout strength the same holds when each edge
      distance is at least the diameter of the hole; for the shear and
      tensile rupture strengths, with the bound [2^-49], when the holes
      take at most half of each width.  For [weld_rupture_strength] the
      bound is [2^-48], against the strength of the weld metal times the
      smallest of one and the two shares: the theorem covers the inputs
      on which rounding sends the program to the other branch of its test
      than exact arithmetic, where the deciding share is within rounding
      of one.
      The bounds on bearing, tearout and shear rupture carry over to the
      operation over any number of parts ([..._parts_accuracy]).
    - Unit invariance ([..._Proper], [..._unit_invariant]): the calculators
      are morphisms from [phys_eq] to [qty_eq]: the result does not depend
      on the units in which the inputs are given.
    - Engineering properties: monotonicity in the geometry, the fixed ratios
      between limit states and between the two methods, the sign of the
      tearout and rupture strengths when the hole consumes the section, the
      table of [min_weld_size], and that the strength of a welded joint
      never exceeds that of its weld metal.
    - The two parts ([..._swap], [..._independent]): in any arithmetic,
      exchanging the parts exchanges the results, and the result of a part
      does not depend on the other part.
    - The structure of [weld_rupture_strength]
      ([weld_rupture_strength_weld_governs], [..._base_governs]): in any
      arithmetic, the result is bit for bit the result of
      [weld_material_strength], or that result times the smaller share.
    - The contract ([Contract], [Connection]): what holds of every
      calculator that implements the policy, and of the minimum a caller
      takes over parts and limit states.
    - Binary64 ([FloatOrder], [Binary64]): the documented examples bit for
      bit, and [min_weld_size] on every pair of doubles: it returns nothing
      exactly when the first thickness is a NaN, and it is monotone in the
      thinner part.  The governing strength of a list of doubles is the
      least of them when none is a NaN, and depends on their order when
      one is.
    - Overflow ([FloatOverflow], [Binary64]): for every double [x],
      [x ** 2] raises [OverflowError] exactly when [x] is finite with
      [|x| >= 2^512] ([sq_overflows_threshold]); for every integer [z], the
      conversion returns the double nearest to [z] and raises exactly when
      that double is infinite, that is when [|z| >= 2^1024 - 2^970]
      ([pof_Z_nearest]); with inputs in inch and ksi,
      [shear_strength_bolts] and [tensile_strength_bolts] raise
      [OverflowError] exactly on such a diameter, and the rupture
      calculators and [weld_material_strength] exactly on such an integer
      ([..._binary64_overflow]).

    ** Exactness and bounds

    The program has no loops, no recursion and no state that outlives a
    call, so no fuel is needed, every definition is a terminating function
    by construction, and there is no state invariant or progress property
    to state: what a call may do is covered by the outcome theorems.  The
    only recursion of the development is structural, on the list of parts
    ([mapM], [min_from]).  Theorems stated at the rational instance
    describe the program in exact arithmetic.  [Accuracy] bounds the
    distance between the doubles and that description for every calculator
    that returns a strength ([min_weld_size] returns an entry of its table,
    and is treated on every pair of doubles in [Binary64]); the range
    [2^-100 .. 2^100] of the inputs is far wider than any length in inch or
    stress in ksi and keeps every intermediate result inside the normal
    range of binary64, which is what the rounding model needs; the bounds
    [2^-50], [2^-49] and [2^-48] leave room for the roundings of each
    calculator.  A difference of rounded numbers has no bound on its
    relative error by itself: the theorems on the calculators that
    subtract a hole assume that the part subtracted is at most the part
    left (the hole is no wider than the edge distance, the holes take at
    most half of the width), which bounds the amplification by one.  In
    the accuracy theorems the bolt count is any positive integer below
    [2^63]; the outcome and overflow theorems hold for every integer.  The
    constants are compared with the doubles [math.pi] and [math.sqrt(2)],
    not with the real numbers they round.
    Theorems stated for any [Number] instance (the outcome theorems, the
    two-part equivalences) hold of the doubles as they are.  At binary64 a
    conversion between different units is modelled as one multiplication by
    the rounded ratio of the scales, which need not be the operation
    sequence of [pint]; the runs of [Binary64] therefore use inputs already
    in inch and ksi, where [to] returns the magnitude unchanged.  The square
    [x ** 2] is modelled as the correctly rounded product [x * x], with the
    [OverflowError] Python raises when it overflows; the threshold [2^512]
    does not depend on the last bit of the power, since the square of the
    largest double below [2^512] is more than one unit in the last place
    below the overflow boundary.  Integer arguments (bolt count, number of
    sides) are converted to the nearest double, ties to even, whatever
    their size, with the [OverflowError] of Python when that double would
    be infinite.

    ** What is not modelled

    Registries: each of the three modules creates its own
    [pint.UnitRegistry()], and [pint] refuses to combine quantities that
    belong to different registries.  The model has one registry: every
    theorem assumes that the quantities passed to a function belong to the
    registry of the module that defines it.

    The plotting and command-line code of the repository outside
    [src/Steel], the parsing of unit expressions by [pint] beyond the names
    the program uses, the textual form of units (a result in
    [ksi * inch ** 2] is identified with [kip]), Python integers and strings
    passed where a number is expected, and the exceptions of operations the
    program never performs.

    ** This file

    The prelude: the exceptions the program can raise, the [result] type
    that carries them, its monadic notation, the relation lifting used to
    compare results up to an equivalence of values, and the tactics and
    hint databases the component files share. *)

From Stdlib Require Import String List Bool ZArith QArith Lqa.
From Stdlib Require Import Morphisms RelationClasses Setoid Permutation.

(** ** Exceptions

    The exceptions the three source files can raise, by their Python class.
    [ValueError] carries the message of the [raise] statement;
    [OverflowError] is what [float ** 2] raises when the square of a finite
    double is not finite;
    [UnboundLocalError] carries the name of the local variable that was read
    before any branch assigned it. *)

Inductive exn : Type :=
| ValueError (msg : string)
| DimensionalityError
| UndefinedUnitError (name : string)
| ZeroDivisionError
| OverflowError
| UnboundLocalError (var : string).

(** ** Results *)

Inductive result (A : Type) : Type :=
| Ok (a : A)
| Err (e : exn).

Arguments Ok {A} a.
Arguments Err {A} e.

Definition ret {A : Type} (a : A) : result A := Ok a.

Definition raise {A : Type} (e : exn) : result A := Err e.

Definition bind {A B : Type} (c : result A) (k : A -> result B) : result B :=
  match c with
  | Ok a => k a
  | Err e => Err e
  end.

Definition is_ok {A : Type} (c : result A) : bool :=
  match c with
  | Ok _ => true
  | Err _ => false
  end.

(** Python's [a and b] on two tests that may raise: [b] is evaluated only
    when [a] holds. *)
Definition and_then (a b : result bool) : result bool :=
  bind a (fun x => if x then b else ret false).

(** Python's [a or b]: [b] is evaluated only when [a] fails. *)
Definition or_else (a b : result bool) : result bool :=
  bind a (fun x => if x then ret true else b).

(** [fst_of c] and [snd_of c] are the components of a computed pair. *)
Definition fst_of {A B : Type} (c : result (A * B)) : result A :=
  bind c (fun p => ret (fst p)).

Definition snd_of {A B : Type} (c : result (A * B)) : result B :=
  bind c (fun p => ret (snd p)).

(** [mapM f l] applies [f] to the elements of [l] from left to right and
    stops at the first exception. *)
Fixpoint mapM {A B : Type} (f : A -> result B) (l : list A) : result (list B) :=
  match l with
  | nil => ret nil
  | a :: l' => bind (f a) (fun b => bind (mapM f l') (fun bs => ret (b :: bs)))
  end.

Declare Scope result_scope.
Delimit Scope result_scope with result.

Notation "x <- c ;; k" := (bind c (fun x => k))
  (at level 61, c at next level, right associativity) : result_scope.

Notation "' pat <- c ;; k" := (bind c (fun x => match x with pat => k end))
  (at level 61, pat pattern, c at next level, right associativity) : result_scope.

Open Scope result_scope.

(** ** Results up to a relation on values

    [res_rel R] relates two successful results whose values are related by
    [R], and two failures that raise the same exception. *)

Definition res_rel {A : Type} (R : relation A) : relation (result A) :=
  fun c1 c2 =>
    match c1, c2 with
    | Ok a1, Ok a2 => R a1 a2
    | Err e1, Err e2 => e1 = e2
    | _, _ => False
    end.

(** Pairs of values related componentwise. *)

Definition pair_rel {A B : Type} (RA : relation A) (RB : relation B)
  : relation (A * B) :=
  fun p1 p2 => RA (fst p1) (fst p2) /\ RB (snd p1) (snd p2).

(** Optional values (a Python result that may be [None]). *)

Definition opt_rel {A : Type} (R : relation A) : relation (option A) :=
  fun o1 o2 =>
    match o1, o2 with
    | Some a1, Some a2 => R a1 a2
    | None, None => True
    | _, _ => False
    end.

(** ** Hint databases *)

Create HintDb steel discriminated.
Create Rewrite HintDb res_simp.

(** ** Laws of [bind] *)

Lemma bind_ok {A B : Type} (a : A) (k : A -> result B) :
  bind (Ok a) k = k a.
Proof. reflexivity. Qed.

Lemma bind_err {A B : Type} (e : exn) (k : A -> result B) :
  bind (Err e) k = Err e.
Proof. reflexivity. Qed.

Lemma bind_ret {A : Type} (c : result A) : bind c ret = c.
Proof. destruct c; reflexivity. Qed.

Lemma bind_assoc {A B C : Type} (c : result A) (k : A -> result B)
      (h : B -> result C) :
  bind (bind c k) h = bind c (fun a => bind (k a) h).
Proof. destruct c; reflexivity. Qed.

Lemma bind_ok_inv {A B : Type} (c : result A) (k : A -> result B) (b : B) :
  bind c k = Ok b <-> exists a, c = Ok a /\ k a = Ok b.
Proof.
  destruct c as [a|e]; simpl; split.
  - intros H; exists a; auto.
  - intros [a' [Ha Hk]]; congruence.
  - discriminate.
  - intros [a' [Ha _]]; discriminate.
Qed.

Lemma bind_err_inv {A B : Type} (c : result A) (k : A -> result B) (e : exn) :
  bind c k = Err e <-> c = Err e \/ exists a, c = Ok a /\ k a = Err e.
Proof.
  destruct c as [a|e']; simpl; split.
  - intros H; right; exists a; auto.
  - intros [H|[a' [Ha Hk]]]; congruence.
  - intros H; left; congruence.
  - intros [H|[a' [Ha _]]]; congruence.
Qed.

Lemma is_ok_true {A : Type} (c : result A) :
  is_ok c = true <-> exists a, c = Ok a.
Proof.
  destruct c as [a|e]; simpl; split; try discriminate; eauto.
  intros [a Ha]; discriminate.
Qed.

Lemma and_then_ok (x y : bool) : and_then (Ok x) (Ok y) = Ok (x && y).
Proof. destruct x; reflexivity. Qed.

Lemma or_else_ok (x y : bool) : or_else (Ok x) (Ok y) = Ok (x || y).
Proof. destruct x; reflexivity. Qed.

Lemma and_then_false (b : result bool) : and_then (Ok false) b = Ok false.
Proof. reflexivity. Qed.

Lemma or_else_true (b : result bool) : or_else (Ok true) b = Ok true.
Proof. reflexivity. Qed.

#[export] Hint Rewrite @bind_ok @bind_err @bind_ret : res_simp.
#[export] Hint Rewrite and_then_ok or_else_ok and_then_false or_else_true : res_simp.

(** ** [res_rel], [pair_rel] and [opt_rel] preserve equivalences *)

Section Relations.
Context {A B : Type} (RA : relation A) (RB : relation B).

#[export] Instance res_rel_refl `{!Reflexive RA} : Reflexive (res_rel RA).
Proof. intros [a|e]; simpl; reflexivity. Qed.

#[export] Instance res_rel_sym `{!Symmetric RA} : Symmetric (res_rel RA).
Proof. intros [a|e] [b|e']; simpl; auto. Qed.

#[export] Instance res_rel_trans `{!Transitive RA} : Transitive (res_rel RA).
Proof.
  intros [a|e] [b|e'] [c|e'']; simpl; try tauto; try congruence.
  apply transitivity.
Qed.

#[export] Instance res_rel_equiv `{!Equivalence RA} : Equivalence (res_rel RA).
Proof. split; typeclasses eauto. Qed.

#[export] Instance pair_rel_equiv `{!Equivalence RA} `{!Equivalence RB} :
  Equivalence (pair_rel RA RB).
Proof.
  split.
  - intros [a b]; split; reflexivity.
  - intros [a b] [a' b'] [H1 H2]; split; symmetry; assumption.
  - intros [a b] [a' b'] [a'' b''] [H1 H2] [H3 H4]; split; simpl in *;
      etransitivity; eassumption.
Qed.

#[export] Instance opt_rel_equiv `{!Equivalence RA} : Equivalence (opt_rel RA).
Proof.
  split.
  - intros [a|]; simpl; [reflexivity | exact I].
  - intros [a|] [b|]; simpl; auto. intros H; symmetry; exact H.
  - intros [a|] [b|] [c|]; simpl; try tauto. apply transitivity.
Qed.

(** [bind] is a morphism: related computations continued by related
    continuations are related. *)
Lemma bind_res_rel (c1 c2 : result A) (k1 k2 : A -> result B) :
  res_rel RA c1 c2 ->
  (forall a1 a2, RA a1 a2 -> res_rel RB (k1 a1) (k2 a2)) ->
  res_rel RB (bind c1 k1) (bind c2 k2).
Proof.
  destruct c1 as [a1|e1], c2 as [a2|e2]; simpl; intros H Hk;
    solve [ apply Hk; exact H | exact H | contradiction ].
Qed.

Lemma res_rel_ok_l (a : A) (c : result A) :
  res_rel RA (Ok a) c <-> exists a', c = Ok a' /\ RA a a'.
Proof.
  destruct c as [a'|e]; simpl; split; try contradiction.
  - intros H; exists a'; auto.
  - intros [x [Hx HR]]; congruence.
  - intros [x [Hx _]]; discriminate.
Qed.

Lemma res_rel_err_l (e : exn) (c : result A) :
  res_rel RA (Err e) c <-> c = Err e.
Proof.
  destruct c as [a'|e']; simpl; split; try contradiction; try discriminate;
    congruence.
Qed.
Lemma res_rel_err_r (e : exn) (c : result A) :
  res_rel RA c (Err e) -> c = Err e.
Proof.
  destruct c as [a'|e']; simpl; [contradiction | congruence].
Qed.
End Relations.

Lemma and_then_res_rel (a a' b b' : result bool) :
  res_rel eq a a' -> res_rel eq b b' -> res_rel eq (and_then a b) (and_then a' b').
Proof.
  intros Ha Hb. unfold and_then. apply bind_res_rel with (RA := eq); [exact Ha|].
  intros x ? <-. destruct x; [exact Hb | reflexivity].
Qed.

Lemma or_else_res_rel (a a' b b' : result bool) :
  res_rel eq a a' -> res_rel eq b b' -> res_rel eq (or_else a b) (or_else a' b').
Proof.
  intros Ha Hb. unfold or_else. apply bind_res_rel with (RA := eq); [exact Ha|].
  intros x ? <-. destruct x; [reflexivity | exact Hb].
Qed.

Lemma res_rel_eq {A : Type} (c1 c2 : result A) : res_rel eq c1 c2 <-> c1 = c2.
Proof.
  destruct c1, c2; simpl; split; try contradiction; try discriminate;
    congruence.
Qed.

(** ** Tactics *)

(** [res_simpl] computes binds whose first computation is a known value. *)
Ltac res_simpl :=
  repeat (autorewrite with res_simp in *; cbn [bind ret raise is_ok] in *).

(** [inv_bind H] splits a hypothesis [bind c k = Ok b] into the value of [c]
    and the equation on the continuation. *)
Ltac inv_bind H :=
  let a := fresh "a" in
  let Ha := fresh "Ha" in
  apply bind_ok_inv in H; destruct H as [a [Ha H]].

(** [case_if] case-splits on the first boolean test of the goal. *)
Ltac case_if :=
  match goal with
  | |- context [if ?b then _ else _] =>
      let E := fresh "E" in destruct b eqn:E
  end.

(** ** Strings: the comparisons of the method selector *)

Lemma eqb_neq_false (s t : string) : s <> t -> String.eqb s t = false.
Proof. intros H. apply String.eqb_neq. exact H. Qed.

#[export] Hint Resolve eqb_neq_false : steel.
#[export] Hint Rewrite String.eqb_refl : res_simp.

(** ** Traversals

    What [mapM] returns: a list of results, element by element, or the
    exception of the first element that raises. *)

Section Traversals.
Context {A B : Type} (f : A -> result B).

Lemma mapM_ok_iff (l : list A) (bs : list B) :
  mapM f l = Ok bs <-> Forall2 (fun a b => f a = Ok b) l bs.
Proof.
  revert bs. induction l as [|a l IH]; intros bs; simpl.
  - split; [intros [= <-]; constructor | intros H; now inversion H].
  - rewrite bind_ok_inv. split.
    + intros (b & Hb & H). apply bind_ok_inv in H as (bs' & Hbs & [= <-]).
      constructor; [exact Hb | now apply IH].
    + intros H. inversion H as [|? b ? bs' Hb Hbs]; subst.
      exists b. split; [exact Hb|]. apply IH in Hbs. now rewrite Hbs.
Qed.

Lemma mapM_length (l : list A) (bs : list B) :
  mapM f l = Ok bs -> length bs = length l.
Proof.
  intros H. apply mapM_ok_iff in H. symmetry. eapply Forall2_length, H.
Qed.

Lemma mapM_app (l l' : list A) :
  mapM f (l ++ l') =
  bind (mapM f l) (fun bs => bind (mapM f l') (fun bs' => ret (bs ++ bs'))).
Proof.
  induction l as [|a l IH]; simpl.
  - now destruct (mapM f l').
  - destruct (f a) as [b|e]; simpl; [|reflexivity]. rewrite IH.
    destruct (mapM f l) as [bs|e]; simpl; [|reflexivity].
    now destruct (mapM f l').
Qed.

(** The exception raised is that of the first element that raises. *)
Lemma mapM_err_iff (l : list A) (e : exn) :
  mapM f l = Err e <->
  exists l1 a l2, l = l1 ++ a :: l2 /\
    Forall (fun x => is_ok (f x) = true) l1 /\ f a = Err e.
Proof.
  induction l as [|a l IH]; simpl.
  - split; [discriminate | intros ([|] & ? & ? & ? & _); discriminate].
  - destruct (f a) as [b|e'] eqn:Ea; simpl.
    + assert (T : bind (mapM f l) (fun bs => ret (b :: bs)) = Err e <->
                  mapM f l = Err e)
        by (destruct (mapM f l); unfold ret; simpl; split; congruence).
      rewrite T, IH. split.
      * intros (l1 & x & l2 & -> & Hl1 & Hx). exists (a :: l1), x, l2.
        repeat split; auto. constructor; [now rewrite Ea | exact Hl1].
      * intros (l1 & x & l2 & E & Hl1 & Hx).
        destruct l1 as [|y l1]; injection E as -> ->; [congruence|].
        exists l1, x, l2. split; [reflexivity|].
        split; [now apply Forall_inv_tail in Hl1 | exact Hx].
    + split.
      * intros [= ->]. exists nil, a, l. auto.
      * intros (l1 & x & l2 & E & Hl1 & Hx).
        destruct l1 as [|y l1]; injection E as -> ->; [congruence|].
        apply Forall_inv in Hl1. rewrite Ea in Hl1. discriminate.
Qed.

(** A traversal succeeds on a list exactly when it succeeds on each of its
    rearrangements, with the results rearranged in the same way. *)
Lemma mapM_Permutation (l l' : list A) (bs : list B) :
  Permutation l l' -> mapM f l = Ok bs ->
  exists bs', mapM f l' = Ok bs' /\ Permutation bs bs'.
Proof.
  intros P. revert bs. induction P as [|a l l' P IH|a a' l|l l' l'' P1 IH1 P2 IH2];
    intros bs; simpl.
  - intros [= <-]. eauto.
  - destruct (f a) as [b|]; simpl; [|discriminate].
    destruct (mapM f l) as [bs0|]; simpl; [|discriminate]. intros [= <-].
    destruct (IH _ eq_refl) as (bs' & -> & Pb). simpl. eauto.
  - destruct (f a) as [b|]; simpl; [|now destruct (f a')].
    destruct (f a') as [b'|]; simpl; [|discriminate].
    destruct (mapM f l) as [bs0|]; simpl; [|discriminate]. intros [= <-].
    eexists. split; [reflexivity | apply perm_swap].
  - intros H. destruct (IH1 _ H) as (bs1 & H1 & Pb1).
    destruct (IH2 _ H1) as (bs2 & H2 & Pb2).
    exists bs2. split; [exact H2 | now transitivity bs1].
Qed.

End Traversals.

Lemma mapM_ret {A B : Type} (g : A -> B) (l : list A) :
  mapM (fun a => ret (g a)) l = Ok (map g l).
Proof. induction l as [|a l IH]; simpl; [reflexivity | now rewrite IH]. Qed.

Lemma mapM_ext {A B : Type} (f g : A -> result B) (l : list A) :
  (forall a, In a l -> f a = g a) -> mapM f l = mapM g l.
Proof.
  induction l as [|a l IH]; simpl; intros H; [reflexivity|].
  rewrite (H a) by auto. rewrite IH by auto. reflexivity.
Qed.

(** ** Lists related element by element *)

Lemma Forall2_ext {A B : Type} (R R' : A -> B -> Prop) (l : list A)
      (l' : list B) :
  (forall a b, R a b <-> R' a b) -> Forall2 R l l' <-> Forall2 R' l l'.
Proof.
  intros E. split; intros H; induction H; constructor; auto; now apply E.
Qed.

Lemma Forall2_map_r {A B C : Type} (R : A -> C -> Prop) (g : B -> C)
      (l : list A) (l' : list B) :
  Forall2 R l (map g l') <-> Forall2 (fun a b => R a (g b)) l l'.
Proof.
  revert l'. induction l as [|a l IH]; intros [|b l']; simpl;
    (split; intros H; inversion H; subst; constructor; auto; now apply IH).
Qed.

Lemma Forall2_flip_iff {A B : Type} (R : A -> B -> Prop) (l : list A)
      (l' : list B) :
  Forall2 R l l' <-> Forall2 (fun b a => R a b) l' l.
Proof. split; intros H; induction H; constructor; auto. Qed.

(** Elements that each have a related value have a related list. *)
Lemma Forall_Forall2_ex {A B : Type} (R : A -> B -> Prop) (l : list A) :
  Forall (fun a => exists b, R a b) l -> exists l', Forall2 R l l'.
Proof.
  induction 1 as [|a l [b Hb] _ [l' Hl']]; [exists nil | exists (b :: l')];
    now constructor.
Qed.

(** A traversal by a function that succeeds on every element succeeds. *)
Lemma mapM_total {A B : Type} (f : A -> result B) (l : list A) :
  Forall (fun a => exists b, f a = Ok b) l -> exists bs, mapM f l = Ok bs.
Proof.
  intros H. destruct (Forall_Forall2_ex _ _ H) as [bs Hbs].
  exists bs. now apply mapM_ok_iff.
Qed.
