(* ===== verification/Numeric.v ===== *)
(** * Numbers: the arithmetic the program runs on

    Every magnitude of the program is a Python [float] (or an [int] that
    meets a float in an operation).  The component files are written once,
    against the operations of the class [Number]; this file gives the class
    and its two instances:

    - [Q_Number]: exact rational arithmetic.  Decimal literals denote
      themselves, [math.pi] and [math.sqrt(2)] denote the rationals that
      their binary64 values are.  The algebraic theorems of the development
      are proved at this instance, up to [Qeq].
    - [Float_Number]: IEEE 754 binary64, the kernel's primitive floats, which
      is bit for bit what CPython computes with [+ - * /] and comparisons.
      It has no algebraic laws; it is used to run the program.

    The class also says when [x ** 2] raises [OverflowError]
    ([sq_overflows]: never on rationals, on doubles when the square of a
    finite number is infinite) and when an [int] operand of a float
    operation does ([of_Z_overflows]: never on rationals, on doubles from
    [2^1024 - 2^970] on, where the nearest double would be infinite);
    [pdiv], [ppow2], [pof_Z] and [pmin] are Python's division, square,
    conversion of an [int] and [min] with the exceptions they raise.

    [NumberOrder] states the laws of comparisons that the step function
    [min_weld_size] needs: some numbers are unordered (NaN) and fail every
    comparison; on the others [x <= y] fails exactly when [y < x].  The
    rationals satisfy them with no unordered number; the doubles satisfy
    them with [is_nan] ([FloatOrder.v]). *)

From Stdlib Require Import String Bool ZArith QArith Qminmax Lqa Floats.
From Stdlib Require Import Morphisms RelationClasses Setoid.
From S2P Require Import Prelude.

(** ** The operations *)

Class Number (F : Type) : Type := {
  nadd : F -> F -> F;
  nsub : F -> F -> F;
  nmul : F -> F -> F;
  ndiv : F -> F -> F;
  nltb : F -> F -> bool;
  nleb : F -> F -> bool;
  neqb : F -> F -> bool;
  (** a decimal literal of the source *)
  of_Q : Q -> F;
  (** an [int] operand, converted to [float] by the operation it meets *)
  of_Z : Z -> F;
  (** whether that conversion raises [OverflowError]: the [int] is too
      large to convert to [float] *)
  of_Z_overflows : Z -> bool;
  (** the integers a number represents exactly convert without error *)
  of_Z_small : forall z : Z, (Z.abs z <= 2 ^ 53)%Z -> of_Z_overflows z = false;
  (** [math.pi] *)
  math_pi : F;
  (** whether [x ** 2] raises [OverflowError]: the square of a finite
      number is not finite *)
  sq_overflows : F -> bool;
  (** [math.sqrt(2)] *)
  math_sqrt2 : F
}.

Arguments of_Q {F _} q%_Q.
Arguments of_Z {F _} z%_Z.
Arguments of_Z_overflows {F _} z%_Z.

Declare Scope num_scope.
Delimit Scope num_scope with num.
Notation "x + y" := (nadd x y) : num_scope.
Notation "x - y" := (nsub x y) : num_scope.
Notation "x * y" := (nmul x y) : num_scope.
Notation "x / y" := (ndiv x y) : num_scope.
Notation "x <? y" := (nltb x y) (at level 70, no associativity) : num_scope.
Notation "x <=? y" := (nleb x y) (at level 70, no associativity) : num_scope.
Notation "x =? y" := (neqb x y) (at level 70, no associativity) : num_scope.

(** [lit q] is the float literal written [q] in the source. *)
Abbreviation lit := of_Q (only parsing).

(** Python's true division: a zero divisor raises [ZeroDivisionError]. *)
Definition pdiv {F : Type} `{Number F} (x y : F) : result F :=
  if (y =? of_Z 0)%num then raise ZeroDivisionError else ret (x / y)%num.

(** Python's [x ** 2] on a float: the square, or [OverflowError] when the
    square of a finite number overflows (the product [x * x] itself would
    silently give an infinity). *)
Definition ppow2 {F : Type} `{Number F} (x : F) : result F :=
  if sq_overflows x then raise OverflowError else ret (x * x)%num.

(** An [int] operand [z] of a float operation, as in [x * z]: Python
    converts it to the nearest double, ties to even, and raises
    [OverflowError] ("int too large to convert to float") when no finite
    double is nearest. *)
Definition pof_Z {F : Type} `{Number F} (z : Z) : result F :=
  if of_Z_overflows z then raise OverflowError else ret (of_Z z).

(** Python's built-in [min(a, b)]: the first argument unless the second is
    strictly smaller. *)
Definition pmin {F : Type} `{Number F} (a b : F) : F :=
  if (b <? a)%num then b else a.

(** ** Exact rational arithmetic *)

Definition Qltb (x y : Q) : bool := negb (Qle_bool y x).

(** The rational that the binary64 constant [math.pi] is:
    [7074237752028440 * 2^-51]. *)
Definition Q_pi : Q := 884279719003555 # 281474976710656.

(** The rational that the binary64 result of [math.sqrt(2)] is:
    [6369051672525773 * 2^-52]. *)
Definition Q_sqrt2 : Q := 6369051672525773 # 4503599627370496.

#[export] Instance Q_Number : Number Q := {|
  nadd := Qplus;
  nsub := Qminus;
  nmul := Qmult;
  ndiv := Qdiv;
  nltb := Qltb;
  nleb := Qle_bool;
  neqb := Qeq_bool;
  of_Q := fun q => q;
  of_Z := inject_Z;
  of_Z_overflows := fun _ => false;
  of_Z_small := fun _ _ => eq_refl;
  sq_overflows := fun _ => false;
  math_pi := Q_pi;
  math_sqrt2 := Q_sqrt2
|}.

(** ** IEEE 754 binary64 *)

(** The double nearest to an integer, ties to even, as [PyLong_AsDouble]
    computes it for an integer of any size: [binary_normalize] rounds the
    integer mantissa at exponent zero. *)
Definition float_of_Z (z : Z) : float :=
  SF2Prim (binary_normalize prec emax z 0 false).

(** The least magnitude of an integer with no finite double nearest:
    [2^1024 - 2^970], half way between the largest double and [2^1024]
    (the tie goes to the even mantissa, which is the one that overflows). *)
Definition float_int_limit : Z := 2 ^ 1024 - 2 ^ 970.

(** [float(z)] raises [OverflowError] from [float_int_limit] on. *)
Definition float_of_Z_overflows (z : Z) : bool :=
  (float_int_limit <=? Z.abs z)%Z.

Lemma float_of_Z_small (z : Z) :
  (Z.abs z <= 2 ^ 53)%Z -> float_of_Z_overflows z = false.
Proof.
  intros Hz. apply Z.leb_gt. eapply Z.le_lt_trans; [exact Hz|]. reflexivity.
Qed.

(** A decimal literal [n/d] is read as the correctly rounded quotient of the
    two integers, which is the binary64 value nearest to the literal as long
    as both are below [2^53]; every literal of the source is. *)
Definition float_of_Q (q : Q) : float :=
  PrimFloat.div (float_of_Z (Qnum q)) (float_of_Z (Zpos (Qden q))).

#[export] Instance Float_Number : Number float := {|
  nadd := PrimFloat.add;
  nsub := PrimFloat.sub;
  nmul := PrimFloat.mul;
  ndiv := PrimFloat.div;
  nltb := PrimFloat.ltb;
  nleb := PrimFloat.leb;
  neqb := PrimFloat.eqb;
  of_Q := float_of_Q;
  of_Z := float_of_Z;
  of_Z_overflows := float_of_Z_overflows;
  of_Z_small := float_of_Z_small;
  sq_overflows := fun x =>
    PrimFloat.is_infinity (PrimFloat.mul x x) && negb (PrimFloat.is_infinity x);
  math_pi := 0x1.921fb54442d18p+1%float;
  math_sqrt2 := PrimFloat.sqrt 2%float
|}.

(** ** The law of a total order *)

Class NumberOrder (F : Type) `{Number F} : Type := {
  (** the numbers no comparison holds of *)
  unordered : F -> bool;
  nltb_unordered : forall x y : F, unordered x = true -> (x <? y)%num = false;
  nleb_unordered : forall x y : F, unordered y = true -> (x <=? y)%num = false;
  nleb_total : forall x y : F, unordered x = false -> unordered y = false ->
    (x <=? y)%num = negb (y <? x)%num
}.

Arguments NumberOrder F {_}.
Arguments unordered {F _ _} x.

(** ** Tactics *)

(** [num_unfold] exposes the operations of the instance at hand. *)
Ltac num_unfold :=
  cbn [nadd nsub nmul ndiv nltb nleb neqb of_Q of_Z of_Z_overflows
       sq_overflows math_pi math_sqrt2 Q_Number Float_Number] in *.

(** [q_inv_consts] replaces the inverse of every rational constant of the
    goal by its value, so that divisions by constants become linear. *)
Ltac q_inv_consts :=
  unfold Qdiv;
  repeat match goal with
  | |- context [Qinv (Qmake ?n ?d)] =>
      let v := eval vm_compute in (Qred (Qinv (Qmake n d))) in
      setoid_replace (Qinv (Qmake n d)) with v by reflexivity
  end.

(** ** Facts of the rational instance *)

(** A rational square never overflows. *)
Lemma ppow2_Q (x : Q) : ppow2 x = Ok (x * x)%Q.
Proof. reflexivity. Qed.

(** Every integer is a rational. *)
Lemma pof_Z_Q (z : Z) : pof_Z z = Ok (inject_Z z).
Proof. reflexivity. Qed.


Lemma Qltb_lt (x y : Q) : Qltb x y = true <-> x < y.
Proof.
  unfold Qltb. rewrite negb_true_iff, <- not_true_iff_false, Qle_bool_iff.
  split; [apply Qnot_le_lt | apply Qlt_not_le].
Qed.

Lemma Qltb_ge (x y : Q) : Qltb x y = false <-> y <= x.
Proof.
  unfold Qltb. rewrite negb_false_iff. apply Qle_bool_iff.
Qed.

Lemma Qleb_le (x y : Q) : Qle_bool x y = true <-> x <= y.
Proof. apply Qle_bool_iff. Qed.

Lemma Qleb_gt (x y : Q) : Qle_bool x y = false <-> y < x.
Proof.
  rewrite <- not_true_iff_false, Qle_bool_iff.
  split; [apply Qnot_le_lt | apply Qlt_not_le].
Qed.

Lemma Qeqb_eq (x y : Q) : Qeq_bool x y = true <-> x == y.
Proof. apply Qeq_bool_iff. Qed.

Lemma Qeqb_neq (x y : Q) : Qeq_bool x y = false <-> ~ x == y.
Proof. rewrite <- not_true_iff_false, Qeq_bool_iff. reflexivity. Qed.

#[export] Instance Qltb_Proper : Proper (Qeq ==> Qeq ==> eq) Qltb.
Proof.
  intros x x' Hx y y' Hy. unfold Qltb. now rewrite Hx, Hy.
Qed.

Lemma Qleb_negb_Qltb (x y : Q) : Qle_bool x y = negb (Qltb y x).
Proof. unfold Qltb. now rewrite negb_involutive. Qed.

(** The rationals are totally ordered: none is unordered. *)
#[export] Instance Q_NumberOrder : NumberOrder Q := {|
  unordered := fun _ => false;
  nltb_unordered := fun x y (H : false = true) =>
    match Bool.diff_false_true H return _ with end;
  nleb_unordered := fun x y (H : false = true) =>
    match Bool.diff_false_true H return _ with end;
  nleb_total := fun x y _ _ => Qleb_negb_Qltb x y
|}.

(** [q_bool] turns the boolean comparisons in the context and the goal into
    the propositions [lra] reads. *)
Ltac q_bool :=
  num_unfold;
  repeat match goal with
  | H : Qltb _ _ = true |- _ => apply Qltb_lt in H
  | H : Qltb _ _ = false |- _ => apply Qltb_ge in H
  | H : Qle_bool _ _ = true |- _ => apply Qleb_le in H
  | H : Qle_bool _ _ = false |- _ => apply Qleb_gt in H
  | H : Qeq_bool _ _ = true |- _ => apply Qeqb_eq in H
  | H : Qeq_bool _ _ = false |- _ => apply Qeqb_neq in H
  | |- Qltb _ _ = true => apply Qltb_lt
  | |- Qltb _ _ = false => apply Qltb_ge
  | |- Qle_bool _ _ = true => apply Qleb_le
  | |- Qle_bool _ _ = false => apply Qleb_gt
  | |- Qeq_bool _ _ = true => apply Qeqb_eq
  | |- Qeq_bool _ _ = false => apply Qeqb_neq
  end.

(** Division in [Q] never raises on a non-zero divisor, and always raises on
    a zero one. *)
Lemma pdiv_Q_ok (x y : Q) : ~ y == 0 -> pdiv x y = Ok (x / y)%Q.
Proof.
  intros Hy. unfold pdiv. num_unfold.
  destruct (Qeq_bool y (inject_Z 0)) eqn:E; [|reflexivity].
  q_bool. contradiction.
Qed.

Lemma pdiv_Q_zero (x y : Q) : y == 0 -> pdiv x y = Err ZeroDivisionError.
Proof.
  intros Hy. unfold pdiv. num_unfold.
  destruct (Qeq_bool y (inject_Z 0)) eqn:E; [reflexivity|].
  q_bool. contradiction.
Qed.

#[export] Instance pdiv_Q_Proper :
  Proper (Qeq ==> Qeq ==> res_rel Qeq) (@pdiv Q _).
Proof.
  intros x x' Hx y y' Hy. unfold pdiv. num_unfold.
  rewrite <- Hy.
  destruct (Qeq_bool y (inject_Z 0)); simpl; [reflexivity|].
  now rewrite Hx, Hy.
Qed.

(** Products and quotients of non-zero rationals are non-zero. *)
Lemma Qmult_nonzero (x y : Q) : ~ x == 0 -> ~ y == 0 -> ~ x * y == 0.
Proof.
  intros Hx Hy H. apply Qmult_integral in H. tauto.
Qed.

Lemma Qinv_nonzero (x : Q) : ~ x == 0 -> ~ / x == 0.
Proof.
  intros Hx H. apply Hx. rewrite <- (Qinv_involutive x), H. reflexivity.
Qed.

Lemma Qdiv_nonzero (x y : Q) : ~ x == 0 -> ~ y == 0 -> ~ x / y == 0.
Proof.
  intros Hx Hy. unfold Qdiv. apply Qmult_nonzero; [exact Hx | now apply Qinv_nonzero].
Qed.

(** [q_nonzero] proves that an expression built from products, quotients,
    non-zero constants and non-zero hypotheses is not zero. *)
Ltac q_nonzero :=
  num_unfold;
  repeat first [ apply Qdiv_nonzero | apply Qmult_nonzero ];
  first [ assumption | discriminate ].

(** [pmin] on [Q] is the minimum. *)
Lemma pmin_Q_min (a b : Q) : pmin a b == Qmin a b.
Proof.
  unfold pmin. num_unfold. destruct (Qltb b a) eqn:E; q_bool.
  - symmetry. apply Q.min_r. lra.
  - symmetry. apply Q.min_l. lra.
Qed.

Lemma pmin_Q_cases (a b : Q) :
  (b < a /\ pmin a b = b) \/ (a <= b /\ pmin a b = a).
Proof.
  unfold pmin. num_unfold. destruct (Qltb b a) eqn:E; q_bool; auto.
Qed.

#[export] Instance pmin_Q_Proper : Proper (Qeq ==> Qeq ==> Qeq) (@pmin Q _).
Proof.
  intros x x' Hx y y' Hy. now rewrite !pmin_Q_min, Hx, Hy.
Qed.

(** The two constants, to seven decimals. *)
Lemma Q_pi_bounds : 3.1415926 < Q_pi /\ Q_pi < 3.1415927.
Proof. split; reflexivity. Qed.

Lemma Q_sqrt2_bounds : 1.4142135 < Q_sqrt2 /\ Q_sqrt2 < 1.4142136.
Proof. split; reflexivity. Qed.

(** [Q_sqrt2] is the binary64 number nearest to the square root of two: its
    square is within [2^-51] of 2. *)
Lemma Q_sqrt2_square :
  2 - (1 # 2251799813685248) < Q_sqrt2 * Q_sqrt2 /\
  Q_sqrt2 * Q_sqrt2 < 2 + (1 # 2251799813685248).
Proof. split; reflexivity. Qed.

(** ** Facts of the binary64 instance *)

(** The literals of the source are read to the same binary64 values as
    Python reads them. *)
Lemma float_of_Q_literals :
  float_of_Q 0.45 = 0x1.ccccccccccccdp-2%float /\
  float_of_Q 0.75 = 0.75%float /\
  float_of_Q 2.4 = 0x1.3333333333333p+1%float /\
  float_of_Q 1.2 = 0x1.3333333333333p+0%float /\
  float_of_Q 0.125 = 0.125%float /\
  float_of_Q 0.063 = 0x1.020c49ba5e354p-4%float /\
  float_of_Q 0.60 = 0x1.3333333333333p-1%float /\
  float_of_Q 1.67 = 0x1.ab851eb851eb8p+0%float /\
  float_of_Q 0.707 = 0x1.69fbe76c8b439p-1%float.
Proof. repeat split; vm_compute; reflexivity. Qed.

(** Binary64 comparisons are not a total order: a NaN is neither below nor
    at least any number. *)
Lemma float_order_not_total :
  (nan <=? 0.25)%float = false /\ (0.25 <? nan)%float = false.
Proof. split; vm_compute; reflexivity. Qed.

(** The two instances of [math.sqrt(2)] and [math.pi] denote the same
    numbers. *)
Lemma float_constants_exact :
  Prim2SF (@math_pi float _) = S754_finite false 7074237752028440 (-51) /\
  Prim2SF (@math_sqrt2 float _) = S754_finite false 6369051672525773 (-52).
Proof. split; vm_compute; reflexivity. Qed.
