(* ===== verification/Units.v ===== *)
(** * Units and quantities: the boundary with the quantity library

    The program receives and returns [pint] quantities.  The library itself
    is not part of the repository; this file models the part of its contract
    the program relies on, from the specification: a quantity is a magnitude
    with a unit, a unit is a positive scale relative to the canonical system
    (inch, kip) with a dimension, conversion to a unit of another dimension
    raises [DimensionalityError], and arithmetic propagates units.

    Dimensions are exponent vectors over length and force; stress is
    force per squared length.  The scale of a unit is a positive rational by
    construction.  Two relations on rational quantities are
    defined: [qty_eq] (same unit, magnitudes equal as rationals) and
    [phys_eq] (the same physical quantity, whatever the unit).

    A unit is identified by its scale and its dimension, not by its name:
    [ksi * inch ** 2] and [kip] are the same unit.  There is one registry:
    all quantities are taken to belong to the registry of the module that
    receives them.  The lemmas show that conversion succeeds exactly when
    the dimensions agree, that the canonical magnitude is a homomorphism
    for the arithmetic of quantities, that a quantity times an [int]
    raises [OverflowError] exactly when the integer does not convert to a
    float, and that every operation respects
    [phys_eq] or [qty_eq] ([Proper] instances), which is what the unit
    invariance of the calculators rests on. *)

From Stdlib Require Import String Bool ZArith QArith Lia Lqa List.
From Stdlib Require Import Morphisms RelationClasses Setoid.
From S2P Require Import Prelude Numeric.
Import ListNotations.

Local Open Scope string_scope.

(** ** Dimensions *)

Record Dimension : Type := mkDim {
  dim_length : Z;
  dim_force : Z
}.

Definition dimensionless : Dimension := mkDim 0 0.
Definition dim_len : Dimension := mkDim 1 0.
Definition dim_frc : Dimension := mkDim 0 1.
Definition dim_stress : Dimension := mkDim (-2) 1.

Definition dim_eqb (d1 d2 : Dimension) : bool :=
  Z.eqb (dim_length d1) (dim_length d2) && Z.eqb (dim_force d1) (dim_force d2).

Definition dim_mul (d1 d2 : Dimension) : Dimension :=
  mkDim (dim_length d1 + dim_length d2) (dim_force d1 + dim_force d2).

Definition dim_div (d1 d2 : Dimension) : Dimension :=
  mkDim (dim_length d1 - dim_length d2) (dim_force d1 - dim_force d2).

(** ** Units *)

Record Unit : Type := mkUnit {
  unit_num : positive;
  unit_den : positive;
  unit_dim : Dimension
}.

(** The scale of a unit, a positive rational: the number of canonical units
    that one unit is. *)
Definition unit_scale (u : Unit) : Q := Zpos (unit_num u) # unit_den u.

Definition unit_one : Unit := mkUnit 1 1 dimensionless.

Definition unit_mul (u1 u2 : Unit) : Unit :=
  mkUnit (unit_num u1 * unit_num u2) (unit_den u1 * unit_den u2)
         (dim_mul (unit_dim u1) (unit_dim u2)).

Definition unit_div (u1 u2 : Unit) : Unit :=
  mkUnit (unit_num u1 * unit_den u2) (unit_den u1 * unit_num u2)
         (dim_div (unit_dim u1) (unit_dim u2)).

Definition unit_eqb (u1 u2 : Unit) : bool :=
  Qeq_bool (unit_scale u1) (unit_scale u2) && dim_eqb (unit_dim u1) (unit_dim u2).

(** The units of the registry that the program and its callers name.  The
    canonical units have scale 1; the others are exact: an inch is 25.4 mm,
    a pound-force is 4.4482216152605 N. *)
Definition inch : Unit := mkUnit 1 1 dim_len.
Definition foot : Unit := mkUnit 12 1 dim_len.
Definition millimeter : Unit := mkUnit 10 254 dim_len.
Definition meter : Unit := mkUnit 10000 254 dim_len.
Definition kip : Unit := mkUnit 1 1 dim_frc.
Definition lbf : Unit := mkUnit 1 1000 dim_frc.
Definition kilonewton : Unit := mkUnit 10000000000 44482216152605 dim_frc.
Definition ksi : Unit := mkUnit 1 1 dim_stress.
Definition psi : Unit := mkUnit 1 1000 dim_stress.
Definition megapascal : Unit := mkUnit 6451600000000 44482216152605 dim_stress.

(** [ureg]: the registry, from unit names to units. *)
Definition ureg : list (string * Unit) :=
  [ ("inch", inch); ("in", inch); ("foot", foot); ("ft", foot);
    ("millimeter", millimeter); ("mm", millimeter); ("meter", meter);
    ("m", meter); ("kip", kip); ("lbf", lbf); ("kilonewton", kilonewton);
    ("kN", kilonewton); ("ksi", ksi); ("psi", psi);
    ("megapascal", megapascal); ("MPa", megapascal) ].

Fixpoint ureg_find (name : string) (table : list (string * Unit)) : option Unit :=
  match table with
  | [] => None
  | (n, u) :: rest => if String.eqb name n then Some u else ureg_find name rest
  end.

Definition ureg_parse (name : string) : result Unit :=
  match ureg_find name ureg with
  | Some u => ret u
  | None => raise (UndefinedUnitError name)
  end.

(** ** Quantities *)

Record Quantity (F : Type) : Type := qty {
  magnitude : F;
  units : Unit
}.

Arguments qty {F} magnitude units.
Arguments magnitude {F} q.
Arguments units {F} q.

(** The exception of pint when a quantity that has a dimension is compared
    with a plain [int]. *)
Definition cannot_compare : exn :=
  ValueError "Cannot compare Quantity and <class 'int'>".

Section Operations.
Context {F : Type} `{Number F}.
Local Open Scope num_scope.

(** [q.to(u)]: the same quantity in unit [u].  A unit of another dimension
    raises; the same unit leaves the magnitude untouched; otherwise the
    magnitude is multiplied by the conversion factor. *)
Definition to (q : Quantity F) (u : Unit) : result (Quantity F) :=
  if dim_eqb (unit_dim (units q)) (unit_dim u) then
    if unit_eqb (units q) u then ret (qty (magnitude q) u)
    else ret (qty (magnitude q * of_Q (unit_scale (units q) / unit_scale u)) u)
  else raise DimensionalityError.

(** [q.to('name')]: the unit is looked up in the registry first. *)
Definition to_name (q : Quantity F) (name : string) : result (Quantity F) :=
  u <- ureg_parse name ;;
  to q u.

(** [a * b] on two quantities. *)
Definition qmul (a b : Quantity F) : Quantity F :=
  qty (magnitude a * magnitude b) (unit_mul (units a) (units b)).

(** [s * a]: a number times a quantity. *)
Definition smul (s : F) (a : Quantity F) : Quantity F :=
  qty (s * magnitude a) (units a).

(** [a * s]: a quantity times a number. *)
Definition muls (a : Quantity F) (s : F) : Quantity F :=
  qty (magnitude a * s) (units a).

(** [a * n] for an [int] [n]: the multiplication converts the integer to a
    float first, which raises [OverflowError] when it is too large. *)
Definition muli (a : Quantity F) (n : Z) : result (Quantity F) :=
  x <- pof_Z n ;;
  ret (muls a x).

(** [a / s] for a non-zero literal [s]. *)
Definition divs (a : Quantity F) (s : F) : Quantity F :=
  qty (magnitude a / s) (units a).

(** [a ** 2]: the square of the magnitude may raise [OverflowError]. *)
Definition qsquare (a : Quantity F) : result (Quantity F) :=
  m <- ppow2 (magnitude a) ;;
  ret (qty m (unit_mul (units a) (units a))).

(** [a / b] on two quantities: a zero magnitude of [b] raises. *)
Definition qdiv (a b : Quantity F) : result (Quantity F) :=
  m <- pdiv (magnitude a) (magnitude b) ;;
  ret (qty m (unit_div (units a) (units b))).

(** [a + b] and [a - b]: [b] is converted to the unit of [a] first. *)
Definition qadd (a b : Quantity F) : result (Quantity F) :=
  b' <- to b (units a) ;;
  ret (qty (magnitude a + magnitude b') (units a)).

Definition qsub (a b : Quantity F) : result (Quantity F) :=
  b' <- to b (units a) ;;
  ret (qty (magnitude a - magnitude b') (units a)).

(** [a < b] and [a <= b]: [b] is converted to the unit of [a] first. *)
Definition qlt (a b : Quantity F) : result bool :=
  b' <- to b (units a) ;;
  ret (magnitude a <? magnitude b').

Definition qle (a b : Quantity F) : result bool :=
  b' <- to b (units a) ;;
  ret (magnitude a <=? magnitude b').

(** [a < x] for a plain number [x] other than zero, as in [share < 1]: a
    dimensionless [a] is brought to the plain unit and its magnitude is
    compared; any other quantity raises the [ValueError] of pint's
    comparison. *)
Definition qlt_num (a : Quantity F) (x : F) : result bool :=
  if dim_eqb (unit_dim (units a)) dimensionless then
    a' <- to a unit_one ;;
    ret (magnitude a' <? x)
  else raise cannot_compare.

(** [min(a, b)] on two quantities: [a] unless [b < a]. *)
Definition qmin (a b : Quantity F) : result (Quantity F) :=
  lt <- qlt b a ;;
  ret (if lt then b else a).

End Operations.

(** ** Relations on rational quantities *)

(** Same unit, equal magnitudes. *)
Definition qty_eq (a b : Quantity Q) : Prop :=
  magnitude a == magnitude b /\ units a = units b.

(** The same physical quantity: same dimension, and the same magnitude once
    both are expressed in the canonical unit. *)
Definition phys_eq (a b : Quantity Q) : Prop :=
  unit_dim (units a) = unit_dim (units b) /\
  magnitude a * unit_scale (units a) == magnitude b * unit_scale (units b).

(** The magnitude of a quantity in the canonical unit of its dimension. *)
Definition canon (a : Quantity Q) : Q := magnitude a * unit_scale (units a).

(** The dimensions the inputs of the program must have. *)
Definition is_length {F : Type} (q : Quantity F) : Prop :=
  unit_dim (units q) = dim_len.

Definition is_stress {F : Type} (q : Quantity F) : Prop :=
  unit_dim (units q) = dim_stress.

(** ** Dimensions and units: decidable equality *)

Lemma dim_eqb_eq (d1 d2 : Dimension) : dim_eqb d1 d2 = true <-> d1 = d2.
Proof.
  destruct d1 as [l1 f1], d2 as [l2 f2]. unfold dim_eqb. simpl.
  rewrite andb_true_iff, !Z.eqb_eq. split.
  - intros [-> ->]. reflexivity.
  - intros E. inversion E. auto.
Qed.

Lemma dim_eqb_refl (d : Dimension) : dim_eqb d d = true.
Proof. apply dim_eqb_eq. reflexivity. Qed.

Lemma dim_eqb_neq (d1 d2 : Dimension) : dim_eqb d1 d2 = false <-> d1 <> d2.
Proof. rewrite <- not_true_iff_false, dim_eqb_eq. reflexivity. Qed.

Lemma unit_eqb_spec (u1 u2 : Unit) :
  unit_eqb u1 u2 = true <->
  unit_scale u1 == unit_scale u2 /\ unit_dim u1 = unit_dim u2.
Proof.
  unfold unit_eqb. now rewrite andb_true_iff, Qeq_bool_iff, dim_eqb_eq.
Qed.

Lemma unit_eqb_refl (u : Unit) : unit_eqb u u = true.
Proof. apply unit_eqb_spec. split; reflexivity. Qed.

#[export] Hint Rewrite dim_eqb_refl unit_eqb_refl : res_simp.

(** Scales are positive, and follow the products and quotients of units. *)
Lemma unit_scale_pos (u : Unit) : 0 < unit_scale u.
Proof. reflexivity. Qed.

Lemma unit_scale_mul (u1 u2 : Unit) :
  unit_scale (unit_mul u1 u2) == unit_scale u1 * unit_scale u2.
Proof. reflexivity. Qed.

Lemma unit_scale_div (u1 u2 : Unit) :
  unit_scale (unit_div u1 u2) == unit_scale u1 / unit_scale u2.
Proof.
  unfold unit_div, unit_scale, Qdiv, Qinv, Qmult, Qeq. simpl. lia.
Qed.

#[export] Hint Resolve unit_scale_pos : steel.

(** ** [qty_eq] and [phys_eq] are equivalences *)

#[export] Instance qty_eq_equiv : Equivalence qty_eq.
Proof.
  split.
  - intros a. split; reflexivity.
  - intros a b [Hm Hu]. split; symmetry; assumption.
  - intros a b c [Hm Hu] [Hm' Hu']. split; etransitivity; eassumption.
Qed.

#[export] Instance phys_eq_equiv : Equivalence phys_eq.
Proof.
  split.
  - intros a. split; reflexivity.
  - intros a b [Hd Hm]. split; symmetry; assumption.
  - intros a b c [Hd Hm] [Hd' Hm']. split; etransitivity; eassumption.
Qed.

Lemma qty_eq_phys_eq (a b : Quantity Q) : qty_eq a b -> phys_eq a b.
Proof.
  intros [Hm Hu]. split; rewrite Hu; [reflexivity|]. now rewrite Hm.
Qed.

(** Two quantities in the same unit that are physically equal have equal
    magnitudes. *)
Lemma phys_eq_same_unit (a b : Quantity Q) :
  units a = units b -> phys_eq a b -> qty_eq a b.
Proof.
  intros Hu [_ Hm]. split; [|exact Hu].
  pose proof (unit_scale_pos (units a)). rewrite <- Hu in Hm. nra.
Qed.

Lemma phys_eq_canon (a b : Quantity Q) :
  phys_eq a b <-> unit_dim (units a) = unit_dim (units b) /\ canon a == canon b.
Proof. reflexivity. Qed.

(** ** Conversion *)

Section Conversion.
Context {F : Type} `{Number F}.

(** Conversion succeeds exactly when the dimensions agree, whatever the
    arithmetic. *)
Lemma to_dim_ok (q : Quantity F) (u : Unit) :
  unit_dim (units q) = unit_dim u ->
  exists m, to q u = Ok (qty m u).
Proof.
  intros Hd. unfold to. rewrite Hd, dim_eqb_refl.
  destruct (unit_eqb (units q) u); eexists; reflexivity.
Qed.

Lemma to_dim_err (q : Quantity F) (u : Unit) :
  unit_dim (units q) <> unit_dim u ->
  to q u = Err DimensionalityError.
Proof.
  intros Hd. unfold to. apply dim_eqb_neq in Hd. now rewrite Hd.
Qed.

Lemma to_ok_inv (q q' : Quantity F) (u : Unit) :
  to q u = Ok q' -> units q' = u /\ unit_dim (units q) = unit_dim u.
Proof.
  unfold to. destruct (dim_eqb _ _) eqn:E; [|discriminate].
  apply dim_eqb_eq in E.
  destruct (unit_eqb _ _); intros [= <-]; auto.
Qed.

Lemma to_err_inv (q : Quantity F) (u : Unit) (e : exn) :
  to q u = Err e -> e = DimensionalityError /\ unit_dim (units q) <> unit_dim u.
Proof.
  unfold to. destruct (dim_eqb _ _) eqn:E.
  - destruct (unit_eqb _ _); discriminate.
  - intros [= <-]. split; [reflexivity|]. now apply dim_eqb_neq.
Qed.

(** A quantity already in the target unit is returned as it is. *)
Lemma to_same (m : F) (u : Unit) : to (qty m u) u = Ok (qty m u).
Proof. unfold to. simpl. now rewrite dim_eqb_refl, unit_eqb_refl. Qed.

End Conversion.

#[export] Hint Rewrite @to_same : res_simp.

(** On rationals, conversion keeps the physical quantity: the magnitude of
    the result is the canonical magnitude divided by the scale of the
    target. *)
Lemma to_magnitude (q q' : Quantity Q) (u : Unit) :
  to q u = Ok q' -> magnitude q' == canon q / unit_scale u.
Proof.
  unfold to, canon. destruct (dim_eqb _ _); [|discriminate].
  pose proof (unit_scale_pos u) as Hu.
  destruct (unit_eqb _ _) eqn:E; intros [= <-]; simpl.
  - apply unit_eqb_spec in E as [E _]. rewrite E. field. lra.
  - unfold Qdiv. ring.
Qed.

Lemma to_phys_eq (q q' : Quantity Q) (u : Unit) :
  to q u = Ok q' -> phys_eq q q'.
Proof.
  intros Hto. pose proof (to_magnitude _ _ _ Hto) as Hm.
  apply to_ok_inv in Hto as [Hu Hd]. split.
  - now rewrite Hu.
  - rewrite Hm, Hu. pose proof (unit_scale_pos u). unfold canon. field. lra.
Qed.

(** Conversion does not depend on the unit the quantity comes in. *)
#[export] Instance to_Proper :
  Proper (phys_eq ==> eq ==> res_rel qty_eq) (@to Q _).
Proof.
  intros a b [Hd Hm] u ? <-.
  destruct (to a u) as [a'|e] eqn:Ea, (to b u) as [b'|e'] eqn:Eb; simpl.
  - split.
    + rewrite (to_magnitude _ _ _ Ea), (to_magnitude _ _ _ Eb).
      unfold canon. now rewrite Hm.
    + apply to_ok_inv in Ea as [-> _], Eb as [-> _]. reflexivity.
  - apply to_ok_inv in Ea as [_ Ha]. apply to_err_inv in Eb as [_ Hb]. congruence.
  - apply to_ok_inv in Eb as [_ Hb]. apply to_err_inv in Ea as [_ Ha]. congruence.
  - apply to_err_inv in Ea as [-> _], Eb as [-> _]. reflexivity.
Qed.

#[export] Instance to_name_Proper :
  Proper (phys_eq ==> eq ==> res_rel qty_eq) (@to_name Q _).
Proof.
  intros a b Hab n ? <-. unfold to_name.
  destruct (ureg_parse n) as [u|e]; simpl; [|reflexivity].
  now apply to_Proper.
Qed.

(** The names the program converts to. *)
Lemma ureg_parse_inch : ureg_parse "inch" = Ok inch.
Proof. reflexivity. Qed.

Lemma ureg_parse_ksi : ureg_parse "ksi" = Ok ksi.
Proof. reflexivity. Qed.

(** A quantity of the dimension of length is physically equal to its
    canonical magnitude in inches, and likewise for stress in ksi. *)
Lemma phys_eq_inch (q : Quantity Q) :
  is_length q -> phys_eq q (qty (canon q) inch).
Proof.
  intros Hd. split; [exact Hd|]. unfold canon. simpl.
  change (unit_scale inch) with 1. ring.
Qed.

Lemma phys_eq_ksi (q : Quantity Q) :
  is_stress q -> phys_eq q (qty (canon q) ksi).
Proof.
  intros Hd. split; [exact Hd|]. unfold canon. simpl.
  change (unit_scale ksi) with 1. ring.
Qed.

(** ** Arithmetic respects [qty_eq] *)

#[export] Instance qty_Proper : Proper (Qeq ==> eq ==> qty_eq) (@qty Q).
Proof. intros m m' Hm u ? <-. split; [exact Hm | reflexivity]. Qed.

#[export] Instance magnitude_Proper : Proper (qty_eq ==> Qeq) (@magnitude Q).
Proof. intros a b [Hm _]. exact Hm. Qed.

#[export] Instance units_Proper : Proper (qty_eq ==> eq) (@units Q).
Proof. intros a b [_ Hu]. exact Hu. Qed.

#[export] Instance canon_Proper : Proper (phys_eq ==> Qeq) canon.
Proof. intros a b [_ Hm]. exact Hm. Qed.

#[export] Instance qmul_Proper : Proper (qty_eq ==> qty_eq ==> qty_eq) (@qmul Q _).
Proof.
  intros a a' [Ha Hua] b b' [Hb Hub]. unfold qmul. split; simpl.
  - now rewrite Ha, Hb.
  - now rewrite Hua, Hub.
Qed.

#[export] Instance smul_Proper : Proper (Qeq ==> qty_eq ==> qty_eq) (@smul Q _).
Proof.
  intros s s' Hs a a' [Ha Hua]. unfold smul. split; simpl; [now rewrite Hs, Ha | exact Hua].
Qed.

#[export] Instance muls_Proper : Proper (qty_eq ==> Qeq ==> qty_eq) (@muls Q _).
Proof.
  intros a a' [Ha Hua] s s' Hs. unfold muls. split; simpl; [now rewrite Hs, Ha | exact Hua].
Qed.

(** On rationals every integer multiplies in. *)
Lemma muli_Q (a : Quantity Q) (n : Z) : muli a n = Ok (muls a (inject_Z n)).
Proof. reflexivity. Qed.

#[export] Instance muli_Proper :
  Proper (qty_eq ==> eq ==> res_rel qty_eq) (@muli Q _).
Proof.
  intros a a' Ha n ? <-. rewrite !muli_Q. simpl. now rewrite Ha.
Qed.

#[export] Instance divs_Proper : Proper (qty_eq ==> Qeq ==> qty_eq) (@divs Q _).
Proof.
  intros a a' [Ha Hua] s s' Hs. unfold divs. split; simpl; [now rewrite Hs, Ha | exact Hua].
Qed.

#[export] Instance qsquare_Proper :
  Proper (qty_eq ==> res_rel qty_eq) (@qsquare Q _).
Proof.
  intros a a' [Ha Hua]. unfold qsquare. rewrite !ppow2_Q. simpl.
  split; simpl; [now rewrite Ha | now rewrite Hua].
Qed.

#[export] Instance qty_eq_phys_eq_sub : subrelation qty_eq phys_eq.
Proof. exact qty_eq_phys_eq. Qed.

#[export] Instance qdiv_Proper :
  Proper (qty_eq ==> qty_eq ==> res_rel qty_eq) (@qdiv Q _).
Proof.
  intros a a' [Ha Hua] b b' [Hb Hub]. unfold qdiv.
  apply bind_res_rel with (RA := Qeq).
  - now apply pdiv_Q_Proper.
  - intros m m' Hm. simpl. split; simpl; [exact Hm | now rewrite Hua, Hub].
Qed.

#[export] Instance qadd_Proper :
  Proper (qty_eq ==> qty_eq ==> res_rel qty_eq) (@qadd Q _).
Proof.
  intros a a' [Ha Hua] b b' Hb. unfold qadd.
  apply bind_res_rel with (RA := qty_eq).
  - apply to_Proper; [now apply qty_eq_phys_eq | exact Hua].
  - intros c c' [Hc _]. simpl. split; simpl; [now rewrite Ha, Hc | exact Hua].
Qed.

#[export] Instance qsub_Proper :
  Proper (qty_eq ==> qty_eq ==> res_rel qty_eq) (@qsub Q _).
Proof.
  intros a a' [Ha Hua] b b' Hb. unfold qsub.
  apply bind_res_rel with (RA := qty_eq).
  - apply to_Proper; [now apply qty_eq_phys_eq | exact Hua].
  - intros c c' [Hc _]. simpl. split; simpl; [now rewrite Ha, Hc | exact Hua].
Qed.

#[export] Instance qlt_Proper :
  Proper (qty_eq ==> qty_eq ==> res_rel eq) (@qlt Q _).
Proof.
  intros a a' [Ha Hua] b b' Hb. unfold qlt.
  apply bind_res_rel with (RA := qty_eq).
  - apply to_Proper; [now apply qty_eq_phys_eq | exact Hua].
  - intros c c' [Hc _]. simpl. num_unfold. now rewrite Ha, Hc.
Qed.

#[export] Instance qle_Proper :
  Proper (qty_eq ==> qty_eq ==> res_rel eq) (@qle Q _).
Proof.
  intros a a' [Ha Hua] b b' Hb. unfold qle.
  apply bind_res_rel with (RA := qty_eq).
  - apply to_Proper; [now apply qty_eq_phys_eq | exact Hua].
  - intros c c' [Hc _]. simpl. num_unfold. now rewrite Ha, Hc.
Qed.

#[export] Instance qlt_num_Proper :
  Proper (qty_eq ==> Qeq ==> res_rel eq) (@qlt_num Q _).
Proof.
  intros a a' Ha x x' Hx. unfold qlt_num. rewrite <- (proj2 Ha).
  destruct (dim_eqb (unit_dim (units a)) dimensionless); [|reflexivity].
  apply bind_res_rel with (RA := qty_eq).
  - apply to_Proper; [now apply qty_eq_phys_eq | reflexivity].
  - intros c c' [Hc _]. simpl. num_unfold. now rewrite Hx, Hc.
Qed.

#[export] Instance qmin_Proper :
  Proper (qty_eq ==> qty_eq ==> res_rel qty_eq) (@qmin Q _).
Proof.
  intros a a' Ha b b' Hb. unfold qmin.
  apply bind_res_rel with (RA := eq).
  - now apply qlt_Proper.
  - intros lt ? <-. simpl. now destruct lt.
Qed.

(** ** Dimensional analysis: the canonical magnitude is a homomorphism

    Arithmetic on quantities is arithmetic on their canonical magnitudes,
    whatever the units the operands come in: this is what makes the
    calculators unit invariant. *)

Lemma canon_qty (x : Q) (u : Unit) : canon (qty x u) == x * unit_scale u.
Proof. reflexivity. Qed.

Lemma canon_qmul (a b : Quantity Q) : canon (qmul a b) == canon a * canon b.
Proof. unfold canon, qmul. simpl. num_unfold. rewrite unit_scale_mul. ring. Qed.

Lemma canon_smul (s : Q) (a : Quantity Q) : canon (smul s a) == s * canon a.
Proof. unfold canon, smul. simpl. num_unfold. ring. Qed.

Lemma canon_muls (a : Quantity Q) (s : Q) : canon (muls a s) == canon a * s.
Proof. unfold canon, muls. simpl. num_unfold. ring. Qed.

Lemma canon_divs (a : Quantity Q) (s : Q) : canon (divs a s) == canon a / s.
Proof. unfold canon, divs. simpl. num_unfold. unfold Qdiv. ring. Qed.

(** Conversion keeps the canonical magnitude. *)
Lemma canon_to (q q' : Quantity Q) (u : Unit) :
  to q u = Ok q' -> canon q' == canon q.
Proof. intros E. apply to_phys_eq in E as [_ E]. symmetry. exact E. Qed.

(** Sums and differences. *)
Lemma canon_qadd (a b c : Quantity Q) :
  qadd a b = Ok c -> canon c == canon a + canon b.
Proof.
  unfold qadd. intros E. inv_bind E. injection E as <-.
  pose proof (to_magnitude _ _ _ Ha) as Hm. unfold canon in *. simpl.
  num_unfold. rewrite Hm. pose proof (unit_scale_pos (units a)). field. lra.
Qed.

Lemma canon_qsub (a b c : Quantity Q) :
  qsub a b = Ok c -> canon c == canon a - canon b.
Proof.
  unfold qsub. intros E. inv_bind E. injection E as <-.
  pose proof (to_magnitude _ _ _ Ha) as Hm. unfold canon in *. simpl.
  num_unfold. rewrite Hm. pose proof (unit_scale_pos (units a)). field. lra.
Qed.

(** Comparisons compare canonical magnitudes. *)
Lemma qlt_canon (a b : Quantity Q) (x : bool) :
  qlt a b = Ok x -> x = Qltb (canon a) (canon b).
Proof.
  unfold qlt. intros E. inv_bind E. injection E as <-.
  pose proof (to_magnitude _ _ _ Ha) as Hm. num_unfold.
  pose proof (unit_scale_pos (units a)) as Hp.
  assert (Hb : canon b == magnitude a0 * unit_scale (units a))
    by (rewrite Hm; field; lra).
  unfold canon at 1.
  destruct (Qltb (magnitude a) (magnitude a0)) eqn:E1;
    destruct (Qltb (magnitude a * unit_scale (units a)) (canon b)) eqn:E2;
    try reflexivity; q_bool; rewrite Hb in E2; nra.
Qed.

Lemma qle_canon (a b : Quantity Q) (x : bool) :
  qle a b = Ok x -> x = Qle_bool (canon a) (canon b).
Proof.
  unfold qle. intros E. inv_bind E. injection E as <-.
  pose proof (to_magnitude _ _ _ Ha) as Hm. num_unfold.
  pose proof (unit_scale_pos (units a)) as Hp.
  assert (Hb : canon b == magnitude a0 * unit_scale (units a))
    by (rewrite Hm; field; lra).
  unfold canon at 1.
  destruct (Qle_bool (magnitude a) (magnitude a0)) eqn:E1;
    destruct (Qle_bool (magnitude a * unit_scale (units a)) (canon b)) eqn:E2;
    try reflexivity; q_bool; rewrite Hb in E2; nra.
Qed.

(** ** Outcomes of the conversions the program performs *)

Section Outcomes.
Context {F : Type} `{Number F}.

Lemma dim_eq_dec (d1 d2 : Dimension) : {d1 = d2} + {d1 <> d2}.
Proof.
  destruct (dim_eqb d1 d2) eqn:E.
  - left. now apply dim_eqb_eq.
  - right. now apply dim_eqb_neq.
Qed.

(** Converting to a registered name either succeeds, when the dimensions
    agree, with a quantity in that unit, or raises [DimensionalityError]. *)
Lemma to_name_outcome (q : Quantity F) (name : string) (u : Unit) :
  ureg_parse name = Ok u ->
  (unit_dim (units q) = unit_dim u /\ exists m, to_name q name = Ok (qty m u)) \/
  (unit_dim (units q) <> unit_dim u /\ to_name q name = Err DimensionalityError).
Proof.
  intros Hn. unfold to_name. rewrite Hn. simpl.
  destruct (dim_eq_dec (unit_dim (units q)) (unit_dim u)) as [E|E].
  - left. split; [exact E | now apply to_dim_ok].
  - right. split; [exact E | now apply to_dim_err].
Qed.

Lemma to_outcome (q : Quantity F) (u : Unit) :
  (unit_dim (units q) = unit_dim u /\ exists m, to q u = Ok (qty m u)) \/
  (unit_dim (units q) <> unit_dim u /\ to q u = Err DimensionalityError).
Proof.
  destruct (dim_eq_dec (unit_dim (units q)) (unit_dim u)) as [E|E].
  - left. split; [exact E | now apply to_dim_ok].
  - right. split; [exact E | now apply to_dim_err].
Qed.

(** Conversions of quantities already in the canonical units. *)
Lemma to_name_inch_same (x : F) :
  to_name (qty x inch) "inch" = Ok (qty x inch).
Proof. unfold to_name. rewrite ureg_parse_inch. cbn [bind]. apply to_same. Qed.

Lemma to_name_ksi_same (x : F) :
  to_name (qty x ksi) "ksi" = Ok (qty x ksi).
Proof. unfold to_name. rewrite ureg_parse_ksi. cbn [bind]. apply to_same. Qed.

(** Sums, differences and comparisons of two quantities of one unit never
    raise. *)
Lemma qadd_same (a b : F) (u : Unit) :
  qadd (qty a u) (qty b u) = Ok (qty (a + b)%num u).
Proof. unfold qadd. simpl. now rewrite to_same. Qed.

Lemma qsub_same (a b : F) (u : Unit) :
  qsub (qty a u) (qty b u) = Ok (qty (a - b)%num u).
Proof. unfold qsub. simpl. now rewrite to_same. Qed.

Lemma qlt_same (a b : F) (u : Unit) :
  qlt (qty a u) (qty b u) = Ok (a <? b)%num.
Proof. unfold qlt. simpl. now rewrite to_same. Qed.

Lemma qle_same (a b : F) (u : Unit) :
  qle (qty a u) (qty b u) = Ok (a <=? b)%num.
Proof. unfold qle. simpl. now rewrite to_same. Qed.

Lemma qmin_same (a b : F) (u : Unit) :
  qmin (qty a u) (qty b u) = Ok (qty (pmin a b) u).
Proof.
  unfold qmin, pmin. rewrite qlt_same. simpl. now destruct (b <? a)%num.
Qed.

(** A pure number compares with a number without conversion. *)
Lemma qlt_num_plain (a x : F) :
  qlt_num (qty a unit_one) x = Ok (a <? x)%num.
Proof. unfold qlt_num. cbn [units magnitude]. now rewrite to_same. Qed.

(** A quantity times an [int]: the product with the converted integer, or
    [OverflowError] when the integer does not convert. *)
Lemma muli_outcome (a : Quantity F) (n : Z) :
  muli a n = if of_Z_overflows n then Err OverflowError
             else Ok (muls a (of_Z n)).
Proof. unfold muli, pof_Z. now destruct (of_Z_overflows n). Qed.

Lemma muli_ok (a : Quantity F) (n : Z) :
  of_Z_overflows n = false -> muli a n = Ok (muls a (of_Z n)).
Proof. intros E. now rewrite muli_outcome, E. Qed.

Lemma muli_small (a : Quantity F) (n : Z) :
  (Z.abs n <= 2 ^ 53)%Z -> muli a n = Ok (muls a (of_Z n)).
Proof. intros Hn. now apply muli_ok, of_Z_small. Qed.

End Outcomes.

#[export] Hint Rewrite @qadd_same @qsub_same @qlt_same @qle_same @qmin_same : res_simp.

(** An input of the right dimension converts to its canonical magnitude in
    the canonical unit. *)
Lemma to_name_inch (q : Quantity Q) :
  is_length q -> exists x, to_name q "inch" = Ok (qty x inch) /\ x == canon q.
Proof.
  intros Hq. destruct (to_name_outcome q "inch" inch eq_refl) as [[_ [x E]]|[Hd _]];
    [|contradiction].
  exists x. split; [exact E|]. unfold to_name in E. rewrite ureg_parse_inch in E.
  cbn [bind] in E. apply to_magnitude in E. cbn in E. rewrite E.
  change (unit_scale inch) with 1. field.
Qed.

Lemma to_name_ksi (q : Quantity Q) :
  is_stress q -> exists x, to_name q "ksi" = Ok (qty x ksi) /\ x == canon q.
Proof.
  intros Hq. destruct (to_name_outcome q "ksi" ksi eq_refl) as [[_ [x E]]|[Hd _]];
    [|contradiction].
  exists x. split; [exact E|]. unfold to_name in E. rewrite ureg_parse_ksi in E.
  cbn [bind] in E. apply to_magnitude in E. cbn in E. rewrite E.
  change (unit_scale ksi) with 1. field.
Qed.

(** ** Tactics for the component files *)

(** [norm_input q name] case-splits on the conversion of the input [q] to
    the unit called [name]: either it is replaced by a quantity in that unit,
    or the conversion raises. *)
Ltac norm_input q name :=
  let Hd := fresh "Hd" in
  let m := fresh "m" in
  let E := fresh "E" in
  destruct (to_name_outcome q name _ eq_refl) as [[Hd [m E]]|[Hd E]];
  rewrite E; cbn [bind].

Ltac norm_input_to q u :=
  let Hd := fresh "Hd" in
  let m := fresh "m" in
  let E := fresh "E" in
  destruct (to_outcome q u) as [[Hd [m E]]|[Hd E]];
  rewrite E; cbn [bind].

(** [int_cases] follows each multiplication by an [int] of the goal: the
    integer converts, or the goal is closed by the [OverflowError] both
    sides raise. *)
Ltac int_cases :=
  rewrite ?muli_outcome;
  repeat match goal with
  | |- context [of_Z_overflows ?n] =>
      destruct (of_Z_overflows n); res_simpl; try reflexivity
  end.

(** [norm_inputs] normalises every conversion by name that the goal still
    contains, in the order it finds them. *)
Ltac norm_inputs :=
  repeat match goal with
  | |- context [to_name ?q ?name] => norm_input q name
  end.

(** [qty_rewrite] closes a [qty_eq] goal whose two sides differ by
    quantities related in the context. *)
Ltac qty_rewrite :=
  repeat match goal with
  | H : qty_eq ?a _ |- _ => rewrite H; clear H
  | H : Qeq ?a _ |- _ => rewrite H; clear H
  end;
  reflexivity.

(** [res_proper] proves that a computation built from binds, tests on equal
    booleans, conversions and quantity arithmetic takes related inputs to
    related results. *)
Ltac res_proper_step :=
  match goal with
  | |- res_rel _ (Ok _) (Ok _) => simpl
  | |- res_rel _ (Err _) (Err _) => simpl; reflexivity
  | |- res_rel _ (ret _) (ret _) => unfold ret; simpl
  | |- res_rel _ (raise _) (raise _) => unfold raise; simpl; reflexivity
  | |- res_rel _ (if ?b then _ else _) (if ?b then _ else _) => destruct b
  | |- res_rel _ (bind _ (fun x => match x with pair _ _ => _ end)) (bind _ _) =>
      eapply bind_res_rel with (RA := pair_rel qty_eq qty_eq); [ | intros ? ? ? ]
  | |- res_rel _ (bind _ _) (bind _ _) =>
      eapply bind_res_rel; [ | intros ? ? ? ]
  | |- res_rel _ (to_name _ _) (to_name _ _) =>
      apply to_name_Proper; [ | reflexivity ]
  | |- res_rel _ (to _ _) (to _ _) => apply to_Proper; [ | reflexivity ]
  | |- res_rel _ (qadd _ _) (qadd _ _) => apply qadd_Proper
  | |- res_rel _ (qsub _ _) (qsub _ _) => apply qsub_Proper
  | |- res_rel _ (qdiv _ _) (qdiv _ _) => apply qdiv_Proper
  | |- res_rel _ (qsquare _) (qsquare _) => apply qsquare_Proper
  | |- res_rel _ (muli _ _) (muli _ _) => apply muli_Proper
  | |- res_rel _ (qmin _ _) (qmin _ _) => apply qmin_Proper
  | |- res_rel _ (qlt _ _) (qlt _ _) => apply qlt_Proper
  | |- res_rel _ (qle _ _) (qle _ _) => apply qle_Proper
  | |- res_rel _ (qlt_num _ _) (qlt_num _ _) => apply qlt_num_Proper
  | |- res_rel _ (and_then _ _) (and_then _ _) => apply and_then_res_rel
  | |- res_rel _ (or_else _ _) (or_else _ _) => apply or_else_res_rel
  | |- opt_rel _ (Some _) (Some _) => simpl
  | |- opt_rel _ None None => exact I
  | |- True => exact I
  | |- res_rel _ (match ?x with pair _ _ => _ end)
                 (match ?y with pair _ _ => _ end) => destruct x, y
  | H : pair_rel _ _ (_, _) (_, _) |- _ =>
      destruct H; simpl fst in *; simpl snd in *
  | H : @eq bool ?a ?b |- _ => subst a
  | |- pair_rel _ _ (_, _) (_, _) => split; simpl
  | |- phys_eq _ _ => first [ assumption | apply qty_eq_phys_eq ]
  | |- qty_eq _ _ => first [ assumption | reflexivity | qty_rewrite ]
  | |- Qeq _ _ => first [ assumption | reflexivity ]
  | |- @eq _ ?x ?x => reflexivity
  end.

Ltac res_proper := repeat res_proper_step.

Tactic Notation "res_proper" "using" tactic(t) :=
  repeat first [ res_proper_step | t ].

(** [qty_field] proves that a computed quantity is [qty_eq] to a quantity
    given by a formula: the magnitudes by [field], the units by
    computation. *)
Ltac qty_field :=
  split; [ cbn; num_unfold; try field; try lra | reflexivity ].

(** [canon_inputs] replaces, in the first argument position it occurs in,
    every input of a known dimension by its canonical magnitude in the
    canonical unit. *)
Ltac canon_inputs :=
  repeat match goal with
  | H : is_length ?q |- _ => rewrite (phys_eq_inch q H) at 1; clear H
  | H : is_stress ?q |- _ => rewrite (phys_eq_ksi q H) at 1; clear H
  end.
