(* ===== verification/Policy.v ===== *)
(** * The design-method policy

    The specification describes one policy shared by every limit state:
    under ASD the nominal strength is divided by a safety factor, under LRFD
    it is multiplied by a resistance factor, and any other selector is an
    error; each limit state has its codified pair of factors.  The source
    has no such function: every calculator repeats the three-way branch.
    This file states the policy once, as the abstract specification that the
    calculators of the component files are proved to implement. *)

From Stdlib Require Import String Bool ZArith QArith Lqa.
From Stdlib Require Import Morphisms RelationClasses Setoid.
From S2P Require Import Prelude Numeric Units.

Local Open Scope string_scope.

(** ** The method selector *)

Inductive DesignMethod : Type := ASD | LRFD.

Definition parse_method (design_method : string) : option DesignMethod :=
  if String.eqb design_method "ASD" then Some ASD
  else if String.eqb design_method "LRFD" then Some LRFD
  else None.

(** The exception every calculator raises on another selector. *)
Definition invalid_design_method : exn :=
  ValueError "Invalid design method. Use 'ASD' or 'LRFD'.".

(** ** The limit states and their factors *)

Inductive LimitState : Type :=
| BoltShear
| BoltTension
| BoltBearing
| BoltTearout
| ElementShearYield
| ElementShearRupture
| ElementTensileYield
| ElementTensileRupture
| WeldMaterial.

(** The safety factor (ASD). *)
Definition asd_factor (ls : LimitState) : Q :=
  match ls with
  | ElementShearYield => 1.50
  | ElementTensileYield => 1.67
  | _ => 2.00
  end.

(** The resistance factor (LRFD). *)
Definition lrfd_factor (ls : LimitState) : Q :=
  match ls with
  | ElementShearYield => 1.00
  | ElementTensileYield => 0.90
  | _ => 0.75
  end.

(** ** The policy *)

Definition apply_factor (m : DesignMethod) (ls : LimitState) (r_n : Q) : Q :=
  match m with
  | ASD => r_n / asd_factor ls
  | LRFD => lrfd_factor ls * r_n
  end.

(** The governing strength of a limit state, in kip, for a nominal strength
    [r_n] in kip. *)
Definition governing (design_method : string) (ls : LimitState) (r_n : Q)
  : result (Quantity Q) :=
  match parse_method design_method with
  | Some m => ret (qty (apply_factor m ls r_n) kip)
  | None => raise invalid_design_method
  end.

(** The same for the calculators that return one strength per part. *)
Definition governing2 (design_method : string) (ls : LimitState) (r_n1 r_n2 : Q)
  : result (Quantity Q * Quantity Q) :=
  match parse_method design_method with
  | Some m => ret (qty (apply_factor m ls r_n1) kip, qty (apply_factor m ls r_n2) kip)
  | None => raise invalid_design_method
  end.

(** Results of calculators are compared up to [qty_eq], per part. *)
Abbreviation qty_eq2 := (pair_rel qty_eq qty_eq).

(** ** Tactics *)

(** [method_cases m] follows the three-way branch on the selector [m]. *)
Ltac method_cases m :=
  destruct (String.eqb m "ASD"); [| destruct (String.eqb m "LRFD")].

(** [policy_canonical m] runs a calculator on canonical inputs against the
    policy and leaves, for each valid method, the comparison of the computed
    quantity with the formula. *)
Ltac policy_canonical m :=
  unfold governing, governing2, parse_method; cbn;
  method_cases m; simpl; try reflexivity.

(** [outcome_finish m] closes the outcome of a calculator once its inputs
    are normalised. *)
Ltac outcome_finish m :=
  unfold parse_method; method_cases m; cbn; intuition (auto; discriminate).

(** [swap_parts m] closes a goal that equates a pair calculator on swapped
    parts with its results swapped, once the calculator is unfolded. *)
Ltac swap_parts m :=
  norm_inputs; res_simpl; try reflexivity;
  int_cases;
  destruct (String.eqb m "ASD"); [reflexivity|];
  destruct (String.eqb m "LRFD"); reflexivity.

(** [keeps_contract lem] proves the promise of a calculator on a tuple of
    inputs from its lemma [lem] on canonical inputs. *)
Ltac keeps_contract lem :=
  let m := fresh "m" in
  let i := fresh "i" in
  let H := fresh "H" in
  intros m i; repeat (let x := fresh "x" in destruct i as [i x]);
  cbn; intros H; decompose [and] H; clear H; canon_inputs; apply lem.

(** ** Facts *)

Lemma parse_method_ASD : parse_method "ASD" = Some ASD.
Proof. reflexivity. Qed.

Lemma parse_method_LRFD : parse_method "LRFD" = Some LRFD.
Proof. reflexivity. Qed.

Lemma parse_method_Some (s : string) (m : DesignMethod) :
  parse_method s = Some m <->
  (s = "ASD" /\ m = ASD) \/ (s = "LRFD" /\ m = LRFD).
Proof.
  unfold parse_method.
  destruct (String.eqb_spec s "ASD") as [->|H1]; [|destruct (String.eqb_spec s "LRFD") as [->|H2]].
  - split; [intros [= <-]; auto | intros [[_ ->]|[E _]]; [reflexivity | discriminate]].
  - split; [intros [= <-]; auto | intros [[E _]|[_ ->]]; [discriminate | reflexivity]].
  - split; [discriminate | intros [[E _]|[E _]]; contradiction].
Qed.

Lemma parse_method_None (s : string) :
  parse_method s = None <-> s <> "ASD" /\ s <> "LRFD".
Proof.
  unfold parse_method.
  destruct (String.eqb_spec s "ASD") as [->|H1]; [|destruct (String.eqb_spec s "LRFD") as [->|H2]].
  - split; [discriminate | intros [E _]; contradiction].
  - split; [discriminate | intros [_ E]; contradiction].
  - split; auto.
Qed.

(** Both factors of every limit state are positive, the safety factor is at
    least one and the resistance factor at most one. *)
Lemma asd_factor_ge_1 (ls : LimitState) : 1 <= asd_factor ls.
Proof. destruct ls; discriminate. Qed.

Lemma lrfd_factor_range (ls : LimitState) : 0 < lrfd_factor ls <= 1.
Proof. destruct ls; split; first [reflexivity | discriminate]. Qed.

#[export] Instance apply_factor_Proper :
  Proper (eq ==> eq ==> Qeq ==> Qeq) apply_factor.
Proof.
  intros m ? <- ls ? <- r r' Hr. destruct m; simpl; now rewrite Hr.
Qed.

(** The policy never increases a non-negative nominal strength. *)
Lemma apply_factor_le (m : DesignMethod) (ls : LimitState) (r_n : Q) :
  0 <= r_n -> 0 <= apply_factor m ls r_n <= r_n.
Proof.
  intros Hr. pose proof (asd_factor_ge_1 ls). pose proof (lrfd_factor_range ls).
  destruct m; simpl.
  - split.
    + apply Qle_shift_div_l; lra.
    + apply Qle_shift_div_r; [lra | nra].
  - nra.
Qed.

(** The policy is monotone in the nominal strength. *)
Lemma apply_factor_mono (m : DesignMethod) (ls : LimitState) (r s : Q) :
  r <= s -> apply_factor m ls r <= apply_factor m ls s.
Proof.
  intros Hrs. pose proof (asd_factor_ge_1 ls). pose proof (lrfd_factor_range ls).
  destruct m; simpl.
  - unfold Qdiv. apply Qmult_le_compat_r; [exact Hrs|].
    apply Qinv_le_0_compat. lra.
  - nra.
Qed.

(** The policy is linear: it commutes with scaling the nominal strength. *)
Lemma apply_factor_scale (m : DesignMethod) (ls : LimitState) (k r : Q) :
  apply_factor m ls (k * r) == k * apply_factor m ls r.
Proof.
  pose proof (asd_factor_ge_1 ls). destruct m; simpl; [field; lra | ring].
Qed.

Lemma apply_factor_nonpos (m : DesignMethod) (ls : LimitState) (r : Q) :
  r <= 0 -> apply_factor m ls r <= 0.
Proof.
  intros Hr. pose proof (@apply_factor_le m ls (- r)) as H.
  assert (E : apply_factor m ls (- r) == - apply_factor m ls r).
  { setoid_replace (- r) with ((-1) * r) by ring.
    rewrite apply_factor_scale. ring. }
  rewrite E in H. lra.
Qed.

Lemma apply_factor_pos (m : DesignMethod) (ls : LimitState) (r : Q) :
  0 < r -> 0 < apply_factor m ls r.
Proof.
  intros Hr. pose proof (asd_factor_ge_1 ls). pose proof (lrfd_factor_range ls).
  destruct m; simpl; [apply Qlt_shift_div_l; lra | nra].
Qed.

#[export] Hint Resolve parse_method_ASD parse_method_LRFD asd_factor_ge_1
  apply_factor_mono apply_factor_pos apply_factor_nonpos : steel.

(** The two methods differ by the product of the two factors. *)
Lemma apply_factor_LRFD_ASD (ls : LimitState) (r : Q) :
  apply_factor LRFD ls r == asd_factor ls * lrfd_factor ls * apply_factor ASD ls r.
Proof. pose proof (asd_factor_ge_1 ls). simpl. field. lra. Qed.

(** For the limit states whose factors are 2.00 and 0.75, and for shear
    yield (1.50 and 1.00), the LRFD strength is one and a half times the ASD
    strength; for tensile yield the ratio is 1.503. *)
Lemma factor_product (ls : LimitState) :
  asd_factor ls * lrfd_factor ls ==
  match ls with ElementTensileYield => 1.503 | _ => 1.5 end.
Proof. destruct ls; reflexivity. Qed.

(** Every resistance factor is at least the inverse of its safety factor. *)
Lemma factor_product_ge_1 (ls : LimitState) :
  1 <= asd_factor ls * lrfd_factor ls.
Proof. destruct ls; discriminate. Qed.

(** What a computation that implements the policy returns. *)
Lemma governing_returns (c : result (Quantity Q)) (s : string)
      (m : DesignMethod) (ls : LimitState) (r_n : Q) :
  res_rel qty_eq c (governing s ls r_n) -> parse_method s = Some m ->
  exists r, c = Ok r /\ magnitude r == apply_factor m ls r_n /\ units r = kip.
Proof.
  unfold governing. intros Hc Hp. rewrite Hp in Hc.
  destruct c as [r|e]; [|contradiction].
  destruct Hc as [Hm Hu]. exists r. auto.
Qed.

Lemma governing2_returns (c : result (Quantity Q * Quantity Q)) (s : string)
      (m : DesignMethod) (ls : LimitState) (r_n1 r_n2 : Q) :
  res_rel qty_eq2 c (governing2 s ls r_n1 r_n2) -> parse_method s = Some m ->
  exists r1 r2, c = Ok (r1, r2) /\
    (magnitude r1 == apply_factor m ls r_n1 /\ units r1 = kip) /\
    (magnitude r2 == apply_factor m ls r_n2 /\ units r2 = kip).
Proof.
  unfold governing2. intros Hc Hp. rewrite Hp in Hc.
  destruct c as [[r1 r2]|e]; [|contradiction].
  destruct Hc as [[Hm1 Hu1] [Hm2 Hu2]]. exists r1, r2. auto.
Qed.

Lemma governing_raises (c : result (Quantity Q)) (s : string)
      (ls : LimitState) (r_n : Q) :
  res_rel qty_eq c (governing s ls r_n) -> parse_method s = None ->
  c = Err invalid_design_method.
Proof.
  unfold governing. intros Hc Hp. rewrite Hp in Hc.
  destruct c as [r|e]; [contradiction|].
  simpl in Hc. now subst.
Qed.

Lemma governing2_raises (c : result (Quantity Q * Quantity Q)) (s : string)
      (ls : LimitState) (r_n1 r_n2 : Q) :
  res_rel qty_eq2 c (governing2 s ls r_n1 r_n2) -> parse_method s = None ->
  c = Err invalid_design_method.
Proof.
  unfold governing2. intros Hc Hp. rewrite Hp in Hc.
  destruct c as [r|e]; [contradiction|].
  simpl in Hc. now subst.
Qed.
