(* ===== verification/Contract.v ===== *)
(** * The contract of a limit-state calculator

    Every calculator of the program but [min_weld_size] and
    [weld_rupture_strength] promises the same thing to its caller: on
    well-dimensioned inputs it returns the design-method policy applied to a
    nominal strength that depends on the inputs only.  This file states that
    promise once, as the classes [Calculator] (one result) and
    [Calculator2] (one result per connected part), and proves from the
    promise alone what a caller may rely on: when the call succeeds and what
    it raises, that the design strength never exceeds the nominal strength,
    the fixed ratio between the two methods, monotonicity and the sign of
    the result.  The component files discharge the promise with one instance
    per calculator, so that each of these facts holds of all of them. *)

From Stdlib Require Import String List Bool ZArith QArith Qminmax Lqa.
From Stdlib Require Import Morphisms RelationClasses Setoid.
From S2P Require Import Prelude Numeric Units Policy.

#[local] Open Scope string_scope.
#[local] Open Scope Q_scope.

(** ** The interface *)

(** A calculator with inputs [I] and one result: its limit state, the
    inputs it accepts, its nominal strength in kip, and the promise. *)
Class Calculator {I : Type} (calc : string -> I -> result (Quantity Q)) := {
  calc_state : LimitState;
  calc_ok : I -> Prop;
  calc_Rn : I -> Q;
  calc_refines : forall (m : string) (i : I), calc_ok i ->
    res_rel qty_eq (calc m i) (governing m calc_state (calc_Rn i))
}.

(** A calculator with one result per connected part. *)
Class Calculator2 {I : Type}
    (calc : string -> I -> result (Quantity Q * Quantity Q)) := {
  calc2_state : LimitState;
  calc2_ok : I -> Prop;
  calc2_Rn1 : I -> Q;
  calc2_Rn2 : I -> Q;
  calc2_refines : forall (m : string) (i : I), calc2_ok i ->
    res_rel qty_eq2 (calc m i)
            (governing2 m calc2_state (calc2_Rn1 i) (calc2_Rn2 i))
}.

(** The result of a pair calculator for one part. *)
Definition part1 {I : Type}
    (calc : string -> I -> result (Quantity Q * Quantity Q))
    (m : string) (i : I) : result (Quantity Q) :=
  p <- calc m i ;; ret (fst p).

Definition part2 {I : Type}
    (calc : string -> I -> result (Quantity Q * Quantity Q))
    (m : string) (i : I) : result (Quantity Q) :=
  p <- calc m i ;; ret (snd p).

#[global] Typeclasses Opaque part1 part2.

(** ** What a caller may rely on *)

Section Calculator.
Context {I : Type} (calc : string -> I -> result (Quantity Q)).
Context {C : Calculator calc}.

(** Under a valid method the call returns the factored nominal strength, in
    kip. *)
Lemma calc_returns (s : string) (m : DesignMethod) (i : I) :
  calc_ok i -> parse_method s = Some m ->
  exists r, calc s i = Ok r /\
            magnitude r == apply_factor m calc_state (calc_Rn i) /\
            units r = kip.
Proof.
  intros Hi Hm. eapply governing_returns; [apply calc_refines, Hi | exact Hm].
Qed.

(** Under any other selector it raises the invalid-method error. *)
Lemma calc_raises (s : string) (i : I) :
  calc_ok i -> parse_method s = None -> calc s i = Err invalid_design_method.
Proof.
  intros Hi Hm. eapply governing_raises; [apply calc_refines, Hi | exact Hm].
Qed.

(** On accepted inputs the call succeeds exactly for the two methods. *)
Lemma calc_succeeds_iff (s : string) (i : I) :
  calc_ok i -> (is_ok (calc s i) = true <-> s = "ASD" \/ s = "LRFD").
Proof.
  intros Hi. destruct (parse_method s) as [m|] eqn:Em.
  - destruct (calc_returns s m i Hi Em) as (r & -> & _).
    apply parse_method_Some in Em. simpl. intuition.
  - rewrite (calc_raises s i Hi Em). apply parse_method_None in Em.
    simpl. intuition discriminate.
Qed.

(** The design strength lies between zero and the nominal strength. *)
Lemma calc_le_nominal (s : string) (i : I) (r : Quantity Q) :
  calc_ok i -> 0 <= calc_Rn i -> calc s i = Ok r ->
  0 <= magnitude r <= calc_Rn i.
Proof.
  intros Hi Hn Hr. destruct (parse_method s) as [m|] eqn:Em.
  - destruct (calc_returns s m i Hi Em) as (r' & E & Hm & _).
    rewrite Hr in E. injection E as <-. rewrite Hm. now apply apply_factor_le.
  - rewrite (calc_raises s i Hi Em) in Hr. discriminate.
Qed.

(** The result is positive exactly when the nominal strength is. *)
Lemma calc_positive_iff (s : string) (i : I) (r : Quantity Q) :
  calc_ok i -> calc s i = Ok r -> (0 < magnitude r <-> 0 < calc_Rn i).
Proof.
  intros Hi Hr. destruct (parse_method s) as [m|] eqn:Em.
  - destruct (calc_returns s m i Hi Em) as (r' & E & Hm & _).
    rewrite Hr in E. injection E as <-. rewrite Hm. split.
    + intros Hp. destruct (Qlt_le_dec 0 (calc_Rn i)) as [H|H]; [exact H|].
      exfalso. apply (Qlt_not_le _ _ Hp). auto with steel.
    + auto with steel.
  - rewrite (calc_raises s i Hi Em) in Hr. discriminate.
Qed.

(** A larger nominal strength gives a larger design strength. *)
Lemma calc_monotone (s : string) (i j : I) (ri rj : Quantity Q) :
  calc_ok i -> calc_ok j -> calc_Rn i <= calc_Rn j ->
  calc s i = Ok ri -> calc s j = Ok rj -> magnitude ri <= magnitude rj.
Proof.
  intros Hi Hj Hn Ei Ej. destruct (parse_method s) as [m|] eqn:Em.
  - destruct (calc_returns s m i Hi Em) as (r & E & Hm & _).
    rewrite Ei in E. injection E as <-. rewrite Hm.
    destruct (calc_returns s m j Hj Em) as (r & E & Hm' & _).
    rewrite Ej in E. injection E as <-. rewrite Hm'. auto with steel.
  - rewrite (calc_raises s i Hi Em) in Ei. discriminate.
Qed.

(** Both methods succeed on accepted inputs, and the LRFD strength is the
    product of the two factors times the ASD strength. *)
Lemma calc_LRFD_ASD (i : I) :
  calc_ok i ->
  exists a l, calc "ASD" i = Ok a /\ calc "LRFD" i = Ok l /\
    magnitude l == asd_factor calc_state * lrfd_factor calc_state * magnitude a.
Proof.
  intros Hi.
  destruct (calc_returns "ASD" ASD i) as (a & Ea & Ha & _); auto with steel.
  destruct (calc_returns "LRFD" LRFD i) as (l & El & Hl & _); auto with steel.
  exists a, l. repeat split; try assumption.
  rewrite Ha, Hl. apply apply_factor_LRFD_ASD.
Qed.

(** For a non-negative nominal strength the ASD strength never exceeds the
    LRFD strength: every resistance factor is at least the inverse of its
    safety factor. *)
Lemma calc_ASD_le_LRFD (i : I) (a l : Quantity Q) :
  calc_ok i -> 0 <= calc_Rn i ->
  calc "ASD" i = Ok a -> calc "LRFD" i = Ok l -> magnitude a <= magnitude l.
Proof.
  intros Hi Hn Ea El.
  destruct (calc_LRFD_ASD i Hi) as (a' & l' & Ea' & El' & H).
  rewrite Ea in Ea'. rewrite El in El'. injection Ea' as <-. injection El' as <-.
  pose proof (calc_le_nominal "ASD" i a Hi Hn Ea) as [Ha _].
  rewrite H. pose proof (factor_product_ge_1 calc_state) as P.
  set (k := asd_factor calc_state * lrfd_factor calc_state) in *. nra.
Qed.

End Calculator.

(** ** Pair calculators, part by part *)

Section Calculator2.
Context {I : Type} (calc : string -> I -> result (Quantity Q * Quantity Q)).
Context {C : Calculator2 calc}.

Lemma part1_refines (m : string) (i : I) :
  calc2_ok i ->
  res_rel qty_eq (part1 calc m i) (governing m calc2_state (calc2_Rn1 i)).
Proof.
  intros Hi. pose proof (calc2_refines m i Hi) as H.
  unfold part1, governing, governing2 in *.
  destruct (parse_method m), (calc m i) as [[r1 r2]|e]; cbn in *;
    unfold pair_rel in *; cbn in *; tauto.
Qed.

Lemma part2_refines (m : string) (i : I) :
  calc2_ok i ->
  res_rel qty_eq (part2 calc m i) (governing m calc2_state (calc2_Rn2 i)).
Proof.
  intros Hi. pose proof (calc2_refines m i Hi) as H.
  unfold part2, governing, governing2 in *.
  destruct (parse_method m), (calc m i) as [[r1 r2]|e]; cbn in *;
    unfold pair_rel in *; cbn in *; tauto.
Qed.

#[export] Instance part1_Calculator : Calculator (part1 calc) := {
  calc_state := calc2_state;
  calc_ok := calc2_ok;
  calc_Rn := calc2_Rn1;
  calc_refines := part1_refines
}.

#[export] Instance part2_Calculator : Calculator (part2 calc) := {
  calc_state := calc2_state;
  calc_ok := calc2_ok;
  calc_Rn := calc2_Rn2;
  calc_refines := part2_refines
}.

(** A successful call of the pair calculator is a successful call of each
    part. *)
Lemma parts_of_pair (m : string) (i : I) (r1 r2 : Quantity Q) :
  calc m i = Ok (r1, r2) ->
  part1 calc m i = Ok r1 /\ part2 calc m i = Ok r2.
Proof. intros E. unfold part1, part2. rewrite E. split; reflexivity. Qed.

(** Under a valid method the call returns both factored nominal strengths. *)
Lemma calc2_returns (s : string) (m : DesignMethod) (i : I) :
  calc2_ok i -> parse_method s = Some m ->
  exists r1 r2, calc s i = Ok (r1, r2) /\
    (magnitude r1 == apply_factor m calc2_state (calc2_Rn1 i) /\ units r1 = kip) /\
    (magnitude r2 == apply_factor m calc2_state (calc2_Rn2 i) /\ units r2 = kip).
Proof.
  intros Hi Hm. eapply governing2_returns; [apply calc2_refines, Hi | exact Hm].
Qed.

Lemma calc2_raises (s : string) (i : I) :
  calc2_ok i -> parse_method s = None -> calc s i = Err invalid_design_method.
Proof.
  intros Hi Hm. eapply governing2_raises; [apply calc2_refines, Hi | exact Hm].
Qed.

(** The governing strength of the connection for this limit state, the
    smaller of the two, is the policy applied to the smaller nominal
    strength: taking the minimum before or after the factor is the same. *)
Lemma calc2_min_commutes (s : string) (m : DesignMethod) (i : I)
    (r1 r2 : Quantity Q) :
  calc2_ok i -> parse_method s = Some m -> calc s i = Ok (r1, r2) ->
  Qmin (magnitude r1) (magnitude r2)
  == apply_factor m calc2_state (Qmin (calc2_Rn1 i) (calc2_Rn2 i)).
Proof.
  intros Hi Hm Hr.
  destruct (calc2_returns s m i Hi Hm) as (a & b & E & [Ha _] & [Hb _]).
  rewrite Hr in E. injection E as <- <-. rewrite Ha, Hb.
  destruct (Q.min_spec (calc2_Rn1 i) (calc2_Rn2 i)) as [[Hlt ->]|[Hle ->]].
  - apply Q.min_l. apply apply_factor_mono. lra.
  - apply Q.min_r. auto with steel.
Qed.

End Calculator2.
