(* ===== verification/Bolt.v ===== *)
(** * Bolt limit states ([src/Steel/bolt.py])

    The five functions of the file, statement by statement: the nominal
    stresses of the fastener material, and the shear, bearing, tearout and
    tensile strengths of a bolt; their nominal strengths as rational
    formulas; and the theorems: unit invariance, refinement of the policy,
    outcomes and the order of the errors in any arithmetic, the sign and
    monotonicity of the results, the symmetry and independence of the two
    parts, and the instances of the contract of [Contract.v]. *)

From Stdlib Require Import String Bool ZArith QArith Lia Lqa.
From Stdlib Require Import Morphisms RelationClasses Setoid.
From S2P Require Import Prelude Numeric Units Policy Contract.

Local Open Scope string_scope.

(** ** The program *)

Section Program.
Context {F : Type} `{Number F}.
Local Open Scope num_scope.

Definition nominal_fastener_strength (f_u : Quantity F)
  : result (Quantity F * Quantity F) :=
  f_u <- to_name f_u "ksi" ;;
  let f_nv := smul (lit 0.45) f_u in
  let f_nt := smul (lit 0.75) f_u in
  ret (f_nv, f_nt).

Definition shear_strength_bolts (design_method : string)
    (bolt_dia f_u : Quantity F) : result (Quantity F) :=
  ' (f_nv, _) <- nominal_fastener_strength f_u ;;
  bolt_dia <- to_name bolt_dia "inch" ;;
  area <- qsquare bolt_dia ;;
  let r_n := qmul (muls f_nv (math_pi / of_Z 4)) area in
  if String.eqb design_method "ASD" then
    let fos := lit 2.00 in
    ret (divs r_n fos)
  else if String.eqb design_method "LRFD" then
    let str_reduction := lit 0.75 in
    ret (smul str_reduction r_n)
  else raise invalid_design_method.

Definition bearing_strength_bolts (design_method : string)
    (bolt_dia part1_t part1_ult part2_t part2_ult : Quantity F)
  : result (Quantity F * Quantity F) :=
  bolt_dia <- to_name bolt_dia "inch" ;;
  part1_t <- to_name part1_t "inch" ;;
  part2_t <- to_name part2_t "inch" ;;
  part1_ult <- to_name part1_ult "ksi" ;;
  part2_ult <- to_name part2_ult "ksi" ;;
  let r_n1 := qmul (qmul (smul (lit 2.4) bolt_dia) part1_t) part1_ult in
  let r_n2 := qmul (qmul (smul (lit 2.4) bolt_dia) part2_t) part2_ult in
  if String.eqb design_method "ASD" then
    let fos := lit 2.00 in
    ret (divs r_n1 fos, divs r_n2 fos)
  else if String.eqb design_method "LRFD" then
    let str_reduction := lit 0.75 in
    ret (smul str_reduction r_n1, smul str_reduction r_n2)
  else raise invalid_design_method.

Definition tearout_strength_bolts (design_method : string)
    (bolt_dia part1_edge_dist part2_edge_dist
     part1_t part1_ult part2_t part2_ult : Quantity F)
  : result (Quantity F * Quantity F) :=
  bolt_dia <- to_name bolt_dia "inch" ;;
  part1_edge_dist <- to_name part1_edge_dist "inch" ;;
  part2_edge_dist <- to_name part2_edge_dist "inch" ;;
  part1_t <- to_name part1_t "inch" ;;
  part2_t <- to_name part2_t "inch" ;;
  part1_ult <- to_name part1_ult "ksi" ;;
  part2_ult <- to_name part2_ult "ksi" ;;
  hole_1 <- qadd bolt_dia (qty (lit 0.125) inch) ;;
  net_dist_1 <- qsub part1_edge_dist (divs hole_1 (of_Z 2)) ;;
  hole_2 <- qadd bolt_dia (qty (lit 0.125) inch) ;;
  net_dist_2 <- qsub part2_edge_dist (divs hole_2 (of_Z 2)) ;;
  let r_n1 := qmul (qmul (smul (lit 1.2) net_dist_1) part1_t) part1_ult in
  let r_n2 := qmul (qmul (smul (lit 1.2) net_dist_2) part2_t) part2_ult in
  if String.eqb design_method "ASD" then
    let fos := lit 2.00 in
    ret (divs r_n1 fos, divs r_n2 fos)
  else if String.eqb design_method "LRFD" then
    let str_reduction := lit 0.75 in
    ret (smul str_reduction r_n1, smul str_reduction r_n2)
  else raise invalid_design_method.

Definition tensile_strength_bolts (design_method : string)
    (bolt_dia f_u : Quantity F) : result (Quantity F) :=
  ' (_, f_nt) <- nominal_fastener_strength f_u ;;
  bolt_dia <- to_name bolt_dia "inch" ;;
  area <- qsquare bolt_dia ;;
  let r_n := qmul (muls f_nt (math_pi / of_Z 4)) area in
  if String.eqb design_method "ASD" then
    let fos := lit 2.00 in
    ret (divs r_n fos)
  else if String.eqb design_method "LRFD" then
    let str_reduction := lit 0.75 in
    ret (smul str_reduction r_n)
  else raise invalid_design_method.

End Program.

(** ** The specification: nominal strengths in kip, from canonical
    magnitudes (inch, ksi) *)

Definition bolt_area (dia : Q) : Q := Q_pi / 4 * (dia * dia).

Definition Rn_bolt_shear (dia f_u : Q) : Q := 0.45 * f_u * bolt_area dia.

Definition Rn_bolt_tension (dia f_u : Q) : Q := 0.75 * f_u * bolt_area dia.

Definition Rn_bolt_bearing (dia t f_u : Q) : Q := 2.4 * dia * t * f_u.

Definition Rn_bolt_tearout (dia edge_dist t f_u : Q) : Q :=
  1.2 * (edge_dist - (dia + 0.125) / 2) * t * f_u.

(** The square of the diameter, once in inches, overflows: [bolt_dia ** 2]
    raises [OverflowError].  This never holds in exact arithmetic. *)
Definition square_overflows {F : Type} `{Number F} (d : Quantity F) : Prop :=
  exists d', to_name d "inch" = Ok d' /\ sq_overflows (magnitude d') = true.

(** The inputs of the two-part calculators are well dimensioned. *)
Definition bearing_inputs_ok {F : Type} (d t1 u1 t2 u2 : Quantity F) : Prop :=
  is_length d /\ is_length t1 /\ is_length t2 /\ is_stress u1 /\ is_stress u2.

Definition tearout_inputs_ok {F : Type} (d e1 e2 t1 u1 t2 u2 : Quantity F) : Prop :=
  is_length d /\ is_length e1 /\ is_length e2 /\
  is_length t1 /\ is_length t2 /\ is_stress u1 /\ is_stress u2.

(** ** Unit invariance: the calculators are morphisms of [phys_eq] *)

#[export] Instance nominal_fastener_strength_Proper :
  Proper (phys_eq ==> res_rel qty_eq2) (@nominal_fastener_strength Q _).
Proof.
  intros fu fu' Hfu. unfold nominal_fastener_strength. res_proper.
Qed.

#[export] Instance shear_strength_bolts_Proper :
  Proper (eq ==> phys_eq ==> phys_eq ==> res_rel qty_eq)
         (@shear_strength_bolts Q _).
Proof.
  intros m ? <- d d' Hd fu fu' Hfu. unfold shear_strength_bolts.
  res_proper using (apply nominal_fastener_strength_Proper).
Qed.

#[export] Instance tensile_strength_bolts_Proper :
  Proper (eq ==> phys_eq ==> phys_eq ==> res_rel qty_eq)
         (@tensile_strength_bolts Q _).
Proof.
  intros m ? <- d d' Hd fu fu' Hfu. unfold tensile_strength_bolts.
  res_proper using (apply nominal_fastener_strength_Proper).
Qed.

#[export] Instance bearing_strength_bolts_Proper :
  Proper (eq ==> phys_eq ==> phys_eq ==> phys_eq ==> phys_eq ==> phys_eq ==>
          res_rel qty_eq2) (@bearing_strength_bolts Q _).
Proof.
  intros m ? <- d d' Hd t1 t1' Ht1 u1 u1' Hu1 t2 t2' Ht2 u2 u2' Hu2.
  unfold bearing_strength_bolts. res_proper.
Qed.

#[export] Instance tearout_strength_bolts_Proper :
  Proper (eq ==> phys_eq ==> phys_eq ==> phys_eq ==> phys_eq ==> phys_eq ==>
          phys_eq ==> phys_eq ==> res_rel qty_eq2) (@tearout_strength_bolts Q _).
Proof.
  intros m ? <- d d' Hd e1 e1' He1 e2 e2' He2 t1 t1' Ht1 u1 u1' Hu1
         t2 t2' Ht2 u2 u2' Hu2.
  unfold tearout_strength_bolts. res_proper.
Qed.

(** ** The calculators on canonical inputs *)

Lemma nominal_fastener_strength_canonical (f_u : Q) :
  nominal_fastener_strength (qty f_u ksi)
  = Ok (qty (0.45 * f_u) ksi, qty (0.75 * f_u) ksi).
Proof. reflexivity. Qed.

Lemma shear_strength_bolts_canonical (m : string) (dia f_u : Q) :
  res_rel qty_eq (shear_strength_bolts m (qty dia inch) (qty f_u ksi))
          (governing m BoltShear (Rn_bolt_shear dia f_u)).
Proof.
  policy_canonical m; unfold Rn_bolt_shear, bolt_area; qty_field.
Qed.

Lemma tensile_strength_bolts_canonical (m : string) (dia f_u : Q) :
  res_rel qty_eq (tensile_strength_bolts m (qty dia inch) (qty f_u ksi))
          (governing m BoltTension (Rn_bolt_tension dia f_u)).
Proof.
  policy_canonical m; unfold Rn_bolt_tension, bolt_area; qty_field.
Qed.

Lemma bearing_strength_bolts_canonical (m : string) (dia t1 u1 t2 u2 : Q) :
  res_rel qty_eq2
    (bearing_strength_bolts m (qty dia inch) (qty t1 inch) (qty u1 ksi)
                            (qty t2 inch) (qty u2 ksi))
    (governing2 m BoltBearing (Rn_bolt_bearing dia t1 u1)
                (Rn_bolt_bearing dia t2 u2)).
Proof.
  policy_canonical m; unfold Rn_bolt_bearing; split; qty_field.
Qed.

Lemma tearout_strength_bolts_canonical (m : string) (dia e1 e2 t1 u1 t2 u2 : Q) :
  res_rel qty_eq2
    (tearout_strength_bolts m (qty dia inch) (qty e1 inch) (qty e2 inch)
                            (qty t1 inch) (qty u1 ksi) (qty t2 inch) (qty u2 ksi))
    (governing2 m BoltTearout (Rn_bolt_tearout dia e1 t1 u1)
                (Rn_bolt_tearout dia e2 t2 u2)).
Proof.
  policy_canonical m; unfold Rn_bolt_tearout; split; qty_field.
Qed.

(** ** Refinement: every calculator implements the policy on its nominal
    strength, whatever the units of its inputs *)

(** C1. For a bolt diameter of the dimension of length and an ultimate
    strength of the dimension of stress, in any units,
    [shear_strength_bolts] returns, in kip, the policy of the method applied
    to the nominal shear strength [0.45 f_u (pi/4) d^2] of the canonical
    magnitudes, and raises the invalid-method error for any other
    selector. *)
Theorem shear_strength_bolts_refines (m : string) (bolt_dia f_u : Quantity Q) :
  is_length bolt_dia -> is_stress f_u ->
  res_rel qty_eq (shear_strength_bolts m bolt_dia f_u)
          (governing m BoltShear (Rn_bolt_shear (canon bolt_dia) (canon f_u))).
Proof.
  intros Hd Hf. canon_inputs. apply shear_strength_bolts_canonical.
Qed.

Lemma shear_strength_bolts_refines_witness :
  res_rel qty_eq
    (shear_strength_bolts "LRFD" (qty 19.05 millimeter) (qty 120 ksi))
    (governing "LRFD" BoltShear
       (Rn_bolt_shear (canon (qty 19.05 millimeter)) (canon (qty 120 ksi)))).
Proof. apply shear_strength_bolts_refines; reflexivity. Defined.

(** C9. For well-dimensioned inputs in any units, [tensile_strength_bolts]
    returns, in kip, the policy (2.00, 0.75) applied to
    [0.75 f_u (pi/4) d^2], and raises the policy's error on an invalid
    selector. *)
Theorem tensile_strength_bolts_refines (m : string) (bolt_dia f_u : Quantity Q) :
  is_length bolt_dia -> is_stress f_u ->
  res_rel qty_eq (tensile_strength_bolts m bolt_dia f_u)
          (governing m BoltTension (Rn_bolt_tension (canon bolt_dia) (canon f_u))).
Proof.
  intros Hd Hf. canon_inputs. apply tensile_strength_bolts_canonical.
Qed.

Lemma tensile_strength_bolts_refines_witness :
  res_rel qty_eq
    (tensile_strength_bolts "ASD" (qty (1 # 16) foot) (qty 120000 psi))
    (governing "ASD" BoltTension
       (Rn_bolt_tension (canon (qty (1 # 16) foot)) (canon (qty 120000 psi)))).
Proof. apply tensile_strength_bolts_refines; reflexivity. Defined.

(** C2. [bearing_strength_bolts] returns, per part, the policy applied to
    [2.4 d t_i f_u_i]. *)
Theorem bearing_strength_bolts_refines (m : string)
    (bolt_dia part1_t part1_ult part2_t part2_ult : Quantity Q) :
  is_length bolt_dia -> is_length part1_t -> is_stress part1_ult ->
  is_length part2_t -> is_stress part2_ult ->
  res_rel qty_eq2
    (bearing_strength_bolts m bolt_dia part1_t part1_ult part2_t part2_ult)
    (governing2 m BoltBearing
       (Rn_bolt_bearing (canon bolt_dia) (canon part1_t) (canon part1_ult))
       (Rn_bolt_bearing (canon bolt_dia) (canon part2_t) (canon part2_ult))).
Proof.
  intros Hd Ht1 Hu1 Ht2 Hu2. canon_inputs.
  apply bearing_strength_bolts_canonical.
Qed.

Lemma bearing_strength_bolts_refines_witness :
  res_rel qty_eq2
    (bearing_strength_bolts "ASD" (qty 0.75 inch) (qty 12.7 millimeter)
       (qty 58 ksi) (qty 0.375 inch) (qty 58000 psi))
    (governing2 "ASD" BoltBearing
       (Rn_bolt_bearing (canon (qty 0.75 inch)) (canon (qty 12.7 millimeter))
                        (canon (qty 58 ksi)))
       (Rn_bolt_bearing (canon (qty 0.75 inch)) (canon (qty 0.375 inch))
                        (canon (qty 58000 psi)))).
Proof. apply bearing_strength_bolts_refines; reflexivity. Defined.

(** C3. [tearout_strength_bolts] returns, per part, the policy applied to
    [1.2 (e_i - (d + 0.125)/2) t_i f_u_i]. *)
Theorem tearout_strength_bolts_refines (m : string)
    (bolt_dia part1_edge_dist part2_edge_dist
     part1_t part1_ult part2_t part2_ult : Quantity Q) :
  is_length bolt_dia -> is_length part1_edge_dist -> is_length part2_edge_dist ->
  is_length part1_t -> is_stress part1_ult ->
  is_length part2_t -> is_stress part2_ult ->
  res_rel qty_eq2
    (tearout_strength_bolts m bolt_dia part1_edge_dist part2_edge_dist
                            part1_t part1_ult part2_t part2_ult)
    (governing2 m BoltTearout
       (Rn_bolt_tearout (canon bolt_dia) (canon part1_edge_dist)
                        (canon part1_t) (canon part1_ult))
       (Rn_bolt_tearout (canon bolt_dia) (canon part2_edge_dist)
                        (canon part2_t) (canon part2_ult))).
Proof.
  intros Hd He1 He2 Ht1 Hu1 Ht2 Hu2. canon_inputs.
  apply tearout_strength_bolts_canonical.
Qed.

Lemma tearout_strength_bolts_refines_witness :
  res_rel qty_eq2
    (tearout_strength_bolts "LRFD" (qty 0.75 inch) (qty 38.1 millimeter)
       (qty 1.25 inch) (qty 0.5 inch) (qty 58 ksi) (qty 0.375 inch) (qty 65 ksi))
    (governing2 "LRFD" BoltTearout
       (Rn_bolt_tearout (canon (qty 0.75 inch)) (canon (qty 38.1 millimeter))
                        (canon (qty 0.5 inch)) (canon (qty 58 ksi)))
       (Rn_bolt_tearout (canon (qty 0.75 inch)) (canon (qty 1.25 inch))
                        (canon (qty 0.375 inch)) (canon (qty 65 ksi)))).
Proof. apply tearout_strength_bolts_refines; reflexivity. Defined.

(** ** Outcomes, in any arithmetic *)

Section Outcomes.
Context {F : Type} `{Number F}.

(** Whether the square overflows is decided on the converted diameter. *)
Lemma square_overflows_iff (d : Quantity F) (x : F) (u : Unit) :
  to_name d "inch" = Ok (qty x u) ->
  square_overflows d <-> sq_overflows x = true.
Proof.
  intros E. unfold square_overflows. split.
  - intros (d' & E' & Hs). rewrite E in E'. injection E' as <-. exact Hs.
  - intros Hs. exists (qty x u). auto.
Qed.

(** [square_cases d] splits on whether the square of the converted diameter
    [d] overflows, and records the answer as a fact on [square_overflows]. *)
Ltac square_cases d :=
  match goal with
  | E : to_name d "inch" = Ok (qty ?x ?u) |- _ =>
      let S := fresh "S" in
      pose proof (square_overflows_iff d x u E) as S;
      unfold qsquare, ppow2; cbn [magnitude units];
      destruct (sq_overflows x); cbn [bind raise ret]
  end.

(** C27. Whatever the number system, [shear_strength_bolts] succeeds exactly
    when the strength is a stress, the diameter a length whose square does
    not overflow, and the selector one of the two methods, and then returns
    a force in kip.  The errors come in a fixed order: a wrong dimension
    raises [DimensionalityError], then an overflowing square raises
    [OverflowError], and only then an invalid selector raises the
    [ValueError], because the conversions and the nominal strength come
    first. *)
Theorem shear_strength_bolts_outcome (m : string) (bolt_dia f_u : Quantity F) :
  match shear_strength_bolts m bolt_dia f_u with
  | Ok r => is_stress f_u /\ is_length bolt_dia /\
            ~ square_overflows bolt_dia /\ parse_method m <> None /\
            units r = kip
  | Err e => (e = DimensionalityError /\ ~ (is_stress f_u /\ is_length bolt_dia)) \/
             (e = OverflowError /\ is_stress f_u /\ is_length bolt_dia /\
              square_overflows bolt_dia) \/
             (e = invalid_design_method /\ is_stress f_u /\ is_length bolt_dia /\
              ~ square_overflows bolt_dia /\ parse_method m = None)
  end.
Proof.
  unfold shear_strength_bolts, nominal_fastener_strength.
  norm_input f_u "ksi"; [|left; tauto].
  norm_input bolt_dia "inch"; [|left; tauto].
  square_cases bolt_dia; [right; left; tauto|].
  assert (~ square_overflows bolt_dia) by (rewrite S; discriminate).
  outcome_finish m.
Qed.

(** The same for the tensile strength. *)
Lemma tensile_strength_bolts_outcome (m : string) (bolt_dia f_u : Quantity F) :
  match tensile_strength_bolts m bolt_dia f_u with
  | Ok r => is_stress f_u /\ is_length bolt_dia /\
            ~ square_overflows bolt_dia /\ parse_method m <> None /\
            units r = kip
  | Err e => (e = DimensionalityError /\ ~ (is_stress f_u /\ is_length bolt_dia)) \/
             (e = OverflowError /\ is_stress f_u /\ is_length bolt_dia /\
              square_overflows bolt_dia) \/
             (e = invalid_design_method /\ is_stress f_u /\ is_length bolt_dia /\
              ~ square_overflows bolt_dia /\ parse_method m = None)
  end.
Proof.
  unfold tensile_strength_bolts, nominal_fastener_strength.
  norm_input f_u "ksi"; [|left; tauto].
  norm_input bolt_dia "inch"; [|left; tauto].
  square_cases bolt_dia; [right; left; tauto|].
  assert (~ square_overflows bolt_dia) by (rewrite S; discriminate).
  outcome_finish m.
Qed.

(** C28. [bearing_strength_bolts] succeeds exactly on well-dimensioned inputs
    and a valid selector, with two forces in kip; dimension errors take
    precedence over the invalid selector. *)
Theorem bearing_strength_bolts_outcome (m : string)
    (d t1 u1 t2 u2 : Quantity F) :
  match bearing_strength_bolts m d t1 u1 t2 u2 with
  | Ok (r1, r2) => bearing_inputs_ok d t1 u1 t2 u2 /\ parse_method m <> None /\
                   units r1 = kip /\ units r2 = kip
  | Err e => (e = DimensionalityError /\ ~ bearing_inputs_ok d t1 u1 t2 u2) \/
             (e = invalid_design_method /\ bearing_inputs_ok d t1 u1 t2 u2 /\
              parse_method m = None)
  end.
Proof.
  unfold bearing_strength_bolts, bearing_inputs_ok.
  norm_input d "inch"; [|left; tauto].
  norm_input t1 "inch"; [|left; tauto].
  norm_input t2 "inch"; [|left; tauto].
  norm_input u1 "ksi"; [|left; tauto].
  norm_input u2 "ksi"; [|left; tauto].
  outcome_finish m.
Qed.

(** C29. [tearout_strength_bolts] succeeds exactly on well-dimensioned inputs
    and a valid selector: the sum and the difference of lengths it computes
    never raise, whatever the edge distances. *)
Theorem tearout_strength_bolts_outcome (m : string)
    (d e1 e2 t1 u1 t2 u2 : Quantity F) :
  match tearout_strength_bolts m d e1 e2 t1 u1 t2 u2 with
  | Ok (r1, r2) => tearout_inputs_ok d e1 e2 t1 u1 t2 u2 /\
                   parse_method m <> None /\ units r1 = kip /\ units r2 = kip
  | Err e => (e = DimensionalityError /\ ~ tearout_inputs_ok d e1 e2 t1 u1 t2 u2) \/
             (e = invalid_design_method /\ tearout_inputs_ok d e1 e2 t1 u1 t2 u2 /\
              parse_method m = None)
  end.
Proof.
  unfold tearout_strength_bolts, tearout_inputs_ok.
  norm_input d "inch"; [|left; tauto].
  norm_input e1 "inch"; [|left; tauto].
  norm_input e2 "inch"; [|left; tauto].
  norm_input t1 "inch"; [|left; tauto].
  norm_input t2 "inch"; [|left; tauto].
  norm_input u1 "ksi"; [|left; tauto].
  norm_input u2 "ksi"; [|left; tauto].
  res_simpl. unfold divs. cbn [magnitude units]. res_simpl.
  outcome_finish m.
Qed.

End Outcomes.

(** ** Facts of the nominal strengths *)

Lemma bolt_area_nonneg (dia : Q) : 0 <= bolt_area dia.
Proof.
  unfold bolt_area. pose proof Q_pi_bounds as [Hpi _].
  assert (0 <= dia * dia) by nra.
  assert (0 < Q_pi / 4) by (apply Qlt_shift_div_l; lra).
  nra.
Qed.

Lemma bolt_area_mono (d d' : Q) : 0 <= d -> d <= d' -> bolt_area d <= bolt_area d'.
Proof.
  intros H0 Hd. unfold bolt_area. pose proof Q_pi_bounds as [Hpi _].
  assert (0 < Q_pi / 4) by (apply Qlt_shift_div_l; lra).
  assert (d * d <= d' * d') by nra.
  nra.
Qed.

Lemma Rn_bolt_shear_tension (dia f_u : Q) :
  Rn_bolt_shear dia f_u == 0.6 * Rn_bolt_tension dia f_u.
Proof. unfold Rn_bolt_shear, Rn_bolt_tension. ring. Qed.

Lemma Rn_bolt_shear_mono (d d' f f' : Q) :
  0 <= d -> d <= d' -> 0 <= f -> f <= f' ->
  Rn_bolt_shear d f <= Rn_bolt_shear d' f'.
Proof.
  intros Hd0 Hd Hf0 Hf. unfold Rn_bolt_shear.
  pose proof (bolt_area_nonneg d). pose proof (bolt_area_mono d d' Hd0 Hd).
  nra.
Qed.

Lemma Rn_bolt_tearout_nonpos (dia e t f_u : Q) :
  e <= (dia + 0.125) / 2 -> 0 <= t -> 0 <= f_u ->
  Rn_bolt_tearout dia e t f_u <= 0.
Proof.
  intros He Ht Hf. unfold Rn_bolt_tearout.
  assert (0 <= t * f_u) by nra.
  assert (e - (dia + 0.125) / 2 <= 0) by lra.
  nra.
Qed.

Lemma Rn_bolt_tearout_pos (dia e t f_u : Q) :
  (dia + 0.125) / 2 < e -> 0 < t -> 0 < f_u ->
  0 < Rn_bolt_tearout dia e t f_u.
Proof.
  intros He Ht Hf. unfold Rn_bolt_tearout.
  assert (0 < t * f_u) by nra.
  assert (0 < e - (dia + 0.125) / 2) by lra.
  nra.
Qed.

#[export] Instance Rn_bolt_shear_Proper : Proper (Qeq ==> Qeq ==> Qeq) Rn_bolt_shear.
Proof. intros d d' Hd f f' Hf. unfold Rn_bolt_shear, bolt_area. now rewrite Hd, Hf. Qed.

(** ** Properties of the calculators *)

(** C32. Unit invariance: the shear strength does not depend on the units the
    diameter and the strength come in. *)
Theorem shear_strength_bolts_unit_invariant (m : string)
    (d d' f_u f_u' : Quantity Q) :
  phys_eq d d' -> phys_eq f_u f_u' ->
  res_rel qty_eq (shear_strength_bolts m d f_u) (shear_strength_bolts m d' f_u').
Proof. intros Hd Hf. now rewrite Hd, Hf. Qed.

Lemma shear_strength_bolts_unit_invariant_witness :
  res_rel qty_eq
    (shear_strength_bolts "ASD" (qty 0.75 inch) (qty 120 ksi))
    (shear_strength_bolts "ASD" (qty 19.05 millimeter) (qty 120000 psi)).
Proof.
  apply shear_strength_bolts_unit_invariant; split; reflexivity.
Defined.

(** Unit invariance of the tearout strength, in its seven quantities. *)
Theorem tearout_strength_bolts_unit_invariant (m : string)
    (d d' e1 e1' e2 e2' t1 t1' u1 u1' t2 t2' u2 u2' : Quantity Q) :
  phys_eq d d' -> phys_eq e1 e1' -> phys_eq e2 e2' ->
  phys_eq t1 t1' -> phys_eq u1 u1' -> phys_eq t2 t2' -> phys_eq u2 u2' ->
  res_rel qty_eq2 (tearout_strength_bolts m d e1 e2 t1 u1 t2 u2)
                  (tearout_strength_bolts m d' e1' e2' t1' u1' t2' u2').
Proof. intros. now apply tearout_strength_bolts_Proper. Qed.

Lemma tearout_strength_bolts_unit_invariant_witness :
  res_rel qty_eq2
    (tearout_strength_bolts "LRFD" (qty 0.75 inch) (qty 1.5 inch) (qty 1.25 inch)
       (qty 0.5 inch) (qty 58 ksi) (qty 0.375 inch) (qty 65 ksi))
    (tearout_strength_bolts "LRFD" (qty 19.05 millimeter) (qty 0.125 foot)
       (qty 31.75 millimeter) (qty 12.7 millimeter) (qty 58000 psi)
       (qty 9.525 millimeter) (qty 65 ksi)).
Proof.
  apply tearout_strength_bolts_unit_invariant; split; reflexivity.
Defined.

(** What the calculators return under a valid method: helper forms of the
    refinement theorems. *)
Lemma shear_strength_bolts_returns (s : string) (m : DesignMethod)
    (d f_u : Quantity Q) :
  is_length d -> is_stress f_u -> parse_method s = Some m ->
  exists r, shear_strength_bolts s d f_u = Ok r /\
    magnitude r == apply_factor m BoltShear (Rn_bolt_shear (canon d) (canon f_u)) /\
    units r = kip.
Proof.
  intros Hd Hf Hm. eapply governing_returns; [|exact Hm].
  canon_inputs. apply shear_strength_bolts_canonical.
Qed.

Lemma tensile_strength_bolts_returns (s : string) (m : DesignMethod)
    (d f_u : Quantity Q) :
  is_length d -> is_stress f_u -> parse_method s = Some m ->
  exists r, tensile_strength_bolts s d f_u = Ok r /\
    magnitude r == apply_factor m BoltTension (Rn_bolt_tension (canon d) (canon f_u)) /\
    units r = kip.
Proof.
  intros Hd Hf Hm. eapply governing_returns; [|exact Hm].
  canon_inputs. apply tensile_strength_bolts_canonical.
Qed.

Lemma bearing_strength_bolts_returns (s : string) (m : DesignMethod)
    (d t1 u1 t2 u2 : Quantity Q) :
  bearing_inputs_ok d t1 u1 t2 u2 -> parse_method s = Some m ->
  exists r1 r2, bearing_strength_bolts s d t1 u1 t2 u2 = Ok (r1, r2) /\
    (magnitude r1 ==
       apply_factor m BoltBearing (Rn_bolt_bearing (canon d) (canon t1) (canon u1)) /\
     units r1 = kip) /\
    (magnitude r2 ==
       apply_factor m BoltBearing (Rn_bolt_bearing (canon d) (canon t2) (canon u2)) /\
     units r2 = kip).
Proof.
  intros (Hd & Ht1 & Ht2 & Hu1 & Hu2) Hm. eapply governing2_returns; [|exact Hm].
  canon_inputs. apply bearing_strength_bolts_canonical.
Qed.

Lemma tearout_strength_bolts_returns (s : string) (m : DesignMethod)
    (d e1 e2 t1 u1 t2 u2 : Quantity Q) :
  tearout_inputs_ok d e1 e2 t1 u1 t2 u2 -> parse_method s = Some m ->
  exists r1 r2, tearout_strength_bolts s d e1 e2 t1 u1 t2 u2 = Ok (r1, r2) /\
    (magnitude r1 ==
       apply_factor m BoltTearout
         (Rn_bolt_tearout (canon d) (canon e1) (canon t1) (canon u1)) /\
     units r1 = kip) /\
    (magnitude r2 ==
       apply_factor m BoltTearout
         (Rn_bolt_tearout (canon d) (canon e2) (canon t2) (canon u2)) /\
     units r2 = kip).
Proof.
  intros (Hd & He1 & He2 & Ht1 & Ht2 & Hu1 & Hu2) Hm.
  eapply governing2_returns; [|exact Hm].
  canon_inputs. apply tearout_strength_bolts_canonical.
Qed.

(** The shear strength of a bolt is six tenths of its tensile
    strength, under either method. *)
Theorem shear_is_six_tenths_of_tension (s : string) (m : DesignMethod)
    (d f_u : Quantity Q) :
  is_length d -> is_stress f_u -> parse_method s = Some m ->
  exists rv rt,
    shear_strength_bolts s d f_u = Ok rv /\
    tensile_strength_bolts s d f_u = Ok rt /\
    magnitude rv == 0.6 * magnitude rt.
Proof.
  intros Hd Hf Hm.
  destruct (shear_strength_bolts_returns s m d f_u Hd Hf Hm) as [rv [Ev [Hv _]]].
  destruct (tensile_strength_bolts_returns s m d f_u Hd Hf Hm) as [rt [Et [Ht _]]].
  exists rv, rt. repeat split; try assumption.
  rewrite Hv, Ht, Rn_bolt_shear_tension, apply_factor_scale.
  (* the two limit states share their factors *)
  destruct m; reflexivity.
Qed.

Lemma shear_is_six_tenths_of_tension_witness :
  exists rv rt,
    shear_strength_bolts "LRFD" (qty 0.75 inch) (qty 120 ksi) = Ok rv /\
    tensile_strength_bolts "LRFD" (qty 0.75 inch) (qty 120 ksi) = Ok rt /\
    magnitude rv == 0.6 * magnitude rt.
Proof.
  apply (shear_is_six_tenths_of_tension "LRFD" LRFD); reflexivity.
Defined.

(** Under LRFD each bolt strength is one and a half times the ASD
    strength of the same inputs. *)
Theorem shear_LRFD_is_one_and_half_ASD (d f_u : Quantity Q) :
  is_length d -> is_stress f_u ->
  exists ra rl,
    shear_strength_bolts "ASD" d f_u = Ok ra /\
    shear_strength_bolts "LRFD" d f_u = Ok rl /\
    magnitude rl == 1.5 * magnitude ra.
Proof.
  intros Hd Hf.
  destruct (shear_strength_bolts_returns _ _ d f_u Hd Hf parse_method_ASD) as [ra [Ea [Ha _]]].
  destruct (shear_strength_bolts_returns _ _ d f_u Hd Hf parse_method_LRFD) as [rl [El [Hl _]]].
  exists ra, rl. repeat split; try assumption.
  now rewrite Hl, Ha, apply_factor_LRFD_ASD, factor_product.
Qed.

Lemma shear_LRFD_is_one_and_half_ASD_witness :
  exists ra rl,
    shear_strength_bolts "ASD" (qty 0.875 inch) (qty 827.4 megapascal) = Ok ra /\
    shear_strength_bolts "LRFD" (qty 0.875 inch) (qty 827.4 megapascal) = Ok rl /\
    magnitude rl == 1.5 * magnitude ra.
Proof. apply shear_LRFD_is_one_and_half_ASD; reflexivity. Defined.

(** An edge distance that does not clear half the hole gives a
    non-positive tearout strength for that part: the calculator does not
    flag it, it returns the non-positive force. *)
Theorem tearout_strength_bolts_nonpositive (s : string) (m : DesignMethod)
    (d e1 e2 t1 u1 t2 u2 : Quantity Q) :
  tearout_inputs_ok d e1 e2 t1 u1 t2 u2 -> parse_method s = Some m ->
  canon e1 <= (canon d + 0.125) / 2 -> 0 <= canon t1 -> 0 <= canon u1 ->
  exists r1 r2, tearout_strength_bolts s d e1 e2 t1 u1 t2 u2 = Ok (r1, r2) /\
    magnitude r1 <= 0.
Proof.
  intros Hok Hm He Ht Hu.
  destruct (tearout_strength_bolts_returns s m _ _ _ _ _ _ _ Hok Hm) as (r1 & r2 & E & [H1 _] & _).
  exists r1, r2. split; [exact E|].
  rewrite H1. apply apply_factor_nonpos. now apply Rn_bolt_tearout_nonpos.
Qed.

Lemma tearout_strength_bolts_nonpositive_witness :
  exists r1 r2,
    tearout_strength_bolts "ASD" (qty 0.75 inch) (qty 0.4 inch) (qty 1.5 inch)
      (qty 0.5 inch) (qty 58 ksi) (qty 0.375 inch) (qty 58 ksi) = Ok (r1, r2) /\
    magnitude r1 <= 0.
Proof.
  apply (tearout_strength_bolts_nonpositive "ASD" ASD);
    [ repeat split | reflexivity | discriminate | discriminate | discriminate ].
Defined.

(** C35. With positive thickness and strength, the tearout strength of a
    part is positive exactly when its edge distance clears half the hole
    diameter plus a sixteenth. *)
Theorem tearout_strength_bolts_positive_iff (s : string) (m : DesignMethod)
    (d e1 e2 t1 u1 t2 u2 : Quantity Q) :
  tearout_inputs_ok d e1 e2 t1 u1 t2 u2 -> parse_method s = Some m ->
  0 < canon t1 -> 0 < canon u1 ->
  exists r1 r2, tearout_strength_bolts s d e1 e2 t1 u1 t2 u2 = Ok (r1, r2) /\
    (0 < magnitude r1 <-> (canon d + 0.125) / 2 < canon e1).
Proof.
  intros Hok Hm Ht Hu.
  destruct (tearout_strength_bolts_returns s m _ _ _ _ _ _ _ Hok Hm) as (r1 & r2 & E & [H1 _] & _).
  exists r1, r2. split; [exact E|]. rewrite H1. split.
  - intros Hpos. apply Qnot_le_lt. intros Hle.
    pose proof (apply_factor_nonpos m BoltTearout _
                  (Rn_bolt_tearout_nonpos (canon d) (canon e1) (canon t1) (canon u1)
                     Hle (Qlt_le_weak _ _ Ht) (Qlt_le_weak _ _ Hu))).
    lra.
  - intros He. apply apply_factor_pos. now apply Rn_bolt_tearout_pos.
Qed.

Lemma tearout_strength_bolts_positive_iff_witness :
  exists r1 r2,
    tearout_strength_bolts "LRFD" (qty 0.75 inch) (qty 1.5 inch) (qty 1.5 inch)
      (qty 0.5 inch) (qty 58 ksi) (qty 0.375 inch) (qty 58 ksi) = Ok (r1, r2) /\
    (0 < magnitude r1 <-> (canon (qty 0.75 inch) + 0.125) / 2 < canon (qty 1.5 inch)).
Proof.
  apply (tearout_strength_bolts_positive_iff "LRFD" LRFD);
    [ repeat split | reflexivity | reflexivity | reflexivity ].
Defined.

(** The shear strength grows with the diameter and with the strength
    of the material. *)
Theorem shear_strength_bolts_monotone (s : string) (m : DesignMethod)
    (d d' f_u f_u' : Quantity Q) :
  is_length d -> is_length d' -> is_stress f_u -> is_stress f_u' ->
  parse_method s = Some m ->
  0 <= canon d -> canon d <= canon d' -> 0 <= canon f_u -> canon f_u <= canon f_u' ->
  exists r r', shear_strength_bolts s d f_u = Ok r /\
               shear_strength_bolts s d' f_u' = Ok r' /\
               magnitude r <= magnitude r'.
Proof.
  intros Hd Hd' Hf Hf' Hm H0 Hdd Hf0 Hff.
  destruct (shear_strength_bolts_returns s m d f_u Hd Hf Hm) as [r [E [H _]]].
  destruct (shear_strength_bolts_returns s m d' f_u' Hd' Hf' Hm) as [r' [E' [H' _]]].
  exists r, r'. repeat split; try assumption.
  rewrite H, H'. apply apply_factor_mono. now apply Rn_bolt_shear_mono.
Qed.

Lemma shear_strength_bolts_monotone_witness :
  exists r r', shear_strength_bolts "ASD" (qty 0.75 inch) (qty 120 ksi) = Ok r /\
               shear_strength_bolts "ASD" (qty 25.4 millimeter) (qty 150 ksi) = Ok r' /\
               magnitude r <= magnitude r'.
Proof.
  apply (shear_strength_bolts_monotone "ASD" ASD);
    first [ reflexivity | discriminate ].
Defined.

(** ** The two parts, in any arithmetic *)

Section Parts.
Context {F : Type} `{Number F}.

(** The two parts of [bearing_strength_bolts] play the same role:
    exchanging them exchanges the two results, and raises the same error
    when there is one. *)
Theorem bearing_strength_bolts_swap (m : string)
    (d t1 u1 t2 u2 : Quantity F) :
  bearing_strength_bolts m d t2 u2 t1 u1
  = (' (r1, r2) <- bearing_strength_bolts m d t1 u1 t2 u2 ;; ret (r2, r1)).
Proof. unfold bearing_strength_bolts. swap_parts m. Qed.

(** The same for [tearout_strength_bolts]. *)
Theorem tearout_strength_bolts_swap (m : string)
    (d e1 e2 t1 u1 t2 u2 : Quantity F) :
  tearout_strength_bolts m d e2 e1 t2 u2 t1 u1
  = (' (r1, r2) <- tearout_strength_bolts m d e1 e2 t1 u1 t2 u2 ;; ret (r2, r1)).
Proof. unfold tearout_strength_bolts. swap_parts m. Qed.

(** The strength [bearing_strength_bolts] returns for the first part
    does not depend on the second part, as long as the second part is well
    dimensioned. *)
Theorem bearing_strength_bolts_independent (m : string)
    (d t1 u1 t2 u2 t2' u2' r1 r2 : Quantity F) :
  bearing_strength_bolts m d t1 u1 t2 u2 = Ok (r1, r2) ->
  is_length t2' -> is_stress u2' ->
  exists r2', bearing_strength_bolts m d t1 u1 t2' u2' = Ok (r1, r2').
Proof.
  unfold bearing_strength_bolts, is_length, is_stress. intros Hr Ht Hu.
  revert Hr. norm_inputs; try discriminate; try (exfalso; auto; fail).
  res_simpl.
  destruct (String.eqb m "ASD"); [intros Hr; inversion Hr; eauto|].
  destruct (String.eqb m "LRFD"); [|discriminate].
  intros Hr; inversion Hr; eauto.
Qed.

End Parts.

Lemma bearing_strength_bolts_independent_witness :
  exists r2',
    bearing_strength_bolts "ASD" (qty 0.75 inch) (qty 0.5 inch) (qty 58 ksi)
      (qty 10 millimeter) (qty 65 ksi)
    = Ok (qty (2.4 * 0.75 * 0.5 * 58 / 2.00) kip, r2').
Proof.
  apply (bearing_strength_bolts_independent (F := Q) "ASD" (qty 0.75 inch)
           (qty 0.5 inch) (qty 58 ksi) (qty 0.375 inch) (qty 58 ksi)
           (qty 10 millimeter) (qty 65 ksi) _
           (qty (2.4 * 0.75 * 0.375 * 58 / 2.00) kip));
    reflexivity.
Defined.

(** ** The calculators keep the contract of [Contract.v] *)

(** The calculators on a tuple of inputs. *)
Definition shear_calc (m : string) (i : Quantity Q * Quantity Q)
  : result (Quantity Q) :=
  let '(d, fu) := i in shear_strength_bolts m d fu.

Definition tensile_calc (m : string) (i : Quantity Q * Quantity Q)
  : result (Quantity Q) :=
  let '(d, fu) := i in tensile_strength_bolts m d fu.

Definition bearing_calc (m : string)
    (i : Quantity Q * Quantity Q * Quantity Q * Quantity Q * Quantity Q)
  : result (Quantity Q * Quantity Q) :=
  let '(d, t1, u1, t2, u2) := i in bearing_strength_bolts m d t1 u1 t2 u2.

Definition tearout_calc (m : string)
    (i : Quantity Q * Quantity Q * Quantity Q * Quantity Q * Quantity Q
         * Quantity Q * Quantity Q)
  : result (Quantity Q * Quantity Q) :=
  let '(d, e1, e2, t1, u1, t2, u2) := i in
  tearout_strength_bolts m d e1 e2 t1 u1 t2 u2.

(** Instance search does not look inside the calculators. *)
#[global] Typeclasses Opaque shear_calc tensile_calc bearing_calc tearout_calc.

Lemma shear_calc_refines (m : string) (i : Quantity Q * Quantity Q) :
  (let '(d, fu) := i in is_length d /\ is_stress fu) ->
  res_rel qty_eq (shear_calc m i)
    (governing m BoltShear
       (let '(d, fu) := i in Rn_bolt_shear (canon d) (canon fu))).
Proof. revert m i. keeps_contract shear_strength_bolts_canonical. Qed.

Lemma tensile_calc_refines (m : string) (i : Quantity Q * Quantity Q) :
  (let '(d, fu) := i in is_length d /\ is_stress fu) ->
  res_rel qty_eq (tensile_calc m i)
    (governing m BoltTension
       (let '(d, fu) := i in Rn_bolt_tension (canon d) (canon fu))).
Proof. revert m i. keeps_contract tensile_strength_bolts_canonical. Qed.

Lemma bearing_calc_refines (m : string)
    (i : Quantity Q * Quantity Q * Quantity Q * Quantity Q * Quantity Q) :
  (let '(d, t1, u1, t2, u2) := i in bearing_inputs_ok d t1 u1 t2 u2) ->
  res_rel qty_eq2 (bearing_calc m i)
    (governing2 m BoltBearing
       (let '(d, t1, u1, _, _) := i in
        Rn_bolt_bearing (canon d) (canon t1) (canon u1))
       (let '(d, _, _, t2, u2) := i in
        Rn_bolt_bearing (canon d) (canon t2) (canon u2))).
Proof.
  revert m i. unfold bearing_inputs_ok.
  keeps_contract bearing_strength_bolts_canonical.
Qed.

Lemma tearout_calc_refines (m : string)
    (i : Quantity Q * Quantity Q * Quantity Q * Quantity Q * Quantity Q
         * Quantity Q * Quantity Q) :
  (let '(d, e1, e2, t1, u1, t2, u2) := i in
   tearout_inputs_ok d e1 e2 t1 u1 t2 u2) ->
  res_rel qty_eq2 (tearout_calc m i)
    (governing2 m BoltTearout
       (let '(d, e1, _, t1, u1, _, _) := i in
        Rn_bolt_tearout (canon d) (canon e1) (canon t1) (canon u1))
       (let '(d, _, e2, _, _, t2, u2) := i in
        Rn_bolt_tearout (canon d) (canon e2) (canon t2) (canon u2))).
Proof.
  revert m i. unfold tearout_inputs_ok.
  keeps_contract tearout_strength_bolts_canonical.
Qed.

#[export] Instance shear_Calculator : Calculator shear_calc := {
  calc_state := BoltShear;
  calc_refines := shear_calc_refines
}.

#[export] Instance tensile_Calculator : Calculator tensile_calc := {
  calc_state := BoltTension;
  calc_refines := tensile_calc_refines
}.

#[export] Instance bearing_Calculator : Calculator2 bearing_calc := {
  calc2_state := BoltBearing;
  calc2_refines := bearing_calc_refines
}.

#[export] Instance tearout_Calculator : Calculator2 tearout_calc := {
  calc2_state := BoltTearout;
  calc2_refines := tearout_calc_refines
}.
