(* ===== verification/Element.v ===== *)
(** * Connected-element limit states ([src/Steel/connected_element.py])

    The four functions of the file, statement by statement: shear yield,
    shear rupture, tensile yield and tensile rupture of the two connected
    parts, with their nominal strengths as rational formulas and the
    properties that relate them: unit invariance, refinement of the policy,
    outcomes in any arithmetic, the effect of the bolt count and of the
    shear-lag factor, the symmetry of the two parts, and the instances of
    the contract of [Contract.v]. *)

From Stdlib Require Import String Bool ZArith QArith Lia Lqa.
From Stdlib Require Import Morphisms RelationClasses Setoid.
From S2P Require Import Prelude Numeric Units Policy Contract.

Local Open Scope string_scope.

(** ** The program *)

Section Program.
Context {F : Type} `{Number F}.
Local Open Scope num_scope.

Definition connected_elem_shear_yield_str (design_method : string)
    (part1_t part1_len part1_yield part2_t part2_len part2_yield : Quantity F)
  : result (Quantity F * Quantity F) :=
  part1_t <- to_name part1_t "inch" ;;
  part1_len <- to_name part1_len "inch" ;;
  part1_yield <- to_name part1_yield "ksi" ;;
  part2_t <- to_name part2_t "inch" ;;
  part2_len <- to_name part2_len "inch" ;;
  part2_yield <- to_name part2_yield "ksi" ;;
  let r_n1 := qmul (smul (lit 0.60) part1_yield) (qmul part1_t part1_len) in
  let r_n2 := qmul (smul (lit 0.60) part2_yield) (qmul part2_t part2_len) in
  if String.eqb design_method "ASD" then
    let fos := lit 1.50 in
    ret (divs r_n1 fos, divs r_n2 fos)
  else if String.eqb design_method "LRFD" then
    let str_reduction := lit 1.00 in
    ret (smul str_reduction r_n1, smul str_reduction r_n2)
  else raise invalid_design_method.

Definition connected_elem_shear_rupture_str (design_method : string)
    (bolt_dia : Quantity F) (bolt_count : Z)
    (part1_t part1_len part1_ult part2_t part2_len part2_ult : Quantity F)
  : result (Quantity F * Quantity F) :=
  bolt_dia <- to_name bolt_dia "inch" ;;
  part1_t <- to_name part1_t "inch" ;;
  part1_len <- to_name part1_len "inch" ;;
  part1_ult <- to_name part1_ult "ksi" ;;
  part2_t <- to_name part2_t "inch" ;;
  part2_len <- to_name part2_len "inch" ;;
  part2_ult <- to_name part2_ult "ksi" ;;
  hole_1 <- qadd bolt_dia (qty (lit 0.063) inch) ;;
  holes_1 <- muli hole_1 bolt_count ;;
  net_width_1 <- qsub part1_len holes_1 ;;
  hole_2 <- qadd bolt_dia (qty (lit 0.063) inch) ;;
  holes_2 <- muli hole_2 bolt_count ;;
  net_width_2 <- qsub part2_len holes_2 ;;
  let a_nv1 := qmul part1_t net_width_1 in
  let a_nv2 := qmul part2_t net_width_2 in
  let r_n1 := qmul (smul (lit 0.60) part1_ult) a_nv1 in
  let r_n2 := qmul (smul (lit 0.60) part2_ult) a_nv2 in
  if String.eqb design_method "ASD" then
    let fos := lit 2.00 in
    ret (divs r_n1 fos, divs r_n2 fos)
  else if String.eqb design_method "LRFD" then
    let str_reduction := lit 0.75 in
    ret (smul str_reduction r_n1, smul str_reduction r_n2)
  else raise invalid_design_method.

Definition connected_elem_tensile_yield_str (design_method : string)
    (part1_t part1_len part1_yield part2_t part2_len part2_yield : Quantity F)
  : result (Quantity F * Quantity F) :=
  part1_t <- to_name part1_t "inch" ;;
  part1_len <- to_name part1_len "inch" ;;
  part1_yield <- to_name part1_yield "ksi" ;;
  part2_t <- to_name part2_t "inch" ;;
  part2_len <- to_name part2_len "inch" ;;
  part2_yield <- to_name part2_yield "ksi" ;;
  let r_n1 := qmul part1_yield (qmul part1_t part1_len) in
  let r_n2 := qmul part2_yield (qmul part2_t part2_len) in
  if String.eqb design_method "ASD" then
    let fos := lit 1.67 in
    ret (divs r_n1 fos, divs r_n2 fos)
  else if String.eqb design_method "LRFD" then
    let str_reduction := lit 0.90 in
    ret (smul str_reduction r_n1, smul str_reduction r_n2)
  else raise invalid_design_method.

Definition connected_elem_tensile_rupture_str (design_method : string)
    (bolt_dia : Quantity F) (bolt_count : Z) (shear_lag : F)
    (part1_t part1_len part1_ult part2_t part2_len part2_ult : Quantity F)
  : result (Quantity F * Quantity F) :=
  bolt_dia <- to_name bolt_dia "inch" ;;
  part1_t <- to_name part1_t "inch" ;;
  part1_len <- to_name part1_len "inch" ;;
  part1_ult <- to_name part1_ult "ksi" ;;
  part2_t <- to_name part2_t "inch" ;;
  part2_len <- to_name part2_len "inch" ;;
  part2_ult <- to_name part2_ult "ksi" ;;
  hole_1 <- qadd bolt_dia (qty (lit 0.063) inch) ;;
  holes_1 <- muli hole_1 bolt_count ;;
  net_width_1 <- qsub part1_len holes_1 ;;
  hole_2 <- qadd bolt_dia (qty (lit 0.063) inch) ;;
  holes_2 <- muli hole_2 bolt_count ;;
  net_width_2 <- qsub part2_len holes_2 ;;
  let a_nv1 := qmul part1_t net_width_1 in
  let a_nv2 := qmul part2_t net_width_2 in
  let r_n1 := muls (qmul part1_ult a_nv1) shear_lag in
  let r_n2 := muls (qmul part2_ult a_nv2) shear_lag in
  if String.eqb design_method "ASD" then
    let fos := lit 2.00 in
    ret (divs r_n1 fos, divs r_n2 fos)
  else if String.eqb design_method "LRFD" then
    let str_reduction := lit 0.75 in
    ret (smul str_reduction r_n1, smul str_reduction r_n2)
  else raise invalid_design_method.

End Program.

(** ** The specification: nominal strengths in kip, from canonical
    magnitudes (inch, ksi) *)

(** The width left once the holes of [n] bolts are taken out. *)
Definition net_width (len dia : Q) (n : Z) : Q :=
  len - (dia + 0.063) * inject_Z n.

Definition Rn_shear_yield (t len f_y : Q) : Q := 0.60 * f_y * (t * len).

Definition Rn_shear_rupture (dia : Q) (n : Z) (t len f_u : Q) : Q :=
  0.60 * f_u * (t * net_width len dia n).

Definition Rn_tensile_yield (t len f_y : Q) : Q := f_y * (t * len).

Definition Rn_tensile_rupture (dia : Q) (n : Z) (shear_lag t len f_u : Q) : Q :=
  f_u * (t * net_width len dia n) * shear_lag.

(** The inputs are well dimensioned: thicknesses and lengths are lengths,
    strengths are stresses. *)
Definition yield_inputs_ok {F : Type} (t1 l1 y1 t2 l2 y2 : Quantity F) : Prop :=
  is_length t1 /\ is_length l1 /\ is_stress y1 /\
  is_length t2 /\ is_length l2 /\ is_stress y2.

Definition rupture_inputs_ok {F : Type} (d t1 l1 u1 t2 l2 u2 : Quantity F) : Prop :=
  is_length d /\ yield_inputs_ok t1 l1 u1 t2 l2 u2.

(** ** Unit invariance: the calculators are morphisms of [phys_eq] *)

#[export] Instance connected_elem_shear_yield_str_Proper :
  Proper (eq ==> phys_eq ==> phys_eq ==> phys_eq ==> phys_eq ==> phys_eq ==>
          phys_eq ==> res_rel qty_eq2) (@connected_elem_shear_yield_str Q _).
Proof.
  intros m ? <- t1 t1' Ht1 l1 l1' Hl1 y1 y1' Hy1 t2 t2' Ht2 l2 l2' Hl2 y2 y2' Hy2.
  unfold connected_elem_shear_yield_str. res_proper.
Qed.

#[export] Instance connected_elem_tensile_yield_str_Proper :
  Proper (eq ==> phys_eq ==> phys_eq ==> phys_eq ==> phys_eq ==> phys_eq ==>
          phys_eq ==> res_rel qty_eq2) (@connected_elem_tensile_yield_str Q _).
Proof.
  intros m ? <- t1 t1' Ht1 l1 l1' Hl1 y1 y1' Hy1 t2 t2' Ht2 l2 l2' Hl2 y2 y2' Hy2.
  unfold connected_elem_tensile_yield_str. res_proper.
Qed.

#[export] Instance connected_elem_shear_rupture_str_Proper :
  Proper (eq ==> phys_eq ==> eq ==> phys_eq ==> phys_eq ==> phys_eq ==>
          phys_eq ==> phys_eq ==> phys_eq ==> res_rel qty_eq2)
         (@connected_elem_shear_rupture_str Q _).
Proof.
  intros m ? <- d d' Hd n ? <-
         t1 t1' Ht1 l1 l1' Hl1 u1 u1' Hu1 t2 t2' Ht2 l2 l2' Hl2 u2 u2' Hu2.
  unfold connected_elem_shear_rupture_str. res_proper.
Qed.

#[export] Instance connected_elem_tensile_rupture_str_Proper :
  Proper (eq ==> phys_eq ==> eq ==> Qeq ==> phys_eq ==> phys_eq ==> phys_eq ==>
          phys_eq ==> phys_eq ==> phys_eq ==> res_rel qty_eq2)
         (@connected_elem_tensile_rupture_str Q _).
Proof.
  intros m ? <- d d' Hd n ? <- U U' HU
         t1 t1' Ht1 l1 l1' Hl1 u1 u1' Hu1 t2 t2' Ht2 l2 l2' Hl2 u2 u2' Hu2.
  unfold connected_elem_tensile_rupture_str. res_proper.
Qed.

(** ** The calculators on canonical inputs *)

Lemma connected_elem_shear_yield_str_canonical (m : string) (t1 l1 y1 t2 l2 y2 : Q) :
  res_rel qty_eq2
    (connected_elem_shear_yield_str m (qty t1 inch) (qty l1 inch) (qty y1 ksi)
                                    (qty t2 inch) (qty l2 inch) (qty y2 ksi))
    (governing2 m ElementShearYield (Rn_shear_yield t1 l1 y1)
                (Rn_shear_yield t2 l2 y2)).
Proof. policy_canonical m; unfold Rn_shear_yield; split; qty_field. Qed.

Lemma connected_elem_tensile_yield_str_canonical (m : string)
    (t1 l1 y1 t2 l2 y2 : Q) :
  res_rel qty_eq2
    (connected_elem_tensile_yield_str m (qty t1 inch) (qty l1 inch) (qty y1 ksi)
                                      (qty t2 inch) (qty l2 inch) (qty y2 ksi))
    (governing2 m ElementTensileYield (Rn_tensile_yield t1 l1 y1)
                (Rn_tensile_yield t2 l2 y2)).
Proof. policy_canonical m; unfold Rn_tensile_yield; split; qty_field. Qed.

Lemma connected_elem_shear_rupture_str_canonical (m : string) (d : Q) (n : Z)
    (t1 l1 u1 t2 l2 u2 : Q) :
  res_rel qty_eq2
    (connected_elem_shear_rupture_str m (qty d inch) n
       (qty t1 inch) (qty l1 inch) (qty u1 ksi)
       (qty t2 inch) (qty l2 inch) (qty u2 ksi))
    (governing2 m ElementShearRupture (Rn_shear_rupture d n t1 l1 u1)
                (Rn_shear_rupture d n t2 l2 u2)).
Proof.
  policy_canonical m; unfold Rn_shear_rupture, net_width; split; qty_field.
Qed.

Lemma connected_elem_tensile_rupture_str_canonical (m : string) (d : Q) (n : Z)
    (U t1 l1 u1 t2 l2 u2 : Q) :
  res_rel qty_eq2
    (connected_elem_tensile_rupture_str m (qty d inch) n U
       (qty t1 inch) (qty l1 inch) (qty u1 ksi)
       (qty t2 inch) (qty l2 inch) (qty u2 ksi))
    (governing2 m ElementTensileRupture (Rn_tensile_rupture d n U t1 l1 u1)
                (Rn_tensile_rupture d n U t2 l2 u2)).
Proof.
  policy_canonical m; unfold Rn_tensile_rupture, net_width; split; qty_field.
Qed.

(** ** Refinement *)

(** C10. [connected_elem_shear_yield_str] returns, per part and in kip, the
    policy (1.50, 1.00) applied to [0.60 f_y (t l)], whatever the units of
    its inputs. *)
Theorem connected_elem_shear_yield_str_refines (m : string)
    (t1 l1 y1 t2 l2 y2 : Quantity Q) :
  is_length t1 -> is_length l1 -> is_stress y1 ->
  is_length t2 -> is_length l2 -> is_stress y2 ->
  res_rel qty_eq2
    (connected_elem_shear_yield_str m t1 l1 y1 t2 l2 y2)
    (governing2 m ElementShearYield
       (Rn_shear_yield (canon t1) (canon l1) (canon y1))
       (Rn_shear_yield (canon t2) (canon l2) (canon y2))).
Proof.
  intros. canon_inputs. apply connected_elem_shear_yield_str_canonical.
Qed.

Lemma connected_elem_shear_yield_str_refines_witness :
  res_rel qty_eq2
    (connected_elem_shear_yield_str "ASD" (qty 0.5 inch) (qty 1 foot) (qty 36 ksi)
       (qty 9.525 millimeter) (qty 12 inch) (qty 50000 psi))
    (governing2 "ASD" ElementShearYield
       (Rn_shear_yield (canon (qty 0.5 inch)) (canon (qty 1 foot)) (canon (qty 36 ksi)))
       (Rn_shear_yield (canon (qty 9.525 millimeter)) (canon (qty 12 inch))
          (canon (qty 50000 psi)))).
Proof. apply connected_elem_shear_yield_str_refines; reflexivity. Defined.

(** C4. [connected_elem_shear_rupture_str] returns, per part, the policy
    (2.00, 0.75) applied to [0.60 f_u t (l - (d + 0.063) n)]. *)
Theorem connected_elem_shear_rupture_str_refines (m : string)
    (d : Quantity Q) (n : Z) (t1 l1 u1 t2 l2 u2 : Quantity Q) :
  is_length d ->
  is_length t1 -> is_length l1 -> is_stress u1 ->
  is_length t2 -> is_length l2 -> is_stress u2 ->
  res_rel qty_eq2
    (connected_elem_shear_rupture_str m d n t1 l1 u1 t2 l2 u2)
    (governing2 m ElementShearRupture
       (Rn_shear_rupture (canon d) n (canon t1) (canon l1) (canon u1))
       (Rn_shear_rupture (canon d) n (canon t2) (canon l2) (canon u2))).
Proof.
  intros. canon_inputs. apply connected_elem_shear_rupture_str_canonical.
Qed.

Lemma connected_elem_shear_rupture_str_refines_witness :
  res_rel qty_eq2
    (connected_elem_shear_rupture_str "LRFD" (qty 19.05 millimeter) 3
       (qty 0.5 inch) (qty 9 inch) (qty 58 ksi)
       (qty 0.375 inch) (qty 0.75 foot) (qty 65 ksi))
    (governing2 "LRFD" ElementShearRupture
       (Rn_shear_rupture (canon (qty 19.05 millimeter)) 3 (canon (qty 0.5 inch))
          (canon (qty 9 inch)) (canon (qty 58 ksi)))
       (Rn_shear_rupture (canon (qty 19.05 millimeter)) 3 (canon (qty 0.375 inch))
          (canon (qty 0.75 foot)) (canon (qty 65 ksi)))).
Proof. apply connected_elem_shear_rupture_str_refines; reflexivity. Defined.

(** C11. [connected_elem_tensile_yield_str] returns, per part, the policy
    (1.67, 0.90) applied to [f_y (t l)], with no 0.60 factor. *)
Theorem connected_elem_tensile_yield_str_refines (m : string)
    (t1 l1 y1 t2 l2 y2 : Quantity Q) :
  is_length t1 -> is_length l1 -> is_stress y1 ->
  is_length t2 -> is_length l2 -> is_stress y2 ->
  res_rel qty_eq2
    (connected_elem_tensile_yield_str m t1 l1 y1 t2 l2 y2)
    (governing2 m ElementTensileYield
       (Rn_tensile_yield (canon t1) (canon l1) (canon y1))
       (Rn_tensile_yield (canon t2) (canon l2) (canon y2))).
Proof.
  intros. canon_inputs. apply connected_elem_tensile_yield_str_canonical.
Qed.

Lemma connected_elem_tensile_yield_str_refines_witness :
  res_rel qty_eq2
    (connected_elem_tensile_yield_str "LRFD" (qty 0.5 inch) (qty 6 inch) (qty 36 ksi)
       (qty 12.7 millimeter) (qty 0.5 foot) (qty 248.2 megapascal))
    (governing2 "LRFD" ElementTensileYield
       (Rn_tensile_yield (canon (qty 0.5 inch)) (canon (qty 6 inch)) (canon (qty 36 ksi)))
       (Rn_tensile_yield (canon (qty 12.7 millimeter)) (canon (qty 0.5 foot))
          (canon (qty 248.2 megapascal)))).
Proof. apply connected_elem_tensile_yield_str_refines; reflexivity. Defined.

(** C5. [connected_elem_tensile_rupture_str] returns, per part, the policy
    (2.00, 0.75) applied to [f_u t (l - (d + 0.063) n) U], for the shear-lag
    factor [U] the caller supplies. *)
Theorem connected_elem_tensile_rupture_str_refines (m : string)
    (d : Quantity Q) (n : Z) (U : Q) (t1 l1 u1 t2 l2 u2 : Quantity Q) :
  is_length d ->
  is_length t1 -> is_length l1 -> is_stress u1 ->
  is_length t2 -> is_length l2 -> is_stress u2 ->
  res_rel qty_eq2
    (connected_elem_tensile_rupture_str m d n U t1 l1 u1 t2 l2 u2)
    (governing2 m ElementTensileRupture
       (Rn_tensile_rupture (canon d) n U (canon t1) (canon l1) (canon u1))
       (Rn_tensile_rupture (canon d) n U (canon t2) (canon l2) (canon u2))).
Proof.
  intros. canon_inputs. apply connected_elem_tensile_rupture_str_canonical.
Qed.

Lemma connected_elem_tensile_rupture_str_refines_witness :
  res_rel qty_eq2
    (connected_elem_tensile_rupture_str "ASD" (qty 0.75 inch) 2 0.85
       (qty 0.5 inch) (qty 6 inch) (qty 58 ksi)
       (qty 12.7 millimeter) (qty 152.4 millimeter) (qty 65 ksi))
    (governing2 "ASD" ElementTensileRupture
       (Rn_tensile_rupture (canon (qty 0.75 inch)) 2 0.85 (canon (qty 0.5 inch))
          (canon (qty 6 inch)) (canon (qty 58 ksi)))
       (Rn_tensile_rupture (canon (qty 0.75 inch)) 2 0.85
          (canon (qty 12.7 millimeter)) (canon (qty 152.4 millimeter))
          (canon (qty 65 ksi)))).
Proof. apply connected_elem_tensile_rupture_str_refines; reflexivity. Defined.

(** ** Outcomes, in any arithmetic *)

Section Outcomes.
Context {F : Type} `{Number F}.

(** Whatever the number system, the yield calculators succeed exactly on
    well-dimensioned inputs and a valid selector, with two forces in kip; a
    wrong dimension raises [DimensionalityError] before the selector is
    looked at. *)
Theorem connected_elem_shear_yield_str_outcome (m : string)
    (t1 l1 y1 t2 l2 y2 : Quantity F) :
  match connected_elem_shear_yield_str m t1 l1 y1 t2 l2 y2 with
  | Ok (r1, r2) => yield_inputs_ok t1 l1 y1 t2 l2 y2 /\ parse_method m <> None /\
                   units r1 = kip /\ units r2 = kip
  | Err e => (e = DimensionalityError /\ ~ yield_inputs_ok t1 l1 y1 t2 l2 y2) \/
             (e = invalid_design_method /\ yield_inputs_ok t1 l1 y1 t2 l2 y2 /\
              parse_method m = None)
  end.
Proof.
  unfold connected_elem_shear_yield_str, yield_inputs_ok.
  norm_input t1 "inch"; [|left; tauto].
  norm_input l1 "inch"; [|left; tauto].
  norm_input y1 "ksi"; [|left; tauto].
  norm_input t2 "inch"; [|left; tauto].
  norm_input l2 "inch"; [|left; tauto].
  norm_input y2 "ksi"; [|left; tauto].
  outcome_finish m.
Qed.

Lemma connected_elem_tensile_yield_str_outcome (m : string)
    (t1 l1 y1 t2 l2 y2 : Quantity F) :
  match connected_elem_tensile_yield_str m t1 l1 y1 t2 l2 y2 with
  | Ok (r1, r2) => yield_inputs_ok t1 l1 y1 t2 l2 y2 /\ parse_method m <> None /\
                   units r1 = kip /\ units r2 = kip
  | Err e => (e = DimensionalityError /\ ~ yield_inputs_ok t1 l1 y1 t2 l2 y2) \/
             (e = invalid_design_method /\ yield_inputs_ok t1 l1 y1 t2 l2 y2 /\
              parse_method m = None)
  end.
Proof.
  unfold connected_elem_tensile_yield_str, yield_inputs_ok.
  norm_input t1 "inch"; [|left; tauto].
  norm_input l1 "inch"; [|left; tauto].
  norm_input y1 "ksi"; [|left; tauto].
  norm_input t2 "inch"; [|left; tauto].
  norm_input l2 "inch"; [|left; tauto].
  norm_input y2 "ksi"; [|left; tauto].
  outcome_finish m.
Qed.

(** C30. The rupture calculators succeed exactly on well-dimensioned inputs,
    a bolt count that converts to a float and a valid selector: a count that
    leaves no net width is not an error.  A wrong dimension raises
    [DimensionalityError] first, a bolt count too large for a float raises
    [OverflowError] next (never on rationals, from [2^1024 - 2^970] on
    doubles), and the selector is looked at last. *)
Theorem connected_elem_shear_rupture_str_outcome (m : string)
    (d : Quantity F) (n : Z) (t1 l1 u1 t2 l2 u2 : Quantity F) :
  match connected_elem_shear_rupture_str m d n t1 l1 u1 t2 l2 u2 with
  | Ok (r1, r2) => rupture_inputs_ok d t1 l1 u1 t2 l2 u2 /\
                   of_Z_overflows n = false /\ parse_method m <> None /\
                   units r1 = kip /\ units r2 = kip
  | Err e => (e = DimensionalityError /\ ~ rupture_inputs_ok d t1 l1 u1 t2 l2 u2) \/
             (e = OverflowError /\ rupture_inputs_ok d t1 l1 u1 t2 l2 u2 /\
              of_Z_overflows n = true) \/
             (e = invalid_design_method /\ rupture_inputs_ok d t1 l1 u1 t2 l2 u2 /\
              of_Z_overflows n = false /\ parse_method m = None)
  end.
Proof.
  unfold connected_elem_shear_rupture_str, rupture_inputs_ok, yield_inputs_ok.
  norm_input d "inch"; [|left; tauto].
  norm_input t1 "inch"; [|left; tauto].
  norm_input l1 "inch"; [|left; tauto].
  norm_input u1 "ksi"; [|left; tauto].
  norm_input t2 "inch"; [|left; tauto].
  norm_input l2 "inch"; [|left; tauto].
  norm_input u2 "ksi"; [|left; tauto].
  res_simpl. rewrite !muli_outcome.
  destruct (of_Z_overflows n); cbn [bind]; [right; left; tauto|].
  unfold muls. cbn [magnitude units]. res_simpl.
  outcome_finish m.
Qed.

Lemma connected_elem_tensile_rupture_str_outcome (m : string)
    (d : Quantity F) (n : Z) (U : F) (t1 l1 u1 t2 l2 u2 : Quantity F) :
  match connected_elem_tensile_rupture_str m d n U t1 l1 u1 t2 l2 u2 with
  | Ok (r1, r2) => rupture_inputs_ok d t1 l1 u1 t2 l2 u2 /\
                   of_Z_overflows n = false /\ parse_method m <> None /\
                   units r1 = kip /\ units r2 = kip
  | Err e => (e = DimensionalityError /\ ~ rupture_inputs_ok d t1 l1 u1 t2 l2 u2) \/
             (e = OverflowError /\ rupture_inputs_ok d t1 l1 u1 t2 l2 u2 /\
              of_Z_overflows n = true) \/
             (e = invalid_design_method /\ rupture_inputs_ok d t1 l1 u1 t2 l2 u2 /\
              of_Z_overflows n = false /\ parse_method m = None)
  end.
Proof.
  unfold connected_elem_tensile_rupture_str, rupture_inputs_ok, yield_inputs_ok.
  norm_input d "inch"; [|left; tauto].
  norm_input t1 "inch"; [|left; tauto].
  norm_input l1 "inch"; [|left; tauto].
  norm_input u1 "ksi"; [|left; tauto].
  norm_input t2 "inch"; [|left; tauto].
  norm_input l2 "inch"; [|left; tauto].
  norm_input u2 "ksi"; [|left; tauto].
  res_simpl. rewrite !muli_outcome.
  destruct (of_Z_overflows n); cbn [bind]; [right; left; tauto|].
  unfold muls. cbn [magnitude units]. res_simpl.
  outcome_finish m.
Qed.

End Outcomes.

(** ** Facts of the nominal strengths *)

Lemma net_width_le (len dia : Q) (n : Z) :
  0 <= dia -> (0 <= n)%Z -> net_width len dia n <= len.
Proof.
  intros Hd Hn. unfold net_width.
  assert (0 <= inject_Z n) by (change 0 with (inject_Z 0); now rewrite <- Zle_Qle).
  nra.
Qed.

Lemma net_width_antitone (len dia : Q) (n n' : Z) :
  0 <= dia -> (n <= n')%Z -> net_width len dia n' <= net_width len dia n.
Proof.
  intros Hd Hn. unfold net_width. rewrite Zle_Qle in Hn. nra.
Qed.

Lemma net_width_zero_bolts (len dia : Q) : net_width len dia 0 == len.
Proof. unfold net_width. simpl. ring. Qed.

Lemma Rn_shear_rupture_tensile (dia : Q) (n : Z) (t len f_u : Q) :
  Rn_shear_rupture dia n t len f_u == 0.6 * Rn_tensile_rupture dia n 1 t len f_u.
Proof. unfold Rn_shear_rupture, Rn_tensile_rupture. ring. Qed.

Lemma Rn_shear_yield_tensile (t len f_y : Q) :
  Rn_shear_yield t len f_y == 0.6 * Rn_tensile_yield t len f_y.
Proof. unfold Rn_shear_yield, Rn_tensile_yield. ring. Qed.

Lemma Rn_tensile_rupture_shear_lag (dia : Q) (n : Z) (U t len f_u : Q) :
  Rn_tensile_rupture dia n U t len f_u == U * Rn_tensile_rupture dia n 1 t len f_u.
Proof. unfold Rn_tensile_rupture. ring. Qed.

Lemma Rn_shear_rupture_nonpos (dia : Q) (n : Z) (t len f_u : Q) :
  net_width len dia n <= 0 -> 0 <= t -> 0 <= f_u ->
  Rn_shear_rupture dia n t len f_u <= 0.
Proof.
  intros Hw Ht Hf. unfold Rn_shear_rupture.
  assert (0 <= f_u * t) by nra. nra.
Qed.

Lemma Rn_shear_rupture_antitone (dia : Q) (n n' : Z) (t len f_u : Q) :
  0 <= dia -> 0 <= t -> 0 <= f_u -> (n <= n')%Z ->
  Rn_shear_rupture dia n' t len f_u <= Rn_shear_rupture dia n t len f_u.
Proof.
  intros Hd Ht Hf Hn. unfold Rn_shear_rupture.
  pose proof (net_width_antitone len dia n n' Hd Hn).
  assert (0 <= f_u * t) by nra. nra.
Qed.

Lemma Rn_shear_rupture_le_yield (dia : Q) (n : Z) (t len f_u : Q) :
  0 <= dia -> (0 <= n)%Z -> 0 <= t -> 0 <= f_u ->
  Rn_shear_rupture dia n t len f_u <= Rn_shear_yield t len f_u.
Proof.
  intros Hd Hn Ht Hf. unfold Rn_shear_rupture, Rn_shear_yield.
  pose proof (net_width_le len dia n Hd Hn).
  assert (0 <= f_u * t) by nra. nra.
Qed.

(** ** What the calculators return under a valid method *)

Lemma connected_elem_shear_yield_str_returns (s : string) (m : DesignMethod)
    (t1 l1 y1 t2 l2 y2 : Quantity Q) :
  yield_inputs_ok t1 l1 y1 t2 l2 y2 -> parse_method s = Some m ->
  exists r1 r2, connected_elem_shear_yield_str s t1 l1 y1 t2 l2 y2 = Ok (r1, r2) /\
    (magnitude r1 == apply_factor m ElementShearYield
                       (Rn_shear_yield (canon t1) (canon l1) (canon y1)) /\
     units r1 = kip) /\
    (magnitude r2 == apply_factor m ElementShearYield
                       (Rn_shear_yield (canon t2) (canon l2) (canon y2)) /\
     units r2 = kip).
Proof.
  intros (Ht1 & Hl1 & Hy1 & Ht2 & Hl2 & Hy2) Hm.
  eapply governing2_returns; [|exact Hm].
  canon_inputs. apply connected_elem_shear_yield_str_canonical.
Qed.

Lemma connected_elem_tensile_yield_str_returns (s : string) (m : DesignMethod)
    (t1 l1 y1 t2 l2 y2 : Quantity Q) :
  yield_inputs_ok t1 l1 y1 t2 l2 y2 -> parse_method s = Some m ->
  exists r1 r2, connected_elem_tensile_yield_str s t1 l1 y1 t2 l2 y2 = Ok (r1, r2) /\
    (magnitude r1 == apply_factor m ElementTensileYield
                       (Rn_tensile_yield (canon t1) (canon l1) (canon y1)) /\
     units r1 = kip) /\
    (magnitude r2 == apply_factor m ElementTensileYield
                       (Rn_tensile_yield (canon t2) (canon l2) (canon y2)) /\
     units r2 = kip).
Proof.
  intros (Ht1 & Hl1 & Hy1 & Ht2 & Hl2 & Hy2) Hm.
  eapply governing2_returns; [|exact Hm].
  canon_inputs. apply connected_elem_tensile_yield_str_canonical.
Qed.

Lemma connected_elem_shear_rupture_str_returns (s : string) (m : DesignMethod)
    (d : Quantity Q) (n : Z) (t1 l1 u1 t2 l2 u2 : Quantity Q) :
  rupture_inputs_ok d t1 l1 u1 t2 l2 u2 -> parse_method s = Some m ->
  exists r1 r2,
    connected_elem_shear_rupture_str s d n t1 l1 u1 t2 l2 u2 = Ok (r1, r2) /\
    (magnitude r1 == apply_factor m ElementShearRupture
                       (Rn_shear_rupture (canon d) n (canon t1) (canon l1) (canon u1)) /\
     units r1 = kip) /\
    (magnitude r2 == apply_factor m ElementShearRupture
                       (Rn_shear_rupture (canon d) n (canon t2) (canon l2) (canon u2)) /\
     units r2 = kip).
Proof.
  intros (Hd & Ht1 & Hl1 & Hu1 & Ht2 & Hl2 & Hu2) Hm.
  eapply governing2_returns; [|exact Hm].
  canon_inputs. apply connected_elem_shear_rupture_str_canonical.
Qed.

Lemma connected_elem_tensile_rupture_str_returns (s : string) (m : DesignMethod)
    (d : Quantity Q) (n : Z) (U : Q) (t1 l1 u1 t2 l2 u2 : Quantity Q) :
  rupture_inputs_ok d t1 l1 u1 t2 l2 u2 -> parse_method s = Some m ->
  exists r1 r2,
    connected_elem_tensile_rupture_str s d n U t1 l1 u1 t2 l2 u2 = Ok (r1, r2) /\
    (magnitude r1 == apply_factor m ElementTensileRupture
                       (Rn_tensile_rupture (canon d) n U (canon t1) (canon l1) (canon u1)) /\
     units r1 = kip) /\
    (magnitude r2 == apply_factor m ElementTensileRupture
                       (Rn_tensile_rupture (canon d) n U (canon t2) (canon l2) (canon u2)) /\
     units r2 = kip).
Proof.
  intros (Hd & Ht1 & Hl1 & Hu1 & Ht2 & Hl2 & Hu2) Hm.
  eapply governing2_returns; [|exact Hm].
  canon_inputs. apply connected_elem_tensile_rupture_str_canonical.
Qed.

(** ** Properties of the calculators *)

(** C33. Unit invariance of the shear rupture strength. *)
Theorem connected_elem_shear_rupture_str_unit_invariant (m : string) (n : Z)
    (d d' t1 t1' l1 l1' u1 u1' t2 t2' l2 l2' u2 u2' : Quantity Q) :
  phys_eq d d' -> phys_eq t1 t1' -> phys_eq l1 l1' -> phys_eq u1 u1' ->
  phys_eq t2 t2' -> phys_eq l2 l2' -> phys_eq u2 u2' ->
  res_rel qty_eq2 (connected_elem_shear_rupture_str m d n t1 l1 u1 t2 l2 u2)
                  (connected_elem_shear_rupture_str m d' n t1' l1' u1' t2' l2' u2').
Proof. intros. now apply connected_elem_shear_rupture_str_Proper. Qed.

Lemma connected_elem_shear_rupture_str_unit_invariant_witness :
  res_rel qty_eq2
    (connected_elem_shear_rupture_str "ASD" (qty 0.75 inch) 3
       (qty 0.5 inch) (qty 9 inch) (qty 58 ksi)
       (qty 0.375 inch) (qty 9 inch) (qty 65 ksi))
    (connected_elem_shear_rupture_str "ASD" (qty 19.05 millimeter) 3
       (qty 12.7 millimeter) (qty 0.75 foot) (qty 58000 psi)
       (qty 9.525 millimeter) (qty 228.6 millimeter) (qty 65 ksi)).
Proof.
  apply connected_elem_shear_rupture_str_unit_invariant; split; reflexivity.
Defined.

(** C40. A bolt count that leaves no net width gives a non-positive shear
    rupture strength: the calculator returns it without an error. *)
Theorem connected_elem_shear_rupture_str_nonpositive (s : string)
    (m : DesignMethod) (d : Quantity Q) (n : Z) (t1 l1 u1 t2 l2 u2 : Quantity Q) :
  rupture_inputs_ok d t1 l1 u1 t2 l2 u2 -> parse_method s = Some m ->
  canon l1 <= (canon d + 0.063) * inject_Z n -> 0 <= canon t1 -> 0 <= canon u1 ->
  exists r1 r2,
    connected_elem_shear_rupture_str s d n t1 l1 u1 t2 l2 u2 = Ok (r1, r2) /\
    magnitude r1 <= 0.
Proof.
  intros Hok Hm Hw Ht Hu.
  destruct (connected_elem_shear_rupture_str_returns s m d n _ _ _ _ _ _ Hok Hm)
    as (r1 & r2 & E & [H1 _] & _).
  exists r1, r2. split; [exact E|]. rewrite H1.
  apply apply_factor_nonpos, Rn_shear_rupture_nonpos; try assumption.
  unfold net_width. lra.
Qed.

Lemma connected_elem_shear_rupture_str_nonpositive_witness :
  exists r1 r2,
    connected_elem_shear_rupture_str "LRFD" (qty 0.75 inch) 12
      (qty 0.5 inch) (qty 9 inch) (qty 58 ksi)
      (qty 0.375 inch) (qty 12 inch) (qty 65 ksi) = Ok (r1, r2) /\
    magnitude r1 <= 0.
Proof.
  apply (connected_elem_shear_rupture_str_nonpositive "LRFD" LRFD);
    [ repeat split | reflexivity | discriminate | discriminate | discriminate ].
Defined.

(** Every further bolt lowers the shear rupture strength of a part (or
    leaves it unchanged). *)
Theorem connected_elem_shear_rupture_str_antitone (s : string) (m : DesignMethod)
    (d : Quantity Q) (n n' : Z) (t1 l1 u1 t2 l2 u2 : Quantity Q) :
  rupture_inputs_ok d t1 l1 u1 t2 l2 u2 -> parse_method s = Some m ->
  0 <= canon d -> 0 <= canon t1 -> 0 <= canon u1 -> (n <= n')%Z ->
  exists r1 r2 r1' r2',
    connected_elem_shear_rupture_str s d n t1 l1 u1 t2 l2 u2 = Ok (r1, r2) /\
    connected_elem_shear_rupture_str s d n' t1 l1 u1 t2 l2 u2 = Ok (r1', r2') /\
    magnitude r1' <= magnitude r1.
Proof.
  intros Hok Hm Hd Ht Hu Hn.
  destruct (connected_elem_shear_rupture_str_returns s m d n _ _ _ _ _ _ Hok Hm)
    as (r1 & r2 & E & [H1 _] & _).
  destruct (connected_elem_shear_rupture_str_returns s m d n' _ _ _ _ _ _ Hok Hm)
    as (r1' & r2' & E' & [H1' _] & _).
  exists r1, r2, r1', r2'. repeat split; try assumption.
  rewrite H1, H1'. now apply apply_factor_mono, Rn_shear_rupture_antitone.
Qed.

Lemma connected_elem_shear_rupture_str_antitone_witness :
  exists r1 r2 r1' r2',
    connected_elem_shear_rupture_str "ASD" (qty 0.75 inch) 2
      (qty 0.5 inch) (qty 9 inch) (qty 58 ksi)
      (qty 0.375 inch) (qty 12 inch) (qty 65 ksi) = Ok (r1, r2) /\
    connected_elem_shear_rupture_str "ASD" (qty 0.75 inch) 4
      (qty 0.5 inch) (qty 9 inch) (qty 58 ksi)
      (qty 0.375 inch) (qty 12 inch) (qty 65 ksi) = Ok (r1', r2') /\
    magnitude r1' <= magnitude r1.
Proof.
  apply (connected_elem_shear_rupture_str_antitone "ASD" ASD);
    [ repeat split | reflexivity | discriminate | discriminate | discriminate
    | discriminate ].
Defined.

(** With a shear-lag factor of one, the shear rupture strength is six
    tenths of the tensile rupture strength. *)
Theorem shear_rupture_is_six_tenths_of_tensile_rupture (s : string)
    (m : DesignMethod) (d : Quantity Q) (n : Z) (t1 l1 u1 t2 l2 u2 : Quantity Q) :
  rupture_inputs_ok d t1 l1 u1 t2 l2 u2 -> parse_method s = Some m ->
  exists v1 v2 w1 w2,
    connected_elem_shear_rupture_str s d n t1 l1 u1 t2 l2 u2 = Ok (v1, v2) /\
    connected_elem_tensile_rupture_str s d n 1 t1 l1 u1 t2 l2 u2 = Ok (w1, w2) /\
    magnitude v1 == 0.6 * magnitude w1 /\ magnitude v2 == 0.6 * magnitude w2.
Proof.
  intros Hok Hm.
  destruct (connected_elem_shear_rupture_str_returns s m d n _ _ _ _ _ _ Hok Hm)
    as (v1 & v2 & Ev & [Hv1 _] & [Hv2 _]).
  destruct (connected_elem_tensile_rupture_str_returns s m d n 1 _ _ _ _ _ _ Hok Hm)
    as (w1 & w2 & Ew & [Hw1 _] & [Hw2 _]).
  exists v1, v2, w1, w2. repeat split; try assumption.
  - rewrite Hv1, Hw1, Rn_shear_rupture_tensile, apply_factor_scale.
    destruct m; reflexivity.
  - rewrite Hv2, Hw2, Rn_shear_rupture_tensile, apply_factor_scale.
    destruct m; reflexivity.
Qed.

Lemma shear_rupture_is_six_tenths_of_tensile_rupture_witness :
  exists v1 v2 w1 w2,
    connected_elem_shear_rupture_str "LRFD" (qty 0.75 inch) 3
      (qty 0.5 inch) (qty 9 inch) (qty 58 ksi)
      (qty 0.375 inch) (qty 12 inch) (qty 65 ksi) = Ok (v1, v2) /\
    connected_elem_tensile_rupture_str "LRFD" (qty 0.75 inch) 3 1
      (qty 0.5 inch) (qty 9 inch) (qty 58 ksi)
      (qty 0.375 inch) (qty 12 inch) (qty 65 ksi) = Ok (w1, w2) /\
    magnitude v1 == 0.6 * magnitude w1 /\ magnitude v2 == 0.6 * magnitude w2.
Proof.
  apply (shear_rupture_is_six_tenths_of_tensile_rupture "LRFD" LRFD);
    [ repeat split | reflexivity ].
Defined.

(** The tensile rupture strength is linear in the shear-lag factor: it is
    the factor times the strength at a factor of one. *)
Theorem connected_elem_tensile_rupture_str_shear_lag (s : string)
    (m : DesignMethod) (d : Quantity Q) (n : Z) (U : Q)
    (t1 l1 u1 t2 l2 u2 : Quantity Q) :
  rupture_inputs_ok d t1 l1 u1 t2 l2 u2 -> parse_method s = Some m ->
  exists r1 r2 w1 w2,
    connected_elem_tensile_rupture_str s d n U t1 l1 u1 t2 l2 u2 = Ok (r1, r2) /\
    connected_elem_tensile_rupture_str s d n 1 t1 l1 u1 t2 l2 u2 = Ok (w1, w2) /\
    magnitude r1 == U * magnitude w1 /\ magnitude r2 == U * magnitude w2.
Proof.
  intros Hok Hm.
  destruct (connected_elem_tensile_rupture_str_returns s m d n U _ _ _ _ _ _ Hok Hm)
    as (r1 & r2 & Er & [Hr1 _] & [Hr2 _]).
  destruct (connected_elem_tensile_rupture_str_returns s m d n 1 _ _ _ _ _ _ Hok Hm)
    as (w1 & w2 & Ew & [Hw1 _] & [Hw2 _]).
  exists r1, r2, w1, w2. repeat split; try assumption.
  - now rewrite Hr1, Hw1, Rn_tensile_rupture_shear_lag, apply_factor_scale.
  - now rewrite Hr2, Hw2, Rn_tensile_rupture_shear_lag, apply_factor_scale.
Qed.

Lemma connected_elem_tensile_rupture_str_shear_lag_witness :
  exists r1 r2 w1 w2,
    connected_elem_tensile_rupture_str "ASD" (qty 0.75 inch) 2 0.85
      (qty 0.5 inch) (qty 6 inch) (qty 58 ksi)
      (qty 0.375 inch) (qty 6 inch) (qty 65 ksi) = Ok (r1, r2) /\
    connected_elem_tensile_rupture_str "ASD" (qty 0.75 inch) 2 1
      (qty 0.5 inch) (qty 6 inch) (qty 58 ksi)
      (qty 0.375 inch) (qty 6 inch) (qty 65 ksi) = Ok (w1, w2) /\
    magnitude r1 == 0.85 * magnitude w1 /\ magnitude r2 == 0.85 * magnitude w2.
Proof.
  apply (connected_elem_tensile_rupture_str_shear_lag "ASD" ASD);
    [ repeat split | reflexivity ].
Defined.

(** For non-negative geometry and strength, the shear yield strength of a
    part does not exceed its tensile yield strength, under either method:
    0.60/1.50 against 1/1.67 under ASD, 0.60 against 0.90 under LRFD. *)
Theorem shear_yield_le_tensile_yield (s : string) (m : DesignMethod)
    (t1 l1 y1 t2 l2 y2 : Quantity Q) :
  yield_inputs_ok t1 l1 y1 t2 l2 y2 -> parse_method s = Some m ->
  0 <= canon t1 -> 0 <= canon l1 -> 0 <= canon y1 ->
  exists v1 v2 w1 w2,
    connected_elem_shear_yield_str s t1 l1 y1 t2 l2 y2 = Ok (v1, v2) /\
    connected_elem_tensile_yield_str s t1 l1 y1 t2 l2 y2 = Ok (w1, w2) /\
    magnitude v1 <= magnitude w1.
Proof.
  intros Hok Hm Ht Hl Hy.
  destruct (connected_elem_shear_yield_str_returns s m _ _ _ _ _ _ Hok Hm)
    as (v1 & v2 & Ev & [Hv1 _] & _).
  destruct (connected_elem_tensile_yield_str_returns s m _ _ _ _ _ _ Hok Hm)
    as (w1 & w2 & Ew & [Hw1 _] & _).
  exists v1, v2, w1, w2. repeat split; try assumption.
  rewrite Hv1, Hw1, Rn_shear_yield_tensile.
  assert (0 <= Rn_tensile_yield (canon t1) (canon l1) (canon y1)).
  { unfold Rn_tensile_yield. assert (0 <= canon t1 * canon l1) by nra. nra. }
  destruct m; cbn [apply_factor asd_factor lrfd_factor]; q_inv_consts; lra.
Qed.

Lemma shear_yield_le_tensile_yield_witness :
  exists v1 v2 w1 w2,
    connected_elem_shear_yield_str "ASD" (qty 0.5 inch) (qty 9 inch) (qty 36 ksi)
      (qty 0.375 inch) (qty 12 inch) (qty 50 ksi) = Ok (v1, v2) /\
    connected_elem_tensile_yield_str "ASD" (qty 0.5 inch) (qty 9 inch) (qty 36 ksi)
      (qty 0.375 inch) (qty 12 inch) (qty 50 ksi) = Ok (w1, w2) /\
    magnitude v1 <= magnitude w1.
Proof.
  apply (shear_yield_le_tensile_yield "ASD" ASD);
    [ repeat split | reflexivity | discriminate | discriminate | discriminate ].
Defined.

(** Under LRFD the tensile yield strength is 1.503 times the ASD one
    (0.90 times 1.67): the only limit state whose two methods are not in
    the ratio one and a half. *)
Theorem tensile_yield_LRFD_ASD_ratio (t1 l1 y1 t2 l2 y2 : Quantity Q) :
  yield_inputs_ok t1 l1 y1 t2 l2 y2 ->
  exists a1 a2 b1 b2,
    connected_elem_tensile_yield_str "ASD" t1 l1 y1 t2 l2 y2 = Ok (a1, a2) /\
    connected_elem_tensile_yield_str "LRFD" t1 l1 y1 t2 l2 y2 = Ok (b1, b2) /\
    magnitude b1 == 1.503 * magnitude a1 /\ magnitude b2 == 1.503 * magnitude a2.
Proof.
  intros Hok.
  destruct (connected_elem_tensile_yield_str_returns _ _ _ _ _ _ _ _ Hok parse_method_ASD)
    as (a1 & a2 & Ea & [Ha1 _] & [Ha2 _]).
  destruct (connected_elem_tensile_yield_str_returns _ _ _ _ _ _ _ _ Hok parse_method_LRFD)
    as (b1 & b2 & Eb & [Hb1 _] & [Hb2 _]).
  exists a1, a2, b1, b2. repeat split; try assumption.
  - now rewrite Hb1, Ha1, apply_factor_LRFD_ASD, factor_product.
  - now rewrite Hb2, Ha2, apply_factor_LRFD_ASD, factor_product.
Qed.

Lemma tensile_yield_LRFD_ASD_ratio_witness :
  exists a1 a2 b1 b2,
    connected_elem_tensile_yield_str "ASD" (qty 0.5 inch) (qty 6 inch) (qty 36 ksi)
      (qty 0.375 inch) (qty 6 inch) (qty 50 ksi) = Ok (a1, a2) /\
    connected_elem_tensile_yield_str "LRFD" (qty 0.5 inch) (qty 6 inch) (qty 36 ksi)
      (qty 0.375 inch) (qty 6 inch) (qty 50 ksi) = Ok (b1, b2) /\
    magnitude b1 == 1.503 * magnitude a1 /\ magnitude b2 == 1.503 * magnitude a2.
Proof. apply tensile_yield_LRFD_ASD_ratio; repeat split. Defined.

(** ** The two parts, in any arithmetic *)

Section Parts.
Context {F : Type} `{Number F}.

(** The two parts of [connected_elem_shear_rupture_str] play the same
    role: exchanging them exchanges the two results, and raises the same
    error when there is one. *)
Theorem connected_elem_shear_rupture_str_swap (m : string)
    (d : Quantity F) (n : Z) (t1 l1 u1 t2 l2 u2 : Quantity F) :
  connected_elem_shear_rupture_str m d n t2 l2 u2 t1 l1 u1
  = (' (r1, r2) <- connected_elem_shear_rupture_str m d n t1 l1 u1 t2 l2 u2 ;;
     ret (r2, r1)).
Proof. unfold connected_elem_shear_rupture_str. swap_parts m. Qed.

Theorem connected_elem_tensile_rupture_str_swap (m : string)
    (d : Quantity F) (n : Z) (U : F) (t1 l1 u1 t2 l2 u2 : Quantity F) :
  connected_elem_tensile_rupture_str m d n U t2 l2 u2 t1 l1 u1
  = (' (r1, r2) <- connected_elem_tensile_rupture_str m d n U t1 l1 u1 t2 l2 u2 ;;
     ret (r2, r1)).
Proof. unfold connected_elem_tensile_rupture_str. swap_parts m. Qed.

Theorem connected_elem_shear_yield_str_swap (m : string)
    (t1 l1 y1 t2 l2 y2 : Quantity F) :
  connected_elem_shear_yield_str m t2 l2 y2 t1 l1 y1
  = (' (r1, r2) <- connected_elem_shear_yield_str m t1 l1 y1 t2 l2 y2 ;;
     ret (r2, r1)).
Proof. unfold connected_elem_shear_yield_str. swap_parts m. Qed.

Theorem connected_elem_tensile_yield_str_swap (m : string)
    (t1 l1 y1 t2 l2 y2 : Quantity F) :
  connected_elem_tensile_yield_str m t2 l2 y2 t1 l1 y1
  = (' (r1, r2) <- connected_elem_tensile_yield_str m t1 l1 y1 t2 l2 y2 ;;
     ret (r2, r1)).
Proof. unfold connected_elem_tensile_yield_str. swap_parts m. Qed.

End Parts.

(** ** The calculators keep the contract of [Contract.v] *)

(** The inputs of the yield and of the rupture calculators, as tuples. *)
Definition YieldInputs : Type :=
  Quantity Q * Quantity Q * Quantity Q * Quantity Q * Quantity Q * Quantity Q.

Definition RuptureInputs : Type :=
  Quantity Q * Z * Quantity Q * Quantity Q * Quantity Q
  * Quantity Q * Quantity Q * Quantity Q.

Definition shear_yield_calc (m : string) (i : YieldInputs)
  : result (Quantity Q * Quantity Q) :=
  let '(t1, l1, y1, t2, l2, y2) := i in
  connected_elem_shear_yield_str m t1 l1 y1 t2 l2 y2.

Definition tensile_yield_calc (m : string) (i : YieldInputs)
  : result (Quantity Q * Quantity Q) :=
  let '(t1, l1, y1, t2, l2, y2) := i in
  connected_elem_tensile_yield_str m t1 l1 y1 t2 l2 y2.

Definition shear_rupture_calc (m : string) (i : RuptureInputs)
  : result (Quantity Q * Quantity Q) :=
  let '(d, n, t1, l1, u1, t2, l2, u2) := i in
  connected_elem_shear_rupture_str m d n t1 l1 u1 t2 l2 u2.

(** The shear-lag factor is a parameter of the calculator. *)
Definition tensile_rupture_calc (U : Q) (m : string) (i : RuptureInputs)
  : result (Quantity Q * Quantity Q) :=
  let '(d, n, t1, l1, u1, t2, l2, u2) := i in
  connected_elem_tensile_rupture_str m d n U t1 l1 u1 t2 l2 u2.

Definition yield_ok (i : YieldInputs) : Prop :=
  let '(t1, l1, y1, t2, l2, y2) := i in yield_inputs_ok t1 l1 y1 t2 l2 y2.

Definition rupture_ok (i : RuptureInputs) : Prop :=
  let '(d, n, t1, l1, u1, t2, l2, u2) := i in
  rupture_inputs_ok d t1 l1 u1 t2 l2 u2.

(** Instance search does not look inside the calculators. *)
#[global] Typeclasses Opaque shear_yield_calc tensile_yield_calc shear_rupture_calc tensile_rupture_calc.

Lemma shear_yield_calc_refines (m : string) (i : YieldInputs) :
  yield_ok i ->
  res_rel qty_eq2 (shear_yield_calc m i)
    (governing2 m ElementShearYield
       (let '(t1, l1, y1, _, _, _) := i in
        Rn_shear_yield (canon t1) (canon l1) (canon y1))
       (let '(_, _, _, t2, l2, y2) := i in
        Rn_shear_yield (canon t2) (canon l2) (canon y2))).
Proof.
  revert m i. unfold yield_ok, yield_inputs_ok.
  keeps_contract connected_elem_shear_yield_str_canonical.
Qed.

Lemma tensile_yield_calc_refines (m : string) (i : YieldInputs) :
  yield_ok i ->
  res_rel qty_eq2 (tensile_yield_calc m i)
    (governing2 m ElementTensileYield
       (let '(t1, l1, y1, _, _, _) := i in
        Rn_tensile_yield (canon t1) (canon l1) (canon y1))
       (let '(_, _, _, t2, l2, y2) := i in
        Rn_tensile_yield (canon t2) (canon l2) (canon y2))).
Proof.
  revert m i. unfold yield_ok, yield_inputs_ok.
  keeps_contract connected_elem_tensile_yield_str_canonical.
Qed.

Lemma shear_rupture_calc_refines (m : string) (i : RuptureInputs) :
  rupture_ok i ->
  res_rel qty_eq2 (shear_rupture_calc m i)
    (governing2 m ElementShearRupture
       (let '(d, n, t1, l1, u1, _, _, _) := i in
        Rn_shear_rupture (canon d) n (canon t1) (canon l1) (canon u1))
       (let '(d, n, _, _, _, t2, l2, u2) := i in
        Rn_shear_rupture (canon d) n (canon t2) (canon l2) (canon u2))).
Proof.
  revert m i. unfold rupture_ok, rupture_inputs_ok, yield_inputs_ok.
  keeps_contract connected_elem_shear_rupture_str_canonical.
Qed.

Lemma tensile_rupture_calc_refines (U : Q) (m : string) (i : RuptureInputs) :
  rupture_ok i ->
  res_rel qty_eq2 (tensile_rupture_calc U m i)
    (governing2 m ElementTensileRupture
       (let '(d, n, t1, l1, u1, _, _, _) := i in
        Rn_tensile_rupture (canon d) n U (canon t1) (canon l1) (canon u1))
       (let '(d, n, _, _, _, t2, l2, u2) := i in
        Rn_tensile_rupture (canon d) n U (canon t2) (canon l2) (canon u2))).
Proof.
  revert m i. unfold rupture_ok, rupture_inputs_ok, yield_inputs_ok.
  keeps_contract connected_elem_tensile_rupture_str_canonical.
Qed.

#[export] Instance shear_yield_Calculator : Calculator2 shear_yield_calc := {
  calc2_state := ElementShearYield;
  calc2_refines := shear_yield_calc_refines
}.

#[export] Instance tensile_yield_Calculator : Calculator2 tensile_yield_calc := {
  calc2_state := ElementTensileYield;
  calc2_refines := tensile_yield_calc_refines
}.

#[export] Instance shear_rupture_Calculator : Calculator2 shear_rupture_calc := {
  calc2_state := ElementShearRupture;
  calc2_refines := shear_rupture_calc_refines
}.

#[export] Instance tensile_rupture_Calculator (U : Q) :
  Calculator2 (tensile_rupture_calc U) := {
  calc2_state := ElementTensileRupture;
  calc2_refines := tensile_rupture_calc_refines U
}.
