(* ===== verification/Weld.v ===== *)
(** * Fillet-weld limit states ([src/Steel/weld.py])

    The three functions of the file, statement by statement: the minimum
    weld size for two thicknesses, the strength of the weld metal, and the
    strength of the joint once rupture of the base metal is taken into
    account; their specification on canonical magnitudes; and the theorems:
    the table of [min_weld_size], refinement of the policy by
    [weld_material_strength], the reduction by the base metal,
    the order of the errors of [weld_rupture_strength] (wrong dimension,
    unassigned local, division by zero, invalid selector), that no other
    exception escapes it, and its decomposition into shares and weld metal
    in any arithmetic. *)

From Stdlib Require Import String Bool ZArith QArith Qminmax Lia Lqa.
From Stdlib Require Import Morphisms RelationClasses Setoid.
From S2P Require Import Prelude Numeric Units Policy Contract.

Local Open Scope string_scope.

(** ** The program *)

Section Program.
Context {F : Type} `{Number F}.
Local Open Scope num_scope.

(** The table of minimum weld sizes that the function implements: the size
    for the thinner part, by the bracket its thickness falls in. *)
Definition weld_size_table (t_min : F) : F :=
  if t_min <? lit 0.25 then lit 0.1250
  else if t_min <? lit 0.5 then lit 0.1875
  else if t_min <? lit 0.75 then lit 0.2500
  else lit 0.3125.

(** The function returns a bare number, or nothing ([None]) when no branch
    is taken. *)
Definition min_weld_size (part1_t part2_t : Quantity F) : result (option F) :=
  part1_t <- to part1_t inch ;;
  part2_t <- to part2_t inch ;;
  t_min <- qmin part1_t part2_t ;;
  c1 <- qlt t_min (qty (lit 0.25) inch) ;;
  if c1 then ret (Some (lit 0.1250))
  else
    c2 <- and_then (qle (qty (lit 0.25) inch) t_min)
                   (qlt t_min (qty (lit 0.5) inch)) ;;
    if c2 then ret (Some (lit 0.1875))
    else
      c3 <- and_then (qle (qty (lit 0.5) inch) t_min)
                     (qlt t_min (qty (lit 0.75) inch)) ;;
      if c3 then ret (Some (lit 0.2500))
      else
        c4 <- qle (qty (lit 0.75) inch) t_min ;;
        if c4 then ret (Some (lit 0.3125))
        else ret None.

Definition weld_material_strength (design_method : string) (weld_size : F)
    (weld_length : Quantity F) (weld_sides : Z) : result (Quantity F) :=
  weld_length <- to weld_length inch ;;
  r_n <-
    muli (qmul (qmul (muls (smul (lit 0.60) (qty (of_Z 70) ksi))
                           (math_sqrt2 / of_Z 2))
                     (qty (weld_size / of_Z 16) inch))
               weld_length)
         weld_sides ;;
  if String.eqb design_method "ASD" then
    let fos := lit 2.00 in
    ret (divs r_n fos)
  else if String.eqb design_method "LRFD" then
    let str_reduction := lit 0.75 in
    ret (smul str_reduction r_n)
  else raise invalid_design_method.

Definition weld_rupture_strength (design_method : string) (weld_size : F)
    (weld_length : Quantity F) (weld_sides : Z)
    (part1_t part1_ult part2_t part2_ult : Quantity F) : result (Quantity F) :=
  weld_length <- to weld_length inch ;;
  part1_t <- to part1_t inch ;;
  part2_t <- to part2_t inch ;;
  part1_ult <- to part1_ult ksi ;;
  part2_ult <- to part2_ult ksi ;;
  let throat_area := qty (lit 0.707 * (weld_size / of_Z 16)) inch in
  let weld_strength_per_length :=
    qmul (qty (lit 0.60 * of_Z 70) ksi) throat_area in
  ' (t1_min, t2_min) <-
    (if Z.eqb weld_sides 1 then
       t1_min <- qdiv weld_strength_per_length (smul (lit 0.6) part1_ult) ;;
       t2_min <- qdiv weld_strength_per_length (smul (lit 0.6) part2_ult) ;;
       ret (t1_min, t2_min)
     else if Z.eqb weld_sides 2 then
       t1_min <- qdiv (smul (of_Z 2) weld_strength_per_length)
                      (smul (lit 0.6) part1_ult) ;;
       t2_min <- qdiv (smul (of_Z 2) weld_strength_per_length)
                      (smul (lit 0.6) part2_ult) ;;
       ret (t1_min, t2_min)
     else raise (UnboundLocalError "t1_min")) ;;
  reduction_1 <- qdiv part1_t t1_min ;;
  reduction_2 <- qdiv part2_t t2_min ;;
  weld_mat_strength <-
    weld_material_strength design_method weld_size weld_length weld_sides ;;
  governs <- or_else (qlt_num reduction_1 (of_Z 1))
                     (qlt_num reduction_2 (of_Z 1)) ;;
  if governs then
    reduction <- qmin reduction_1 reduction_2 ;;
    ret (qmul weld_mat_strength reduction)
  else ret weld_mat_strength.

End Program.

(** ** The shares of the base metal, in any arithmetic

    The first half of [weld_rupture_strength], up to the two shares
    [reduction_1] and [reduction_2], as a function of its own: the
    conversions of the parts, the strength of the weld per unit length, the
    minimum thicknesses by the number of sides, and the two divisions. *)

Section Reductions.
Context {F : Type} `{Number F}.
Local Open Scope num_scope.

Definition weld_reductions (weld_size : F) (weld_sides : Z)
    (part1_t part1_ult part2_t part2_ult : Quantity F)
  : result (Quantity F * Quantity F) :=
  part1_t <- to part1_t inch ;;
  part2_t <- to part2_t inch ;;
  part1_ult <- to part1_ult ksi ;;
  part2_ult <- to part2_ult ksi ;;
  let throat_area := qty (lit 0.707 * (weld_size / of_Z 16)) inch in
  let weld_strength_per_length :=
    qmul (qty (lit 0.60 * of_Z 70) ksi) throat_area in
  ' (t1_min, t2_min) <-
    (if Z.eqb weld_sides 1 then
       t1_min <- qdiv weld_strength_per_length (smul (lit 0.6) part1_ult) ;;
       t2_min <- qdiv weld_strength_per_length (smul (lit 0.6) part2_ult) ;;
       ret (t1_min, t2_min)
     else if Z.eqb weld_sides 2 then
       t1_min <- qdiv (smul (of_Z 2) weld_strength_per_length)
                      (smul (lit 0.6) part1_ult) ;;
       t2_min <- qdiv (smul (of_Z 2) weld_strength_per_length)
                      (smul (lit 0.6) part2_ult) ;;
       ret (t1_min, t2_min)
     else raise (UnboundLocalError "t1_min")) ;;
  reduction_1 <- qdiv part1_t t1_min ;;
  reduction_2 <- qdiv part2_t t2_min ;;
  ret (reduction_1, reduction_2).

End Reductions.

(** ** The specification, on canonical magnitudes (inch, ksi) *)

(** Nominal strength of the weld metal, in kip. *)
Definition Rn_weld (weld_size len : Q) (sides : Z) : Q :=
  0.60 * 70 * (Q_sqrt2 / 2) * (weld_size / 16) * len * inject_Z sides.

(** Strength of the weld per unit length, in kip per inch, with the throat
    factor 0.707. *)
Definition weld_strength_per_length (weld_size : Q) : Q :=
  0.60 * 70 * (0.707 * (weld_size / 16)).

(** Thickness of base metal that matches the weld, in inch. *)
Definition t_min_required (weld_size : Q) (sides : Z) (f_u : Q) : Q :=
  inject_Z sides * weld_strength_per_length weld_size / (0.6 * f_u).

(** The share of the weld strength that the base metal of a part develops. *)
Definition reduction (weld_size : Q) (sides : Z) (t f_u : Q) : Q :=
  t / t_min_required weld_size sides f_u.

(** The strength of the joint, in kip, given the strength of the weld metal:
    reduced by the smaller share when a share is below one. *)
Definition rupture_strength (weld_mat_strength r1 r2 : Q) : Q :=
  if Qltb r1 1 || Qltb r2 1 then weld_mat_strength * pmin r1 r2
  else weld_mat_strength.

(** The inputs of [weld_rupture_strength] are well dimensioned. *)
Definition weld_inputs_ok {F : Type} (len t1 u1 t2 u2 : Quantity F) : Prop :=
  is_length len /\ is_length t1 /\ is_length t2 /\ is_stress u1 /\ is_stress u2.

(** The specification of [weld_rupture_strength] on canonical magnitudes:
    the governing strength of the weld metal, reduced by the base metal. *)
Definition weld_rupture_spec (m : string) (w L : Q) (sides : Z)
    (t1 u1 t2 u2 : Q) : result (Quantity Q) :=
  r <- governing m WeldMaterial (Rn_weld w L sides) ;;
  ret (qty (rupture_strength (magnitude r) (reduction w sides t1 u1)
                             (reduction w sides t2 u2)) kip).

(** ** The minimum weld size *)

Section MinWeldSize.
Context {F : Type} `{NumberOrder F}.

(** On two thicknesses in inches, in any arithmetic that satisfies the laws
    of comparisons and in which the three thresholds are ordered: the
    function returns nothing ([None]) when the thinner part is unordered
    (every test fails), and otherwise the entry of the table for the thinner
    part, since the last branch is always taken when the first three are
    not. *)
Lemma min_weld_size_cases (t1 t2 : F) :
  unordered (lit 0.25 : F) = false -> unordered (lit 0.5 : F) = false ->
  unordered (lit 0.75 : F) = false ->
  min_weld_size (qty t1 inch) (qty t2 inch)
  = if unordered (pmin t1 t2) then Ok None
    else Ok (Some (weld_size_table (pmin t1 t2))).
Proof.
  intros N1 N2 N3.
  unfold min_weld_size, weld_size_table. res_simpl. cbn [magnitude units].
  set (t := pmin t1 t2). res_simpl.
  destruct (unordered t) eqn:N.
  - rewrite !(nltb_unordered t) by exact N.
    rewrite !(nleb_unordered _ t) by exact N. reflexivity.
  - rewrite !(nleb_total _ t) by assumption.
    destruct (nltb t (lit 0.25)) eqn:E1; [reflexivity|]. cbn.
    destruct (nltb t (lit 0.5)) eqn:E2; [reflexivity|]. cbn.
    destruct (nltb t (lit 0.75)) eqn:E3; reflexivity.
Qed.

End MinWeldSize.

(** In exact arithmetic nothing is unordered: the function always returns
    the entry of the table. *)
Lemma min_weld_size_canonical (t1 t2 : Q) :
  min_weld_size (qty t1 inch) (qty t2 inch)
  = Ok (Some (weld_size_table (pmin t1 t2))).
Proof. now rewrite min_weld_size_cases. Qed.

(** The table on rationals. *)

Lemma weld_size_table_cases (t : Q) :
  (t < 0.25 /\ weld_size_table t = 0.1250) \/
  (0.25 <= t < 0.5 /\ weld_size_table t = 0.1875) \/
  (0.5 <= t < 0.75 /\ weld_size_table t = 0.2500) \/
  (0.75 <= t /\ weld_size_table t = 0.3125).
Proof.
  unfold weld_size_table. num_unfold.
  destruct (Qltb t 0.25) eqn:E1; [q_bool; auto|].
  destruct (Qltb t 0.5) eqn:E2; [q_bool; auto|].
  destruct (Qltb t 0.75) eqn:E3; q_bool; auto 6.
Qed.

#[export] Instance weld_size_table_Proper :
  Proper (Qeq ==> eq) (@weld_size_table Q _).
Proof.
  intros t t' Ht. unfold weld_size_table. num_unfold.
  now rewrite !(Qltb_Proper t t' Ht _ _ (Qeq_refl _)).
Qed.

Lemma weld_size_table_mono (t t' : Q) :
  t <= t' -> weld_size_table t <= weld_size_table t'.
Proof.
  intros Ht.
  destruct (weld_size_table_cases t) as [[H ->]|[[H ->]|[[H ->]|[H ->]]]];
  destruct (weld_size_table_cases t') as [[H' ->]|[[H' ->]|[[H' ->]|[H' ->]]]];
    first [ discriminate | exfalso; lra ].
Qed.

#[export] Instance min_weld_size_Proper :
  Proper (phys_eq ==> phys_eq ==> res_rel (opt_rel Qeq)) (@min_weld_size Q _).
Proof.
  intros t1 t1' H1 t2 t2' H2. unfold min_weld_size. res_proper.
Qed.

(** What [min_weld_size] returns, as a helper for the properties below. *)
Lemma min_weld_size_spec_aux (t1 t2 : Quantity Q) :
  is_length t1 -> is_length t2 ->
  exists w, min_weld_size t1 t2 = Ok (Some w) /\
            w == weld_size_table (Qmin (canon t1) (canon t2)).
Proof.
  intros H1 H2.
  assert (HP : res_rel (opt_rel Qeq) (min_weld_size t1 t2)
                 (Ok (Some (weld_size_table (Qmin (canon t1) (canon t2)))))).
  { canon_inputs. rewrite min_weld_size_canonical. simpl. now rewrite pmin_Q_min. }
  destruct (min_weld_size t1 t2) as [[w|]|e]; simpl in HP; try contradiction.
  exists w. split; [reflexivity | exact HP].
Qed.

(** C7. For two thicknesses in any units of length, [min_weld_size] returns
    the entry of the table for the smaller of the two, expressed in inches:
    it never returns nothing, negative thicknesses included. *)
Theorem min_weld_size_spec (part1_t part2_t : Quantity Q) :
  is_length part1_t -> is_length part2_t ->
  res_rel (opt_rel Qeq) (min_weld_size part1_t part2_t)
    (Ok (Some (weld_size_table (Qmin (canon part1_t) (canon part2_t))))).
Proof.
  intros H1 H2. canon_inputs. rewrite min_weld_size_canonical. simpl.
  now rewrite pmin_Q_min.
Qed.

Lemma min_weld_size_spec_witness :
  res_rel (opt_rel Qeq)
    (min_weld_size (qty 12.7 millimeter) (qty 0.75 inch))
    (Ok (Some (weld_size_table
                 (Qmin (canon (qty 12.7 millimeter)) (canon (qty 0.75 inch)))))).
Proof. apply min_weld_size_spec; reflexivity. Defined.

(** A thicker thinner part never calls for a smaller weld. *)
Theorem min_weld_size_monotone (t1 t2 t1' t2' : Quantity Q) :
  is_length t1 -> is_length t2 -> is_length t1' -> is_length t2' ->
  Qmin (canon t1) (canon t2) <= Qmin (canon t1') (canon t2') ->
  exists w w', min_weld_size t1 t2 = Ok (Some w) /\
               min_weld_size t1' t2' = Ok (Some w') /\ w <= w'.
Proof.
  intros H1 H2 H1' H2' Hle.
  pose proof (min_weld_size_spec_aux t1 t2 H1 H2) as (w & E & Hw).
  pose proof (min_weld_size_spec_aux t1' t2' H1' H2') as (w' & E' & Hw').
  exists w, w'. repeat split; try assumption.
  rewrite Hw, Hw'. now apply weld_size_table_mono.
Qed.

Lemma min_weld_size_monotone_witness :
  exists w w', min_weld_size (qty 0.3 inch) (qty 1 inch) = Ok (Some w) /\
               min_weld_size (qty 20 millimeter) (qty 1 inch) = Ok (Some w') /\
               w <= w'.
Proof.
  apply min_weld_size_monotone; first [ reflexivity | discriminate ].
Defined.

(** The two parts play the same role. *)
Theorem min_weld_size_symmetric (t1 t2 : Quantity Q) :
  is_length t1 -> is_length t2 ->
  res_rel (opt_rel Qeq) (min_weld_size t1 t2) (min_weld_size t2 t1).
Proof.
  intros H1 H2.
  destruct (min_weld_size_spec_aux t1 t2 H1 H2) as (w & -> & Hw).
  destruct (min_weld_size_spec_aux t2 t1 H2 H1) as (w' & -> & Hw').
  simpl. now rewrite Hw, Hw', Q.min_comm.
Qed.

Lemma min_weld_size_symmetric_witness :
  res_rel (opt_rel Qeq) (min_weld_size (qty 0.3 inch) (qty 25.4 millimeter))
                        (min_weld_size (qty 25.4 millimeter) (qty 0.3 inch)).
Proof. apply min_weld_size_symmetric; reflexivity. Defined.

(** Whatever the arithmetic, [min_weld_size] raises
    [DimensionalityError] exactly when one of the two thicknesses is not a
    length, and returns otherwise: the comparisons themselves never raise,
    both sides being in inches by then. *)
Theorem min_weld_size_outcome {F : Type} `{Number F} (t1 t2 : Quantity F) :
  match min_weld_size t1 t2 with
  | Ok _ => is_length t1 /\ is_length t2
  | Err e => e = DimensionalityError /\ ~ (is_length t1 /\ is_length t2)
  end.
Proof.
  unfold min_weld_size, is_length.
  norm_input_to t1 inch; [|split; [reflexivity | tauto]].
  norm_input_to t2 inch; [|split; [reflexivity | tauto]].
  res_simpl. repeat (case_if; res_simpl; cbn [and_then]); auto.
Qed.

(** ** The strength of the weld metal *)

#[export] Instance weld_material_strength_Proper :
  Proper (eq ==> Qeq ==> phys_eq ==> eq ==> res_rel qty_eq)
         (@weld_material_strength Q _).
Proof.
  intros m ? <- w w' Hw L L' HL n ? <-. unfold weld_material_strength.
  res_proper.
Qed.

Lemma weld_material_strength_canonical (m : string) (w L : Q) (sides : Z) :
  res_rel qty_eq (weld_material_strength m w (qty L inch) sides)
          (governing m WeldMaterial (Rn_weld w L sides)).
Proof. policy_canonical m; unfold Rn_weld; qty_field. Qed.

(** C8. For a weld length in any unit of length, [weld_material_strength]
    returns in kip the policy (2.00, 0.75) applied to
    [0.60 * 70 * (sqrt 2 / 2) * (size / 16) * length * sides]. *)
Theorem weld_material_strength_refines (m : string) (weld_size : Q)
    (weld_length : Quantity Q) (weld_sides : Z) :
  is_length weld_length ->
  res_rel qty_eq (weld_material_strength m weld_size weld_length weld_sides)
          (governing m WeldMaterial (Rn_weld weld_size (canon weld_length) weld_sides)).
Proof. intros HL. canon_inputs. apply weld_material_strength_canonical. Qed.

Lemma weld_material_strength_refines_witness :
  res_rel qty_eq (weld_material_strength "LRFD" 4 (qty 152.4 millimeter) 2)
          (governing "LRFD" WeldMaterial (Rn_weld 4 (canon (qty 152.4 millimeter)) 2)).
Proof. apply weld_material_strength_refines; reflexivity. Defined.

Lemma weld_material_strength_returns (s : string) (m : DesignMethod) (w : Q)
    (L : Quantity Q) (sides : Z) :
  is_length L -> parse_method s = Some m ->
  exists r, weld_material_strength s w L sides = Ok r /\
    magnitude r == apply_factor m WeldMaterial (Rn_weld w (canon L) sides) /\
    units r = kip.
Proof.
  intros HL Hm. eapply governing_returns; [|exact Hm].
  canon_inputs. apply weld_material_strength_canonical.
Qed.

(** C31. Whatever the arithmetic, [weld_material_strength] succeeds exactly
    when the length is a length, the number of sides converts to a float
    and the selector is valid; the number of sides is not checked
    otherwise: any integer that converts is multiplied in.  A number of
    sides too large for a float raises [OverflowError] (never on rationals,
    from [2^1024 - 2^970] on doubles), after the conversion of the length
    and before the selector is looked at. *)
Theorem weld_material_strength_outcome {F : Type} `{Number F} (m : string)
    (w : F) (L : Quantity F) (sides : Z) :
  match weld_material_strength m w L sides with
  | Ok r => is_length L /\ of_Z_overflows sides = false /\
            parse_method m <> None /\ units r = kip
  | Err e => (e = DimensionalityError /\ ~ is_length L) \/
             (e = OverflowError /\ is_length L /\ of_Z_overflows sides = true) \/
             (e = invalid_design_method /\ is_length L /\
              of_Z_overflows sides = false /\ parse_method m = None)
  end.
Proof.
  unfold weld_material_strength.
  norm_input_to L inch; [|left; tauto].
  rewrite muli_outcome.
  destruct (of_Z_overflows sides); cbn [bind]; [right; left; tauto|].
  outcome_finish m.
Qed.

(** Welding both sides doubles the strength of the weld metal. *)
Theorem weld_material_strength_two_sides (s : string) (m : DesignMethod)
    (w : Q) (L : Quantity Q) :
  is_length L -> parse_method s = Some m ->
  exists r1 r2, weld_material_strength s w L 1 = Ok r1 /\
                weld_material_strength s w L 2 = Ok r2 /\
                magnitude r2 == 2 * magnitude r1.
Proof.
  intros HL Hm.
  destruct (weld_material_strength_returns s m w L 1 HL Hm) as (r1 & E1 & H1 & _).
  destruct (weld_material_strength_returns s m w L 2 HL Hm) as (r2 & E2 & H2 & _).
  exists r1, r2. repeat split; try assumption.
  rewrite H1, H2, <- apply_factor_scale. apply apply_factor_Proper; try reflexivity.
  unfold Rn_weld. simpl. ring.
Qed.

Lemma weld_material_strength_two_sides_witness :
  exists r1 r2, weld_material_strength "ASD" 4 (qty 6 inch) 1 = Ok r1 /\
                weld_material_strength "ASD" 4 (qty 6 inch) 2 = Ok r2 /\
                magnitude r2 == 2 * magnitude r1.
Proof.
  apply (weld_material_strength_two_sides "ASD" ASD); reflexivity.
Defined.

(** ** The strength of the joint *)

#[export] Instance weld_rupture_strength_Proper :
  Proper (eq ==> Qeq ==> phys_eq ==> eq ==> phys_eq ==> phys_eq ==> phys_eq ==>
          phys_eq ==> res_rel qty_eq) (@weld_rupture_strength Q _).
Proof.
  intros m ? <- w w' Hw L L' HL n ? <- t1 t1' Ht1 u1 u1' Hu1 t2 t2' Ht2 u2 u2' Hu2.
  unfold weld_rupture_strength.
  res_proper using (apply weld_material_strength_Proper).
Qed.

(** The share computed by the code is the share of the specification. *)
Lemma reduction_one_side (w t u : Q) :
  ~ w == 0 -> ~ u == 0 ->
  t / (0.60 * inject_Z 70 * (0.707 * (w / inject_Z 16)) / (0.6 * u))
  == reduction w 1 t u.
Proof.
  intros Hw Hu. unfold reduction, t_min_required, weld_strength_per_length.
  simpl. field. split; assumption.
Qed.

Lemma reduction_two_sides (w t u : Q) :
  ~ w == 0 -> ~ u == 0 ->
  t / (inject_Z 2 * (0.60 * inject_Z 70 * (0.707 * (w / inject_Z 16))) / (0.6 * u))
  == reduction w 2 t u.
Proof.
  intros Hw Hu. unfold reduction, t_min_required, weld_strength_per_length.
  simpl. field. split; assumption.
Qed.

(** [rupture_cases HA HB] compares the last branch of the code, where the
    shares are the expressions [HA] and [HB] speak of, with
    [rupture_strength]. *)
Ltac rupture_cases HA HB :=
  change (inject_Z 1) with 1;
  unfold rupture_strength;
  rewrite <- (Qltb_Proper _ _ HA _ _ (Qeq_refl 1));
  rewrite <- (Qltb_Proper _ _ HB _ _ (Qeq_refl 1));
  match goal with
  | |- context [Qltb ?a 1 || Qltb ?b 1] =>
      destruct (Qltb a 1); [|destruct (Qltb b 1)]
  end;
  cbn; (split; [cbn; try rewrite <- (pmin_Q_Proper _ _ HA _ _ HB);
                unfold Rn_weld, inject_Z; field | reflexivity]).

Lemma weld_rupture_strength_canonical (m : string) (w L : Q) (sides : Z)
    (t1 u1 t2 u2 : Q) :
  sides = 1%Z \/ sides = 2%Z -> ~ w == 0 -> ~ u1 == 0 -> ~ u2 == 0 ->
  res_rel qty_eq
    (weld_rupture_strength m w (qty L inch) sides (qty t1 inch) (qty u1 ksi)
                           (qty t2 inch) (qty u2 ksi))
    (weld_rupture_spec m w L sides t1 u1 t2 u2).
Proof.
  intros Hs Hw Hu1 Hu2.
  unfold weld_rupture_strength, weld_rupture_spec. res_simpl.
  destruct Hs as [-> | ->]; cbn [Z.eqb Pos.eqb];
    unfold qdiv; cbn [magnitude units smul qmul];
    rewrite !pdiv_Q_ok by q_nonzero; res_simpl;
    rewrite !pdiv_Q_ok by q_nonzero; res_simpl;
    unfold weld_material_strength, governing, parse_method; res_simpl;
    method_cases m; cbn; try reflexivity.
  1,2: rupture_cases (reduction_one_side w t1 u1 Hw Hu1)
                     (reduction_one_side w t2 u2 Hw Hu2).
  all: rupture_cases (reduction_two_sides w t1 u1 Hw Hu1)
                     (reduction_two_sides w t2 u2 Hw Hu2).
Qed.

(** C6. For well-dimensioned inputs in any units, one or two sides, and
    non-zero weld size and strengths, [weld_rupture_strength] returns the
    governing strength of the weld metal, multiplied by the smaller of the
    two shares [t_i / t_min_i] when one of them is below one. *)
Theorem weld_rupture_strength_refines (m : string) (weld_size : Q)
    (weld_length : Quantity Q) (weld_sides : Z)
    (part1_t part1_ult part2_t part2_ult : Quantity Q) :
  weld_inputs_ok weld_length part1_t part1_ult part2_t part2_ult ->
  weld_sides = 1%Z \/ weld_sides = 2%Z ->
  ~ weld_size == 0 -> ~ canon part1_ult == 0 -> ~ canon part2_ult == 0 ->
  res_rel qty_eq
    (weld_rupture_strength m weld_size weld_length weld_sides
                           part1_t part1_ult part2_t part2_ult)
    (weld_rupture_spec m weld_size (canon weld_length) weld_sides
                       (canon part1_t) (canon part1_ult)
                       (canon part2_t) (canon part2_ult)).
Proof.
  intros (HL & Ht1 & Ht2 & Hu1 & Hu2) Hs Hw Hz1 Hz2. canon_inputs.
  now apply weld_rupture_strength_canonical.
Qed.

Lemma weld_rupture_strength_refines_witness :
  res_rel qty_eq
    (weld_rupture_strength "LRFD" 4 (qty 152.4 millimeter) 2
       (qty 0.25 inch) (qty 58 ksi) (qty 12.7 millimeter) (qty 65000 psi))
    (weld_rupture_spec "LRFD" 4 (canon (qty 152.4 millimeter)) 2
       (canon (qty 0.25 inch)) (canon (qty 58 ksi))
       (canon (qty 12.7 millimeter)) (canon (qty 65000 psi))).
Proof.
  apply weld_rupture_strength_refines;
    [ repeat split | now right | discriminate | discriminate | discriminate ].
Defined.

(** Facts of [rupture_strength]. *)

Lemma rupture_strength_thick (R r1 r2 : Q) :
  1 <= r1 -> 1 <= r2 -> rupture_strength R r1 r2 = R.
Proof.
  intros H1 H2. unfold rupture_strength.
  destruct (Qltb r1 1) eqn:E1; [q_bool; lra|].
  destruct (Qltb r2 1) eqn:E2; [q_bool; lra|]. reflexivity.
Qed.

Lemma rupture_strength_min (R r1 r2 : Q) :
  rupture_strength R r1 r2 == R * Qmin 1 (Qmin r1 r2).
Proof.
  unfold rupture_strength.
  destruct (Qltb r1 1) eqn:E1; [|destruct (Qltb r2 1) eqn:E2]; q_bool; simpl;
    rewrite ?pmin_Q_min.
  - rewrite (Q.min_r 1); [reflexivity|].
    destruct (Q.min_spec r1 r2) as [[H ->]|[H ->]]; lra.
  - rewrite (Q.min_r 1); [reflexivity|].
    destruct (Q.min_spec r1 r2) as [[H ->]|[H ->]]; lra.
  - rewrite (Q.min_l 1); [ring|].
    destruct (Q.min_spec r1 r2) as [[H ->]|[H ->]]; lra.
Qed.

Lemma rupture_strength_le (R r1 r2 : Q) :
  0 <= R -> rupture_strength R r1 r2 <= R.
Proof.
  intros HR. rewrite rupture_strength_min.
  pose proof (Q.le_min_l 1 (Qmin r1 r2)). nra.
Qed.

#[export] Instance rupture_strength_Proper :
  Proper (Qeq ==> Qeq ==> Qeq ==> Qeq) rupture_strength.
Proof.
  intros R R' HR a a' Ha b b' Hb. now rewrite !rupture_strength_min, HR, Ha, Hb.
Qed.

(** What [weld_rupture_strength] returns under a valid method. *)
Lemma weld_rupture_strength_returns (s : string) (m : DesignMethod) (w : Q)
    (L : Quantity Q) (sides : Z) (t1 u1 t2 u2 : Quantity Q) :
  weld_inputs_ok L t1 u1 t2 u2 -> sides = 1%Z \/ sides = 2%Z ->
  ~ w == 0 -> ~ canon u1 == 0 -> ~ canon u2 == 0 ->
  parse_method s = Some m ->
  exists r, weld_rupture_strength s w L sides t1 u1 t2 u2 = Ok r /\
    magnitude r ==
      rupture_strength (apply_factor m WeldMaterial (Rn_weld w (canon L) sides))
                       (reduction w sides (canon t1) (canon u1))
                       (reduction w sides (canon t2) (canon u2)) /\
    units r = kip.
Proof.
  intros (HL & Ht1 & Ht2 & Hu1 & Hu2) Hs Hw Hz1 Hz2 Hm.
  assert (HP : res_rel qty_eq (weld_rupture_strength s w L sides t1 u1 t2 u2)
                 (weld_rupture_spec s w (canon L) sides (canon t1) (canon u1)
                                    (canon t2) (canon u2))).
  { canon_inputs. now apply weld_rupture_strength_canonical. }
  unfold weld_rupture_spec, governing in HP. rewrite Hm in HP. cbn in HP.
  destruct (weld_rupture_strength s w L sides t1 u1 t2 u2) as [r|e];
    [|contradiction].
  destruct HP as [HPm HPu]. exists r. auto.
Qed.

(** When both parts are thick enough, the base metal does not govern and
    [weld_rupture_strength] returns what [weld_material_strength] returns. *)
Theorem weld_rupture_strength_thick_enough (m : string) (w : Q)
    (L : Quantity Q) (sides : Z) (t1 u1 t2 u2 : Quantity Q) :
  weld_inputs_ok L t1 u1 t2 u2 -> sides = 1%Z \/ sides = 2%Z ->
  ~ w == 0 -> ~ canon u1 == 0 -> ~ canon u2 == 0 ->
  1 <= reduction w sides (canon t1) (canon u1) ->
  1 <= reduction w sides (canon t2) (canon u2) ->
  res_rel qty_eq (weld_rupture_strength m w L sides t1 u1 t2 u2)
                 (weld_material_strength m w L sides).
Proof.
  intros Hok Hs Hw Hz1 Hz2 H1 H2.
  destruct Hok as (HL & Ht1 & Ht2 & Hu1 & Hu2).
  rewrite (phys_eq_inch L HL). clear HL. canon_inputs.
  rewrite weld_rupture_strength_canonical, weld_material_strength_canonical
    by assumption.
  unfold weld_rupture_spec, governing.
  destruct (parse_method m); cbn; [|reflexivity].
  rewrite rupture_strength_thick by assumption. reflexivity.
Qed.

Lemma weld_rupture_strength_thick_enough_witness :
  res_rel qty_eq
    (weld_rupture_strength "ASD" 4 (qty 6 inch) 1
       (qty 1 inch) (qty 58 ksi) (qty 25.4 millimeter) (qty 65 ksi))
    (weld_material_strength "ASD" 4 (qty 6 inch) 1).
Proof.
  apply weld_rupture_strength_thick_enough;
    [ repeat split | now left | discriminate | discriminate | discriminate
    | discriminate | discriminate ].
Defined.

Lemma Rn_weld_nonneg (w L : Q) (sides : Z) :
  0 <= w -> 0 <= L -> (0 <= sides)%Z -> 0 <= Rn_weld w L sides.
Proof.
  intros Hw HL Hs. unfold Rn_weld. rewrite Zle_Qle in Hs.
  repeat apply Qmult_le_0_compat; try assumption; discriminate.
Qed.

(** The strength of the joint never exceeds the strength of the weld
    metal: the base metal can only reduce it. *)
Theorem weld_rupture_strength_le_material (s : string) (m : DesignMethod)
    (w : Q) (L : Quantity Q) (sides : Z) (t1 u1 t2 u2 : Quantity Q) :
  weld_inputs_ok L t1 u1 t2 u2 -> sides = 1%Z \/ sides = 2%Z ->
  0 < w -> ~ canon u1 == 0 -> ~ canon u2 == 0 -> 0 <= canon L ->
  parse_method s = Some m ->
  exists r R, weld_rupture_strength s w L sides t1 u1 t2 u2 = Ok r /\
              weld_material_strength s w L sides = Ok R /\
              magnitude r <= magnitude R.
Proof.
  intros Hok Hs Hw Hz1 Hz2 HL Hm.
  assert (Hw0 : ~ w == 0) by lra.
  destruct (weld_rupture_strength_returns s m w L sides t1 u1 t2 u2
              Hok Hs Hw0 Hz1 Hz2 Hm) as (r & Er & Hr & _).
  destruct (weld_material_strength_returns s m w L sides (proj1 Hok) Hm)
    as (R & ER & HR & _).
  exists r, R. repeat split; try assumption.
  rewrite Hr, HR. apply rupture_strength_le, apply_factor_le, Rn_weld_nonneg;
    try lra; try assumption.
  destruct Hs as [-> | ->]; discriminate.
Qed.

Lemma weld_rupture_strength_le_material_witness :
  exists r R,
    weld_rupture_strength "LRFD" 4 (qty 6 inch) 2
      (qty 0.25 inch) (qty 58 ksi) (qty 0.5 inch) (qty 65 ksi) = Ok r /\
    weld_material_strength "LRFD" 4 (qty 6 inch) 2 = Ok R /\
    magnitude r <= magnitude R.
Proof.
  apply (weld_rupture_strength_le_material "LRFD" LRFD);
    [ repeat split | now right | reflexivity | discriminate | discriminate
    | discriminate | reflexivity ].
Defined.

(** The two throat factors differ: 0.707 is below the binary64 value of
    [sqrt 2 / 2], by less than two parts in ten thousand. *)
Lemma throat_factors_differ :
  0.707 < Q_sqrt2 / 2 /\ Q_sqrt2 / 2 < 0.7072.
Proof. split; reflexivity. Qed.

(** ** Errors of [weld_rupture_strength], in any arithmetic *)

Section RuptureErrors.
Context {F : Type} `{Number F}.

(** A number of sides other than one or two raises [UnboundLocalError]
    on [t1_min], whatever the selector: neither branch assigns the minimum
    thicknesses, and no check of the argument precedes their use. *)
Theorem weld_rupture_strength_invalid_sides (m : string) (w : F)
    (L : Quantity F) (sides : Z) (t1 u1 t2 u2 : Quantity F) :
  weld_inputs_ok L t1 u1 t2 u2 -> sides <> 1%Z -> sides <> 2%Z ->
  weld_rupture_strength m w L sides t1 u1 t2 u2
  = Err (UnboundLocalError "t1_min").
Proof.
  intros (HL & Ht1 & Ht2 & Hu1 & Hu2) H1 H2. unfold weld_rupture_strength.
  norm_input_to L inch; [|contradiction].
  norm_input_to t1 inch; [|contradiction].
  norm_input_to t2 inch; [|contradiction].
  norm_input_to u1 ksi; [|contradiction].
  norm_input_to u2 ksi; [|contradiction].
  apply Z.eqb_neq in H1, H2. now rewrite H1, H2.
Qed.

(** A wrong dimension raises [DimensionalityError] before the number of
    sides and the selector are looked at. *)
Lemma weld_rupture_strength_dimension_error (m : string) (w : F)
    (L : Quantity F) (sides : Z) (t1 u1 t2 u2 : Quantity F) :
  ~ weld_inputs_ok L t1 u1 t2 u2 ->
  weld_rupture_strength m w L sides t1 u1 t2 u2 = Err DimensionalityError.
Proof.
  intros Hn. unfold weld_rupture_strength, weld_inputs_ok in *.
  norm_input_to L inch; [|reflexivity].
  norm_input_to t1 inch; [|reflexivity].
  norm_input_to t2 inch; [|reflexivity].
  norm_input_to u1 ksi; [|reflexivity].
  norm_input_to u2 ksi; [|reflexivity].
  exfalso. apply Hn. repeat split; assumption.
Qed.

Lemma pdiv_outcome (x y : F) :
  (exists z, pdiv x y = Ok z) \/ pdiv x y = Err ZeroDivisionError.
Proof. unfold pdiv. destruct (y =? of_Z 0)%num; eauto. Qed.

(** [division_cases] follows each division of the goal: it returns, or it
    raises [ZeroDivisionError]. *)
Ltac division_cases :=
  repeat match goal with
  | |- context [pdiv ?a ?b] =>
      let E := fresh "E" in
      destruct (pdiv_outcome a b) as [[? E]|E]; rewrite E;
      cbn [bind ret magnitude units]; [|auto 6; fail]
  end.

(** C18. In any arithmetic, doubles included: [weld_rupture_strength] returns
    only on well-dimensioned inputs, one or two sides and a valid method,
    and then a force in kip (the shares are dimensionless, so that
    comparing them with [1] and multiplying by them is well dimensioned);
    and it raises nothing but the four exceptions [DimensionalityError],
    [UnboundLocalError] on [t1_min], [ZeroDivisionError] and the [ValueError]
    of the method: no product or quotient of doubles raises, the number of
    sides is one or two by the time it is converted to a float, and the
    shares are pure numbers when they are compared with [1], so that
    neither [OverflowError] nor the [ValueError] of the comparison can
    escape. *)
Theorem weld_rupture_strength_outcome (m : string) (w : F)
    (L : Quantity F) (sides : Z) (t1 u1 t2 u2 : Quantity F) :
  match weld_rupture_strength m w L sides t1 u1 t2 u2 with
  | Ok r => weld_inputs_ok L t1 u1 t2 u2 /\ (sides = 1 \/ sides = 2)%Z /\
            parse_method m <> None /\ units r = kip
  | Err e => e = DimensionalityError \/ e = UnboundLocalError "t1_min" \/
             e = ZeroDivisionError \/ e = invalid_design_method
  end.
Proof.
  unfold weld_rupture_strength, weld_inputs_ok, weld_material_strength,
    is_length, is_stress, parse_method.
  norm_input_to L inch; [|auto].
  norm_input_to t1 inch; [|auto].
  norm_input_to t2 inch; [|auto].
  norm_input_to u1 ksi; [|auto].
  norm_input_to u2 ksi; [|auto].
  rewrite to_same. cbn [bind].
  unfold qdiv, qmin, or_else.
  cbn [magnitude units smul qmul muls divs].
  destruct (Z.eqb_spec sides 1) as [->|];
    [|destruct (Z.eqb_spec sides 2) as [->|]; [|auto]];
    try rewrite muli_small by (apply Z.leb_le; reflexivity);
    cbn [bind muls magnitude units];
    division_cases;
    change (unit_div inch (unit_div (unit_mul ksi inch) ksi)) with unit_one;
    rewrite ?qlt_num_plain, ?to_same, ?qlt_same; cbn [bind ret magnitude];
    (destruct (String.eqb m "ASD"); [|destruct (String.eqb m "LRFD")]);
    cbn [bind ret raise];
    repeat (match goal with
            | |- context [if ?b then _ else _] => destruct b; cbn [bind ret]
            end);
    first [ solve [auto 8]
          | split; [auto 6 | split; [auto | split; [discriminate | reflexivity]]] ].
Qed.

End RuptureErrors.

Lemma weld_rupture_strength_invalid_sides_witness :
  weld_rupture_strength "XYZ" 4 (qty 6 inch) 3
    (qty 0.25 inch) (qty 58 ksi) (qty 0.5 inch) (qty 65 ksi)
  = Err (UnboundLocalError "t1_min").
Proof.
  apply (weld_rupture_strength_invalid_sides (F := Q));
    [ repeat split | discriminate | discriminate ].
Defined.

(** What [weld_rupture_strength] raises under an invalid method, when
    nothing else fails before. *)
Lemma weld_rupture_strength_raises (s : string) (w : Q)
    (L : Quantity Q) (sides : Z) (t1 u1 t2 u2 : Quantity Q) :
  weld_inputs_ok L t1 u1 t2 u2 -> sides = 1%Z \/ sides = 2%Z ->
  ~ w == 0 -> ~ canon u1 == 0 -> ~ canon u2 == 0 ->
  parse_method s = None ->
  weld_rupture_strength s w L sides t1 u1 t2 u2 = Err invalid_design_method.
Proof.
  intros (HL & Ht1 & Ht2 & Hu1 & Hu2) Hs Hw Hz1 Hz2 Hm.
  assert (HP : res_rel qty_eq (weld_rupture_strength s w L sides t1 u1 t2 u2)
                 (weld_rupture_spec s w (canon L) sides (canon t1) (canon u1)
                                    (canon t2) (canon u2))).
  { canon_inputs. now apply weld_rupture_strength_canonical. }
  unfold weld_rupture_spec, governing in HP. rewrite Hm in HP.
  now apply res_rel_err_r in HP.
Qed.

(** ** Division by zero *)

Lemma weld_inputs_ok_dec {F : Type} (L t1 u1 t2 u2 : Quantity F) :
  {weld_inputs_ok L t1 u1 t2 u2} + {~ weld_inputs_ok L t1 u1 t2 u2}.
Proof.
  unfold weld_inputs_ok, is_length, is_stress.
  destruct (dim_eq_dec (unit_dim (units L)) dim_len);
  destruct (dim_eq_dec (unit_dim (units t1)) dim_len);
  destruct (dim_eq_dec (unit_dim (units t2)) dim_len);
  destruct (dim_eq_dec (unit_dim (units u1)) dim_stress);
  destruct (dim_eq_dec (unit_dim (units u2)) dim_stress);
    first [ left; tauto | right; tauto ].
Qed.

Lemma sides_dec (sides : Z) :
  {sides = 1%Z \/ sides = 2%Z} + {sides <> 1%Z /\ sides <> 2%Z}.
Proof.
  destruct (Z.eq_dec sides 1); [left; auto|].
  destruct (Z.eq_dec sides 2); [left; auto | right; auto].
Qed.

Lemma zero_dec (w u1 u2 : Q) :
  {w == 0 \/ u1 == 0 \/ u2 == 0} + {~ (w == 0 \/ u1 == 0 \/ u2 == 0)}.
Proof.
  destruct (Qeq_dec w 0); [left; auto|].
  destruct (Qeq_dec u1 0); [left; auto|].
  destruct (Qeq_dec u2 0); [left; auto | right; tauto].
Qed.

(** On canonical inputs, a zero strength of either part or a zero weld size
    raises [ZeroDivisionError], whatever the selector: the divisions come
    before the call that checks it. *)
Lemma weld_rupture_strength_canonical_zero (m : string) (w L : Q) (sides : Z)
    (t1 u1 t2 u2 : Q) :
  sides = 1%Z \/ sides = 2%Z -> w == 0 \/ u1 == 0 \/ u2 == 0 ->
  weld_rupture_strength m w (qty L inch) sides (qty t1 inch) (qty u1 ksi)
                        (qty t2 inch) (qty u2 ksi)
  = Err ZeroDivisionError.
Proof.
  intros Hs Hz. unfold weld_rupture_strength. res_simpl.
  assert (Z6 : forall u, u == 0 -> 0.6 * u == 0) by (intros u ->; ring).
  destruct (Qeq_dec u1 0) as [E1|N1];
    [|destruct (Qeq_dec u2 0) as [E2|N2];
      [|destruct Hz as [Hw|[Hu|Hu]]; try contradiction]];
    destruct Hs as [-> | ->]; cbn [Z.eqb Pos.eqb]; unfold qdiv;
    cbn [magnitude units smul qmul]; num_unfold.
  1,2: now rewrite (pdiv_Q_zero _ _ (Z6 _ E1)).
  1,2: rewrite pdiv_Q_ok by q_nonzero; res_simpl;
       now rewrite (pdiv_Q_zero _ _ (Z6 _ E2)).
  all: rewrite !pdiv_Q_ok by q_nonzero; res_simpl;
       rewrite pdiv_Q_zero; [reflexivity|]; cbn [magnitude]; rewrite Hw;
       unfold Qdiv; ring.
Qed.

(** The same in any units. *)
Lemma weld_rupture_strength_zero_division (m : string) (w : Q)
    (L : Quantity Q) (sides : Z) (t1 u1 t2 u2 : Quantity Q) :
  weld_inputs_ok L t1 u1 t2 u2 -> sides = 1%Z \/ sides = 2%Z ->
  w == 0 \/ canon u1 == 0 \/ canon u2 == 0 ->
  weld_rupture_strength m w L sides t1 u1 t2 u2 = Err ZeroDivisionError.
Proof.
  intros (HL & Ht1 & Ht2 & Hu1 & Hu2) Hs Hz.
  apply res_rel_err_r with (RA := qty_eq). canon_inputs.
  now rewrite weld_rupture_strength_canonical_zero.
Qed.

(** C17. The errors of [weld_rupture_strength] come in a fixed order: a wrong
    dimension first, then a number of sides other than one or two, then a
    division by zero (a zero strength or a zero weld size), and the invalid
    selector last; it succeeds exactly when none applies. *)
Theorem weld_rupture_strength_error_order (m : string) (w : Q)
    (L : Quantity Q) (sides : Z) (t1 u1 t2 u2 : Quantity Q) :
  match weld_rupture_strength m w L sides t1 u1 t2 u2 with
  | Ok r =>
      weld_inputs_ok L t1 u1 t2 u2 /\ (sides = 1%Z \/ sides = 2%Z) /\
      ~ (w == 0 \/ canon u1 == 0 \/ canon u2 == 0) /\ parse_method m <> None
  | Err e =>
      (e = DimensionalityError /\ ~ weld_inputs_ok L t1 u1 t2 u2) \/
      (e = UnboundLocalError "t1_min" /\ weld_inputs_ok L t1 u1 t2 u2 /\
       sides <> 1%Z /\ sides <> 2%Z) \/
      (e = ZeroDivisionError /\ weld_inputs_ok L t1 u1 t2 u2 /\
       (sides = 1%Z \/ sides = 2%Z) /\ (w == 0 \/ canon u1 == 0 \/ canon u2 == 0)) \/
      (e = invalid_design_method /\ weld_inputs_ok L t1 u1 t2 u2 /\
       (sides = 1%Z \/ sides = 2%Z) /\
       ~ (w == 0 \/ canon u1 == 0 \/ canon u2 == 0) /\ parse_method m = None)
  end.
Proof.
  destruct (weld_inputs_ok_dec L t1 u1 t2 u2) as [Hok|Hn];
    [|rewrite weld_rupture_strength_dimension_error by exact Hn; left; auto].
  destruct (sides_dec sides) as [Hs|[H1 H2]];
    [|rewrite weld_rupture_strength_invalid_sides by assumption;
     right; left; auto].
  pose proof Hok as (HL & Ht1 & Ht2 & Hu1 & Hu2).
  destruct (zero_dec w (canon u1) (canon u2)) as [Hz|Hnz].
  - rewrite (weld_rupture_strength_zero_division m w L sides t1 u1 t2 u2)
      by assumption.
    right. right. left. auto.
  - assert (Hw : ~ w == 0) by tauto. assert (Hz1 : ~ canon u1 == 0) by tauto.
    assert (Hz2 : ~ canon u2 == 0) by tauto.
    destruct (parse_method m) as [dm|] eqn:Em.
    + destruct (weld_rupture_strength_returns m dm w L sides t1 u1 t2 u2
                  Hok Hs Hw Hz1 Hz2 Em) as (r & -> & _).
      repeat split; try assumption. discriminate.
    + rewrite (weld_rupture_strength_raises m w L sides t1 u1 t2 u2)
        by assumption.
      right. right. right. auto.
Qed.

(** ** The two halves of [weld_rupture_strength], in any arithmetic *)

Section RuptureStructure.
Context {F : Type} `{Number F}.
Local Open Scope num_scope.

(** A weld length that converts is, for [weld_material_strength], as good as
    its conversion: converting twice is converting once. *)
Lemma weld_material_strength_converted (m : string) (w : F)
    (L L' : Quantity F) (sides : Z) :
  to L inch = Ok L' ->
  weld_material_strength m w L' sides = weld_material_strength m w L sides.
Proof.
  intros E. unfold weld_material_strength. rewrite E.
  destruct (to_ok_inv _ _ _ E) as [Hu _]. destruct L' as [x u]. simpl in Hu.
  subst u. now rewrite to_same.
Qed.

(** [weld_rupture_strength] is the shares, then the strength of the weld
    metal, then the choice between the two. *)
Lemma weld_rupture_strength_structure (m : string) (w : F)
    (L : Quantity F) (sides : Z) (t1 u1 t2 u2 : Quantity F) :
  is_length L ->
  weld_rupture_strength m w L sides t1 u1 t2 u2
  = ' (reduction_1, reduction_2) <- weld_reductions w sides t1 u1 t2 u2 ;;
    weld_mat_strength <- weld_material_strength m w L sides ;;
    governs <- or_else (qlt_num reduction_1 (of_Z 1))
                       (qlt_num reduction_2 (of_Z 1)) ;;
    if governs then
      reduction <- qmin reduction_1 reduction_2 ;;
      ret (qmul weld_mat_strength reduction)
    else ret weld_mat_strength.
Proof.
  intros HL. unfold weld_rupture_strength, weld_reductions.
  destruct (to_dim_ok L inch HL) as [x E]. rewrite E. cbn [bind].
  rewrite <- (weld_material_strength_converted m w L _ sides E).
  repeat (rewrite ?bind_assoc;
          match goal with
          | |- bind ?c _ = bind ?c _ => destruct c as [?|?]; cbn [bind]
          | |- context [if ?b then _ else _] => destruct b
          | |- context [match ?p with (_, _) => _ end] => destruct p
          end; try reflexivity).
Qed.

(** C26. In any arithmetic, doubles included: when neither share compares
    below one, [weld_rupture_strength] returns, bit for bit, what
    [weld_material_strength] returns on the same selector, size, length and
    number of sides, its errors included. *)
Theorem weld_rupture_strength_weld_governs (m : string) (w : F)
    (L : Quantity F) (sides : Z) (t1 u1 t2 u2 r1 r2 : Quantity F) :
  is_length L ->
  weld_reductions w sides t1 u1 t2 u2 = Ok (r1, r2) ->
  qlt_num r1 (of_Z 1) = Ok false -> qlt_num r2 (of_Z 1) = Ok false ->
  weld_rupture_strength m w L sides t1 u1 t2 u2
  = weld_material_strength m w L sides.
Proof.
  intros HL Hr H1 H2. rewrite weld_rupture_strength_structure by exact HL.
  rewrite Hr. cbn [bind]. rewrite H1, H2.
  destruct (weld_material_strength m w L sides); reflexivity.
Qed.

(** In any arithmetic: when a share compares below one, the result is the
    strength of the weld metal times the smaller share. *)
Theorem weld_rupture_strength_base_governs (m : string) (w : F)
    (L : Quantity F) (sides : Z) (t1 u1 t2 u2 r1 r2 r : Quantity F) :
  is_length L ->
  weld_reductions w sides t1 u1 t2 u2 = Ok (r1, r2) ->
  or_else (qlt_num r1 (of_Z 1)) (qlt_num r2 (of_Z 1)) = Ok true ->
  qmin r1 r2 = Ok r ->
  weld_rupture_strength m w L sides t1 u1 t2 u2
  = (weld_mat_strength <- weld_material_strength m w L sides ;;
     ret (qmul weld_mat_strength r)).
Proof.
  intros HL Hr Hg Hm. rewrite weld_rupture_strength_structure by exact HL.
  rewrite Hr. cbn [bind]. rewrite Hg. cbn [bind]. now rewrite Hm.
Qed.

End RuptureStructure.

Lemma weld_rupture_strength_weld_governs_witness :
  weld_rupture_strength "LRFD" 4 (qty 6 inch) 2
    (qty 10 inch) (qty 58 ksi) (qty 10 inch) (qty 65 ksi)
  = weld_material_strength "LRFD" 4 (qty 6 inch) 2.
Proof.
  eapply (weld_rupture_strength_weld_governs (F := Q));
    [ reflexivity | vm_compute; reflexivity | reflexivity | reflexivity ].
Defined.

(** ** [weld_material_strength] keeps the contract of [Contract.v] *)

Definition weld_material_calc (m : string) (i : Q * Quantity Q * Z)
  : result (Quantity Q) :=
  let '(w, L, sides) := i in weld_material_strength m w L sides.

(** Instance search does not look inside the calculators. *)
#[global] Typeclasses Opaque weld_material_calc.

Lemma weld_material_calc_refines (m : string) (i : Q * Quantity Q * Z) :
  (let '(_, L, _) := i in is_length L) ->
  res_rel qty_eq (weld_material_calc m i)
    (governing m WeldMaterial
       (let '(w, L, sides) := i in Rn_weld w (canon L) sides)).
Proof.
  revert m i. intros m [[w L] sides] HL. cbn in *. canon_inputs.
  apply weld_material_strength_canonical.
Qed.

#[export] Instance weld_material_Calculator : Calculator weld_material_calc := {
  calc_state := WeldMaterial;
  calc_refines := weld_material_calc_refines
}.
