(* ===== verification/Parts.v ===== *)
(** * Any number of parts

    The six calculators that return one strength per connected part are
    written in the source for exactly two parts, with the statements of the
    first part repeated for the second.  The design notes of the
    specification ask for one operation over an ordered sequence of parts.
    This file gives that operation, [strength_per_part], in the shape the
    two-part code has (every conversion first, then every nominal strength,
    then one branch on the method), its six instances, and the theorems that
    tie them to the source: on two parts each instance is the function of
    the source, errors included; on any number of parts it returns, part by
    part, what the source returns for that part; the results come in the
    order of the parts and follow their rearrangements. *)

From Stdlib Require Import String List Bool ZArith QArith Lqa Permutation.
From Stdlib Require Import Morphisms RelationClasses Setoid.
From S2P Require Import Prelude Numeric Units Policy Bolt Element.
Import ListNotations.

Local Open Scope string_scope.
Local Open Scope list_scope.

(** ** The operation *)

Section PerPart.
Context {F : Type} `{Number F}.
Local Open Scope num_scope.

(** The branch on the design method that ends every calculator, on one
    nominal strength. *)
Definition available (fos str_reduction : F) (design_method : string)
    (r_n : Quantity F) : result (Quantity F) :=
  if String.eqb design_method "ASD" then ret (divs r_n fos)
  else if String.eqb design_method "LRFD" then ret (smul str_reduction r_n)
  else raise invalid_design_method.

(** The same on the nominal strengths of all the parts: one branch, as in
    the source, so that an invalid method raises even without parts. *)
Definition available_parts (fos str_reduction : F) (design_method : string)
    (r_ns : list (Quantity F)) : result (list (Quantity F)) :=
  if String.eqb design_method "ASD" then
    ret (map (fun r_n => divs r_n fos) r_ns)
  else if String.eqb design_method "LRFD" then
    ret (map (smul str_reduction) r_ns)
  else raise invalid_design_method.

(** A limit state evaluated part by part: [convert] brings the inputs of a
    part to inch and ksi, [nominal] is the nominal strength of a converted
    part. *)
Definition strength_per_part {P C : Type} (convert : P -> result C)
    (nominal : C -> result (Quantity F)) (fos str_reduction : F)
    (design_method : string) (parts : list P) : result (list (Quantity F)) :=
  parts <- mapM convert parts ;;
  r_ns <- mapM nominal parts ;;
  available_parts fos str_reduction design_method r_ns.

(** The strength of one part on its own. *)
Definition strength_of_part {P C : Type} (convert : P -> result C)
    (nominal : C -> result (Quantity F)) (fos str_reduction : F)
    (design_method : string) (part : P) : result (Quantity F) :=
  part <- convert part ;;
  r_n <- nominal part ;;
  available fos str_reduction design_method r_n.

(** *** The conversions of a part *)

(** A thickness and a strength (bearing). *)
Definition convert_t_ult (part : Quantity F * Quantity F)
  : result (Quantity F * Quantity F) :=
  let '(part_t, part_ult) := part in
  part_t <- to_name part_t "inch" ;;
  part_ult <- to_name part_ult "ksi" ;;
  ret (part_t, part_ult).

(** Two lengths and a strength: edge distance, thickness and ultimate
    strength (tearout); thickness, length and yield or ultimate strength
    (connected elements). *)
Definition convert_len_len_str (part : Quantity F * Quantity F * Quantity F)
  : result (Quantity F * Quantity F * Quantity F) :=
  let '(part_a, part_b, part_str) := part in
  part_a <- to_name part_a "inch" ;;
  part_b <- to_name part_b "inch" ;;
  part_str <- to_name part_str "ksi" ;;
  ret (part_a, part_b, part_str).

(** *** The nominal strength of a converted part, per limit state *)

Definition bearing_nominal (bolt_dia : Quantity F)
    (part : Quantity F * Quantity F) : result (Quantity F) :=
  let '(part_t, part_ult) := part in
  ret (qmul (qmul (smul (lit 2.4) bolt_dia) part_t) part_ult).

Definition tearout_nominal (bolt_dia : Quantity F)
    (part : Quantity F * Quantity F * Quantity F) : result (Quantity F) :=
  let '(part_edge_dist, part_t, part_ult) := part in
  hole <- qadd bolt_dia (qty (lit 0.125) inch) ;;
  net_dist <- qsub part_edge_dist (divs hole (of_Z 2)) ;;
  ret (qmul (qmul (smul (lit 1.2) net_dist) part_t) part_ult).

Definition shear_yield_nominal (part : Quantity F * Quantity F * Quantity F)
  : result (Quantity F) :=
  let '(part_t, part_len, part_yield) := part in
  ret (qmul (smul (lit 0.60) part_yield) (qmul part_t part_len)).

Definition shear_rupture_nominal (bolt_dia : Quantity F) (bolt_count : Z)
    (part : Quantity F * Quantity F * Quantity F) : result (Quantity F) :=
  let '(part_t, part_len, part_ult) := part in
  hole <- qadd bolt_dia (qty (lit 0.063) inch) ;;
  holes <- muli hole bolt_count ;;
  net_width <- qsub part_len holes ;;
  let a_nv := qmul part_t net_width in
  ret (qmul (smul (lit 0.60) part_ult) a_nv).

Definition tensile_yield_nominal (part : Quantity F * Quantity F * Quantity F)
  : result (Quantity F) :=
  let '(part_t, part_len, part_yield) := part in
  ret (qmul part_yield (qmul part_t part_len)).

Definition tensile_rupture_nominal (bolt_dia : Quantity F) (bolt_count : Z)
    (shear_lag : F) (part : Quantity F * Quantity F * Quantity F)
  : result (Quantity F) :=
  let '(part_t, part_len, part_ult) := part in
  hole <- qadd bolt_dia (qty (lit 0.063) inch) ;;
  holes <- muli hole bolt_count ;;
  net_width <- qsub part_len holes ;;
  let a_nv := qmul part_t net_width in
  ret (muls (qmul part_ult a_nv) shear_lag).

(** *** The six limit states *)

Definition bearing_strength_parts (design_method : string)
    (bolt_dia : Quantity F) (parts : list (Quantity F * Quantity F))
  : result (list (Quantity F)) :=
  bolt_dia <- to_name bolt_dia "inch" ;;
  strength_per_part convert_t_ult (bearing_nominal bolt_dia)
    (lit 2.00) (lit 0.75) design_method parts.

Definition tearout_strength_parts (design_method : string)
    (bolt_dia : Quantity F)
    (parts : list (Quantity F * Quantity F * Quantity F))
  : result (list (Quantity F)) :=
  bolt_dia <- to_name bolt_dia "inch" ;;
  strength_per_part convert_len_len_str (tearout_nominal bolt_dia)
    (lit 2.00) (lit 0.75) design_method parts.

Definition shear_yield_parts (design_method : string)
    (parts : list (Quantity F * Quantity F * Quantity F))
  : result (list (Quantity F)) :=
  strength_per_part convert_len_len_str shear_yield_nominal
    (lit 1.50) (lit 1.00) design_method parts.

Definition shear_rupture_parts (design_method : string)
    (bolt_dia : Quantity F) (bolt_count : Z)
    (parts : list (Quantity F * Quantity F * Quantity F))
  : result (list (Quantity F)) :=
  bolt_dia <- to_name bolt_dia "inch" ;;
  strength_per_part convert_len_len_str
    (shear_rupture_nominal bolt_dia bolt_count)
    (lit 2.00) (lit 0.75) design_method parts.

Definition tensile_yield_parts (design_method : string)
    (parts : list (Quantity F * Quantity F * Quantity F))
  : result (list (Quantity F)) :=
  strength_per_part convert_len_len_str tensile_yield_nominal
    (lit 1.67) (lit 0.90) design_method parts.

Definition tensile_rupture_parts (design_method : string)
    (bolt_dia : Quantity F) (bolt_count : Z) (shear_lag : F)
    (parts : list (Quantity F * Quantity F * Quantity F))
  : result (list (Quantity F)) :=
  bolt_dia <- to_name bolt_dia "inch" ;;
  strength_per_part convert_len_len_str
    (tensile_rupture_nominal bolt_dia bolt_count shear_lag)
    (lit 2.00) (lit 0.75) design_method parts.

(** The two results of a calculator of the source, as a list. *)
Definition both {A : Type} (c : result (A * A)) : result (list A) :=
  ' (r1, r2) <- c ;; ret [r1; r2].

(** The source run on one part, given for both of its parts. *)
Definition bearing_of_part (design_method : string) (bolt_dia : Quantity F)
    (part : Quantity F * Quantity F) : result (Quantity F) :=
  let '(part_t, part_ult) := part in
  fst_of (bearing_strength_bolts design_method bolt_dia
            part_t part_ult part_t part_ult).

Definition shear_rupture_of_part (design_method : string)
    (bolt_dia : Quantity F) (bolt_count : Z)
    (part : Quantity F * Quantity F * Quantity F) : result (Quantity F) :=
  let '(part_t, part_len, part_ult) := part in
  fst_of (connected_elem_shear_rupture_str design_method bolt_dia bolt_count
            part_t part_len part_ult part_t part_len part_ult).

(** *** The governing strength

    The calculators leave it to the caller to take the least of the
    strengths they return.  [governing_strength] is Python's [min] of a
    sequence of quantities: it keeps the first element and replaces it by
    each later element that compares less, it raises a [ValueError] (whose
    text depends on the version of Python) on an empty sequence, and the
    comparison raises when the units are not of one dimension. *)
Fixpoint min_from (best : Quantity F) (rs : list (Quantity F))
  : result (Quantity F) :=
  match rs with
  | [] => ret best
  | r :: rs' => lt <- qlt r best ;; min_from (if lt then r else best) rs'
  end.

Definition governing_strength (rs : list (Quantity F)) : result (Quantity F) :=
  match rs with
  | [] => raise (ValueError "min() arg is an empty sequence")
  | r :: rs' => min_from r rs'
  end.

End PerPart.

(** ** The specification

    What the policy of [Policy.v] asks of a calculator on any number of
    parts: the available strength of every part, in kip, in the order of the
    parts, or the error of an invalid method. *)
Definition governing_parts (design_method : string) (ls : LimitState)
    (r_ns : list Q) : result (list (Quantity Q)) :=
  match parse_method design_method with
  | Some m => ret (map (fun r_n => qty (apply_factor m ls r_n) kip) r_ns)
  | None => raise invalid_design_method
  end.

(** The parts are well dimensioned. *)
Definition plate_ok {F : Type} (part : Quantity F * Quantity F) : Prop :=
  is_length (fst part) /\ is_stress (snd part).

Definition strip_ok {F : Type} (part : Quantity F * Quantity F * Quantity F)
  : Prop :=
  is_length (fst (fst part)) /\ is_length (snd (fst part)) /\
  is_stress (snd part).

(** ** The operation, part by part *)

Section PerPartFacts.
Context {F : Type} `{Number F} {P C : Type}.
Variable convert : P -> result C.
Variable nominal : C -> result (Quantity F).
Variables fos str_reduction : F.

Local Abbreviation per_part := (strength_per_part convert nominal fos str_reduction).
Local Abbreviation of_part := (strength_of_part convert nominal fos str_reduction).

(** The branch on the method is taken once for all the parts, or once per
    part, with the same results. *)
Lemma available_parts_cons (m : string) (r_n : Quantity F)
    (r_ns : list (Quantity F)) :
  available_parts fos str_reduction m (r_n :: r_ns) =
  (r <- available fos str_reduction m r_n ;;
   rs <- available_parts fos str_reduction m r_ns ;; ret (r :: rs)).
Proof.
  unfold available_parts, available.
  destruct (String.eqb m "ASD"); [reflexivity|].
  destruct (String.eqb m "LRFD"); reflexivity.
Qed.

Lemma available_parts_nil (m : string) (rs : list (Quantity F)) :
  available_parts fos str_reduction m [] = Ok rs <->
  rs = [] /\ parse_method m <> None.
Proof.
  unfold available_parts, parse_method, ret, raise.
  destruct (String.eqb m "ASD"); [|destruct (String.eqb m "LRFD")];
    (split; [intros [= <-] | intros [-> ?]]); try split; congruence.
Qed.

Lemma strength_per_part_nil (m : string) (rs : list (Quantity F)) :
  per_part m [] = Ok rs <-> rs = [] /\ parse_method m <> None.
Proof. apply available_parts_nil. Qed.

(** With one more part in front, the operation returns the strength of that
    part in front of the strengths of the others. *)
Lemma strength_per_part_cons (m : string) (p : P) (ps : list P)
    (rs : list (Quantity F)) :
  per_part m (p :: ps) = Ok rs <->
  exists r rs', rs = r :: rs' /\ of_part m p = Ok r /\ per_part m ps = Ok rs'.
Proof.
  unfold strength_per_part, strength_of_part. simpl.
  destruct (convert p) as [c|e]; simpl;
    [|split; [discriminate | now intros (? & ? & _ & ? & _)]].
  destruct (mapM convert ps) as [cs|e]; simpl;
    [|split; [discriminate | now intros (? & ? & _ & _ & ?)]].
  destruct (nominal c) as [r_n|e]; simpl;
    [|split; [discriminate | now intros (? & ? & _ & ? & _)]].
  destruct (mapM nominal cs) as [r_ns|e]; simpl;
    [|split; [discriminate | now intros (? & ? & _ & _ & ?)]].
  rewrite available_parts_cons.
  destruct (available fos str_reduction m r_n) as [r|e]; simpl;
    [|split; [discriminate | now intros (? & ? & _ & ? & _)]].
  destruct (available_parts fos str_reduction m r_ns) as [rs'|e]; simpl;
    [|split; [discriminate | now intros (? & ? & _ & _ & ?)]].
  split; [intros [= <-]; eauto | intros (? & ? & -> & [= <-] & [= <-])].
  reflexivity.
Qed.

(** The operation succeeds exactly when the method is valid and every part
    has a strength, and returns these strengths in the order of the
    parts. *)
Lemma strength_per_part_ok_iff (m : string) (ps : list P)
    (rs : list (Quantity F)) :
  per_part m ps = Ok rs <->
  parse_method m <> None /\ Forall2 (fun p r => of_part m p = Ok r) ps rs.
Proof.
  revert rs. induction ps as [|p ps IH]; intros rs.
  - rewrite strength_per_part_nil. split.
    + intros [-> Hm]. split; [exact Hm | constructor].
    + intros [Hm Hf]. inversion Hf. auto.
  - rewrite strength_per_part_cons. split.
    + intros (r & rs' & -> & Hr & Hps). apply IH in Hps as [Hm Hf].
      split; [exact Hm | now constructor].
    + intros [Hm Hf]. inversion Hf as [|? r ? rs' Hr Hrs]; subst.
      exists r, rs'. repeat split; auto. apply IH. auto.
Qed.

Lemma strength_per_part_length (m : string) (ps : list P)
    (rs : list (Quantity F)) :
  per_part m ps = Ok rs -> length rs = length ps.
Proof.
  rewrite strength_per_part_ok_iff. intros [_ Hf]. symmetry.
  eapply Forall2_length, Hf.
Qed.

(** The strength of the part at a position is found at that position. *)
Lemma strength_per_part_nth (m : string) (ps : list P)
    (rs : list (Quantity F)) (i : nat) (p : P) :
  per_part m ps = Ok rs -> nth_error ps i = Some p ->
  exists r, nth_error rs i = Some r /\ of_part m p = Ok r.
Proof.
  rewrite strength_per_part_ok_iff. intros [_ Hf]. revert i.
  induction Hf as [|p' r ps rs Hr Hf IH]; intros [|i]; simpl; try discriminate.
  - intros [= ->]. eauto.
  - apply IH.
Qed.

(** Rearranging the parts rearranges the strengths in the same way. *)
Lemma strength_per_part_Permutation (m : string) (ps ps' : list P)
    (rs : list (Quantity F)) :
  Permutation ps ps' -> per_part m ps = Ok rs ->
  exists rs', per_part m ps' = Ok rs' /\ Permutation rs rs'.
Proof.
  intros Hp. rewrite strength_per_part_ok_iff, <- mapM_ok_iff. intros [Hm Hrs].
  destruct (mapM_Permutation _ _ _ _ Hp Hrs) as (rs' & Hrs' & Hp').
  exists rs'. split; [|exact Hp'].
  apply strength_per_part_ok_iff. split; [exact Hm | now apply mapM_ok_iff].
Qed.

(** The parts of two lists, one after the other. *)
Lemma strength_per_part_app (m : string) (ps1 ps2 : list P)
    (rs1 rs2 : list (Quantity F)) :
  per_part m ps1 = Ok rs1 -> per_part m ps2 = Ok rs2 ->
  per_part m (ps1 ++ ps2) = Ok (rs1 ++ rs2).
Proof.
  rewrite !strength_per_part_ok_iff. intros [Hm H1] [_ H2].
  split; [exact Hm | now apply Forall2_app].
Qed.

(** The exception of a part whose conversion raises comes before any
    exception of the method: the first part that cannot be converted decides. *)
Lemma strength_per_part_convert_error (m : string) (ps1 ps2 : list P) (p : P)
    (e : exn) :
  Forall (fun x => is_ok (convert x) = true) ps1 -> convert p = Err e ->
  per_part m (ps1 ++ p :: ps2) = Err e.
Proof.
  intros H1 Hp. unfold strength_per_part.
  assert (E : mapM convert (ps1 ++ p :: ps2) = Err e)
    by (apply mapM_err_iff; eauto 6).
  now rewrite E.
Qed.

End PerPartFacts.

(** ** Two parts: the functions of the source *)

(** [two_parts m] proves that an instance of the operation on two parts is
    the calculator of the source: it follows every conversion on both
    sides, then the branch on the method [m]. *)
Ltac two_parts m :=
  unfold strength_per_part, convert_t_ult, convert_len_len_str, both,
    available_parts, bearing_nominal, tearout_nominal, shear_yield_nominal,
    shear_rupture_nominal, tensile_yield_nominal, tensile_rupture_nominal;
  cbn [mapM bind ret];
  norm_inputs; res_simpl; cbn [mapM bind ret map]; res_simpl;
  try reflexivity;
  int_cases; cbn [mapM bind ret map]; res_simpl; try reflexivity;
  destruct (String.eqb m "ASD"); [reflexivity|];
  destruct (String.eqb m "LRFD"); reflexivity.

Section TwoParts.
Context {F : Type} `{Number F}.

(** C20. In any arithmetic, on two parts [bearing_strength_parts] is
    [bearing_strength_bolts]: the same two strengths in the same order, or
    the same exception, whichever input is wrong. *)
Theorem bearing_strength_parts_two (m : string)
    (d t1 u1 t2 u2 : Quantity F) :
  bearing_strength_parts m d [(t1, u1); (t2, u2)]
  = both (bearing_strength_bolts m d t1 u1 t2 u2).
Proof. unfold bearing_strength_parts, bearing_strength_bolts. two_parts m. Qed.

(** The same for the five other calculators. *)
Theorem tearout_strength_parts_two (m : string)
    (d e1 e2 t1 u1 t2 u2 : Quantity F) :
  tearout_strength_parts m d [(e1, t1, u1); (e2, t2, u2)]
  = both (tearout_strength_bolts m d e1 e2 t1 u1 t2 u2).
Proof. unfold tearout_strength_parts, tearout_strength_bolts. two_parts m. Qed.

Theorem shear_yield_parts_two (m : string) (t1 l1 y1 t2 l2 y2 : Quantity F) :
  shear_yield_parts m [(t1, l1, y1); (t2, l2, y2)]
  = both (connected_elem_shear_yield_str m t1 l1 y1 t2 l2 y2).
Proof.
  unfold shear_yield_parts, connected_elem_shear_yield_str. two_parts m.
Qed.

(** C21. In any arithmetic, on two parts [shear_rupture_parts] is
    [connected_elem_shear_rupture_str], errors included. *)
Theorem shear_rupture_parts_two (m : string) (d : Quantity F) (n : Z)
    (t1 l1 u1 t2 l2 u2 : Quantity F) :
  shear_rupture_parts m d n [(t1, l1, u1); (t2, l2, u2)]
  = both (connected_elem_shear_rupture_str m d n t1 l1 u1 t2 l2 u2).
Proof.
  unfold shear_rupture_parts, connected_elem_shear_rupture_str. two_parts m.
Qed.

Theorem tensile_yield_parts_two (m : string) (t1 l1 y1 t2 l2 y2 : Quantity F) :
  tensile_yield_parts m [(t1, l1, y1); (t2, l2, y2)]
  = both (connected_elem_tensile_yield_str m t1 l1 y1 t2 l2 y2).
Proof.
  unfold tensile_yield_parts, connected_elem_tensile_yield_str. two_parts m.
Qed.

Theorem tensile_rupture_parts_two (m : string) (d : Quantity F) (n : Z)
    (U : F) (t1 l1 u1 t2 l2 u2 : Quantity F) :
  tensile_rupture_parts m d n U [(t1, l1, u1); (t2, l2, u2)]
  = both (connected_elem_tensile_rupture_str m d n U t1 l1 u1 t2 l2 u2).
Proof.
  unfold tensile_rupture_parts, connected_elem_tensile_rupture_str.
  two_parts m.
Qed.

End TwoParts.

(** ** Any number of parts: the source, part by part *)

Section PerPartSource.
Context {F : Type} `{Number F}.
Local Open Scope num_scope.

Lemma bearing_of_part_eq (m : string) (d : Quantity F) (x : F)
    (p : Quantity F * Quantity F) :
  to_name d "inch" = Ok (qty x inch) ->
  bearing_of_part m d p =
  strength_of_part convert_t_ult (bearing_nominal (qty x inch))
    (lit 2.00) (lit 0.75) m p.
Proof.
  intros E. destruct p as [t u].
  unfold bearing_of_part, bearing_strength_bolts, strength_of_part,
    convert_t_ult, bearing_nominal, fst_of, available.
  rewrite E. cbn [bind]. norm_inputs; res_simpl; try reflexivity.
  destruct (String.eqb m "ASD"); [reflexivity|].
  destruct (String.eqb m "LRFD"); reflexivity.
Qed.

Lemma shear_rupture_of_part_eq (m : string) (d : Quantity F) (n : Z) (x : F)
    (p : Quantity F * Quantity F * Quantity F) :
  to_name d "inch" = Ok (qty x inch) ->
  shear_rupture_of_part m d n p =
  strength_of_part convert_len_len_str (shear_rupture_nominal (qty x inch) n)
    (lit 2.00) (lit 0.75) m p.
Proof.
  intros E. destruct p as [[t l] u].
  unfold shear_rupture_of_part, connected_elem_shear_rupture_str,
    strength_of_part, convert_len_len_str, shear_rupture_nominal, fst_of,
    available.
  rewrite E. cbn [bind]. norm_inputs; res_simpl; try reflexivity.
  int_cases.
  destruct (String.eqb m "ASD"); [reflexivity|].
  destruct (String.eqb m "LRFD"); reflexivity.
Qed.

(** C22. In any arithmetic, [bearing_strength_parts] succeeds exactly when the
    diameter is a length, the method is valid and the source succeeds on
    every part, and it returns for each part the strength the source
    returns for it. *)
Theorem bearing_strength_parts_per_part (m : string) (d : Quantity F)
    (parts : list (Quantity F * Quantity F)) (rs : list (Quantity F)) :
  bearing_strength_parts m d parts = Ok rs <->
  is_length d /\ parse_method m <> None /\
  Forall2 (fun p r => bearing_of_part m d p = Ok r) parts rs.
Proof.
  unfold bearing_strength_parts.
  destruct (to_name_outcome d "inch" inch eq_refl) as [[Hd [x E]]|[Hd E]];
    rewrite E; cbn [bind].
  - rewrite strength_per_part_ok_iff.
    rewrite (Forall2_ext _ (fun p r => bearing_of_part m d p = Ok r)).
    + unfold is_length. tauto.
    + intros p r. now rewrite (bearing_of_part_eq m d x p E).
  - split; [discriminate | intros [Hd' _]; contradiction].
Qed.

(** The same for [shear_rupture_parts]. *)
Theorem shear_rupture_parts_per_part (m : string) (d : Quantity F) (n : Z)
    (parts : list (Quantity F * Quantity F * Quantity F))
    (rs : list (Quantity F)) :
  shear_rupture_parts m d n parts = Ok rs <->
  is_length d /\ parse_method m <> None /\
  Forall2 (fun p r => shear_rupture_of_part m d n p = Ok r) parts rs.
Proof.
  unfold shear_rupture_parts.
  destruct (to_name_outcome d "inch" inch eq_refl) as [[Hd [x E]]|[Hd E]];
    rewrite E; cbn [bind].
  - rewrite strength_per_part_ok_iff.
    rewrite (Forall2_ext _ (fun p r => shear_rupture_of_part m d n p = Ok r)).
    + unfold is_length. tauto.
    + intros p r. now rewrite (shear_rupture_of_part_eq m d n x p E).
  - split; [discriminate | intros [Hd' _]; contradiction].
Qed.

End PerPartSource.

(** ** The governing strength *)

(** On two strengths the governing strength is Python's [min] of two
    arguments, in any arithmetic. *)
Lemma governing_strength_two {F : Type} `{Number F} (a b : Quantity F) :
  governing_strength [a; b] = qmin a b.
Proof. unfold governing_strength, qmin. simpl. now destruct (qlt b a). Qed.

Section Governing.

(** Among strengths in kip, [min_from] returns one that is least. *)
Lemma min_from_least (rs : list (Quantity Q)) :
  forall (best : Quantity Q) (b : Q) (xs : list Q),
  qty_eq best (qty b kip) ->
  Forall2 qty_eq rs (map (fun x => qty x kip) xs) ->
  exists g, min_from best rs = Ok g /\ units g = kip /\
    Forall (fun x => magnitude g <= x) (b :: xs) /\
    Exists (fun x => magnitude g == x) (b :: xs).
Proof.
  induction rs as [|r rs IH]; intros best b xs [Hb Hu] Hrs.
  - inversion Hrs as [E|]. destruct xs; [|discriminate]. exists best.
    simpl in Hb, Hu. split; [reflexivity|]. split; [exact Hu|]. split.
    + constructor; [rewrite Hb; apply Qle_refl | constructor].
    + now constructor.
  - destruct xs as [|x xs]; inversion Hrs as [|? ? ? ? [Hr Hur] Hrs']; subst.
    destruct best as [mb ub], r as [mr ur]. simpl in *. subst ub ur.
    rewrite qlt_same. cbn [bind]. num_unfold.
    destruct (Qltb mr mb) eqn:E; [apply Qltb_lt in E | apply Qltb_ge in E].
    + destruct (IH (qty mr kip) x xs) as (g & -> & Hg & Hle & Hex);
        [split; auto | exact Hrs' |].
      exists g. repeat split; auto.
      inversion Hle; subst. repeat constructor; auto. lra.
    + destruct (IH (qty mb kip) b xs) as (g & -> & Hg & Hle & Hex);
        [split; auto | exact Hrs' |].
      exists g. repeat split; auto.
      * inversion Hle; subst. repeat constructor; auto. lra.
      * inversion Hex; subst; [now left | now do 2 right].
Qed.

(** The governing strength of strengths in kip is one of them, and the
    least. *)
Lemma governing_strength_least (rs : list (Quantity Q)) (xs : list Q) :
  xs <> [] -> Forall2 qty_eq rs (map (fun x => qty x kip) xs) ->
  exists g, governing_strength rs = Ok g /\ units g = kip /\
    Forall (fun x => magnitude g <= x) xs /\
    Exists (fun x => magnitude g == x) xs.
Proof.
  destruct xs as [|x xs]; [contradiction|]. intros _ Hrs.
  destruct rs as [|r rs]; inversion Hrs as [|? ? ? ? Hr Hrs']; subst.
  now apply min_from_least.
Qed.

End Governing.

(** ** Any number of parts implement the policy *)

Section Refinement.
Context {P C : Type}.
Variable convert : P -> result C.
Variable nominal : C -> result (Quantity Q).
Variables fos str_reduction : Q.
Variable ls : LimitState.
Variable Rn : P -> Q.
Variable ok : P -> Prop.
Hypothesis fos_ok : fos == asd_factor ls.
Hypothesis str_reduction_ok : str_reduction == lrfd_factor ls.
Hypothesis nominal_ok : forall p, ok p ->
  exists c r_n, convert p = Ok c /\ nominal c = Ok r_n /\
    qty_eq r_n (qty (Rn p) kip).

Lemma nominal_parts (ps : list P) :
  Forall ok ps ->
  exists cs r_ns, mapM convert ps = Ok cs /\ mapM nominal cs = Ok r_ns /\
    Forall2 (fun r_n p => qty_eq r_n (qty (Rn p) kip)) r_ns ps.
Proof.
  induction 1 as [|p ps Hp _ (cs & r_ns & E1 & E2 & Hr)].
  - exists [], []. repeat split. constructor.
  - destruct (nominal_ok p Hp) as (c & r_n & Ec & En & Hq).
    exists (c :: cs), (r_n :: r_ns). simpl. rewrite Ec, E1, En, E2.
    repeat split. now constructor.
Qed.

Lemma available_refines (m : DesignMethod) (r_n : Quantity Q) (x : Q) :
  qty_eq r_n (qty x kip) ->
  qty_eq (match m with
          | ASD => divs r_n fos
          | LRFD => smul str_reduction r_n
          end) (qty (apply_factor m ls x) kip).
Proof.
  intros Hq. destruct m; simpl.
  - rewrite Hq, fos_ok. split; reflexivity.
  - rewrite Hq, str_reduction_ok. split; reflexivity.
Qed.

(** A limit state whose factors are those of the policy and whose nominal
    strength is [Rn] on every well-formed part implements the policy on any
    number of parts. *)
Lemma strength_per_part_refines (m : string) (ps : list P) :
  Forall ok ps ->
  res_rel (Forall2 qty_eq)
    (strength_per_part convert nominal fos str_reduction m ps)
    (governing_parts m ls (map Rn ps)).
Proof.
  intros Hok. destruct (nominal_parts ps Hok) as (cs & r_ns & E1 & E2 & Hr).
  unfold strength_per_part. rewrite E1. cbn [bind]. rewrite E2. cbn [bind].
  unfold available_parts, governing_parts, parse_method.
  destruct (String.eqb m "ASD"); [|destruct (String.eqb m "LRFD")];
    [| |reflexivity]; cbn; rewrite map_map;
    apply Forall2_map_r, Forall2_flip_iff, Forall2_map_r, Forall2_flip_iff;
    (eapply Forall2_impl; [|exact Hr]); intros r_n p Hq.
  - now apply (available_refines ASD).
  - now apply (available_refines LRFD).
Qed.

(** What the operation returns under a valid method. *)
Lemma strength_per_part_returns (s : string) (m : DesignMethod) (ps : list P) :
  Forall ok ps -> parse_method s = Some m ->
  exists rs, strength_per_part convert nominal fos str_reduction s ps = Ok rs /\
    Forall2 qty_eq rs
      (map (fun x => qty x kip) (map (fun p => apply_factor m ls (Rn p)) ps)).
Proof.
  intros Hok Hm. pose proof (strength_per_part_refines s ps Hok) as R.
  unfold governing_parts in R. rewrite Hm in R.
  destruct (strength_per_part _ _ _ _ _ _) as [rs|e]; [|contradiction].
  exists rs. split; [reflexivity|]. simpl in R. rewrite !map_map in *. exact R.
Qed.

(** The least of the strengths of the parts is the policy applied to the
    nominal strength of one of the parts, and it is at most the available
    strength of every part. *)
Lemma strength_per_part_governing (s : string) (m : DesignMethod)
    (ps : list P) :
  ps <> [] -> Forall ok ps -> parse_method s = Some m ->
  exists g,
    (rs <- strength_per_part convert nominal fos str_reduction s ps ;;
     governing_strength rs) = Ok g /\ units g = kip /\
    Forall (fun p => magnitude g <= apply_factor m ls (Rn p)) ps /\
    Exists (fun p => magnitude g == apply_factor m ls (Rn p)) ps.
Proof.
  intros Hne Hok Hm.
  destruct (strength_per_part_returns s m ps Hok Hm) as (rs & -> & Hrs).
  cbn [bind]. apply governing_strength_least in Hrs as (g & Hg & Hu & Hle & Hex).
  - exists g. rewrite Forall_map in Hle. rewrite Exists_map in Hex. auto.
  - destruct ps; [contradiction | discriminate].
Qed.

End Refinement.

Section Instances.

(** The nominal strengths of a well-dimensioned part are the formulas of
    the two-part calculators. *)
Lemma bearing_part_nominal (d : Quantity Q) (x : Q) :
  x == canon d -> forall p, plate_ok p ->
  exists c r_n, convert_t_ult p = Ok c /\
    bearing_nominal (qty x inch) c = Ok r_n /\
    qty_eq r_n
      (qty (Rn_bolt_bearing (canon d) (canon (fst p)) (canon (snd p))) kip).
Proof.
  intros Hx [t u] [Ht Hu]. unfold convert_t_ult, bearing_nominal.
  destruct (to_name_inch t Ht) as (xt & -> & Hxt).
  destruct (to_name_ksi u Hu) as (xu & -> & Hxu).
  eexists _, _. repeat split. cbn. num_unfold.
  rewrite Hx, Hxt, Hxu. reflexivity.
Qed.

Lemma shear_rupture_part_nominal (d : Quantity Q) (n : Z) (x : Q) :
  x == canon d -> forall p, strip_ok p ->
  exists c r_n, convert_len_len_str p = Ok c /\
    shear_rupture_nominal (qty x inch) n c = Ok r_n /\
    qty_eq r_n
      (qty (Rn_shear_rupture (canon d) n (canon (fst (fst p)))
              (canon (snd (fst p))) (canon (snd p))) kip).
Proof.
  intros Hx [[t l] u] (Ht & Hl & Hu).
  unfold convert_len_len_str, shear_rupture_nominal.
  destruct (to_name_inch t Ht) as (xt & -> & Hxt).
  destruct (to_name_inch l Hl) as (xl & -> & Hxl).
  destruct (to_name_ksi u Hu) as (xu & -> & Hxu).
  eexists _, _. res_simpl. repeat split. cbn. num_unfold.
  rewrite Hx, Hxt, Hxl, Hxu. reflexivity.
Qed.

(** C23. On any number of well-dimensioned parts, in any units,
    [bearing_strength_parts] returns for every part what the policy returns
    on the bearing strength of that part, and the policy's error on an
    invalid method. *)
Theorem bearing_strength_parts_refines (m : string) (d : Quantity Q)
    (parts : list (Quantity Q * Quantity Q)) :
  is_length d -> Forall plate_ok parts ->
  res_rel (Forall2 qty_eq) (bearing_strength_parts m d parts)
    (governing_parts m BoltBearing
       (map (fun p => Rn_bolt_bearing (canon d) (canon (fst p)) (canon (snd p)))
            parts)).
Proof.
  intros Hd Hps. unfold bearing_strength_parts.
  destruct (to_name_inch d Hd) as (x & -> & Hx). cbn [bind].
  apply strength_per_part_refines with (ok := plate_ok);
    [reflexivity | reflexivity | now apply bearing_part_nominal | exact Hps].
Qed.

(** The same for [shear_rupture_parts]. *)
Theorem shear_rupture_parts_refines (m : string) (d : Quantity Q) (n : Z)
    (parts : list (Quantity Q * Quantity Q * Quantity Q)) :
  is_length d -> Forall strip_ok parts ->
  res_rel (Forall2 qty_eq) (shear_rupture_parts m d n parts)
    (governing_parts m ElementShearRupture
       (map (fun p => Rn_shear_rupture (canon d) n (canon (fst (fst p)))
                        (canon (snd (fst p))) (canon (snd p)))
            parts)).
Proof.
  intros Hd Hps. unfold shear_rupture_parts.
  destruct (to_name_inch d Hd) as (x & -> & Hx). cbn [bind].
  apply strength_per_part_refines with (ok := strip_ok);
    [reflexivity | reflexivity | now apply shear_rupture_part_nominal
    | exact Hps].
Qed.

(** C24. The governing bearing strength of any number of parts is the available
    strength of the part whose nominal strength is least. *)
Theorem bearing_strength_parts_governing (s : string) (m : DesignMethod)
    (d : Quantity Q) (parts : list (Quantity Q * Quantity Q)) :
  parts <> [] -> is_length d -> Forall plate_ok parts ->
  parse_method s = Some m ->
  exists g,
    (rs <- bearing_strength_parts s d parts ;; governing_strength rs) = Ok g /\
    units g = kip /\
    Forall (fun p => magnitude g <= apply_factor m BoltBearing
              (Rn_bolt_bearing (canon d) (canon (fst p)) (canon (snd p))))
           parts /\
    Exists (fun p => magnitude g == apply_factor m BoltBearing
              (Rn_bolt_bearing (canon d) (canon (fst p)) (canon (snd p))))
           parts.
Proof.
  intros Hne Hd Hps Hm. unfold bearing_strength_parts.
  destruct (to_name_inch d Hd) as (x & -> & Hx). cbn [bind].
  apply strength_per_part_governing with (ok := plate_ok);
    solve [reflexivity | assumption | now apply bearing_part_nominal].
Qed.

End Instances.

(** ** The theorems on three plates *)

Lemma bearing_strength_parts_refines_witness :
  res_rel (Forall2 qty_eq)
    (bearing_strength_parts "LRFD" (qty 0.75 inch)
       [(qty 0.5 inch, qty 58 ksi); (qty 10 millimeter, qty 65 ksi);
        (qty 0.375 inch, qty 400 megapascal)])
    (governing_parts "LRFD" BoltBearing
       (map (fun p => Rn_bolt_bearing (canon (qty 0.75 inch))
                        (canon (fst p)) (canon (snd p)))
          [(qty 0.5 inch, qty 58 ksi); (qty 10 millimeter, qty 65 ksi);
           (qty 0.375 inch, qty 400 megapascal)])).
Proof.
  apply (bearing_strength_parts_refines "LRFD" (qty 0.75 inch));
    [reflexivity | repeat constructor].
Defined.

Lemma shear_rupture_parts_refines_witness :
  res_rel (Forall2 qty_eq)
    (shear_rupture_parts "ASD" (qty 0.75 inch) 2
       [(qty 0.5 inch, qty 6 inch, qty 58 ksi);
        (qty 10 millimeter, qty 150 millimeter, qty 65 ksi)])
    (governing_parts "ASD" ElementShearRupture
       (map (fun p => Rn_shear_rupture (canon (qty 0.75 inch)) 2
                        (canon (fst (fst p))) (canon (snd (fst p)))
                        (canon (snd p)))
          [(qty 0.5 inch, qty 6 inch, qty 58 ksi);
           (qty 10 millimeter, qty 150 millimeter, qty 65 ksi)])).
Proof.
  apply (shear_rupture_parts_refines "ASD" (qty 0.75 inch) 2);
    [reflexivity | repeat constructor].
Defined.

Lemma bearing_strength_parts_governing_witness :
  exists g,
    (rs <- bearing_strength_parts "ASD" (qty 0.75 inch)
             [(qty 0.5 inch, qty 58 ksi); (qty 0.375 inch, qty 58 ksi);
              (qty 0.625 inch, qty 65 ksi)] ;;
     governing_strength rs) = Ok g /\
    units g = kip /\
    Forall (fun p => magnitude g <= apply_factor ASD BoltBearing
              (Rn_bolt_bearing (canon (qty 0.75 inch)) (canon (fst p))
                 (canon (snd p))))
      [(qty 0.5 inch, qty 58 ksi); (qty 0.375 inch, qty 58 ksi);
       (qty 0.625 inch, qty 65 ksi)] /\
    Exists (fun p => magnitude g == apply_factor ASD BoltBearing
              (Rn_bolt_bearing (canon (qty 0.75 inch)) (canon (fst p))
                 (canon (snd p))))
      [(qty 0.5 inch, qty 58 ksi); (qty 0.375 inch, qty 58 ksi);
       (qty 0.625 inch, qty 65 ksi)].
Proof.
  apply (bearing_strength_parts_governing "ASD" ASD (qty 0.75 inch));
    [discriminate | reflexivity | repeat constructor | reflexivity].
Defined.

