(* ===== verification/Connection.v ===== *)
(** * The connection: what the caller of several calculators may rely on

    The calculators return one strength per limit state and per part; the
    strength of a connection is the smallest of them, and taking it is left
    to the caller.  This file proves, from the contract of [Contract.v] that
    every calculator keeps, the facts that make that reduction sound: the
    design strength of a limit state never exceeds its nominal strength, the
    governing part can be chosen before or after the method is applied, the
    allowable (ASD) strength never exceeds the available (LRFD) one, and
    which of bearing and tearout governs a bolt hole. *)

From Stdlib Require Import String Bool ZArith QArith Qminmax Lia Lqa.
From Stdlib Require Import Morphisms RelationClasses Setoid.
From S2P Require Import Prelude Numeric Units Policy Contract Bolt Element Weld.

#[local] Open Scope string_scope.
#[local] Open Scope Q_scope.

(** ** Bearing against tearout *)

(** The clear distance from the edge of the hole to the edge of the part:
    [net_dist] of [tearout_strength_bolts], on magnitudes in inch. *)
Definition clear_distance (edge_dist dia : Q) : Q :=
  edge_dist - (dia + 0.125) / 2.

(** C36. At a bolt hole the tearout strength of a part of positive thickness
    and strength is below its bearing strength exactly when the clear
    distance to the edge is less than two bolt diameters
    ([1.2 l_c < 2.4 d]), under either method. *)
Theorem tearout_governs_iff (s : string) (m : DesignMethod)
    (d e1 e2 t1 u1 t2 u2 : Quantity Q) :
  tearout_inputs_ok d e1 e2 t1 u1 t2 u2 -> parse_method s = Some m ->
  0 < canon t1 -> 0 < canon u1 ->
  exists b1 b2 r1 r2,
    bearing_strength_bolts s d t1 u1 t2 u2 = Ok (b1, b2) /\
    tearout_strength_bolts s d e1 e2 t1 u1 t2 u2 = Ok (r1, r2) /\
    (magnitude r1 < magnitude b1 <->
     clear_distance (canon e1) (canon d) < 2 * canon d).
Proof.
  intros Hok Hm Ht Hu.
  assert (Hb : bearing_inputs_ok d t1 u1 t2 u2)
    by (unfold tearout_inputs_ok, bearing_inputs_ok in *; tauto).
  pose proof (calc2_returns bearing_calc s m (d, t1, u1, t2, u2)) as Pb.
  pose proof (calc2_returns tearout_calc s m (d, e1, e2, t1, u1, t2, u2)) as Pr.
  destruct (Pb Hb Hm) as (b1 & b2 & Eb & [Hb1 _] & _).
  destruct (Pr Hok Hm) as (r1 & r2 & Er & [Hr1 _] & _).
  exists b1, b2, r1, r2. split; [exact Eb|]. split; [exact Er|].
  cbn in Hb1, Hr1. rewrite Hb1, Hr1.
  unfold Rn_bolt_bearing, Rn_bolt_tearout, clear_distance.
  set (lc := canon e1 - (canon d + 0.125) / 2).
  assert (Hk : 0 < canon t1 * canon u1) by nra.
  destruct m; simpl; q_inv_consts; split; intros H.
  1,3: destruct (Qlt_le_dec lc (2 * canon d)) as [L|L]; [exact L|]; exfalso; nra.
  all: nra.
Qed.

Lemma tearout_governs_iff_witness :
  exists b1 b2 r1 r2,
    bearing_strength_bolts "LRFD" (qty 0.75 inch) (qty 0.5 inch) (qty 58 ksi)
      (qty 12.7 millimeter) (qty 58 ksi) = Ok (b1, b2) /\
    tearout_strength_bolts "LRFD" (qty 0.75 inch) (qty 1 inch) (qty 1 inch)
      (qty 0.5 inch) (qty 58 ksi) (qty 12.7 millimeter) (qty 58 ksi)
    = Ok (r1, r2) /\
    (magnitude r1 < magnitude b1 <->
     clear_distance (canon (qty 1 inch)) (canon (qty 0.75 inch))
     < 2 * canon (qty 0.75 inch)).
Proof.
  apply (tearout_governs_iff "LRFD" LRFD); [repeat split | | |]; reflexivity.
Defined.

(** ** The governing part *)

(** The governing bearing strength of a connection, the smaller of the
    two results of [bearing_strength_bolts], is the policy applied to the
    smaller of the two nominal strengths: the caller may reduce before or
    after the design method is applied. *)
Theorem bearing_governing_part (s : string) (m : DesignMethod)
    (d t1 u1 t2 u2 : Quantity Q) :
  bearing_inputs_ok d t1 u1 t2 u2 -> parse_method s = Some m ->
  exists r1 r2,
    bearing_strength_bolts s d t1 u1 t2 u2 = Ok (r1, r2) /\
    Qmin (magnitude r1) (magnitude r2)
    == apply_factor m BoltBearing
         (Qmin (Rn_bolt_bearing (canon d) (canon t1) (canon u1))
               (Rn_bolt_bearing (canon d) (canon t2) (canon u2))).
Proof.
  intros Hok Hm.
  pose proof (calc2_returns bearing_calc s m (d, t1, u1, t2, u2)) as P.
  destruct (P Hok Hm) as (r1 & r2 & E & _).
  exists r1, r2. split; [exact E|].
  pose proof (calc2_min_commutes bearing_calc s m (d, t1, u1, t2, u2) r1 r2) as Q.
  now apply Q.
Qed.

Lemma bearing_governing_part_witness :
  exists r1 r2,
    bearing_strength_bolts "ASD" (qty 0.75 inch) (qty 0.5 inch) (qty 58 ksi)
      (qty 0.375 inch) (qty 448 megapascal) = Ok (r1, r2) /\
    Qmin (magnitude r1) (magnitude r2)
    == apply_factor ASD BoltBearing
         (Qmin (Rn_bolt_bearing (canon (qty 0.75 inch)) (canon (qty 0.5 inch))
                                (canon (qty 58 ksi)))
               (Rn_bolt_bearing (canon (qty 0.75 inch)) (canon (qty 0.375 inch))
                                (canon (qty 448 megapascal)))).
Proof.
  apply (bearing_governing_part "ASD" ASD); [repeat split | reflexivity].
Defined.

(** ** Allowable against available strength *)

(** For a bolt of non-negative strength, both methods succeed and the
    allowable (ASD) shear strength never exceeds the available (LRFD) one:
    dividing by 2.00 takes more than multiplying by 0.75. *)
Theorem shear_strength_bolts_ASD_le_LRFD (d fu : Quantity Q) :
  is_length d -> is_stress fu -> 0 <= canon fu ->
  exists a l,
    shear_strength_bolts "ASD" d fu = Ok a /\
    shear_strength_bolts "LRFD" d fu = Ok l /\
    magnitude a <= magnitude l.
Proof.
  intros Hd Hf Hn.
  pose proof (calc_LRFD_ASD shear_calc (d, fu)) as P.
  destruct P as (a & l & Ea & El & _); [split; assumption|].
  exists a, l. split; [exact Ea|]. split; [exact El|].
  pose proof (calc_ASD_le_LRFD shear_calc (d, fu) a l) as Q.
  apply Q; try assumption; [split; assumption|].
  cbn. unfold Rn_bolt_shear. pose proof (bolt_area_nonneg (canon d)). nra.
Qed.

Lemma shear_strength_bolts_ASD_le_LRFD_witness :
  exists a l,
    shear_strength_bolts "ASD" (qty 19.05 millimeter) (qty 120 ksi) = Ok a /\
    shear_strength_bolts "LRFD" (qty 19.05 millimeter) (qty 120 ksi) = Ok l /\
    magnitude a <= magnitude l.
Proof.
  apply shear_strength_bolts_ASD_le_LRFD; [reflexivity | reflexivity | discriminate].
Defined.

(** ** Design strength against nominal strength *)

(** When the nominal shear rupture strength
    [0.60 f_u t (l - (d + 0.063) n)] of the first part is not negative, the
    strength [connected_elem_shear_rupture_str] returns for it lies between
    zero and that nominal strength, under either method. *)
Theorem connected_elem_shear_rupture_str_le_nominal (s : string)
    (m : DesignMethod) (d : Quantity Q) (n : Z)
    (t1 l1 u1 t2 l2 u2 : Quantity Q) :
  rupture_inputs_ok d t1 l1 u1 t2 l2 u2 -> parse_method s = Some m ->
  0 <= Rn_shear_rupture (canon d) n (canon t1) (canon l1) (canon u1) ->
  exists r1 r2,
    connected_elem_shear_rupture_str s d n t1 l1 u1 t2 l2 u2 = Ok (r1, r2) /\
    0 <= magnitude r1
      <= Rn_shear_rupture (canon d) n (canon t1) (canon l1) (canon u1).
Proof.
  intros Hok Hm Hn.
  pose proof (calc2_returns shear_rupture_calc s m
                (d, n, t1, l1, u1, t2, l2, u2)) as P.
  destruct (P Hok Hm) as (r1 & r2 & E & _).
  exists r1, r2. split; [exact E|].
  pose proof (calc_le_nominal (part1 shear_rupture_calc) s
                (d, n, t1, l1, u1, t2, l2, u2) r1) as Q.
  apply Q; [exact Hok | exact Hn |]. unfold part1. now rewrite E.
Qed.

Lemma connected_elem_shear_rupture_str_le_nominal_witness :
  exists r1 r2,
    connected_elem_shear_rupture_str "LRFD" (qty 0.75 inch) 2
      (qty 0.5 inch) (qty 6 inch) (qty 58 ksi)
      (qty 0.5 inch) (qty 6 inch) (qty 58 ksi) = Ok (r1, r2) /\
    0 <= magnitude r1
      <= Rn_shear_rupture (canon (qty 0.75 inch)) 2 (canon (qty 0.5 inch))
           (canon (qty 6 inch)) (canon (qty 58 ksi)).
Proof.
  apply (connected_elem_shear_rupture_str_le_nominal "LRFD" LRFD);
    [ repeat split | reflexivity | discriminate ].
Defined.
