(* ===== verification/FloatOrder.v ===== *)
(** * The order of binary64 numbers

    Python's comparisons on floats are the IEEE 754 ones: every comparison
    with a NaN is false, and on the other doubles the order is total.  This
    file derives those facts for the kernel's primitive floats from their
    specification ([SFcompare] on [spec_float]), in the form the step
    function [min_weld_size] needs: [x <= y] is the negation of [y < x]
    exactly when neither side is a NaN.  The doubles thereby satisfy the
    laws [NumberOrder] of [Numeric.v], with NaN as the unordered number. *)

From Stdlib Require Import Bool ZArith PArith QArith Lia Floats.
From S2P Require Import Prelude Numeric.

#[local] Open Scope float_scope.

(** ** Definitions *)

(** The order of finite numbers of one sign: by exponent, then by
    mantissa. *)
Definition lex_compare (e1 : Z) (m1 : positive) (e2 : Z) (m2 : positive)
  : comparison :=
  match Z.compare e1 e2 with
  | Lt => Lt
  | Gt => Gt
  | Eq => Pos.compare m1 m2
  end.

(** How two comparisons that are not [Gt] compose. *)
Definition le_compose (c1 c2 : comparison) : comparison :=
  match c1, c2 with
  | Eq, Eq => Eq
  | _, _ => Lt
  end.

(** ** The specification order *)

(** Exchanging the sides of a comparison reverses its result. *)
Lemma SFcompare_antisym (x y : spec_float) :
  SFcompare y x = option_map CompOpp (SFcompare x y).
Proof.
  destruct x as [sx|sx| |sx mx ex], y as [sy|sy| |sy my ey]; simpl;
    try reflexivity; try (destruct sx; reflexivity);
    try (destruct sy; reflexivity); try (destruct sx, sy; reflexivity).
  destruct sx, sy; simpl; try reflexivity;
    rewrite (Z.compare_antisym ex ey); destruct (Z.compare ex ey); simpl;
    try reflexivity;
    change (Pos.compare_cont Eq my mx) with (Pos.compare my mx);
    change (Pos.compare_cont Eq mx my) with (Pos.compare mx my);
    rewrite (Pos.compare_antisym mx my); destruct (Pos.compare mx my);
    reflexivity.
Qed.

(** A number that is not a NaN equals itself. *)
Lemma SFcompare_refl (x : spec_float) :
  x <> S754_nan -> SFcompare x x = Some Eq.
Proof.
  destruct x as [s|s| |s m e]; simpl; intros H; try reflexivity.
  - destruct s; reflexivity.
  - contradiction.
  - change (Pos.compare_cont Eq m m) with (Pos.compare m m).
    destruct s; rewrite Z.compare_refl, Pos.compare_refl; reflexivity.
Qed.

(** Two numbers are unordered exactly when one of them is a NaN. *)
Lemma SFcompare_None (x y : spec_float) :
  SFcompare x y = None <-> x = S754_nan \/ y = S754_nan.
Proof.
  destruct x as [sx|sx| |sx mx ex], y as [sy|sy| |sy my ey]; simpl;
    split; intros H; try discriminate; try reflexivity; auto;
    destruct H as [H|H]; discriminate.
Qed.

(** [x <= y] is the negation of [y < x] on ordered numbers. *)
Lemma SFleb_negb_SFltb (x y : spec_float) :
  x <> S754_nan -> y <> S754_nan -> SFleb x y = negb (SFltb y x).
Proof.
  intros Hx Hy. unfold SFleb, SFltb. rewrite (SFcompare_antisym x y).
  destruct (SFcompare x y) as [[ | | ]|] eqn:E; try reflexivity.
  apply SFcompare_None in E. tauto.
Qed.

(** ** The primitive floats *)

(** [is_nan] recognises the NaN of the specification. *)
Lemma is_nan_Prim2SF (x : float) :
  is_nan x = true <-> Prim2SF x = S754_nan.
Proof.
  unfold is_nan. rewrite eqb_spec. unfold SFeqb. split.
  - intros H. destruct (Prim2SF x) eqn:E; try reflexivity;
      rewrite SFcompare_refl in H by discriminate; discriminate.
  - intros ->. reflexivity.
Qed.

Lemma is_nan_false_Prim2SF (x : float) :
  is_nan x = false <-> Prim2SF x <> S754_nan.
Proof.
  rewrite <- is_nan_Prim2SF. destruct (is_nan x); split; congruence.
Qed.

(** Every comparison with a NaN is false. *)
Lemma ltb_nan_l (x y : float) : is_nan x = true -> (x <? y) = false.
Proof.
  intros H. apply is_nan_Prim2SF in H. rewrite ltb_spec, H. reflexivity.
Qed.

Lemma ltb_nan_r (x y : float) : is_nan y = true -> (x <? y) = false.
Proof.
  intros H. apply is_nan_Prim2SF in H. rewrite ltb_spec, H.
  unfold SFltb. destruct (Prim2SF x); reflexivity.
Qed.

Lemma leb_nan_l (x y : float) : is_nan x = true -> (x <=? y) = false.
Proof.
  intros H. apply is_nan_Prim2SF in H. rewrite leb_spec, H. reflexivity.
Qed.

Lemma leb_nan_r (x y : float) : is_nan y = true -> (x <=? y) = false.
Proof.
  intros H. apply is_nan_Prim2SF in H. rewrite leb_spec, H.
  unfold SFleb. destruct (Prim2SF x); reflexivity.
Qed.

(** On doubles that are not NaN the order is total. *)
Lemma leb_negb_ltb (x y : float) :
  is_nan x = false -> is_nan y = false -> (x <=? y) = negb (y <? x).
Proof.
  intros Hx Hy. apply is_nan_false_Prim2SF in Hx, Hy.
  rewrite leb_spec, ltb_spec. now apply SFleb_negb_SFltb.
Qed.

(** A strict comparison that holds excludes NaN on both sides. *)
Lemma ltb_true_ordered (x y : float) :
  (x <? y) = true -> is_nan x = false /\ is_nan y = false.
Proof.
  intros H. split.
  - destruct (is_nan x) eqn:E; [|reflexivity].
    rewrite (ltb_nan_l x y E) in H. discriminate.
  - destruct (is_nan y) eqn:E; [|reflexivity].
    rewrite (ltb_nan_r x y E) in H. discriminate.
Qed.

(** ** Transitivity *)

Lemma le_compose_comm (c1 c2 : comparison) :
  le_compose c1 c2 = le_compose c2 c1.
Proof. destruct c1, c2; reflexivity. Qed.

Lemma lex_compare_spec (e1 : Z) (m1 : positive) (e2 : Z) (m2 : positive) :
  match lex_compare e1 m1 e2 m2 with
  | Lt => (e1 < e2 \/ (e1 = e2 /\ (m1 < m2)%positive))%Z
  | Eq => e1 = e2 /\ m1 = m2
  | Gt => (e2 < e1 \/ (e1 = e2 /\ (m2 < m1)%positive))%Z
  end.
Proof.
  unfold lex_compare.
  destruct (Z.compare_spec e1 e2); [|auto|auto].
  destruct (Pos.compare_spec m1 m2); auto.
Qed.

Lemma lex_compare_trans (e1 e2 e3 : Z) (m1 m2 m3 : positive) :
  lex_compare e1 m1 e2 m2 <> Gt -> lex_compare e2 m2 e3 m3 <> Gt ->
  lex_compare e1 m1 e3 m3
  = le_compose (lex_compare e1 m1 e2 m2) (lex_compare e2 m2 e3 m3).
Proof.
  pose proof (lex_compare_spec e1 m1 e2 m2) as H12.
  pose proof (lex_compare_spec e2 m2 e3 m3) as H23.
  pose proof (lex_compare_spec e1 m1 e3 m3) as H13.
  destruct (lex_compare e1 m1 e2 m2), (lex_compare e2 m2 e3 m3),
    (lex_compare e1 m1 e3 m3); simpl; intros N1 N2;
    try reflexivity; try congruence; exfalso; lia.
Qed.

Lemma lex_compare_antisym (e1 e2 : Z) (m1 m2 : positive) :
  lex_compare e2 m2 e1 m1 = CompOpp (lex_compare e1 m1 e2 m2).
Proof.
  unfold lex_compare. rewrite (Z.compare_antisym e1 e2).
  destruct (Z.compare e1 e2); simpl; try reflexivity.
  apply Pos.compare_antisym.
Qed.

(** [SFcompare] on two finite numbers, through [lex_compare]. *)
Lemma SFcompare_finite (s1 s2 : bool) (m1 m2 : positive) (e1 e2 : Z) :
  SFcompare (S754_finite s1 m1 e1) (S754_finite s2 m2 e2)
  = Some match s1, s2 with
         | true, false => Lt
         | false, true => Gt
         | false, false => lex_compare e1 m1 e2 m2
         | true, true => lex_compare e2 m2 e1 m1
         end.
Proof.
  simpl. destruct s1, s2; try reflexivity.
  rewrite lex_compare_antisym. unfold lex_compare.
  destruct (Z.compare e1 e2); reflexivity.
Qed.

(** The order of the specification is transitive: two comparisons that are
    not [Gt] compose. *)
Lemma SFcompare_trans (x y z : spec_float) (c1 c2 : comparison) :
  SFcompare x y = Some c1 -> SFcompare y z = Some c2 ->
  c1 <> Gt -> c2 <> Gt ->
  SFcompare x z = Some (le_compose c1 c2).
Proof.
  destruct x as [sx|sx| |sx mx ex], y as [sy|sy| |sy my ey],
    z as [sz|sz| |sz mz ez];
    try discriminate; try (destruct sx); try (destruct sy); try (destruct sz);
    try (simpl; intros [= <-] [= <-] N1 N2; solve [reflexivity | congruence]).
  all: rewrite ?SFcompare_finite; simpl; intros [= <-] [= <-] N1 N2; f_equal.
  all: try (apply lex_compare_trans; assumption).
  all: try (rewrite le_compose_comm; apply lex_compare_trans; assumption).
  all: destruct (lex_compare _ _ _ _); simpl in *; congruence.
Qed.

(** ** Transitivity on the primitive floats *)

(** What the boolean comparisons say of [SFcompare]. *)
Lemma SFltb_true (x y : spec_float) :
  SFltb x y = true <-> SFcompare x y = Some Lt.
Proof.
  unfold SFltb. destruct (SFcompare x y) as [[ | | ]|]; split; congruence.
Qed.

Lemma SFleb_true (x y : spec_float) :
  SFleb x y = true <->
  exists c, SFcompare x y = Some c /\ c <> Gt.
Proof.
  unfold SFleb. destruct (SFcompare x y) as [[ | | ]|]; split;
    try discriminate; try reflexivity;
    try (intros _; eexists; split; [reflexivity | discriminate]);
    intros (c & [= <-] & N); congruence.
Qed.

Lemma leb_trans (x y z : float) :
  (x <=? y) = true -> (y <=? z) = true -> (x <=? z) = true.
Proof.
  rewrite !leb_spec, !SFleb_true.
  intros (c1 & E1 & N1) (c2 & E2 & N2).
  exists (le_compose c1 c2). split.
  - now apply SFcompare_trans with (y := Prim2SF y).
  - destruct c1, c2; simpl; congruence.
Qed.

Lemma ltb_leb_trans (x y z : float) :
  (x <? y) = true -> (y <=? z) = true -> (x <? z) = true.
Proof.
  rewrite !ltb_spec, leb_spec, !SFltb_true, SFleb_true.
  intros E1 (c2 & E2 & N2).
  rewrite (SFcompare_trans _ _ _ _ _ E1 E2) by congruence.
  destruct c2; reflexivity.
Qed.

Lemma leb_ltb_trans (x y z : float) :
  (x <=? y) = true -> (y <? z) = true -> (x <? z) = true.
Proof.
  rewrite !ltb_spec, leb_spec, !SFltb_true, SFleb_true.
  intros (c1 & E1 & N1) E2.
  rewrite (SFcompare_trans _ _ _ _ _ E1 E2) by congruence.
  destruct c1; reflexivity || congruence.
Qed.

(** A non-strict comparison that holds excludes NaN on both sides. *)
Lemma leb_true_ordered (x y : float) :
  (x <=? y) = true -> is_nan x = false /\ is_nan y = false.
Proof.
  intros H. split.
  - destruct (is_nan x) eqn:E; [|reflexivity].
    rewrite (leb_nan_l x y E) in H. discriminate.
  - destruct (is_nan y) eqn:E; [|reflexivity].
    rewrite (leb_nan_r x y E) in H. discriminate.
Qed.

(** A strict comparison and the converse non-strict one exclude each
    other. *)
Lemma ltb_leb_false (x y : float) :
  (x <? y) = true -> (y <=? x) = false.
Proof.
  intros H. destruct (ltb_true_ordered _ _ H) as [Nx Ny].
  rewrite leb_negb_ltb by assumption. now rewrite H.
Qed.

(** On doubles that are not NaN the order is reflexive, and the strict
    order implies the other. *)
Lemma leb_refl (x : float) : is_nan x = false -> (x <=? x) = true.
Proof.
  intros N. apply is_nan_false_Prim2SF in N.
  rewrite leb_spec, SFleb_true. exists Eq.
  split; [now apply SFcompare_refl | discriminate].
Qed.

Lemma ltb_leb (x y : float) : (x <? y) = true -> (x <=? y) = true.
Proof.
  rewrite ltb_spec, leb_spec, SFltb_true, SFleb_true. intros ->.
  exists Lt. split; [reflexivity | discriminate].
Qed.

(** ** The doubles satisfy the laws of comparisons *)

#[export] Instance Float_NumberOrder : NumberOrder float := {|
  unordered := is_nan;
  nltb_unordered := ltb_nan_l;
  nleb_unordered := leb_nan_r;
  nleb_total := leb_negb_ltb
|}.
