(* ===== verification/FloatRound.v ===== *)
(** * Rounding of binary64 products and quotients

    The kernel's floats are specified by [SpecFloat]: an operation on two
    finite doubles is the exact operation on their mantissas followed by
    [binary_round_aux], which shifts the mantissa to 53 bits while keeping a
    round bit and a sticky bit, and rounds to nearest, ties to even.  This
    file derives from that specification the standard model of floating
    point arithmetic for the products and the quotients of normal doubles:
    the computed result is the exact one times [1 + delta] with
    [|delta| <= 2^-53], as long as the exponents stay in the normal range.
    [B2Q] gives the rational a double stands for, and [approximates] is the
    enclosure of a computed double by an exact rational that the file
    [Accuracy] propagates through the calculators. *)

From Stdlib Require Import Bool ZArith PArith QArith Qpower Qabs Lia Lqa Floats.
From Stdlib Require Import Morphisms.
From S2P Require Import Prelude Numeric.

Local Open Scope Z_scope.

(** ** Definitions *)

(** [shifted M U mrs]: the record [mrs] stands for the number [M / U]
    truncated to a multiple of one: its mantissa is the quotient, the round
    bit says whether the remainder is at least half of [U], and the sticky
    bit whether it is neither zero nor exactly half. *)
Definition shifted (M U : Z) (mrs : shr_record) : Prop :=
  0 < U /\ 0 <= shr_m mrs /\
  exists rem, M = shr_m mrs * U + rem /\ 0 <= rem < U /\
    shr_r mrs = (U <=? 2 * rem) /\
    shr_s mrs = negb (rem =? 0) && negb (2 * rem =? U).

(** [normal x s m e]: the double [x] is finite with sign [s], a mantissa [m]
    of 53 bits and exponent [e]: its value is [m * 2^e], negated when [s]
    holds. *)
Definition normal (x : float) (s : bool) (m : positive) (e : Z) : Prop :=
  Prim2SF x = S754_finite s m e /\ Zpos (digits2_pos m) = 53.

(** The rational a finite double stands for (zero for the infinities and
    NaN, which the theorems exclude). *)
Definition SF2Q (x : spec_float) : Q :=
  match x with
  | S754_finite s m e => (if s then -1 else 1) * (inject_Z (Zpos m) * 2 ^ e)
  | _ => 0
  end.

Definition B2Q (x : float) : Q := SF2Q (Prim2SF x).

(** The unit roundoff of binary64. *)
Definition u64 : Q := 1 # 9007199254740992.

(** [engineering x]: [x] is a positive normal double between [2^-100] and
    [2^100], stated with the operations of the doubles themselves. *)
Definition engineering (x : float) : bool :=
  match classify x with PNormal => true | _ => false end
  && (0x1p-100 <=? x)%float && (x <=? 0x1p+100)%float.

(** [approximates x v l h lo hi]: the double [x] is positive and normal with
    an exponent between [lo] and [hi], and its value lies between [l * v]
    and [h * v]. *)
Definition approximates (x : float) (v l h : Q) (lo hi : Z) : Prop :=
  exists m e, normal x false m e /\ lo <= e <= hi /\
    (l * v <= B2Q x <= h * v)%Q.

(** [within eps x v]: the double [x] is within the relative error [eps] of
    the positive number [v]. *)
Definition within (eps : Q) (x : float) (v : Q) : Prop :=
  (Qabs (B2Q x - v) <= eps * v)%Q.

(** ** Binary digits *)

Lemma digits2_pos_size (p : positive) : digits2_pos p = Pos.size p.
Proof. induction p; simpl; congruence. Qed.

Lemma digits2_pos_bounds (p : positive) :
  2 ^ (Zpos (digits2_pos p) - 1) <= Zpos p < 2 ^ Zpos (digits2_pos p).
Proof.
  rewrite digits2_pos_size.
  assert (E : Zpos (2 ^ Pos.size p) = 2 ^ Zpos (Pos.size p))
    by now rewrite Pos2Z.inj_pow.
  split.
  - pose proof (Pos.size_le p) as H.
    replace (Zpos (Pos.size p)) with (Z.succ (Zpos (Pos.size p) - 1)) in E by lia.
    rewrite Z.pow_succ_r in E by lia. lia.
  - pose proof (Pos.size_gt p) as H. lia.
Qed.

(** A number with [k] binary digits. *)
Lemma digits2_pos_unique (p : positive) (k : Z) :
  2 ^ (k - 1) <= Zpos p < 2 ^ k -> Zpos (digits2_pos p) = k.
Proof.
  intros [Hl Hu]. pose proof (digits2_pos_bounds p) as [Dl Du].
  set (d := Zpos (digits2_pos p)) in *.
  assert (0 < k).
  { destruct (Z.eq_dec k 0) as [->|]; [simpl in Hu; lia|].
    destruct (Z_lt_le_dec k 0); [rewrite Z.pow_neg_r in Hu by lia; lia | lia]. }
  destruct (Z_lt_le_dec d k) as [L|L]; [|destruct (Z_lt_le_dec k d) as [G|G]; [|lia]].
  - assert (2 ^ d <= 2 ^ (k - 1)) by (apply Z.pow_le_mono_r; lia). lia.
  - assert (2 ^ k <= 2 ^ (d - 1)) by (apply Z.pow_le_mono_r; lia). lia.
Qed.

(** The digits of a number between two powers of two. *)
Lemma digits2_pos_between (p : positive) (a b : Z) :
  0 <= a -> 2 ^ a <= Zpos p < 2 ^ b -> a + 1 <= Zpos (digits2_pos p) <= b.
Proof.
  intros Ha [Hl Hu]. pose proof (digits2_pos_bounds p) as [Dl Du].
  set (d := Zpos (digits2_pos p)) in *.
  assert (L : 2 ^ a < 2 ^ d) by lia.
  assert (U : 2 ^ (d - 1) < 2 ^ b) by lia.
  apply Z.pow_lt_mono_r_iff in L; [|lia|lia].
  destruct (Z_lt_le_dec b 0); [rewrite Z.pow_neg_r in Hu by lia; lia|].
  apply Z.pow_lt_mono_r_iff in U; lia.
Qed.

(** ** Shifting right with the rounding bits *)

Lemma shr_1_spec (m : Z) (r s : bool) :
  0 <= m ->
  shr_1 (Build_shr_record m r s) =
  Build_shr_record (m / 2) (Z.odd m) (r || s).
Proof.
  intros Hm. destruct m as [|p|p]; [reflexivity| |lia].
  destruct p as [p|p|]; simpl; f_equal.
  - rewrite Pos2Z.inj_xI. apply Z.div_unique with (r := 1); lia.
  - rewrite Pos2Z.inj_xO. apply Z.div_unique with (r := 0); lia.
Qed.

Lemma shifted_exact (M : Z) :
  0 <= M -> shifted M 1 (Build_shr_record M false false).
Proof.
  intros HM. split; [lia|]. split; [exact HM|]. exists 0. simpl.
  repeat split; lia.
Qed.

(** One step halves the mantissa and doubles the unit. *)
Lemma shifted_step (M U : Z) (mrs : shr_record) :
  shifted M U mrs -> shifted M (U * 2) (shr_1 mrs).
Proof.
  intros (HU & Hm & rem & HM & Hrem & Hr & Hs). destruct mrs as [m r s].
  cbn [shr_m shr_r shr_s] in *. rewrite shr_1_spec by exact Hm.
  unfold shifted. cbn [shr_m shr_r shr_s].
  pose proof (Z.div_mod m 2 ltac:(lia)) as D.
  pose proof (Z.mod_pos_bound m 2 ltac:(lia)) as B.
  split; [lia|]. split; [apply Z.div_pos; lia|].
  exists ((m mod 2) * U + rem).
  rewrite Zodd_mod. subst r s.
  destruct (Z.eqb_spec (m mod 2) 1) as [E|E];
    [rewrite E in * | assert (E0 : m mod 2 = 0) by lia; rewrite E0 in *];
    repeat split; nia.
Qed.

Lemma shifted_iter (p : positive) :
  forall (M U : Z) (mrs : shr_record),
  shifted M U mrs -> shifted M (U * 2 ^ Zpos p) (iter_pos shr_1 p mrs).
Proof.
  induction p as [p IH|p IH|]; intros M U mrs H; simpl iter_pos.
  - replace (U * 2 ^ Zpos p~1) with (U * 2 * 2 ^ Zpos p * 2 ^ Zpos p).
    + apply IH, IH. now apply shifted_step.
    + replace (Zpos p~1) with (1 + Zpos p + Zpos p) by lia.
      rewrite !Z.pow_add_r by lia. change (2 ^ 1) with 2. ring.
  - replace (U * 2 ^ Zpos p~0) with (U * 2 ^ Zpos p * 2 ^ Zpos p).
    + now apply IH, IH.
    + replace (Zpos p~0) with (Zpos p + Zpos p) by lia.
      rewrite !Z.pow_add_r by lia. ring.
  - change (2 ^ 1) with 2. now apply shifted_step.
Qed.

(** Shifting by [n >= 0] multiplies the unit by [2^n]. *)
Lemma shr_shifted (M U e n : Z) (mrs0 : shr_record) :
  shifted M U mrs0 -> 0 <= n ->
  exists mrs, shr mrs0 e n = (mrs, e + n) /\ shifted M (U * 2 ^ n) mrs.
Proof.
  intros H Hn. destruct n as [|p|p]; [| |lia]; simpl shr.
  - exists mrs0. rewrite Z.add_0_r, Z.mul_1_r. auto.
  - eexists. split; [reflexivity|]. now apply shifted_iter.
Qed.

(** ** Rounding to nearest, ties to even *)

(** The rounded mantissa is within half a unit of the exact value. *)
Lemma round_nearest_even_error (M U : Z) (mrs : shr_record) :
  shifted M U mrs ->
  let m := round_nearest_even (shr_m mrs) (loc_of_shr_record mrs) in
  shr_m mrs <= m <= shr_m mrs + 1 /\ 2 * Z.abs (m * U - M) <= U.
Proof.
  intros (HU & Hm & rem & HM & Hrem & Hr & Hs). destruct mrs as [m r s].
  cbn [shr_m shr_r shr_s] in *.
  destruct r, s; cbn [loc_of_shr_record round_nearest_even];
    try destruct (Z.even m); split; try lia; nia.
Qed.

Lemma fexp_normal (e : Z) : -1074 <= e - 53 -> fexp prec emax e = e - 53.
Proof. unfold fexp, emin, prec, emax. lia. Qed.

(** The second normalisation of [binary_round_aux] on a mantissa of 53 bits,
    or on [2^53] after a carry. *)
Lemma renormalise (sx : bool) (m1 e1 : Z) :
  2 ^ 52 <= m1 <= 2 ^ 53 -> -1074 <= e1 -> e1 + 1 <= 971 ->
  exists m e,
    (let '(mrs, e') := shr_fexp prec emax m1 e1 loc_Exact in
     match shr_m mrs with
     | Z0 => S754_zero sx
     | Zpos m => if e' <=? emax - prec then S754_finite sx m e'
                 else S754_infinity sx
     | Zneg _ => S754_nan
     end) = S754_finite sx m e /\
    Zpos (digits2_pos m) = 53 /\ e1 <= e <= e1 + 1 /\
    Zpos m * 2 ^ (e - e1) = m1.
Proof.
  intros Hm Hlo Hhi. destruct m1 as [|q|q]; try lia.
  unfold shr_fexp. cbn [shr_record_of_loc Zdigits2].
  destruct (Z.eq_dec (Zpos q) (2 ^ 53)) as [E|NE].
  - assert (D : Zpos (digits2_pos q) = 54)
      by (apply digits2_pos_unique; rewrite E; simpl; lia).
    rewrite D, fexp_normal by lia.
    replace (54 + e1 - 53 - e1) with 1 by lia.
    cbn [shr iter_pos]. rewrite shr_1_spec by lia. cbn [shr_m].
    rewrite E. change (2 ^ 53 / 2) with (Zpos 4503599627370496).
    exists 4503599627370496%positive, (e1 + 1).
    replace (e1 + 1 <=? emax - prec) with true
      by (symmetry; apply Z.leb_le; unfold emax, prec; lia).
    repeat split; try lia. replace (e1 + 1 - e1) with 1 by lia. reflexivity.
  - assert (D : Zpos (digits2_pos q) = 53)
      by (apply digits2_pos_unique; simpl; lia).
    rewrite D, fexp_normal by lia.
    replace (53 + e1 - 53 - e1) with 0 by lia.
    cbn [shr shr_m]. exists q, e1.
    replace (e1 <=? emax - prec) with true
      by (symmetry; apply Z.leb_le; unfold emax, prec; lia).
    repeat split; try lia. rewrite Z.sub_diag. simpl. lia.
Qed.

(** The mantissa after the first shift of [binary_round_aux] has 53 bits. *)
Lemma shifted_mantissa (M U W q d m' : Z) :
  0 < U -> W = U * 2 ^ (d - 53) -> 53 <= d ->
  2 ^ (d - 1) <= q < 2 ^ d ->
  q * U <= M < (q + 1) * U -> m' * W <= M < (m' + 1) * W ->
  2 ^ 52 <= m' < 2 ^ 53 /\ 2 ^ 52 * W <= M.
Proof.
  intros HU HW Hd [Ql Qu] [Ml Mu] [Wl Wu].
  assert (P : 0 < 2 ^ (d - 53)) by (apply Z.pow_pos_nonneg; lia).
  assert (P53 : 2 ^ d = 2 ^ (d - 53) * 2 ^ 53)
    by (rewrite <- Z.pow_add_r by lia; f_equal; lia).
  assert (P52 : 2 ^ (d - 1) = 2 ^ (d - 53) * 2 ^ 52)
    by (rewrite <- Z.pow_add_r by lia; f_equal; lia).
  change (2 ^ 53) with 9007199254740992 in *.
  change (2 ^ 52) with 4503599627370496 in *.
  set (t := 2 ^ (d - 53)) in *.
  assert (HW0 : 0 < W) by nia.
  assert (L : 4503599627370496 * W <= q * U) by nia.
  assert (H : (q + 1) * U <= 9007199254740992 * W) by nia.
  repeat split; nia.
Qed.

(** Rounding a mantissa of at least 53 bits, with the bits that stand for
    the rest of the exact value [M / U], when the value lies in the range of
    the normal doubles: the result is a normal double within a relative
    error of [2^-53] of the exact value. *)
Lemma binary_round_aux_shifted (sx : bool) (q : positive) (e : Z)
    (lx : location) (M U : Z) :
  shifted M U (shr_record_of_loc (Zpos q) lx) ->
  53 <= Zpos (digits2_pos q) ->
  -1074 <= Zpos (digits2_pos q) + e - 53 ->
  Zpos (digits2_pos q) + e <= 1023 ->
  exists m e',
    binary_round_aux prec emax sx (Zpos q) e lx = S754_finite sx m e' /\
    Zpos (digits2_pos m) = 53 /\
    Zpos (digits2_pos q) + e - 53 <= e' <= Zpos (digits2_pos q) + e - 52 /\
    2 ^ 53 * Z.abs (Zpos m * 2 ^ (e' - e) * U - M) <= M.
Proof.
  intros H Hd Hlo Hhi. pose proof (digits2_pos_bounds q) as Dq.
  set (d := Zpos (digits2_pos q)) in *.
  unfold binary_round_aux, shr_fexp at 1. cbn [Zdigits2]. fold d.
  rewrite fexp_normal by lia.
  destruct (shr_shifted M U e (d + e - 53 - e) _ H) as (mrs & -> & Hs); [lia|].
  replace (d + e - 53 - e) with (d - 53) in * by lia.
  pose proof (round_nearest_even_error _ _ _ Hs) as [Hr He].
  set (m1 := round_nearest_even _ _) in *.
  assert (B : 2 ^ 52 <= shr_m mrs < 2 ^ 53 /\ 2 ^ 52 * (U * 2 ^ (d - 53)) <= M).
  { destruct H as (HU & _ & r0 & HM0 & Hr0 & _).
    destruct Hs as (_ & _ & r1 & HM1 & Hr1 & _).
    apply (shifted_mantissa M U _ (Zpos q) d); auto; try lia.
    destruct lx as [|[]]; cbn [shr_record_of_loc shr_m] in HM0; nia. }
  destruct B as [B HM].
  destruct (renormalise sx m1 (e + (d - 53))) as (m & e' & -> & D & Hb & Hv);
    [lia | lia | lia |].
  exists m, e'. repeat split; try lia.
  replace (e' - e) with ((e' - (e + (d - 53))) + (d - 53)) by lia.
  rewrite Z.pow_add_r by lia. rewrite Z.mul_assoc, Hv.
  change (2 ^ 53) with 9007199254740992 in *.
  change (2 ^ 52) with 4503599627370496 in *.
  set (t := 2 ^ (d - 53)) in *. nia.
Qed.

(** A mantissa of 53 bits with an exponent in range is a valid double. *)
Lemma valid_normal (s : bool) (m : positive) (e : Z) :
  Zpos (digits2_pos m) = 53 -> -1074 <= e <= 971 ->
  valid_binary (S754_finite s m e) = true.
Proof.
  intros D He. unfold valid_binary, bounded, canonical_mantissa.
  rewrite D, fexp_normal by lia. apply andb_true_iff. split.
  - apply Z.eqb_eq. lia.
  - apply Z.leb_le. change (emax - prec) with 971. lia.
Qed.

(** ** The product and the quotient of two normal doubles *)

(** A normal double is not an infinity. *)
Lemma normal_not_infinity (x : float) (s : bool) (m : positive) (e : Z) :
  normal x s m e -> is_infinity x = false.
Proof.
  intros [E _]. unfold is_infinity. rewrite eqb_spec, abs_spec, E.
  reflexivity.
Qed.

Lemma mantissa_bounds (m : positive) :
  Zpos (digits2_pos m) = 53 ->
  4503599627370496 <= Zpos m < 9007199254740992.
Proof.
  intros D. pose proof (digits2_pos_bounds m) as B. rewrite D in B. exact B.
Qed.

(** The product of two normal doubles whose exponents add up to a value in
    the normal range is the normal double nearest to the exact product: its
    relative error is at most [2^-53]. *)
Lemma mul_normal (x y : float) (sx sy : bool) (mx my : positive) (ex ey : Z) :
  normal x sx mx ex -> normal y sy my ey ->
  -1126 <= ex + ey <= 917 ->
  exists m e, normal (x * y) (xorb sx sy) m e /\
    ex + ey + 52 <= e <= ex + ey + 54 /\
    2 ^ 53 * Z.abs (Zpos m * 2 ^ (e - (ex + ey)) - Zpos mx * Zpos my)
    <= Zpos mx * Zpos my.
Proof.
  intros [Ex Dx] [Ey Dy] He.
  pose proof (mantissa_bounds mx Dx). pose proof (mantissa_bounds my Dy).
  assert (Hd : 105 <= Zpos (digits2_pos (mx * my)) <= 106).
  { apply (digits2_pos_between _ 104 106); [lia|]. rewrite Pos2Z.inj_mul.
    change (2 ^ 104) with (4503599627370496 * 4503599627370496).
    change (2 ^ 106) with (9007199254740992 * 9007199254740992). nia. }
  destruct (binary_round_aux_shifted (xorb sx sy) (mx * my) (ex + ey)
              loc_Exact (Zpos (mx * my)) 1)
    as (m & e & E & D & Hb & Hv); [apply shifted_exact; lia | lia..|].
  exists m, e. unfold normal. rewrite mul_spec, Ex, Ey.
  unfold SF64mul, SFmul. rewrite E. rewrite Pos2Z.inj_mul, Z.mul_1_r in Hv.
  repeat split; try lia.
Qed.

(** The location [SFdiv] computes from the remainder of the division. *)
Lemma new_location_shifted (M U q r : Z) :
  0 < U -> 0 <= q -> M = q * U + r -> 0 <= r < U ->
  shifted M U (shr_record_of_loc q (new_location U r)).
Proof.
  intros HU Hq HM Hr. unfold new_location, new_location_even, new_location_odd.
  assert (P : Z.even U = true \/ Z.odd U = true)
    by (rewrite <- Z.negb_even; destruct (Z.even U); auto).
  destruct P as [P|P].
  - rewrite P. destruct (Z.eqb_spec r 0) as [->|N].
    + split; [lia|]. split; [exact Hq|]. exists 0. cbn [shr_record_of_loc shr_m shr_r shr_s].
      repeat split; lia.
    + destruct (Z.compare_spec (2 * r) U); (split; [lia|]);
        (split; [exact Hq|]); exists r;
        cbn [shr_record_of_loc shr_m shr_r shr_s]; repeat split; lia.
  - apply Z.odd_spec in P as [k Hk].
    replace (Z.even U) with false
      by (symmetry; rewrite Hk, Z.add_comm, Z.even_add_mul_2; reflexivity).
    destruct (Z.eqb_spec r 0) as [->|N].
    + split; [lia|]. split; [exact Hq|]. exists 0. cbn [shr_record_of_loc shr_m shr_r shr_s].
      repeat split; lia.
    + destruct (Z.compare_spec (2 * r + 1) U); (split; [lia|]);
        (split; [exact Hq|]); exists r;
        cbn [shr_record_of_loc shr_m shr_r shr_s]; repeat split; lia.
Qed.

(** The quotient of two normal doubles whose exponents differ by a value in
    the normal range is the normal double nearest to the exact quotient. *)
Lemma div_normal (x y : float) (sx sy : bool) (mx my : positive) (ex ey : Z) :
  normal x sx mx ex -> normal y sy my ey ->
  -1021 <= ex - ey <= 1022 ->
  exists m e, normal (x / y) (xorb sx sy) m e /\
    ex - ey - 53 <= e <= ex - ey - 51 /\
    2 ^ 53 * Z.abs (Zpos m * 2 ^ (e - (ex - ey - 53)) * Zpos my
                    - Zpos mx * 2 ^ 53)
    <= Zpos mx * 2 ^ 53.
Proof.
  intros [Ex Dx] [Ey Dy] He.
  pose proof (mantissa_bounds mx Dx). pose proof (mantissa_bounds my Dy).
  unfold normal. rewrite div_spec, Ex, Ey.
  unfold SF64div, SFdiv, SFdiv_core_binary. cbn [Zdigits2].
  rewrite Dx, Dy.
  replace (53 + ex - (53 + ey)) with (ex - ey) by lia.
  rewrite fexp_normal by lia. rewrite Z.min_l by lia.
  replace (ex - ey - (ex - ey - 53)) with 53 by lia.
  rewrite Z.shiftl_mul_pow2 by lia.
  pose proof (Z.div_eucl_eq (Zpos mx * 2 ^ 53) (Zpos my) ltac:(lia)) as HM.
  pose proof (Z.mod_pos_bound (Zpos mx * 2 ^ 53) (Zpos my) ltac:(lia)) as Hr.
  unfold Z.modulo in Hr.
  destruct (Z.div_eucl (Zpos mx * 2 ^ 53) (Zpos my)) as [q r].
  change (2 ^ 53) with 9007199254740992 in *.
  assert (Hq : 4503599627370496 <= q < 18014398509481984) by nia.
  destruct q as [|q|q]; try lia.
  assert (Hd : 53 <= Zpos (digits2_pos q) <= 54)
    by (apply (digits2_pos_between _ 52 54); simpl; lia).
  destruct (binary_round_aux_shifted (xorb sx sy) q (ex - ey - 53)
              (new_location (Zpos my) r) (Zpos mx * 9007199254740992) (Zpos my))
    as (m & e & E & D & Hb & Hv);
    [apply new_location_shifted; lia | lia..|].
  rewrite E. exists m, e. repeat split; try lia.
Qed.

(** ** The value of a double *)

Local Open Scope Q_scope.

Lemma B2Q_normal (x : float) (s : bool) (m : positive) (e : Z) :
  normal x s m e ->
  B2Q x = (if s then -1 else 1) * (inject_Z (Zpos m) * 2 ^ e).
Proof. intros [E _]. unfold B2Q. now rewrite E. Qed.

Lemma B2Q_normal_pos (x : float) (m : positive) (e : Z) :
  normal x false m e -> 0 < B2Q x.
Proof.
  intros N. rewrite (B2Q_normal _ _ _ _ N).
  assert (0 < 2 ^ e) by now apply Qpower_0_lt.
  assert (0 < inject_Z (Zpos m)) by reflexivity.
  nra.
Qed.

Lemma two_power_split (E k : Z) : 2 ^ (E + k) == 2 ^ E * 2 ^ k.
Proof. apply Qpower_plus. discriminate. Qed.

(** An integer within [2^-53] of another, as rationals. *)
Lemma u64_bounds (A C : Z) :
  (9007199254740992 * Z.abs (C - A) <= A)%Z ->
  (1 - u64) * inject_Z A <= inject_Z C <= (1 + u64) * inject_Z A.
Proof.
  intros H. unfold u64, Qle, Qmult, Qminus, Qplus, Qopp, inject_Z.
  cbn [Qnum Qden]. split; lia.
Qed.

(** The product of two positive normal doubles, as rationals. *)
Lemma mul_normal_value (x y : float) (mx my : positive) (ex ey : Z) :
  normal x false mx ex -> normal y false my ey ->
  (-1126 <= ex + ey <= 917)%Z ->
  exists m e, normal (x * y) false m e /\
    (ex + ey + 52 <= e <= ex + ey + 54)%Z /\
    (1 - u64) * (B2Q x * B2Q y) <= B2Q (x * y) <= (1 + u64) * (B2Q x * B2Q y).
Proof.
  intros Nx Ny He.
  destruct (mul_normal x y _ _ _ _ _ _ Nx Ny He) as (m & e & N & Hb & Hv).
  exists m, e. split; [exact N|]. split; [exact Hb|].
  rewrite (B2Q_normal _ _ _ _ Nx), (B2Q_normal _ _ _ _ Ny), (B2Q_normal _ _ _ _ N).
  cbn [xorb].
  assert (S : 2 ^ e == 2 ^ ex * 2 ^ ey * 2 ^ (e - (ex + ey))).
  { rewrite <- !two_power_split.
    now replace (ex + ey + (e - (ex + ey)))%Z with e by lia. }
  rewrite S. clear S.
  rewrite <- (Zpower_Qpower 2 (e - (ex + ey))) by lia.
  apply u64_bounds in Hv. rewrite !inject_Z_mult in Hv.
  assert (Px : 0 < 2 ^ ex) by now apply Qpower_0_lt.
  assert (Py : 0 < 2 ^ ey) by now apply Qpower_0_lt.
  set (px := 2 ^ ex) in *. set (py := 2 ^ ey) in *.
  set (a := inject_Z (Zpos mx)) in *. set (b := inject_Z (Zpos my)) in *.
  set (c := inject_Z (Zpos m)) in *.
  set (kk := inject_Z (2 ^ (e - (ex + ey)))) in *.
  assert (0 < px * py) by nra.
  split.
  - setoid_replace (1 * (c * (px * py * kk))) with ((px * py) * (c * kk)) by ring.
    setoid_replace ((1 - u64) * (1 * (a * px) * (1 * (b * py))))
      with ((px * py) * ((1 - u64) * (a * b))) by ring.
    apply Qmult_le_l; [assumption | apply Hv].
  - setoid_replace (1 * (c * (px * py * kk))) with ((px * py) * (c * kk)) by ring.
    setoid_replace ((1 + u64) * (1 * (a * px) * (1 * (b * py))))
      with ((px * py) * ((1 + u64) * (a * b))) by ring.
    apply Qmult_le_l; [assumption | apply Hv].
Qed.

(** The quotient of two positive normal doubles, as rationals. *)
Lemma div_normal_value (x y : float) (mx my : positive) (ex ey : Z) :
  normal x false mx ex -> normal y false my ey ->
  (-1021 <= ex - ey <= 1022)%Z ->
  exists m e, normal (x / y) false m e /\
    (ex - ey - 53 <= e <= ex - ey - 51)%Z /\
    (1 - u64) * (B2Q x / B2Q y) <= B2Q (x / y) <= (1 + u64) * (B2Q x / B2Q y).
Proof.
  intros Nx Ny He.
  destruct (div_normal x y _ _ _ _ _ _ Nx Ny He) as (m & e & N & Hb & Hv).
  exists m, e. split; [exact N|]. split; [exact Hb|].
  rewrite (B2Q_normal _ _ _ _ Nx), (B2Q_normal _ _ _ _ Ny), (B2Q_normal _ _ _ _ N).
  cbn [xorb].
  assert (S : 2 ^ e == 2 ^ ex / 2 ^ ey * (/ 2 ^ 53) * 2 ^ (e - (ex - ey - 53))).
  { unfold Qdiv. rewrite <- !Qpower_opp, <- !two_power_split.
    now replace (ex + - ey + - (53) + (e - (ex - ey - 53)))%Z with e by lia. }
  rewrite S. clear S.
  rewrite <- (Zpower_Qpower 2 (e - (ex - ey - 53))) by lia.
  change (2 ^ 53)%Z with 9007199254740992%Z in Hv.
  apply u64_bounds in Hv. rewrite !inject_Z_mult in Hv.
  assert (Px : 0 < 2 ^ ex) by now apply Qpower_0_lt.
  assert (Py : 0 < 2 ^ ey) by now apply Qpower_0_lt.
  set (px := 2 ^ ex) in *. set (py := 2 ^ ey) in *.
  assert (Ha : 0 < inject_Z (Zpos mx)) by reflexivity.
  assert (Hb' : 0 < inject_Z (Zpos my)) by reflexivity.
  set (a := inject_Z (Zpos mx)) in *. set (b := inject_Z (Zpos my)) in *.
  set (c := inject_Z (Zpos m)) in *.
  set (kk := inject_Z (2 ^ (e - (ex - ey - 53)))) in *.
  change (inject_Z 9007199254740992) with (2 ^ 53) in Hv.
  set (t := 2 ^ 53) in *. assert (Ht : 0 < t) by reflexivity.
  assert (Hs : 0 < px / py / t / b).
  { unfold Qdiv. repeat apply Qmult_lt_0_compat;
      try apply Qinv_lt_0_compat; assumption. }
  split.
  - setoid_replace (1 * (c * (px / py * / t * kk)))
      with ((px / py / t / b) * (c * kk * b)) by (field; lra).
    setoid_replace ((1 - u64) * (1 * (a * px) / (1 * (b * py))))
      with ((px / py / t / b) * ((1 - u64) * (a * t))) by (field; lra).
    apply Qmult_le_l; [assumption | apply Hv].
  - setoid_replace (1 * (c * (px / py * / t * kk)))
      with ((px / py / t / b) * (c * kk * b)) by (field; lra).
    setoid_replace ((1 + u64) * (1 * (a * px) / (1 * (b * py))))
      with ((px / py / t / b) * ((1 + u64) * (a * t))) by (field; lra).
    apply Qmult_le_l; [assumption | apply Hv].
Qed.

(** ** Doubles in the engineering range *)

Lemma classify_normal (x : float) :
  classify x = PNormal -> exists m e, normal x false m e.
Proof.
  rewrite classify_spec. unfold SF64classify, SFclassify, normal.
  destruct (Prim2SF x) as [[]|[]| |[] m e]; try discriminate;
    (destruct (Z.eqb_spec (Zpos (digits2_pos m)) prec) as [E|]; [|discriminate]);
    [discriminate|].
  intros _. exists m, e. split; [reflexivity | exact E].
Qed.

(** The exponent of a double in the engineering range. *)
Lemma engineering_normal (x : float) :
  engineering x = true ->
  exists m e, normal x false m e /\ (-152 <= e <= 48)%Z.
Proof.
  unfold engineering. rewrite !andb_true_iff. intros [[Hc Hl] Hh].
  destruct (classify x) eqn:C; try discriminate.
  destruct (classify_normal x C) as (m & e & [E D]).
  exists m, e. split; [split; assumption|].
  rewrite leb_spec, E in Hl, Hh.
  change (Prim2SF 0x1p-100) with (S754_finite false 4503599627370496 (-152)) in Hl.
  change (Prim2SF 0x1p+100) with (S754_finite false 4503599627370496 48) in Hh.
  unfold SFleb, SFcompare in Hl, Hh. split.
  - destruct (Z.compare_spec (-152) e); [lia | lia | discriminate].
  - destruct (Z.compare_spec e 48); [lia | lia | discriminate].
Qed.

Lemma engineering_pos (x : float) : engineering x = true -> 0 < B2Q x.
Proof.
  intros H. destruct (engineering_normal x H) as (m & e & N & _).
  exact (B2Q_normal_pos x m e N).
Qed.

(** ** Enclosures *)

Lemma approximates_engineering (x : float) :
  engineering x = true -> approximates x (B2Q x) 1 1 (-152) 48.
Proof.
  intros H. destruct (engineering_normal x H) as (m & e & N & He).
  exists m, e. split; [exact N|]. split; [lia|]. split; lra.
Qed.

(** A constant: a positive normal double encloses any positive number by
    the ratio of the two. *)
Lemma approximates_constant (x : float) (m : positive) (e : Z) (v : Q) :
  Prim2SF x = S754_finite false m e -> Zpos (digits2_pos m) = 53%Z -> 0 < v ->
  approximates x v (B2Q x / v) (B2Q x / v) e e.
Proof.
  intros E D Hv. exists m, e. split; [split; assumption|]. split; [lia|].
  assert (B2Q x / v * v == B2Q x) by (field; lra). split; lra.
Qed.

(** The product of two enclosed doubles is enclosed. *)
Lemma approximates_mul (x y : float) (v w l h l' h' : Q) (lo hi lo' hi' : Z) :
  approximates x v l h lo hi -> approximates y w l' h' lo' hi' ->
  0 < v -> 0 < w -> 0 < l -> 0 < l' ->
  (-1126 <= lo + lo')%Z -> (hi + hi' <= 917)%Z ->
  approximates (x * y) (v * w) (l * l' * (1 - u64)) (h * h' * (1 + u64))
    (lo + lo' + 52) (hi + hi' + 54).
Proof.
  intros (mx & ex & Nx & Hex & Hx) (my & ey & Ny & Hey & Hy) Hv Hw Hl Hl' Lo Hi.
  destruct (mul_normal_value x y _ _ _ _ Nx Ny ltac:(lia)) as (m & e & N & He & Hm).
  exists m, e. split; [exact N|]. split; [lia|].
  pose proof (B2Q_normal_pos _ _ _ Nx). pose proof (B2Q_normal_pos _ _ _ Ny).
  set (a := B2Q x) in *. set (b := B2Q y) in *. set (c := B2Q (x * y)) in *.
  assert (U : 0 < 1 - u64 /\ 0 < 1 + u64) by (split; reflexivity).
  set (u1 := 1 - u64) in *. set (u2 := 1 + u64) in *.
  destruct Hx as [Hx1 Hx2], Hy as [Hy1 Hy2], Hm as [Hm1 Hm2], U as [U1 U2].
  assert (0 < l * v) by nra. assert (0 < l' * w) by nra.
  split.
  - apply Qle_trans with (u1 * (a * b)); [|exact Hm1].
    setoid_replace (l * l' * u1 * (v * w)) with (u1 * ((l * v) * (l' * w))) by ring.
    apply Qmult_le_l; [exact U1 | nra].
  - apply Qle_trans with (u2 * (a * b)); [exact Hm2|].
    setoid_replace (h * h' * u2 * (v * w)) with (u2 * ((h * v) * (h' * w))) by ring.
    apply Qmult_le_l; [exact U2 | nra].
Qed.

(** A quotient of positive numbers grows with its numerator and shrinks
    with its denominator. *)
Lemma Qdiv_le_compat (a a' b b' : Q) :
  0 < a -> a <= a' -> 0 < b' -> b' <= b -> a / b <= a' / b'.
Proof.
  intros Ha Haa Hb Hbb. apply Qle_shift_div_l; [exact Hb|].
  setoid_replace (a / b * b') with (a * b' / b) by (field; lra).
  apply Qle_shift_div_r; [lra | nra].
Qed.

(** The quotient of two enclosed doubles is enclosed. *)
Lemma approximates_div (x y : float) (v w l h l' h' : Q) (lo hi lo' hi' : Z) :
  approximates x v l h lo hi -> approximates y w l' h' lo' hi' ->
  0 < v -> 0 < w -> 0 < l -> 0 < l' ->
  (-1021 <= lo - hi')%Z -> (hi - lo' <= 1022)%Z ->
  approximates (x / y) (v / w) (l / h' * (1 - u64)) (h / l' * (1 + u64))
    (lo - hi' - 53) (hi - lo' - 51).
Proof.
  intros (mx & ex & Nx & Hex & Hx) (my & ey & Ny & Hey & Hy) Hv Hw Hl Hl' Lo Hi.
  destruct (div_normal_value x y _ _ _ _ Nx Ny ltac:(lia)) as (m & e & N & He & Hm).
  exists m, e. split; [exact N|]. split; [lia|].
  pose proof (B2Q_normal_pos _ _ _ Nx). pose proof (B2Q_normal_pos _ _ _ Ny).
  set (a := B2Q x) in *. set (b := B2Q y) in *. set (c := B2Q (x / y)) in *.
  assert (U : 0 < 1 - u64 /\ 0 < 1 + u64) by (split; reflexivity).
  set (u1 := 1 - u64) in *. set (u2 := 1 + u64) in *.
  destruct Hx as [Hx1 Hx2], Hy as [Hy1 Hy2], Hm as [Hm1 Hm2], U as [U1 U2].
  assert (0 < l * v) by nra. assert (0 < l' * w) by nra.
  assert (0 < h') by nra. assert (0 < h' * w) by nra.
  split.
  - apply Qle_trans with (u1 * (a / b)); [|exact Hm1].
    setoid_replace (l / h' * u1 * (v / w)) with (u1 * ((l * v) / (h' * w)))
      by (field; lra).
    apply Qmult_le_l; [exact U1 | apply Qdiv_le_compat; assumption].
  - apply Qle_trans with (u2 * (a / b)); [exact Hm2|].
    setoid_replace (h / l' * u2 * (v / w)) with (u2 * ((h * v) / (l' * w)))
      by (field; lra).
    apply Qmult_le_l; [exact U2 | apply Qdiv_le_compat; assumption].
Qed.

(** ** Relative error *)

Lemma approximates_within (x : float) (v l h eps : Q) (lo hi : Z) :
  approximates x v l h lo hi -> 0 < v -> 1 - eps <= l -> h <= 1 + eps ->
  within eps x v.
Proof.
  intros (m & e & _ & _ & [H1 H2]) Hv Hl Hh. unfold within.
  apply Qabs_Qle_condition. split; nra.
Qed.

#[export] Instance within_Proper : Proper (Qeq ==> eq ==> Qeq ==> iff) within.
Proof.
  intros e e' He x ? <- v v' Hv. unfold within. now rewrite He, Hv.
Qed.

(** A double within a relative error below one of a positive number is a
    finite double other than zero: no overflow, no NaN. *)
Lemma within_finite (eps : Q) (x : float) (v : Q) :
  eps < 1 -> 0 < v -> within eps x v ->
  exists s m e, Prim2SF x = S754_finite s m e.
Proof.
  intros He Hv. unfold within, B2Q.
  destruct (Prim2SF x) as [s|s| |s m e]; [| | |eauto]; cbn [SF2Q]; intros H;
    apply Qabs_Qle_condition in H; nra.
Qed.
