(* ===== verification/FloatSum.v ===== *)
(** * Rounding of binary64 sums and differences

    The sum and the difference of two finite doubles are specified by
    [SFadd] and [SFsub]: the two mantissas are brought to the smaller of the
    two exponents by [shl_align], added or subtracted as integers, and the
    result is rounded by [binary_round].  This file derives, for positive
    normal doubles, that the computed sum and the computed difference (the
    larger first) are the exact ones times [1 + delta] with
    [|delta| <= 2^-53]; the same for the conversion of an integer below
    [2^63].  The enclosure of a difference shows what cancellation costs:
    the errors already in the operands are amplified by the ratio of the
    number subtracted to the difference. *)

From Stdlib Require Import Bool ZArith PArith QArith Qpower Qabs Qminmax Lia Lqa Floats.
From Stdlib Require Import Morphisms.
From S2P Require Import Prelude Numeric Units FloatRound.

Local Open Scope Z_scope.

(** ** Alignment and rounding of an integer mantissa *)

(** [Pos.iter xO m p] is [m] shifted left by [p] bits. *)
Lemma iter_xO_spec (m p : positive) :
  Zpos (Pos.iter xO m p) = Zpos m * 2 ^ Zpos p.
Proof.
  induction p using Pos.peano_ind.
  - simpl. lia.
  - rewrite Pos.iter_succ, Pos2Z.inj_succ, Z.pow_succ_r by lia.
    rewrite Pos2Z.inj_xO, IHp. ring.
Qed.

(** [shl_align] brings a mantissa to the smaller of its exponent and the
    target, and keeps the number it stands for. *)
Lemma shl_align_spec (mx : positive) (ex e' : Z) :
  exists mz, shl_align mx ex e' = (mz, Z.min ex e') /\
    Zpos mz = Zpos mx * 2 ^ (ex - Z.min ex e').
Proof.
  unfold shl_align. destruct (e' - ex) as [|d|d] eqn:E.
  - exists mx. replace (Z.min ex e') with ex by lia.
    rewrite Z.sub_diag. split; [reflexivity | simpl; lia].
  - exists mx. replace (Z.min ex e') with ex by lia.
    rewrite Z.sub_diag. split; [reflexivity | simpl; lia].
  - exists (Pos.iter xO mx d). replace (Z.min ex e') with e' by lia.
    split; [reflexivity|]. rewrite iter_xO_spec. f_equal. f_equal. lia.
Qed.

(** Shifting left by [k] bits adds [k] binary digits. *)
Lemma digits2_pos_shift (m mz : positive) (k : Z) :
  0 <= k -> Zpos mz = Zpos m * 2 ^ k ->
  Zpos (digits2_pos mz) = Zpos (digits2_pos m) + k.
Proof.
  intros Hk E. pose proof (digits2_pos_bounds m) as B.
  assert (0 < Zpos (digits2_pos m)) by lia.
  apply digits2_pos_unique. rewrite E.
  replace (Zpos (digits2_pos m) + k - 1) with ((Zpos (digits2_pos m) - 1) + k) by lia.
  rewrite !Z.pow_add_r by lia.
  assert (0 < 2 ^ k) by (apply Z.pow_pos_nonneg; lia). nia.
Qed.

(** Rounding an integer mantissa of any length whose value lies in the range
    of the normal doubles: a mantissa shorter than 53 bits is shifted left,
    a longer one is rounded; [ez] is the exponent at which both the
    mantissa and the result are integers. *)
Lemma binary_round_normal (s : bool) (M : positive) (e : Z) :
  -1074 <= Zpos (digits2_pos M) + e - 53 ->
  Zpos (digits2_pos M) + e <= 1023 ->
  exists m e' ez,
    binary_round prec emax s M e = S754_finite s m e' /\
    Zpos (digits2_pos m) = 53 /\
    Zpos (digits2_pos M) + e - 53 <= e' <= Zpos (digits2_pos M) + e - 52 /\
    ez <= e /\ ez <= e' /\
    2 ^ 53 * Z.abs (Zpos m * 2 ^ (e' - ez) - Zpos M * 2 ^ (e - ez))
    <= Zpos M * 2 ^ (e - ez).
Proof.
  intros Hlo Hhi. set (d := Zpos (digits2_pos M)) in *.
  unfold binary_round. fold d. rewrite fexp_normal by lia.
  destruct (shl_align_spec M e (d + e - 53)) as (mz & -> & Hz).
  set (ez := Z.min e (d + e - 53)) in *.
  assert (Dz : Zpos (digits2_pos mz) = d + (e - ez))
    by (apply digits2_pos_shift; [lia | exact Hz]).
  destruct (binary_round_aux_shifted s mz ez loc_Exact (Zpos mz) 1)
    as (m & e' & E & D & Hb & Hv); [apply shifted_exact; lia | lia..|].
  exists m, e', ez. rewrite E, <- Hz. rewrite Z.mul_1_r in Hv.
  repeat split; try lia.
Qed.

Local Open Scope Q_scope.

(** An integer mantissa moved to a smaller exponent stands for the same
    number. *)
Lemma aligned_value (a m : Z) (e ez : Z) :
  (ez <= e)%Z -> a = (m * 2 ^ (e - ez))%Z ->
  inject_Z a * 2 ^ ez == inject_Z m * 2 ^ e.
Proof.
  intros He ->. rewrite inject_Z_mult, Zpower_Qpower by lia.
  change (inject_Z 2) with 2.
  assert (S : 2 ^ e == 2 ^ ez * 2 ^ (e - ez)).
  { rewrite <- two_power_split. now replace (ez + (e - ez))%Z with e by lia. }
  rewrite S. ring.
Qed.

(** The same, as rationals. *)
Lemma binary_round_value (M : positive) (e : Z) :
  (-1074 <= Zpos (digits2_pos M) + e - 53)%Z ->
  (Zpos (digits2_pos M) + e <= 1023)%Z ->
  exists m e',
    binary_round prec emax false M e = S754_finite false m e' /\
    Zpos (digits2_pos m) = 53%Z /\
    (Zpos (digits2_pos M) + e - 53 <= e' <= Zpos (digits2_pos M) + e - 52)%Z /\
    (1 - u64) * (inject_Z (Zpos M) * 2 ^ e) <= inject_Z (Zpos m) * 2 ^ e'
      <= (1 + u64) * (inject_Z (Zpos M) * 2 ^ e).
Proof.
  intros Hlo Hhi.
  destruct (binary_round_normal false M e Hlo Hhi)
    as (m & e' & ez & E & D & Hb & Hz & Hz' & Hv).
  exists m, e'. repeat split; try assumption; try lia.
  - rewrite <- (aligned_value _ (Zpos M) e ez Hz eq_refl).
    rewrite <- (aligned_value _ (Zpos m) e' ez Hz' eq_refl).
    apply u64_bounds in Hv. destruct Hv as [Hv _].
    assert (0 < 2 ^ ez) by now apply Qpower_0_lt. nra.
  - rewrite <- (aligned_value _ (Zpos M) e ez Hz eq_refl).
    rewrite <- (aligned_value _ (Zpos m) e' ez Hz' eq_refl).
    apply u64_bounds in Hv. destruct Hv as [_ Hv].
    assert (0 < 2 ^ ez) by now apply Qpower_0_lt. nra.
Qed.

(** ** The sum and the difference of two positive normal doubles *)

(** The two mantissas [SFadd] and [SFsub] bring to the smaller exponent. *)
Lemma aligned (mx my : positive) (ex ey : Z) :
  exists ax ay,
    fst (shl_align mx ex (Z.min ex ey)) = ax /\
    fst (shl_align my ey (Z.min ex ey)) = ay /\
    Zpos ax = (Zpos mx * 2 ^ (ex - Z.min ex ey))%Z /\
    Zpos ay = (Zpos my * 2 ^ (ey - Z.min ex ey))%Z.
Proof.
  destruct (shl_align_spec mx ex (Z.min ex ey)) as (ax & Ex & Hx).
  destruct (shl_align_spec my ey (Z.min ex ey)) as (ay & Ey & Hy).
  exists ax, ay. rewrite Ex, Ey.
  replace (Z.min ex (Z.min ex ey)) with (Z.min ex ey) in Hx by lia.
  replace (Z.min ey (Z.min ex ey)) with (Z.min ex ey) in Hy by lia.
  now repeat split.
Qed.

(** The aligned mantissas stand for the two doubles. *)
Lemma aligned_values (x y : float) (mx my ax ay : positive) (ex ey : Z) :
  normal x false mx ex -> normal y false my ey ->
  Zpos ax = (Zpos mx * 2 ^ (ex - Z.min ex ey))%Z ->
  Zpos ay = (Zpos my * 2 ^ (ey - Z.min ex ey))%Z ->
  B2Q x == inject_Z (Zpos ax) * 2 ^ Z.min ex ey /\
  B2Q y == inject_Z (Zpos ay) * 2 ^ Z.min ex ey.
Proof.
  intros Nx Ny Hx Hy.
  rewrite (B2Q_normal _ _ _ _ Nx), (B2Q_normal _ _ _ _ Ny).
  rewrite (aligned_value _ _ ex (Z.min ex ey) ltac:(lia) Hx).
  rewrite (aligned_value _ _ ey (Z.min ex ey) ltac:(lia) Hy). split; ring.
Qed.

(** The sum of the aligned mantissas has one or two digits more than the
    longer of the two. *)
Lemma aligned_sum_digits (mx my ax ay : positive) (kx ky : Z) :
  Zpos (digits2_pos mx) = 53%Z -> Zpos (digits2_pos my) = 53%Z ->
  (0 <= kx)%Z -> (0 <= ky)%Z -> (kx = 0 \/ ky = 0)%Z ->
  Zpos ax = (Zpos mx * 2 ^ kx)%Z -> Zpos ay = (Zpos my * 2 ^ ky)%Z ->
  (53 + Z.max kx ky <= Zpos (digits2_pos (ax + ay)) <= 54 + Z.max kx ky)%Z.
Proof.
  intros Dx Dy Hx Hy H0 Ex Ey.
  pose proof (mantissa_bounds mx Dx). pose proof (mantissa_bounds my Dy).
  replace (53 + Z.max kx ky)%Z with (52 + Z.max kx ky + 1)%Z by lia.
  apply digits2_pos_between; [lia|].
  rewrite Pos2Z.inj_add, Ex, Ey, !Z.pow_add_r by lia.
  change (2 ^ 52)%Z with 4503599627370496%Z.
  change (2 ^ 54)%Z with 18014398509481984%Z.
  assert (0 < 2 ^ kx)%Z by (apply Z.pow_pos_nonneg; lia).
  assert (0 < 2 ^ ky)%Z by (apply Z.pow_pos_nonneg; lia).
  destruct H0 as [-> | ->]; rewrite ?Z.max_l, ?Z.max_r by lia;
    change (2 ^ 0)%Z with 1%Z. all: nia.
Qed.

(** The sum of two positive normal doubles is the normal double nearest to
    the exact sum, as long as it does not overflow. *)
Lemma add_normal_value (x y : float) (mx my : positive) (ex ey : Z) :
  normal x false mx ex -> normal y false my ey ->
  (-1074 <= Z.max ex ey <= 969)%Z ->
  exists m e, normal (x + y) false m e /\
    (Z.max ex ey <= e <= Z.max ex ey + 2)%Z /\
    (1 - u64) * (B2Q x + B2Q y) <= B2Q (x + y) <= (1 + u64) * (B2Q x + B2Q y).
Proof.
  intros Nx Ny He. pose proof Nx as [Ex Dx]. pose proof Ny as [Ey Dy].
  destruct (aligned mx my ex ey) as (ax & ay & Ax & Ay & Hx & Hy).
  pose proof (aligned_sum_digits mx my ax ay (ex - Z.min ex ey)
                (ey - Z.min ex ey) Dx Dy
                ltac:(lia) ltac:(lia) ltac:(lia) Hx Hy) as Hd.
  destruct (binary_round_value (ax + ay) (Z.min ex ey))
    as (m & e & E & D & Hb & Hv); [lia | lia |].
  assert (N : normal (x + y) false m e).
  { split; [|exact D]. rewrite add_spec, Ex, Ey. unfold SF64add, SFadd.
    rewrite Ax, Ay. exact E. }
  exists m, e. split; [exact N|]. split; [lia|].
  destruct (aligned_values x y _ _ _ _ _ _ Nx Ny Hx Hy) as [-> ->].
  rewrite (B2Q_normal _ _ _ _ N), Pos2Z.inj_add, inject_Z_plus in *.
  split; [destruct Hv as [Hv _] | destruct Hv as [_ Hv]]; lra.
Qed.

(** The difference of two positive normal doubles, the larger first, is the
    normal double nearest to the exact difference, as long as it does not
    underflow: cancellation may shorten the mantissa by up to 52 bits. *)
Lemma sub_normal_value (x y : float) (mx my : positive) (ex ey : Z) :
  normal x false mx ex -> normal y false my ey ->
  B2Q y < B2Q x ->
  (-1022 <= Z.min ex ey)%Z -> (Z.max ex ey <= 970)%Z ->
  exists m e, normal (x - y) false m e /\
    (Z.min ex ey - 52 <= e <= Z.max ex ey + 1)%Z /\
    (1 - u64) * (B2Q x - B2Q y) <= B2Q (x - y) <= (1 + u64) * (B2Q x - B2Q y).
Proof.
  intros Nx Ny Hlt Hlo Hhi. pose proof Nx as [Ex Dx]. pose proof Ny as [Ey Dy].
  destruct (aligned mx my ex ey) as (ax & ay & Ax & Ay & Hx & Hy).
  destruct (aligned_values x y _ _ _ _ _ _ Nx Ny Hx Hy) as [Vx Vy].
  assert (L : (ay < ax)%positive).
  { rewrite Vx, Vy in Hlt. apply Qmult_lt_r in Hlt; [|now apply Qpower_0_lt].
    rewrite <- Zlt_Qlt in Hlt. lia. }
  assert (Hd : (1 <= Zpos (digits2_pos (ax - ay)) <= 53 + (Z.max ex ey - Z.min ex ey))%Z).
  { replace 1%Z with (0 + 1)%Z by lia. apply digits2_pos_between; [lia|].
    rewrite Pos2Z.inj_sub by exact L.
    pose proof (aligned_sum_digits mx my ax ay (ex - Z.min ex ey)
                  (ey - Z.min ex ey) Dx Dy
                  ltac:(lia) ltac:(lia) ltac:(lia) Hx Hy) as Hs.
    pose proof (digits2_pos_bounds ax) as Bx.
    pose proof (mantissa_bounds mx Dx). 
    assert (Zpos (digits2_pos ax) = 53 + (ex - Z.min ex ey))%Z
      by (rewrite <- Dx; apply digits2_pos_shift; [lia | exact Hx]).
    assert (2 ^ Zpos (digits2_pos ax) <= 2 ^ (53 + (Z.max ex ey - Z.min ex ey)))%Z
      by (apply Z.pow_le_mono_r; lia).
    simpl (2 ^ 0)%Z. lia. }
  destruct (binary_round_value (ax - ay) (Z.min ex ey))
    as (m & e & E & D & Hb & Hv); [lia | lia |].
  assert (N : normal (x - y) false m e).
  { split; [|exact D]. rewrite sub_spec, Ex, Ey. unfold SF64sub, SFsub.
    rewrite Ax, Ay. cbn [cond_Zopp Z.sub Z.add Z.opp].
    rewrite Z.pos_sub_gt by exact L. exact E. }
  exists m, e. split; [exact N|]. split; [lia|].
  rewrite Vx, Vy, (B2Q_normal _ _ _ _ N).
  rewrite Pos2Z.inj_sub, <- Z.add_opp_r, inject_Z_plus, inject_Z_opp in Hv
    by exact L.
  split; [destruct Hv as [Hv _] | destruct Hv as [_ Hv]]; lra.
Qed.

(** ** Enclosures *)

(** The sum of two enclosed doubles is enclosed by the wider of the two
    enclosures. *)
Lemma approximates_add (x y : float) (v w l h l' h' : Q) (lo hi lo' hi' : Z) :
  approximates x v l h lo hi -> approximates y w l' h' lo' hi' ->
  0 < v -> 0 < w ->
  (-1074 <= Z.max lo lo')%Z -> (Z.max hi hi' <= 969)%Z ->
  approximates (x + y) (v + w) (Qmin l l' * (1 - u64)) (Qmax h h' * (1 + u64))
    (Z.max lo lo') (Z.max hi hi' + 2).
Proof.
  intros (mx & ex & Nx & Hex & Hx) (my & ey & Ny & Hey & Hy) Hv Hw Lo Hi.
  destruct (add_normal_value x y _ _ _ _ Nx Ny ltac:(lia)) as (m & e & N & He & Hm).
  exists m, e. split; [exact N|]. split; [lia|].
  pose proof (Q.le_min_l l l'). pose proof (Q.le_min_r l l').
  pose proof (Q.le_max_l h h'). pose proof (Q.le_max_r h h').
  set (a := B2Q x) in *. set (b := B2Q y) in *. set (c := B2Q (x + y)) in *.
  set (l0 := Qmin l l') in *. set (h0 := Qmax h h') in *.
  assert (U : 0 < 1 - u64 /\ 0 < 1 + u64) by (split; reflexivity).
  set (u1 := 1 - u64) in *. set (u2 := 1 + u64) in *.
  destruct Hx as [Hx1 Hx2], Hy as [Hy1 Hy2], Hm as [Hm1 Hm2], U as [U1 U2].
  assert (l0 * (v + w) <= a + b) by nra.
  assert (a + b <= h0 * (v + w)) by nra.
  split.
  - apply Qle_trans with (u1 * (a + b)); [|exact Hm1].
    setoid_replace (l0 * u1 * (v + w)) with (u1 * (l0 * (v + w))) by ring.
    now apply Qmult_le_l.
  - apply Qle_trans with (u2 * (a + b)); [exact Hm2|].
    setoid_replace (h0 * u2 * (v + w)) with (u2 * (h0 * (v + w))) by ring.
    now apply Qmult_le_l.
Qed.

(** The difference of two enclosed doubles, when the number subtracted is at
    most [c] times the exact difference: the errors of the operands are
    amplified by at most [c]. *)
Lemma approximates_sub (x y : float) (v w l h l' h' c : Q) (lo hi lo' hi' : Z) :
  approximates x v l h lo hi -> approximates y w l' h' lo' hi' ->
  0 < w -> 0 < c -> w <= c * (v - w) ->
  l <= h' -> l' <= h -> 0 < l - (h' - l) * c ->
  (-1022 <= Z.min lo lo')%Z -> (Z.max hi hi' <= 970)%Z ->
  approximates (x - y) (v - w)
    ((l - (h' - l) * c) * (1 - u64)) ((h + (h - l') * c) * (1 + u64))
    (Z.min lo lo' - 52) (Z.max hi hi' + 1).
Proof.
  intros (mx & ex & Nx & Hex & Hx) (my & ey & Ny & Hey & Hy) Hw Hc Hwc
    Hlh Hlh' Hpos Lo Hi.
  set (a := B2Q x) in *. set (b := B2Q y) in *.
  destruct Hx as [Hx1 Hx2], Hy as [Hy1 Hy2].
  assert (D : 0 < v - w) by nra.
  assert (L : (l - (h' - l) * c) * (v - w) <= a - b).
  { assert ((h' - l) * w <= (h' - l) * (c * (v - w)))
by nra.
    nra. }
  assert (H : a - b <= (h + (h - l') * c) * (v - w)).
  { assert ((h - l') * w <= (h - l') * (c * (v - w)))
by nra.
    nra. }
  assert (Hlt : b < a) by nra.
  destruct (sub_normal_value x y _ _ _ _ Nx Ny Hlt ltac:(lia) ltac:(lia))
    as (m & e & N & He & Hm).
  exists m, e. split; [exact N|]. split; [lia|].
  fold a b in Hm. set (r := B2Q (x - y)) in *.
  assert (U : 0 < 1 - u64 /\ 0 < 1 + u64) by (split; reflexivity).
  set (u1 := 1 - u64) in *. set (u2 := 1 + u64) in *.
  destruct Hm as [Hm1 Hm2], U as [U1 U2].
  set (l0 := l - (h' - l) * c) in *. set (h0 := h + (h - l') * c) in *.
  split.
  - apply Qle_trans with (u1 * (a - b)); [|exact Hm1].
    setoid_replace (l0 * u1 * (v - w)) with (u1 * (l0 * (v - w))) by ring.
    now apply Qmult_le_l.
  - apply Qle_trans with (u2 * (a - b)); [exact Hm2|].
    setoid_replace (h0 * u2 * (v - w)) with (u2 * (h0 * (v - w))) by ring.
    now apply Qmult_le_l.
Qed.

Lemma inject_Z_pos (n : Z) : (0 < n)%Z -> 0 < inject_Z n.
Proof. intros H. unfold Qlt, inject_Z. cbn [Qnum Qden]. lia. Qed.

(** An integer below [2^63] multiplies in without error. *)
Lemma muli_int (a : Quantity float) (n : Z) :
  (0 < n < 2 ^ 63)%Z -> muli a n = Ok (muls a (of_Z n)).
Proof.
  intros Hn. apply muli_ok. apply Z.leb_gt.
  apply Z.lt_trans with (2 ^ 63)%Z; [lia | reflexivity].
Qed.

(** A positive integer below [2^63] converted to a double. *)
Lemma approximates_of_Z (n : Z) :
  (0 < n < 2 ^ 63)%Z ->
  approximates (float_of_Z n) (inject_Z n) (1 - u64) (1 + u64) (-52) 11.
Proof.
  intros Hn. destruct n as [|p|p]; try lia.
  pose proof (digits2_pos_between p 0 63 ltac:(lia) ltac:(simpl (2 ^ 0)%Z; lia)) as Hd.
  destruct (binary_round_value p 0) as (m & e & E & D & Hb & Hv); [lia | lia |].
  assert (N : normal (float_of_Z (Zpos p)) false m e).
  { split; [|exact D]. unfold float_of_Z. cbn [binary_normalize].
    rewrite E. apply Prim2SF_SF2Prim, valid_normal; [exact D | lia]. }
  exists m, e. split; [exact N|]. split; [lia|].
  rewrite (B2Q_normal _ _ _ _ N).
  change (2 ^ 0) with 1 in Hv. lra.
Qed.
