(* ===== verification/FloatCompare.v ===== *)
(** * The order of binary64 values

    The comparisons of the doubles are specified by [SFcompare], which
    compares signs, then exponents, then mantissas.  This file shows that on
    positive normal doubles [<] is the order of the values [B2Q], and what
    follows for the program: a division by a positive normal double does not
    raise, and Python's [min] of two enclosed doubles is enclosed in the
    minimum of the two values. *)

From Stdlib Require Import Bool ZArith PArith QArith Qpower Qabs Qminmax Lia Lqa Floats.
From S2P Require Import Prelude Numeric FloatRound FloatSum.

Local Open Scope Q_scope.

(** Of two normal doubles, the one with the smaller exponent is the
    smaller. *)
Lemma normal_lt_exponent (mx my : positive) (ex ey : Z) :
  Zpos (digits2_pos mx) = 53%Z -> Zpos (digits2_pos my) = 53%Z ->
  (ex < ey)%Z ->
  inject_Z (Zpos mx) * 2 ^ ex < inject_Z (Zpos my) * 2 ^ ey.
Proof.
  intros Dx Dy He.
  pose proof (mantissa_bounds mx Dx). pose proof (mantissa_bounds my Dy).
  rewrite <- (aligned_value _ (Zpos my) ey ex ltac:(lia) eq_refl).
  apply Qmult_lt_r; [now apply Qpower_0_lt|]. rewrite <- Zlt_Qlt.
  assert (2 ^ 1 <= 2 ^ (ey - ex))%Z by (apply Z.pow_le_mono_r; lia).
  change (2 ^ 1)%Z with 2%Z in *. nia.
Qed.

(** On positive normal doubles, [<] is the order of the values. *)
Lemma ltb_value (x y : float) (mx my : positive) (ex ey : Z) :
  normal x false mx ex -> normal y false my ey ->
  (x <? y)%float = true <-> B2Q x < B2Q y.
Proof.
  intros Nx Ny. rewrite (B2Q_normal _ _ _ _ Nx), (B2Q_normal _ _ _ _ Ny).
  destruct Nx as [Ex Dx], Ny as [Ey Dy].
  rewrite ltb_spec, Ex, Ey. unfold SFltb, SFcompare.
  rewrite !Qmult_1_l.
  destruct (Z.compare_spec ex ey) as [->|L|G].
  - rewrite Pos.compare_cont_spec. cbn [Pos.switch_Eq].
    assert (P : 0 < 2 ^ ey) by now apply Qpower_0_lt.
    rewrite Qmult_lt_r by exact P. rewrite <- Zlt_Qlt.
    destruct (Pos.compare_spec mx my); split; intros; try discriminate; try reflexivity; lia.
  - split; [intros _ | reflexivity]. now apply normal_lt_exponent.
  - split; [discriminate|]. intros L.
    pose proof (normal_lt_exponent my mx ey ex Dy Dx ltac:(lia)). lra.
Qed.

(** A positive normal double is not zero: dividing by it does not raise. *)
Lemma pdiv_enclosed (x y : float) (v l h : Q) (lo hi : Z) :
  approximates y v l h lo hi -> pdiv x y = Ok (x / y)%float.
Proof.
  intros (m & e & [E D] & _). unfold pdiv. cbn [neqb of_Z Float_Number].
  change (float_of_Z 0) with 0%float.
  rewrite eqb_spec, E. reflexivity.
Qed.

(** The double 1. *)
Lemma normal_one : normal 1%float false 4503599627370496 (-52).
Proof. split; reflexivity. Qed.

Lemma B2Q_one : B2Q 1%float == 1.
Proof. reflexivity. Qed.

(** On a positive normal double, [x < 1] is the comparison of its value
    with one. *)
Lemma ltb_one (x : float) (v l h : Q) (lo hi : Z) :
  approximates x v l h lo hi ->
  if (x <? 1)%float then B2Q x < 1 else 1 <= B2Q x.
Proof.
  intros (m & e & N & _). pose proof (ltb_value x 1 _ _ _ _ N normal_one) as L.
  rewrite B2Q_one in L. destruct (x <? 1)%float.
  - now apply L.
  - apply Qnot_lt_le. intros C. apply L in C. discriminate.
Qed.

(** An enclosure holds of any equal value, wider bounds and wider range of
    exponents. *)
Lemma approximates_widen (x : float) (v v' l h l' h' : Q) (lo hi lo' hi' : Z) :
  approximates x v l h lo hi -> v == v' -> 0 <= v ->
  l' <= l -> h <= h' -> (lo' <= lo)%Z -> (hi <= hi')%Z ->
  approximates x v' l' h' lo' hi'.
Proof.
  intros (m & e & N & He & [H1 H2]) E Hv Hl Hh Hlo Hhi.
  exists m, e. split; [exact N|]. split; [lia|]. rewrite <- E. split; nra.
Qed.

(** Python's [min] of two enclosed doubles is enclosed in the minimum of
    the two values. *)
Lemma approximates_pmin (x y : float) (v w l h : Q) (lo hi : Z) :
  approximates x v l h lo hi -> approximates y w l h lo hi ->
  0 < l -> 0 < h ->
  approximates (pmin x y) (Qmin v w) l h lo hi /\
  B2Q (pmin x y) == Qmin (B2Q x) (B2Q y).
Proof.
  intros (mx & ex & Nx & Hex & Hx) (my & ey & Ny & Hey & Hy) Hl Hh.
  pose proof (ltb_value y x _ _ _ _ Ny Nx) as L.
  pose proof (Q.le_min_l v w). pose proof (Q.le_min_r v w).
  unfold pmin. cbn [nltb Float_Number]. destruct (y <? x)%float.
  - assert (C : B2Q y < B2Q x) by now apply L.
    split; [|symmetry; apply Q.min_r; lra].
    exists my, ey. split; [exact Ny|]. split; [exact Hey|].
    destruct (Q.min_spec v w) as [[_ E]|[_ E]]; rewrite E; split; nra.
  - assert (C : B2Q x <= B2Q y)
      by (apply Qnot_lt_le; intros C; apply L in C; discriminate).
    split; [|symmetry; apply Q.min_l; lra].
    exists mx, ex. split; [exact Nx|]. split; [exact Hex|].
    destruct (Q.min_spec v w) as [[_ E]|[_ E]]; rewrite E; split; nra.
Qed.
