(* ===== verification/FloatOverflow.v ===== *)
(** * Where binary64 rounding overflows

    Two operations of the program raise [OverflowError] on large numbers:
    the square [bolt_dia ** 2] and the conversion of an [int] operand
    ([bolt_count], [weld_sides]) to a [float].  Both are a rounding by
    [binary_round_aux] of the kernel's specification of the floats, of the
    square of a mantissa and of the integer itself.  This file derives from
    that specification, for every double and every integer, when the
    rounding gives an infinity:

    - the last normalisation of a rounding, overflow included
      ([renormalise_cases], [binary_round_aux_cases]), and the roundings
      that cannot overflow ([binary_round_aux_number]);
    - the square of a double is infinite exactly when the double is at
      least [2^512] in absolute value ([sq_overflows_threshold]);
    - the double nearest to an integer is a valid double
      ([float_of_Z_spec]) and is infinite exactly when the integer is at
      least [2^1024 - 2^970] in absolute value ([float_of_Z_overflows_spec],
      [pof_Z_nearest]). *)

From Stdlib Require Import Bool ZArith PArith QArith Qpower Lia Lqa Floats.
From S2P Require Import Prelude Numeric Units FloatOrder FloatRound FloatSum.

Local Open Scope Z_scope.

(** ** Definitions *)

(** The outcome of a rounding is a number: a zero or a finite double. *)
Definition SFis_number (x : spec_float) : bool :=
  match x with
  | S754_zero _ | S754_finite _ _ _ => true
  | S754_infinity _ | S754_nan => false
  end.

(** An infinity of either sign, as [is_infinity] sees it through
    [Prim2SF]. *)
Definition SFis_infinity (x : spec_float) : bool :=
  match x with S754_infinity _ => true | _ => false end.

(** The least double whose square overflows: [2^512]. *)
Definition overflow_threshold : float := 0x1p+512.

(** [squares_to_infinity x]: [x] is a finite double of absolute value at
    least [2^512]. *)
Definition squares_to_infinity (x : float) : bool :=
  (overflow_threshold <=? abs x)%float && negb (is_infinity x).

(** The double nearest to the integer [z], ties to even, or an infinity
    when [z] is beyond the doubles: what [float(z)] computes before it
    looks at the exponent. *)
Definition nearest_double (z : Z) : spec_float :=
  binary_normalize prec emax z 0 false.

(** ** The last normalisation, overflow included *)

(** The second normalisation of [binary_round_aux] on a mantissa of 53
    bits, or on [2^53] after a carry: the result is finite when its exponent
    is at most 971, and infinite otherwise. *)
Lemma renormalise_cases (sx : bool) (m1 e1 : Z) :
  2 ^ 52 <= m1 <= 2 ^ 53 -> -1074 <= e1 ->
  exists m e,
    (let '(mrs, e') := shr_fexp prec emax m1 e1 loc_Exact in
     match shr_m mrs with
     | Z0 => S754_zero sx
     | Zpos m => if e' <=? emax - prec then S754_finite sx m e'
                 else S754_infinity sx
     | Zneg _ => S754_nan
     end) = (if e <=? 971 then S754_finite sx m e else S754_infinity sx) /\
    Zpos (digits2_pos m) = 53 /\ Zpos m * 2 ^ (e - e1) = m1 /\
    e = (if m1 =? 2 ^ 53 then e1 + 1 else e1).
Proof.
  intros Hm Hlo. destruct m1 as [|q|q]; try lia.
  unfold shr_fexp. cbn [shr_record_of_loc Zdigits2].
  change (emax - prec) with 971.
  destruct (Z.eqb_spec (Zpos q) (2 ^ 53)) as [E|NE].
  - assert (D : Zpos (digits2_pos q) = 54)
      by (apply digits2_pos_unique; rewrite E; simpl; lia).
    rewrite D, fexp_normal by lia.
    replace (54 + e1 - 53 - e1) with 1 by lia.
    cbn [shr iter_pos]. rewrite shr_1_spec by lia. cbn [shr_m].
    rewrite E. change (2 ^ 53 / 2) with (Zpos 4503599627370496).
    exists 4503599627370496%positive, (e1 + 1).
    repeat split. replace (e1 + 1 - e1) with 1 by lia. reflexivity.
  - assert (D : Zpos (digits2_pos q) = 53)
      by (apply digits2_pos_unique; simpl; lia).
    rewrite D, fexp_normal by lia.
    replace (53 + e1 - 53 - e1) with 0 by lia.
    cbn [shr shr_m]. exists q, e1.
    repeat split; try lia. rewrite Z.sub_diag. simpl. lia.
Qed.

(** Rounding an exact integer mantissa of at least 53 bits whose value is
    not below the normal range: the result is the nearest double, or an
    infinity when the exponent of the nearest double would exceed 971. *)
Lemma binary_round_aux_cases (sx : bool) (q : positive) (e : Z) :
  53 <= Zpos (digits2_pos q) ->
  -1074 <= Zpos (digits2_pos q) + e - 53 ->
  exists m e',
    binary_round_aux prec emax sx (Zpos q) e loc_Exact
    = (if e' <=? 971 then S754_finite sx m e' else S754_infinity sx) /\
    Zpos (digits2_pos m) = 53 /\
    Zpos (digits2_pos q) + e - 53 <= e' <= Zpos (digits2_pos q) + e - 52 /\
    2 * Z.abs (Zpos m * 2 ^ (e' - e) - Zpos q)
    <= 2 ^ (Zpos (digits2_pos q) - 53).
Proof.
  intros Hd Hlo. pose proof (digits2_pos_bounds q) as Dq.
  set (d := Zpos (digits2_pos q)) in *.
  unfold binary_round_aux, shr_fexp at 1. cbn [Zdigits2 shr_record_of_loc].
  fold d. rewrite fexp_normal by lia.
  destruct (shr_shifted (Zpos q) 1 e (d + e - 53 - e) _
              (shifted_exact (Zpos q) ltac:(lia))) as (mrs & -> & Hs); [lia|].
  replace (d + e - 53 - e) with (d - 53) in * by lia. rewrite Z.mul_1_l in Hs.
  pose proof (round_nearest_even_error _ _ _ Hs) as [Hr He].
  set (m1 := round_nearest_even _ _) in *.
  assert (B : 2 ^ 52 <= shr_m mrs < 2 ^ 53).
  { destruct Hs as (_ & _ & r1 & HM1 & Hr1 & _).
    apply (shifted_mantissa (Zpos q) 1 (2 ^ (d - 53)) (Zpos q) d (shr_m mrs));
      lia. }
  destruct (renormalise_cases sx m1 (e + (d - 53))) as (m & e' & -> & D & Hv & Ee);
    [lia | lia |].
  exists m, e'. split; [reflexivity|]. split; [exact D|].
  split; [destruct (m1 =? 2 ^ 53); lia|].
  replace (e' - e) with ((e' - (e + (d - 53))) + (d - 53))
    by lia.
  rewrite Z.pow_add_r by (destruct (m1 =? 2 ^ 53); lia).
  rewrite Z.mul_assoc, Hv. exact He.
Qed.

(** ** Rounding never overflows below [2^1023] *)

(** [shr] by any amount: a shift by a negative amount does nothing. *)
Lemma shr_any (M U e n : Z) (mrs0 : shr_record) :
  shifted M U mrs0 ->
  exists mrs, shr mrs0 e n = (mrs, e + Z.max n 0) /\
              shifted M (U * 2 ^ Z.max n 0) mrs.
Proof.
  intros H. destruct (Z.le_gt_cases n 0) as [Hn|Hn].
  - exists mrs0. rewrite Z.max_r by lia. rewrite Z.add_0_r, Z.mul_1_r.
    split; [destruct n; try reflexivity; lia | exact H].
  - rewrite Z.max_l by lia. apply shr_shifted; [exact H | lia].
Qed.

(** A positive number of at most [2^j] has at most [j + 1] bits. *)
Lemma digits2_pos_le (p : positive) (j : Z) :
  0 <= j -> Zpos p <= 2 ^ j -> Zpos (digits2_pos p) <= j + 1.
Proof.
  intros Hj Hp. pose proof (digits2_pos_bounds p) as [Lo _].
  destruct (Z.le_gt_cases (Zpos (digits2_pos p)) (j + 1)) as [|G]; [easy|].
  assert (2 ^ (j + 1) <= 2 ^ (Zpos (digits2_pos p) - 1))
    by (apply Z.pow_le_mono_r; lia).
  rewrite Z.pow_add_r in H by lia. change (2 ^ 1) with 2 in H.
  assert (0 < 2 ^ j) by (apply Z.pow_pos_nonneg; lia). lia.
Qed.

(** The mantissa left by a shift of [k] bits of a number of [d] bits has at
    most [max (d - k) 0] bits, and one more after a carry. *)
Lemma shifted_digits (q : positive) (k : Z) (mrs : shr_record) (p : positive) :
  0 <= k -> shifted (Zpos q) (1 * 2 ^ k) mrs -> Zpos p <= shr_m mrs + 1 ->
  Zpos (digits2_pos p) + k <= Z.max (Zpos (digits2_pos q)) k + 1.
Proof.
  intros Hk (_ & Hm & r & HM & Hr & _) Hp.
  pose proof (digits2_pos_bounds q) as [_ Hi].
  set (d := Zpos (digits2_pos q)) in *. rewrite Z.mul_1_l in *.
  assert (P : 0 < 2 ^ k) by (apply Z.pow_pos_nonneg; lia).
  destruct (Z.le_gt_cases k d) as [L|G].
  - rewrite Z.max_l by lia.
    assert (Zpos (digits2_pos p) <= d - k + 1); [|lia].
    apply digits2_pos_le; [lia|].
    assert (E : 2 ^ d = 2 ^ (d - k) * 2 ^ k)
      by (rewrite <- Z.pow_add_r by lia; f_equal; lia).
    nia.
  - rewrite Z.max_r by lia.
    assert (Zpos (digits2_pos p) <= 0 + 1); [|lia].
    apply digits2_pos_le; [lia|].
    assert (2 ^ d < 2 ^ k) by (apply Z.pow_lt_mono_r; lia).
    change (2 ^ 0) with 1. nia.
Qed.

(** The exponent function of binary64 stays below the largest exponent. *)
Lemma fexp_le (e : Z) : e <= 1024 -> fexp prec emax e <= 971.
Proof. unfold fexp, emin, prec, emax. lia. Qed.

(** The second normalisation of a mantissa whose rounded exponent stays in
    range is a zero or a finite double. *)
Lemma renormalise_number (sx : bool) (m1 e1 : Z) :
  0 <= m1 -> e1 <= 971 -> Zdigits2 m1 + e1 <= 1024 ->
  SFis_number
    (let '(mrs, e') := shr_fexp prec emax m1 e1 loc_Exact in
     match shr_m mrs with
     | Z0 => S754_zero sx
     | Zpos m => if e' <=? emax - prec then S754_finite sx m e'
                 else S754_infinity sx
     | Zneg _ => S754_nan
     end) = true.
Proof.
  intros Hm He Hd. unfold shr_fexp. cbn [shr_record_of_loc].
  destruct (shr_any m1 1 e1 (fexp prec emax (Zdigits2 m1 + e1) - e1) _
              (shifted_exact m1 Hm)) as (mrs & -> & (_ & Hs & _)).
  pose proof (fexp_le _ Hd).
  destruct (shr_m mrs); try lia; [reflexivity|].
  replace (_ <=? _) with true; [reflexivity|].
  symmetry. apply Z.leb_le. change (emax - prec) with 971. lia.
Qed.

(** Rounding an exact integer [q * 2^e] below [2^1023] gives a zero or a
    finite double, whatever the number of bits of [q]. *)
Lemma binary_round_aux_number (sx : bool) (q : positive) (e : Z) :
  Zpos (digits2_pos q) + e <= 1023 -> e <= 971 ->
  SFis_number (binary_round_aux prec emax sx (Zpos q) e loc_Exact) = true.
Proof.
  intros Hd He. unfold binary_round_aux, shr_fexp at 1.
  cbn [Zdigits2 shr_record_of_loc]. set (d := Zpos (digits2_pos q)) in *.
  destruct (shr_any (Zpos q) 1 e (fexp prec emax (d + e) - e) _
              (shifted_exact (Zpos q) ltac:(lia))) as (mrs & -> & Hs).
  pose proof (round_nearest_even_error _ _ _ Hs) as [Hr _].
  pose proof (fexp_le (d + e) ltac:(lia)) as Hf.
  set (k := Z.max (fexp prec emax (d + e) - e) 0) in *.
  set (m1 := round_nearest_even _ _) in *.
  assert (0 <= shr_m mrs) by apply Hs.
  apply renormalise_number; [lia | lia |].
  destruct m1 as [|p|p] eqn:E; cbn [Zdigits2]; try lia.
  pose proof (shifted_digits q k mrs p ltac:(lia) Hs ltac:(lia)). fold d in H0.
  lia.
Qed.

(** ** The square of a double *)

Lemma is_infinity_Prim2SF (x : float) :
  is_infinity x = SFis_infinity (Prim2SF x).
Proof.
  unfold is_infinity. rewrite eqb_spec, abs_spec.
  destruct (Prim2SF x) as [[]|[]| |[] m e]; reflexivity.
Qed.

Lemma SFis_number_not_infinity (x : spec_float) :
  SFis_number x = true -> SFis_infinity x = false.
Proof. destruct x; simpl; congruence. Qed.

(** The mantissa and the exponent of a valid finite double: at most 53 bits
    and an exponent of at most 971; 53 bits exactly above the least
    exponent. *)
Lemma bounded_digits (m : positive) (e : Z) :
  bounded prec emax m e = true ->
  Zpos (digits2_pos m) <= 53 /\ -1074 <= e <= 971 /\
  (-1074 < e -> Zpos (digits2_pos m) = 53).
Proof.
  unfold bounded, canonical_mantissa, fexp, emin, emax, prec.
  intros [H1 H2%Z.leb_le]%andb_true_iff. apply Z.eqb_eq in H1. lia.
Qed.

(** The number of bits of a square. *)
Lemma digits2_pos_square (m : positive) :
  2 * Zpos (digits2_pos m) - 1 <= Zpos (digits2_pos (m * m))
  <= 2 * Zpos (digits2_pos m).
Proof.
  pose proof (digits2_pos_bounds m) as [Lo Hi].
  pose proof (digits2_pos_bounds (m * m)) as [Lo2 Hi2].
  set (d := Zpos (digits2_pos m)) in *.
  set (d2 := Zpos (digits2_pos (m * m))) in *.
  assert (0 < d) by (subst d; lia). assert (0 < d2) by (subst d2; lia).
  rewrite Pos2Z.inj_mul in *.
  assert (S1 : 2 ^ (d - 1) * 2 ^ (d - 1) = 2 ^ (2 * d - 2))
    by (rewrite <- Z.pow_add_r by lia; f_equal; lia).
  assert (S2 : 2 ^ d * 2 ^ d = 2 ^ (2 * d))
    by (rewrite <- Z.pow_add_r by lia; f_equal; lia).
  assert (P : 0 < 2 ^ (d - 1)) by (apply Z.pow_pos_nonneg; lia).
  assert (A : 2 ^ (2 * d - 2) < 2 ^ d2) by nia.
  assert (B : 2 ^ (d2 - 1) < 2 ^ (2 * d)) by nia.
  apply Z.pow_lt_mono_r_iff in A, B; lia.
Qed.

(** The square of a finite double overflows exactly when its exponent is at
    least 460, that is when its absolute value is at least [2^512]. *)
Lemma square_overflows (s : bool) (m : positive) (e : Z) :
  bounded prec emax m e = true ->
  SFis_infinity
    (binary_round_aux prec emax s (Zpos (m * m)) (e + e) loc_Exact)
  = (460 <=? e).
Proof.
  intros (Dm & He & Hn)%bounded_digits.
  pose proof (digits2_pos_square m) as D2.
  pose proof (digits2_pos_bounds m) as Bm.
  set (d2 := Zpos (digits2_pos (m * m))) in *.
  destruct (Z.leb_spec 460 e) as [Big|Small].
  - destruct (binary_round_aux_cases s (m * m) (e + e))
      as (m' & e' & -> & _ & E' & _); fold d2; try lia.
    fold d2 in E'. destruct (Z.leb_spec e' 971); [lia | reflexivity].
  - destruct (Z.le_gt_cases (d2 + (e + e)) 1023) as [Lo|Hi].
    + apply SFis_number_not_infinity, binary_round_aux_number; fold d2; lia.
    + destruct (binary_round_aux_cases s (m * m) (e + e))
        as (m' & e' & -> & D' & E' & Err); fold d2; try lia.
      fold d2 in E', Err. destruct (Z.leb_spec e' 971); [reflexivity|].
      exfalso. assert (e = 459) by lia. assert (Ed : d2 = 106) by lia.
      assert (e' = 972) by lia. subst e e'.
      pose proof (digits2_pos_bounds m') as Bm'.
      rewrite D' in Bm'. replace (Zpos (digits2_pos m)) with 53 in Bm by lia.
      rewrite Ed, Pos2Z.inj_mul in Err. clear - Bm Bm' Err.
      change (2 ^ (972 - (459 + 459))) with 18014398509481984 in Err.
      change (2 ^ (106 - 53)) with 9007199254740992 in Err.
      change (2 ^ (53 - 1)) with 4503599627370496 in *.
      change (2 ^ 53) with 9007199254740992 in *. nia.
Qed.

(** The threshold [2^512] compares below a valid finite double exactly when
    the exponent of the double is at least 460. *)
Lemma threshold_leb (m : positive) (e : Z) :
  bounded prec emax m e = true ->
  SFleb (Prim2SF overflow_threshold) (S754_finite false m e) = (460 <=? e).
Proof.
  intros (Dm & He & Hn)%bounded_digits.
  pose proof (digits2_pos_bounds m) as Bm.
  replace (Prim2SF overflow_threshold)
    with (S754_finite false 4503599627370496 460) by (vm_compute; reflexivity).
  unfold SFleb, SFcompare.
  destruct (Z.compare_spec 460 e) as [<-|L|G].
  - rewrite Hn in Bm by lia. change (2 ^ (53 - 1)) with 4503599627370496 in Bm.
    destruct Bm as [Bm _]. fold (Pos.compare 4503599627370496 m).
    destruct (Pos.compare_spec 4503599627370496 m) as [E|L|G];
      try reflexivity.
    exfalso. apply Pos2Z.pos_lt_pos in G. clear - Bm G. lia.
  - symmetry. apply Z.leb_le. lia.
  - symmetry. apply Z.leb_gt. lia.
Qed.

(** [x ** 2] overflows on the doubles exactly from [2^512] on: the guard of
    [ppow2] is the comparison of [|x|] with the threshold, for every double,
    the infinities and NaN included. *)
Theorem sq_overflows_threshold (x : float) :
  sq_overflows x = squares_to_infinity x.
Proof.
  unfold squares_to_infinity. num_unfold.
  rewrite leb_spec, abs_spec, !is_infinity_Prim2SF, mul_spec.
  pose proof (Prim2SF_valid x) as V.
  destruct (Prim2SF x) as [[]|[]| |s m e]; try reflexivity.
  cbn [SFmul SF64mul SFabs SFis_infinity negb valid_binary] in *.
  unfold SF64mul. cbn [SFmul].
  rewrite square_overflows, threshold_leb by exact V. reflexivity.
Qed.

(** ** The conversion of an integer *)

(** Rounding an integer mantissa of any length at an exponent that keeps it
    out of the subnormal range: the nearest double, or an infinity.  [ez] is
    the exponent at which the mantissa is aligned before it is rounded. *)
Lemma binary_round_cases (s : bool) (M : positive) (e : Z) :
  -1074 <= Zpos (digits2_pos M) + e - 53 ->
  exists m e',
    binary_round prec emax s M e
    = (if e' <=? 971 then S754_finite s m e' else S754_infinity s) /\
    Zpos (digits2_pos m) = 53 /\
    Zpos (digits2_pos M) + e - 53 <= e' <= Zpos (digits2_pos M) + e - 52 /\
    (53 <= Zpos (digits2_pos M) ->
     2 * Z.abs (Zpos m * 2 ^ (e' - e) - Zpos M)
     <= 2 ^ (Zpos (digits2_pos M) - 53)).
Proof.
  intros Hlo. set (d := Zpos (digits2_pos M)) in *.
  unfold binary_round. fold d. rewrite fexp_normal by lia.
  destruct (shl_align_spec M e (d + e - 53)) as (mz & -> & Hz).
  set (ez := Z.min e (d + e - 53)) in *.
  assert (Dz : Zpos (digits2_pos mz) = d + (e - ez))
    by (apply digits2_pos_shift; [lia | exact Hz]).
  destruct (binary_round_aux_cases s mz ez) as (m & e' & -> & D & Hb & Hv);
    rewrite ?Dz; try lia.
  exists m, e'. rewrite Dz in Hb, Hv.
  split; [reflexivity|]. split; [exact D|]. split; [lia|].
  intros Hd. replace ez with e in * by lia.
  rewrite Z.sub_diag, Z.mul_1_r in Hz. rewrite Hz in Hv.
  now replace (d + (e - e) - 53) with (d - 53) in Hv by lia.
Qed.

(** The integers that round to a finite double of 1024 bits are below the
    limit, the limit itself apart; those that round past the largest
    exponent are at least the limit. *)
Lemma int_below_limit (d e' m p : Z) :
  2 ^ (d - 1) <= p < 2 ^ d -> 2 ^ (53 - 1) <= m < 2 ^ 53 ->
  d - 53 <= e' <= d - 52 ->
  (53 <= d -> 2 * Z.abs (m * 2 ^ e' - p) <= 2 ^ (d - 53)) ->
  e' <= 971 -> p <> float_int_limit -> p < float_int_limit.
Proof.
  intros Hp Hm He Hv Le NE.
  destruct (Z.le_gt_cases d 1023) as [Hd|Hd].
  - assert (2 ^ d <= 2 ^ 1023) by (apply Z.pow_le_mono_r; lia).
    assert (2 ^ 1023 < float_int_limit) by reflexivity. lia.
  - assert (d = 1024) by lia. assert (e' = 971) by lia. subst d e'.
    specialize (Hv ltac:(lia)). unfold float_int_limit in *.
    change (2 ^ (1024 - 53)) with (2 * 2 ^ 970) in Hv.
    change (2 ^ 971) with (2 * 2 ^ 970) in Hv.
    change (2 ^ 1024) with (18014398509481984 * 2 ^ 970) in *.
    change (2 ^ 53) with 9007199254740992 in Hm.
    assert (0 < 2 ^ 970) by reflexivity.
    set (A := 2 ^ 970) in *. clearbody A. nia.
Qed.

Lemma int_above_limit (d e' m p : Z) :
  2 ^ (d - 1) <= p < 2 ^ d -> 2 ^ (53 - 1) <= m < 2 ^ 53 ->
  d - 53 <= e' <= d - 52 ->
  (53 <= d -> 2 * Z.abs (m * 2 ^ e' - p) <= 2 ^ (d - 53)) ->
  971 < e' -> float_int_limit <= p.
Proof.
  intros Hp Hm He Hv Gt.
  destruct (Z.le_gt_cases 1025 d) as [Hd|Hd].
  - assert (2 ^ 1024 <= 2 ^ (d - 1)) by (apply Z.pow_le_mono_r; lia).
    assert (float_int_limit < 2 ^ 1024) by reflexivity. lia.
  - assert (d = 1024) by lia. assert (e' = 972) by lia. subst d e'.
    specialize (Hv ltac:(lia)). unfold float_int_limit in *.
    change (2 ^ (1024 - 53)) with (2 * 2 ^ 970) in Hv.
    change (2 ^ 972) with (4 * 2 ^ 970) in Hv.
    change (2 ^ 1024) with (18014398509481984 * 2 ^ 970) in *.
    change (2 ^ (53 - 1)) with 4503599627370496 in Hm.
    assert (0 < 2 ^ 970) by reflexivity.
    set (A := 2 ^ 970) in *. clearbody A. nia.
Qed.

(** The nearest double of an integer is a valid double, so that the
    conversion is what the specification of the rounding says. *)
Lemma binary_round_int_valid (s : bool) (p : positive) :
  valid_binary (binary_round prec emax s p 0) = true.
Proof.
  pose proof (digits2_pos_bounds p).
  destruct (binary_round_cases s p 0) as (m & e' & -> & D & Hb & _); [lia|].
  destruct (Z.leb_spec e' 971); [apply valid_normal; lia | reflexivity].
Qed.

Theorem float_of_Z_spec (z : Z) :
  Prim2SF (float_of_Z z) = binary_normalize prec emax z 0 false.
Proof.
  unfold float_of_Z. apply Prim2SF_SF2Prim.
  destruct z as [|p|p]; [reflexivity | |]; apply binary_round_int_valid.
Qed.

(** The rounding of a positive integer overflows exactly from
    [float_int_limit] on. *)
Lemma binary_round_int_overflows (s : bool) (p : positive) :
  SFis_infinity (binary_round prec emax s p 0)
  = (float_int_limit <=? Zpos p).
Proof.
  pose proof (digits2_pos_bounds p) as [Lo Hi].
  destruct (Z.eq_dec (Zpos p) float_int_limit) as [E|NE].
  - injection E as ->. destruct s; vm_compute; reflexivity.
  - destruct (binary_round_cases s p 0) as (m & e' & -> & D & Hb & Hv);
      [lia|].
    pose proof (digits2_pos_bounds m) as Bm. rewrite D in Bm.
    rewrite Z.add_0_r, Z.sub_0_r in *. set (d := Zpos (digits2_pos p)) in *.
    destruct (Z.leb_spec e' 971) as [Le|Gt]; cbn [SFis_infinity]; symmetry.
    + apply Z.leb_gt. apply (int_below_limit d e' (Zpos m) (Zpos p)); auto.
    + apply Z.leb_le. apply (int_above_limit d e' (Zpos m) (Zpos p)); auto.
Qed.

(** [float(z)] raises [OverflowError] exactly when the double nearest to [z]
    is infinite. *)
Theorem float_of_Z_overflows_spec (z : Z) :
  float_of_Z_overflows z = is_infinity (float_of_Z z).
Proof.
  rewrite is_infinity_Prim2SF, float_of_Z_spec. unfold float_of_Z_overflows.
  destruct z as [|p|p]; cbn [binary_normalize Z.abs];
    [reflexivity | |]; now rewrite binary_round_int_overflows.
Qed.

