(* ===== verification/Accuracy.v ===== *)
(** * Accuracy of the binary64 calculators

    The theorems of the component files are proved in exact arithmetic.
    This file bounds what rounding changes, under either method, on
    positive normal doubles between [2^-100] and [2^100] given in inch and
    ksi.  For the calculators whose nominal strength is a product (the
    shear, tensile and bearing strengths of a bolt, the shear and tensile
    yield strengths of an element, and the strength of the weld metal) the
    binary64 program returns a strength within a relative error of [2^-50]
    of the rational formula evaluated on the values of its inputs.  For the
    calculators that subtract a hole (tearout, shear and tensile rupture)
    the same holds, with [2^-49] for the two rupture strengths, when the
    part subtracted is at most the part left: without such a hypothesis
    the difference of rounded numbers has no bound on its relative
    error.  For [weld_rupture_strength] the bound is [2^-48], whichever
    branch the computed shares select. *)

From Stdlib Require Import String Bool ZArith QArith Qabs Qminmax Lia Lqa Floats.
From Stdlib Require Import Morphisms RelationClasses Setoid.
From S2P Require Import Prelude Numeric Units Policy Bolt Element Weld.
From S2P Require Import FloatRound FloatSum FloatCompare.

Local Open Scope string_scope.
Local Open Scope Q_scope.

(** The relative error allowed: eight units in the last place. *)
Definition accuracy : Q := 1 # 1125899906842624.

(** The relative error allowed to the calculators that take the holes out
    of a width: sixteen units in the last place. *)
Definition net_accuracy : Q := 1 # 562949953421312.

(** The relative error allowed to the strength of a welded joint, the
    product of a strength and a share with thirteen roundings in all:
    thirty-two units in the last place. *)
Definition joint_accuracy : Q := 1 # 281474976710656.

(** [math.pi / 4], the constant of the area of a bolt. *)
Definition quarter_pi : float := (@math_pi float _ / @of_Z float _ 4)%num.

(** [math.sqrt(2) / 2], the throat factor of a fillet weld. *)
Definition half_sqrt2 : float := (@math_sqrt2 float _ / @of_Z float _ 2)%num.

(** The square of a diameter in the engineering range does not overflow. *)
Lemma engineering_square (x : float) :
  engineering x = true -> ppow2 x = Ok (x * x)%float.
Proof.
  intros H. destruct (engineering_normal x H) as (m & e & N & He).
  destruct (mul_normal_value x x m m e e N N ltac:(lia)) as (m' & e' & N' & _).
  unfold ppow2. cbn [sq_overflows Float_Number].
  now rewrite (normal_not_infinity _ _ _ _ N').
Qed.

(** An enclosure tight enough gives the accuracy. *)
Lemma enclosure_accuracy (eps : Q) (x : float) (v v' l h : Q) (lo hi : Z) :
  approximates x v l h lo hi -> v == v' -> 0 < v ->
  1 - eps <= l -> h <= 1 + eps -> within eps x v'.
Proof.
  intros A E Hv Hl Hh. rewrite <- E. eapply approximates_within; eassumption.
Qed.

(** ** Tactics *)

(** [linear] proves an inequality between sums of exact values from the
    hypotheses; divisions by a constant become products. *)
Ltac linear :=
  unfold Qdiv, inject_Z in *; cbn [Qinv Qnum Qden] in *; lra.

(** [positive] proves that a product or quotient of constants, of values of
    doubles in the engineering range, of positive integers and of sums and
    differences of these is positive. *)
Ltac positive :=
  repeat match goal with
  | H : (0 < ?n < _)%Z |- _ =>
      lazymatch goal with
      | _ : 0 < inject_Z n |- _ => fail
      | _ => assert (0 < inject_Z n) by (apply inject_Z_pos; lia)
      end
  | H : engineering ?x = true |- _ =>
      lazymatch goal with
      | _ : 0 < B2Q x |- _ => fail
      | _ => pose proof (engineering_pos x H)
      end
  end;
  unfold Qdiv;
  repeat first [ apply Qmult_lt_0_compat | apply Qinv_lt_0_compat ];
  first [ reflexivity | assumption | linear ].

(** [enclose] encloses an expression over constants, doubles in the
    engineering range and a positive integer, operation by operation: the
    exact value is read off the expression, the bounds are computed.  A
    difference is enclosed when the hypotheses say that the number
    subtracted is at most the difference. *)
Ltac enclose :=
  lazymatch goal with
  | |- approximates quarter_pi _ _ _ _ _ =>
      eapply (approximates_constant _ _ _ (Q_pi / 4));
      [cbv; reflexivity | reflexivity | reflexivity]
  | |- approximates half_sqrt2 _ _ _ _ _ =>
      eapply (approximates_constant _ _ _ (Q_sqrt2 / 2));
      [cbv; reflexivity | reflexivity | reflexivity]
  | |- approximates (float_of_Z ?z) _ _ _ _ _ =>
      first [ is_var z; eapply approximates_of_Z; lia
            | eapply (approximates_constant _ _ _ (inject_Z z));
              [cbv; reflexivity | reflexivity | reflexivity] ]
  | |- approximates (float_of_Q ?q) _ _ _ _ _ =>
      eapply (approximates_constant _ _ _ q);
      [cbv; reflexivity | reflexivity | reflexivity]
  | H : engineering ?x = true |- approximates ?x _ _ _ _ _ =>
      exact (approximates_engineering x H)
  | |- approximates (PrimFloat.mul _ _) _ _ _ _ _ =>
      eapply approximates_mul;
      [ enclose | enclose | positive | positive
      | vm_compute; reflexivity | vm_compute; reflexivity | lia | lia ]
  | |- approximates (PrimFloat.div _ _) _ _ _ _ _ =>
      eapply approximates_div;
      [ enclose | enclose | positive | positive
      | vm_compute; reflexivity | vm_compute; reflexivity | lia | lia ]
  | |- approximates (PrimFloat.add _ _) _ _ _ _ _ =>
      eapply approximates_add;
      [ enclose | enclose | positive | positive | lia | lia ]
  | |- approximates (PrimFloat.sub _ _) _ _ _ _ _ =>
      eapply (approximates_sub _ _ _ _ _ _ _ _ 1);
      [ enclose | enclose | positive | reflexivity | linear
      | vm_compute; discriminate | vm_compute; discriminate
      | vm_compute; reflexivity | lia | lia ]
  end.

(** [accurate] proves the accuracy of a computed strength from its
    enclosure: the exact value by [field], the bounds by computation. *)
Ltac accurate :=
  eapply enclosure_accuracy;
  [ enclose
  | unfold apply_factor, asd_factor, lrfd_factor; field
  | positive
  | vm_compute; discriminate
  | vm_compute; discriminate ].

(** [run_calculator] runs a calculator on inputs in inch and ksi up to the
    magnitudes it returns. *)
Ltac run_calculator :=
  repeat (rewrite ?to_name_inch_same, ?to_name_ksi_same, ?to_same,
            ?qadd_same, ?qsub_same, ?muli_int by assumption;
          progress cbn [bind magnitude ret divs muls smul qmul units]);
  rewrite ?engineering_square by assumption;
  cbn [bind String.eqb Ascii.eqb Bool.eqb];
  repeat lazymatch goal with |- exists _, _ => eexists end;
  (split; [reflexivity|]);
  cbn [magnitude smul qmul muls divs units]; fold quarter_pi half_sqrt2;
  num_unfold.

(** ** The last step of [weld_rupture_strength] *)

(** The smallest of one and the two shares. *)
Lemma least_share_bounds (v1 v2 : Q) :
  0 < v1 -> 0 < v2 ->
  0 < Qmin 1 (Qmin v1 v2) /\ Qmin 1 (Qmin v1 v2) <= 1 /\
  Qmin 1 (Qmin v1 v2) <= Qmin v1 v2.
Proof.
  intros H1 H2.
  assert (0 < Qmin v1 v2) by (apply Q.min_glb_lt; assumption).
  repeat split; [apply Q.min_glb_lt; lra | apply Q.le_min_l | apply Q.le_min_r].
Qed.

(** When a computed share is below one, the smaller computed share
    encloses the smallest of one and the two exact shares, whether or not
    an exact share is below one. *)
Lemma approximates_governing_share (r1 r2 : float) (v1 v2 l h : Q)
    (lo hi : Z) :
  approximates r1 v1 l h lo hi -> approximates r2 v2 l h lo hi ->
  0 < l -> 1 <= h ->
  ((r1 <? 1)%float || (r2 <? 1)%float) = true ->
  approximates (pmin r1 r2) (Qmin 1 (Qmin v1 v2)) l h lo hi.
Proof.
  intros A1 A2 Hl Hh G.
  pose proof (ltb_one r1 _ _ _ _ _ A1) as C1.
  pose proof (ltb_one r2 _ _ _ _ _ A2) as C2.
  destruct (approximates_pmin r1 r2 v1 v2 l h lo hi A1 A2 Hl ltac:(lra))
    as [(m & e & N & He & [H1 H2]) Er].
  assert (B : B2Q (pmin r1 r2) < 1).
  { rewrite Er. destruct (Q.min_spec (B2Q r1) (B2Q r2)) as [[? ->]|[? ->]];
      destruct (r1 <? 1)%float, (r2 <? 1)%float; try discriminate; lra. }
  exists m, e. split; [exact N|]. split; [exact He|].
  destruct (Q.min_spec 1 (Qmin v1 v2)) as [[? ->]|[? ->]]; split; nra.
Qed.

(** When no computed share is below one, the exact shares are at least
    [1 / h]: the strength of the weld metal, returned as it is, encloses
    the exact strength of the joint. *)
Lemma approximates_unreduced (mat r1 r2 : float) (vm v1 v2 lm hm l h : Q)
    (lom him lo hi : Z) :
  approximates mat vm lm hm lom him ->
  approximates r1 v1 l h lo hi -> approximates r2 v2 l h lo hi ->
  0 < vm -> 0 < v1 -> 0 < v2 -> 0 < lm -> 0 < l -> l <= 1 -> 1 <= h ->
  ((r1 <? 1)%float || (r2 <? 1)%float) = false ->
  approximates mat (vm * Qmin 1 (Qmin v1 v2))
    (lm * l * (1 - u64)) (hm * h * (1 + u64)) lom him.
Proof.
  intros (m & e & N & He & [M1 M2]) A1 A2 Hvm Hv1 Hv2 Hlm Hl Hl1 Hh1 G.
  pose proof (ltb_one r1 _ _ _ _ _ A1) as C1.
  pose proof (ltb_one r2 _ _ _ _ _ A2) as C2.
  destruct (r1 <? 1)%float, (r2 <? 1)%float; try discriminate.
  destruct A1 as (_ & _ & _ & _ & [_ H1]), A2 as (_ & _ & _ & _ & [_ H2]).
  destruct (least_share_bounds v1 v2 Hv1 Hv2) as (P & P1 & _).
  assert (R : 1 <= h * Qmin 1 (Qmin v1 v2)).
  { destruct (Q.min_spec 1 (Qmin v1 v2)) as [[? ->]|[? ->]]; [lra|].
    destruct (Q.min_spec v1 v2) as [[? ->]|[? ->]]; lra. }
  set (rho := Qmin 1 (Qmin v1 v2)) in *.
  assert (U : 0 < 1 - u64 /\ 1 - u64 < 1 /\ 1 < 1 + u64)
    by (repeat split; reflexivity).
  destruct U as (? & ? & ?).
  set (a := 1 - u64) in *. set (b := 1 + u64) in *.
  assert (0 < lm * vm) by nra. assert (0 < hm * vm) by nra.
  assert (0 < l * a <= 1) by nra.
  assert (l * a * rho <= 1) by nra.
  assert (1 <= (h * rho) * b) by nra.
  exists m, e. split; [exact N|]. split; [exact He|]. split.
  - setoid_replace (lm * l * a * (vm * rho))
      with ((lm * vm) * (l * a * rho)) by ring. nra.
  - setoid_replace (hm * h * b * (vm * rho))
      with ((hm * vm) * ((h * rho) * b)) by ring. nra.
Qed.

(** The last step of [weld_rupture_strength] in binary64: whichever branch
    the computed shares select, the result encloses the exact strength of
    the joint.  When the computed and the exact shares fall on different
    sides of one, both are within the enclosure of one. *)
Lemma approximates_rupture (mat r1 r2 : float) (vm v1 v2 lm hm l h : Q)
    (lom him lo hi : Z) :
  approximates mat vm lm hm lom him ->
  approximates r1 v1 l h lo hi -> approximates r2 v2 l h lo hi ->
  0 < vm -> 0 < v1 -> 0 < v2 -> 0 < lm -> 0 < l -> l <= 1 -> 1 <= h ->
  (-1126 <= lom + lo)%Z -> (him + hi <= 917)%Z ->
  approximates
    (if (r1 <? 1)%float || (r2 <? 1)%float then (mat * pmin r1 r2)%float
     else mat)
    (rupture_strength vm v1 v2)
    (lm * l * (1 - u64)) (hm * h * (1 + u64))
    (Z.min lom (lom + lo + 52)) (Z.max him (him + hi + 54)).
Proof.
  intros Am A1 A2 Hvm Hv1 Hv2 Hlm Hl Hl1 Hh1 Lo Hi.
  destruct (least_share_bounds v1 v2 Hv1 Hv2) as (P & P1 & _).
  destruct ((r1 <? 1)%float || (r2 <? 1)%float) eqn:G.
  - pose proof (approximates_governing_share _ _ _ _ _ _ _ _ A1 A2 Hl Hh1 G)
      as Ar.
    eapply approximates_widen;
      [ exact (approximates_mul _ _ _ _ _ _ _ _ _ _ _ _ Am Ar Hvm P Hlm Hl
                 Lo Hi)
      | symmetry; apply rupture_strength_min | nra | lra | lra | lia | lia ].
  - eapply approximates_widen;
      [ exact (approximates_unreduced _ _ _ _ _ _ _ _ _ _ _ _ _ _ Am A1 A2
                 Hvm Hv1 Hv2 Hlm Hl Hl1 Hh1 G)
      | symmetry; apply rupture_strength_min | nra | lra | lra | lia | lia ].
Qed.

(** A share is a pure number: comparing it with a number converts
    nothing. *)
Lemma qlt_num_one {F : Type} `{Number F} (x y : F) (u : Unit) :
  dim_eqb (unit_dim u) (unit_dim unit_one) = true ->
  unit_eqb u unit_one = true ->
  qlt_num (qty x u) y = Ok (x <? y)%num.
Proof.
  intros D E. unfold qlt_num, to. cbn [units magnitude].
  change dimensionless with (unit_dim unit_one). now rewrite D, E.
Qed.

(** The two branches return quantities in the same unit. *)
Lemma if_ok {F : Type} (b : bool) (x y : F) (u u' : Unit) :
  u = u' ->
  (if b then Ok (qty x u) else Ok (qty y u')) = Ok (qty (if b then x else y) u').
Proof. intros ->. now destruct b. Qed.

(** [divide] runs the divisions of the goal whose divisor is enclosed, and
    so is not zero. *)
Ltac divide :=
  repeat match goal with
  | |- context [pdiv ?x ?y] =>
      let A := fresh in
      eassert (A : approximates y _ _ _ _ _) by enclose;
      rewrite (pdiv_enclosed x y _ _ _ _ _ A); clear A;
      cbn [bind ret magnitude units]
  end.

(** [exact_value] proves that the value read off the program is the
    formula of the specification. *)
Ltac exact_value :=
  repeat match goal with
  | H : engineering ?x = true |- _ =>
      lazymatch goal with
      | _ : 0 < B2Q x |- _ => fail
      | _ => pose proof (engineering_pos x H)
      end
  end;
  field; repeat split; lra.

(** The strength of a joint is positive. *)
Lemma rupture_strength_pos (vm v1 v2 : Q) :
  0 < vm -> 0 < v1 -> 0 < v2 -> 0 < rupture_strength vm v1 v2.
Proof.
  intros Hm H1 H2. rewrite rupture_strength_min.
  apply Qmult_lt_0_compat; [exact Hm|].
  repeat apply Q.min_glb_lt; assumption || reflexivity.
Qed.

(** [joint_accurate] proves the accuracy of the strength of a joint from
    the enclosures of the strength of the weld metal and of the two
    shares. *)
Ltac joint_accurate :=
  eapply enclosure_accuracy;
  [ eapply approximates_rupture;
    [ enclose | enclose | enclose | positive | positive | positive
    | vm_compute; reflexivity | vm_compute; reflexivity
    | vm_compute; discriminate | vm_compute; discriminate | lia | lia ]
  | apply rupture_strength_Proper;
    unfold apply_factor, asd_factor, lrfd_factor, Rn_weld, reduction,
      t_min_required, weld_strength_per_length; exact_value
  | apply rupture_strength_pos; positive
  | vm_compute; discriminate
  | vm_compute; discriminate ].

(** ** The calculators *)

Section Accuracy.
Variables (s : string) (m : DesignMethod).
Hypothesis method : parse_method s = Some m.

(** C12. In binary64, under either method, on a diameter, thicknesses and
    strengths in the engineering range given in inch and ksi:
    [bearing_strength_bolts] returns two strengths in kip, each within a
    relative error of [2^-50] of the policy applied to [2.4 * d * t * f_u]
    on the values of the inputs: no intermediate product overflows or
    underflows, and the five roundings add up to less than eight units in
    the last place. *)
Theorem bearing_strength_bolts_accuracy (d t1 u1 t2 u2 : float) :
  engineering d = true -> engineering t1 = true -> engineering u1 = true ->
  engineering t2 = true -> engineering u2 = true ->
  exists r1 r2,
    bearing_strength_bolts s (qty d inch) (qty t1 inch) (qty u1 ksi)
      (qty t2 inch) (qty u2 ksi) = Ok (qty r1 kip, qty r2 kip) /\
    within accuracy r1
      (apply_factor m BoltBearing (Rn_bolt_bearing (B2Q d) (B2Q t1) (B2Q u1))) /\
    within accuracy r2
      (apply_factor m BoltBearing (Rn_bolt_bearing (B2Q d) (B2Q t2) (B2Q u2))).
Proof.
  intros Hd Ht1 Hu1 Ht2 Hu2. unfold bearing_strength_bolts, Rn_bolt_bearing.
  apply parse_method_Some in method as [[-> ->]|[-> ->]];
    run_calculator; split; accurate.
Qed.

(** C13. In binary64, under either method, on a diameter and a strength in the
    engineering range: [shear_strength_bolts] returns (the square of the
    diameter does not raise [OverflowError]) a strength within [2^-50] of
    the policy applied to [0.45 * f_u * (pi / 4) * d^2], with [pi] the value
    of [math.pi]. *)
Theorem shear_strength_bolts_accuracy (d f_u : float) :
  engineering d = true -> engineering f_u = true ->
  exists r,
    shear_strength_bolts s (qty d inch) (qty f_u ksi) = Ok (qty r kip) /\
    within accuracy r
      (apply_factor m BoltShear (Rn_bolt_shear (B2Q d) (B2Q f_u))).
Proof.
  intros Hd Hu.
  unfold shear_strength_bolts, nominal_fastener_strength, qsquare,
    Rn_bolt_shear, bolt_area.
  apply parse_method_Some in method as [[-> ->]|[-> ->]];
    run_calculator; accurate.
Qed.

(** The same for [tensile_strength_bolts] and [0.75 * f_u * (pi / 4) * d^2]. *)
Theorem tensile_strength_bolts_accuracy (d f_u : float) :
  engineering d = true -> engineering f_u = true ->
  exists r,
    tensile_strength_bolts s (qty d inch) (qty f_u ksi) = Ok (qty r kip) /\
    within accuracy r
      (apply_factor m BoltTension (Rn_bolt_tension (B2Q d) (B2Q f_u))).
Proof.
  intros Hd Hu.
  unfold tensile_strength_bolts, nominal_fastener_strength, qsquare,
    Rn_bolt_tension, bolt_area.
  apply parse_method_Some in method as [[-> ->]|[-> ->]];
    run_calculator; accurate.
Qed.

(** In binary64, under either method, on thicknesses, lengths and yield
    strengths in the engineering range: [connected_elem_shear_yield_str]
    returns two strengths, each within [2^-50] of the policy (factors 1.50
    and 1.00) applied to [0.60 * f_y * (t * len)]. *)
Theorem connected_elem_shear_yield_str_accuracy (t1 l1 y1 t2 l2 y2 : float) :
  engineering t1 = true -> engineering l1 = true -> engineering y1 = true ->
  engineering t2 = true -> engineering l2 = true -> engineering y2 = true ->
  exists r1 r2,
    connected_elem_shear_yield_str s (qty t1 inch) (qty l1 inch)
      (qty y1 ksi) (qty t2 inch) (qty l2 inch) (qty y2 ksi)
    = Ok (qty r1 kip, qty r2 kip) /\
    within accuracy r1
      (apply_factor m ElementShearYield
         (Rn_shear_yield (B2Q t1) (B2Q l1) (B2Q y1))) /\
    within accuracy r2
      (apply_factor m ElementShearYield
         (Rn_shear_yield (B2Q t2) (B2Q l2) (B2Q y2))).
Proof.
  intros Ht1 Hl1 Hy1 Ht2 Hl2 Hy2.
  unfold connected_elem_shear_yield_str, Rn_shear_yield.
  apply parse_method_Some in method as [[-> ->]|[-> ->]];
    run_calculator; split; accurate.
Qed.

(** The same for [connected_elem_tensile_yield_str], with the factors 1.67
    and 0.90 and the nominal strength [f_y * (t * len)]. *)
Theorem connected_elem_tensile_yield_str_accuracy (t1 l1 y1 t2 l2 y2 : float) :
  engineering t1 = true -> engineering l1 = true -> engineering y1 = true ->
  engineering t2 = true -> engineering l2 = true -> engineering y2 = true ->
  exists r1 r2,
    connected_elem_tensile_yield_str s (qty t1 inch) (qty l1 inch)
      (qty y1 ksi) (qty t2 inch) (qty l2 inch) (qty y2 ksi)
    = Ok (qty r1 kip, qty r2 kip) /\
    within accuracy r1
      (apply_factor m ElementTensileYield
         (Rn_tensile_yield (B2Q t1) (B2Q l1) (B2Q y1))) /\
    within accuracy r2
      (apply_factor m ElementTensileYield
         (Rn_tensile_yield (B2Q t2) (B2Q l2) (B2Q y2))).
Proof.
  intros Ht1 Hl1 Hy1 Ht2 Hl2 Hy2.
  unfold connected_elem_tensile_yield_str, Rn_tensile_yield.
  apply parse_method_Some in method as [[-> ->]|[-> ->]];
    run_calculator; split; accurate.
Qed.

(** In binary64, under either method, for one or two sides and a weld size
    and length in the engineering range: [weld_material_strength] returns a
    strength within [2^-50] of the policy applied to
    [0.60 * 70 * (sqrt2 / 2) * (size / 16) * length * sides], with [sqrt2]
    the value of [math.sqrt(2)]. *)
Theorem weld_material_strength_accuracy (weld_size weld_length : float)
    (weld_sides : Z) :
  engineering weld_size = true -> engineering weld_length = true ->
  weld_sides = 1%Z \/ weld_sides = 2%Z ->
  exists r,
    weld_material_strength s weld_size (qty weld_length inch) weld_sides
    = Ok (qty r kip) /\
    within accuracy r
      (apply_factor m WeldMaterial
         (Rn_weld (B2Q weld_size) (B2Q weld_length) weld_sides)).
Proof.
  intros Hw Hl Hs. unfold weld_material_strength, Rn_weld.
  apply parse_method_Some in method as [[-> ->]|[-> ->]];
    destruct Hs as [-> | ->]; run_calculator; accurate.
Qed.

(** C15. In binary64, under either method, on a diameter, edge distances,
    thicknesses and strengths in the engineering range, when each edge
    distance is at least the diameter of the hole ([d + 0.125]):
    [tearout_strength_bolts] returns two strengths, each within [2^-50] of
    the policy applied to [1.2 * (edge - (d + 0.125) / 2) * t * f_u].  The
    hypothesis on the hole keeps the clear distance at least as large as
    the half hole subtracted, so that the subtraction amplifies the two
    roundings of the half hole by at most one. *)
Theorem tearout_strength_bolts_accuracy (d e1 e2 t1 u1 t2 u2 : float) :
  engineering d = true -> engineering e1 = true -> engineering e2 = true ->
  engineering t1 = true -> engineering u1 = true ->
  engineering t2 = true -> engineering u2 = true ->
  B2Q d + 0.125 <= B2Q e1 -> B2Q d + 0.125 <= B2Q e2 ->
  exists r1 r2,
    tearout_strength_bolts s (qty d inch) (qty e1 inch) (qty e2 inch)
      (qty t1 inch) (qty u1 ksi) (qty t2 inch) (qty u2 ksi)
    = Ok (qty r1 kip, qty r2 kip) /\
    within accuracy r1
      (apply_factor m BoltTearout
         (Rn_bolt_tearout (B2Q d) (B2Q e1) (B2Q t1) (B2Q u1))) /\
    within accuracy r2
      (apply_factor m BoltTearout
         (Rn_bolt_tearout (B2Q d) (B2Q e2) (B2Q t2) (B2Q u2))).
Proof.
  intros Hd He1 He2 Ht1 Hu1 Ht2 Hu2 Hh1 Hh2.
  unfold tearout_strength_bolts, Rn_bolt_tearout.
  apply parse_method_Some in method as [[-> ->]|[-> ->]];
    run_calculator; split; accurate.
Qed.

(** C16. In binary64, under either method, for a number of bolts below [2^63]
    and a diameter, thicknesses, widths and strengths in the engineering
    range, when the holes take at most half of each width:
    [connected_elem_shear_rupture_str] returns two strengths, each within
    [2^-49] of the policy applied to
    [0.60 * f_u * (t * (len - (d + 0.063) * n))]. *)
Theorem connected_elem_shear_rupture_str_accuracy (d : float) (n : Z)
    (t1 l1 u1 t2 l2 u2 : float) :
  engineering d = true -> (0 < n < 2 ^ 63)%Z ->
  engineering t1 = true -> engineering l1 = true -> engineering u1 = true ->
  engineering t2 = true -> engineering l2 = true -> engineering u2 = true ->
  2 * ((B2Q d + 0.063) * inject_Z n) <= B2Q l1 ->
  2 * ((B2Q d + 0.063) * inject_Z n) <= B2Q l2 ->
  exists r1 r2,
    connected_elem_shear_rupture_str s (qty d inch) n (qty t1 inch)
      (qty l1 inch) (qty u1 ksi) (qty t2 inch) (qty l2 inch) (qty u2 ksi)
    = Ok (qty r1 kip, qty r2 kip) /\
    within net_accuracy r1
      (apply_factor m ElementShearRupture
         (Rn_shear_rupture (B2Q d) n (B2Q t1) (B2Q l1) (B2Q u1))) /\
    within net_accuracy r2
      (apply_factor m ElementShearRupture
         (Rn_shear_rupture (B2Q d) n (B2Q t2) (B2Q l2) (B2Q u2))).
Proof.
  intros Hd Hn Ht1 Hl1 Hu1 Ht2 Hl2 Hu2 Hh1 Hh2.
  unfold connected_elem_shear_rupture_str, Rn_shear_rupture, net_width.
  apply parse_method_Some in method as [[-> ->]|[-> ->]];
    run_calculator; split; accurate.
Qed.

(** The same for [connected_elem_tensile_rupture_str], with a shear lag
    factor in the engineering range and the nominal strength
    [f_u * (t * (len - (d + 0.063) * n)) * shear_lag]. *)
Theorem connected_elem_tensile_rupture_str_accuracy (d : float) (n : Z)
    (shear_lag t1 l1 u1 t2 l2 u2 : float) :
  engineering d = true -> (0 < n < 2 ^ 63)%Z -> engineering shear_lag = true ->
  engineering t1 = true -> engineering l1 = true -> engineering u1 = true ->
  engineering t2 = true -> engineering l2 = true -> engineering u2 = true ->
  2 * ((B2Q d + 0.063) * inject_Z n) <= B2Q l1 ->
  2 * ((B2Q d + 0.063) * inject_Z n) <= B2Q l2 ->
  exists r1 r2,
    connected_elem_tensile_rupture_str s (qty d inch) n shear_lag
      (qty t1 inch) (qty l1 inch) (qty u1 ksi)
      (qty t2 inch) (qty l2 inch) (qty u2 ksi)
    = Ok (qty r1 kip, qty r2 kip) /\
    within net_accuracy r1
      (apply_factor m ElementTensileRupture
         (Rn_tensile_rupture (B2Q d) n (B2Q shear_lag) (B2Q t1) (B2Q l1) (B2Q u1))) /\
    within net_accuracy r2
      (apply_factor m ElementTensileRupture
         (Rn_tensile_rupture (B2Q d) n (B2Q shear_lag) (B2Q t2) (B2Q l2) (B2Q u2))).
Proof.
  intros Hd Hn Hs Ht1 Hl1 Hu1 Ht2 Hl2 Hu2 Hh1 Hh2.
  unfold connected_elem_tensile_rupture_str, Rn_tensile_rupture, net_width.
  apply parse_method_Some in method as [[-> ->]|[-> ->]];
    run_calculator; split; accurate.
Qed.

(** C14. In binary64, under either method, for one or two sides and a weld
    size, a length, thicknesses and strengths in the engineering range:
    [weld_rupture_strength] returns a strength within [2^-48] of the
    strength of the weld metal times the smallest of one and the two shares
    of the base metal.  The computed shares may fall on the other side of
    one than the exact ones, so that the program multiplies where the exact
    formula does not, or the reverse: both results are then within the
    bound, because the share that decides is within rounding of one. *)
Theorem weld_rupture_strength_accuracy (w L t1 u1 t2 u2 : float) (sides : Z) :
  engineering w = true -> engineering L = true ->
  engineering t1 = true -> engineering u1 = true ->
  engineering t2 = true -> engineering u2 = true ->
  sides = 1%Z \/ sides = 2%Z ->
  exists r,
    weld_rupture_strength s w (qty L inch) sides (qty t1 inch) (qty u1 ksi)
      (qty t2 inch) (qty u2 ksi) = Ok (qty r kip) /\
    within joint_accuracy r
      (rupture_strength
         (apply_factor m WeldMaterial (Rn_weld (B2Q w) (B2Q L) sides))
         (reduction (B2Q w) sides (B2Q t1) (B2Q u1))
         (reduction (B2Q w) sides (B2Q t2) (B2Q u2))).
Proof.
  intros Hw HL Ht1 Hu1 Ht2 Hu2 Hs.
  unfold weld_rupture_strength, weld_material_strength.
  rewrite !to_same. cbn [bind].
  apply parse_method_Some in method as [[-> ->]|[-> ->]];
    destruct Hs as [-> | ->]; cbn [Z.eqb Pos.eqb bind String.eqb Ascii.eqb Bool.eqb];
    unfold qdiv; cbn [magnitude units smul qmul muls divs]; fold half_sqrt2;
    num_unfold;
    divide; rewrite !qlt_num_one by reflexivity; rewrite or_else_ok;
    cbn [bind]; rewrite qmin_same; cbn [bind ret qmul magnitude units].
  all: eexists; (split; [apply if_ok; reflexivity|]);
    cbn [magnitude units smul qmul muls divs]; fold half_sqrt2; num_unfold;
    joint_accurate.
Qed.

End Accuracy.

(** ** The theorems at the inputs of the documented examples *)

Lemma bearing_strength_bolts_accuracy_witness :
  exists r1 r2,
    bearing_strength_bolts "ASD" (qty 0.75%float inch) (qty 0.5%float inch)
      (qty 58%float ksi) (qty 0.375%float inch) (qty 58%float ksi)
    = Ok (qty r1 kip, qty r2 kip) /\
    within accuracy r1
      (apply_factor ASD BoltBearing
         (Rn_bolt_bearing (B2Q 0.75) (B2Q 0.5) (B2Q 58))) /\
    within accuracy r2
      (apply_factor ASD BoltBearing
         (Rn_bolt_bearing (B2Q 0.75) (B2Q 0.375) (B2Q 58))).
Proof.
  apply (bearing_strength_bolts_accuracy "ASD" ASD eq_refl); reflexivity.
Defined.

Lemma shear_strength_bolts_accuracy_witness :
  exists r,
    shear_strength_bolts "LRFD" (qty 0.75%float inch) (qty 120%float ksi)
    = Ok (qty r kip) /\
    within accuracy r
      (apply_factor LRFD BoltShear (Rn_bolt_shear (B2Q 0.75) (B2Q 120))).
Proof.
  apply (shear_strength_bolts_accuracy "LRFD" LRFD eq_refl); reflexivity.
Defined.

Lemma tensile_strength_bolts_accuracy_witness :
  exists r,
    tensile_strength_bolts "ASD" (qty 0.75%float inch) (qty 120%float ksi)
    = Ok (qty r kip) /\
    within accuracy r
      (apply_factor ASD BoltTension (Rn_bolt_tension (B2Q 0.75) (B2Q 120))).
Proof.
  apply (tensile_strength_bolts_accuracy "ASD" ASD eq_refl); reflexivity.
Defined.

Lemma connected_elem_shear_yield_str_accuracy_witness :
  exists r1 r2,
    connected_elem_shear_yield_str "ASD" (qty 0.5%float inch)
      (qty 6%float inch) (qty 36%float ksi) (qty 0.375%float inch)
      (qty 6%float inch) (qty 50%float ksi)
    = Ok (qty r1 kip, qty r2 kip) /\
    within accuracy r1
      (apply_factor ASD ElementShearYield
         (Rn_shear_yield (B2Q 0.5) (B2Q 6) (B2Q 36))) /\
    within accuracy r2
      (apply_factor ASD ElementShearYield
         (Rn_shear_yield (B2Q 0.375) (B2Q 6) (B2Q 50))).
Proof.
  apply (connected_elem_shear_yield_str_accuracy "ASD" ASD eq_refl);
    reflexivity.
Defined.

Lemma connected_elem_tensile_yield_str_accuracy_witness :
  exists r1 r2,
    connected_elem_tensile_yield_str "LRFD" (qty 0.5%float inch)
      (qty 6%float inch) (qty 36%float ksi) (qty 0.375%float inch)
      (qty 6%float inch) (qty 50%float ksi)
    = Ok (qty r1 kip, qty r2 kip) /\
    within accuracy r1
      (apply_factor LRFD ElementTensileYield
         (Rn_tensile_yield (B2Q 0.5) (B2Q 6) (B2Q 36))) /\
    within accuracy r2
      (apply_factor LRFD ElementTensileYield
         (Rn_tensile_yield (B2Q 0.375) (B2Q 6) (B2Q 50))).
Proof.
  apply (connected_elem_tensile_yield_str_accuracy "LRFD" LRFD eq_refl);
    reflexivity.
Defined.

Lemma weld_material_strength_accuracy_witness :
  exists r,
    weld_material_strength "LRFD" 4%float (qty 10%float inch) 2
    = Ok (qty r kip) /\
    within accuracy r
      (apply_factor LRFD WeldMaterial (Rn_weld (B2Q 4) (B2Q 10) 2)).
Proof.
  apply (weld_material_strength_accuracy "LRFD" LRFD eq_refl);
    solve [reflexivity | now right].
Defined.

Lemma tearout_strength_bolts_accuracy_witness :
  exists r1 r2,
    tearout_strength_bolts "LRFD" (qty 0.75%float inch) (qty 1.5%float inch)
      (qty 1.25%float inch) (qty 0.5%float inch) (qty 58%float ksi)
      (qty 0.375%float inch) (qty 65%float ksi)
    = Ok (qty r1 kip, qty r2 kip) /\
    within accuracy r1
      (apply_factor LRFD BoltTearout
         (Rn_bolt_tearout (B2Q 0.75) (B2Q 1.5) (B2Q 0.5) (B2Q 58))) /\
    within accuracy r2
      (apply_factor LRFD BoltTearout
         (Rn_bolt_tearout (B2Q 0.75) (B2Q 1.25) (B2Q 0.375) (B2Q 65))).
Proof.
  apply (tearout_strength_bolts_accuracy "LRFD" LRFD eq_refl);
    first [reflexivity | vm_compute; discriminate].
Defined.

Lemma connected_elem_shear_rupture_str_accuracy_witness :
  exists r1 r2,
    connected_elem_shear_rupture_str "ASD" (qty 0.75%float inch) 3
      (qty 0.5%float inch) (qty 9%float inch) (qty 58%float ksi)
      (qty 0.375%float inch) (qty 9%float inch) (qty 65%float ksi)
    = Ok (qty r1 kip, qty r2 kip) /\
    within net_accuracy r1
      (apply_factor ASD ElementShearRupture
         (Rn_shear_rupture (B2Q 0.75) 3 (B2Q 0.5) (B2Q 9) (B2Q 58))) /\
    within net_accuracy r2
      (apply_factor ASD ElementShearRupture
         (Rn_shear_rupture (B2Q 0.75) 3 (B2Q 0.375) (B2Q 9) (B2Q 65))).
Proof.
  apply (connected_elem_shear_rupture_str_accuracy "ASD" ASD eq_refl);
    first [reflexivity | lia | vm_compute; discriminate].
Defined.

Lemma connected_elem_tensile_rupture_str_accuracy_witness :
  exists r1 r2,
    connected_elem_tensile_rupture_str "LRFD" (qty 0.75%float inch) 2
      0.875%float (qty 0.5%float inch) (qty 6%float inch) (qty 58%float ksi)
      (qty 0.375%float inch) (qty 6%float inch) (qty 65%float ksi)
    = Ok (qty r1 kip, qty r2 kip) /\
    within net_accuracy r1
      (apply_factor LRFD ElementTensileRupture
         (Rn_tensile_rupture (B2Q 0.75) 2 (B2Q 0.875) (B2Q 0.5) (B2Q 6) (B2Q 58))) /\
    within net_accuracy r2
      (apply_factor LRFD ElementTensileRupture
         (Rn_tensile_rupture (B2Q 0.75) 2 (B2Q 0.875) (B2Q 0.375) (B2Q 6) (B2Q 65))).
Proof.
  apply (connected_elem_tensile_rupture_str_accuracy "LRFD" LRFD eq_refl);
    first [reflexivity | lia | vm_compute; discriminate].
Defined.

Lemma weld_rupture_strength_accuracy_witness :
  exists r,
    weld_rupture_strength "ASD" 4%float (qty 10%float inch) 2
      (qty 0.5%float inch) (qty 58%float ksi)
      (qty 0.375%float inch) (qty 65%float ksi) = Ok (qty r kip) /\
    within joint_accuracy r
      (rupture_strength
         (apply_factor ASD WeldMaterial (Rn_weld (B2Q 4) (B2Q 10) 2))
         (reduction (B2Q 4) 2 (B2Q 0.5) (B2Q 58))
         (reduction (B2Q 4) 2 (B2Q 0.375) (B2Q 65))).
Proof.
  apply (weld_rupture_strength_accuracy "ASD" ASD eq_refl);
    first [reflexivity | right; reflexivity].
Defined.
