(* ===== verification/AccuracyParts.v ===== *)
(** * Accuracy of the operation over any number of parts

    The operation of [Parts] over a sequence of parts, at the binary64
    instance: for parts given in inch and ksi in the engineering range, it
    returns one strength per part, in the order of the parts, each within
    the relative error that [Accuracy] proves for the two-part function of
    the source.  The proof is by the characterisation of the operation part
    by part: the accuracy of a sequence is the accuracy of each part. *)

From Stdlib Require Import String List Bool ZArith QArith Qabs Qminmax Lia Lqa Floats.
From S2P Require Import Prelude Numeric Units Policy Bolt Element Weld Parts.
From S2P Require Import FloatRound FloatSum FloatCompare Accuracy.
Import ListNotations.

Local Open Scope string_scope.
Local Open Scope Q_scope.

(** Strengths in kip. *)
Definition kips (rs : list float) : list (Quantity float) :=
  map (fun r => qty r kip) rs.

(** A thickness in inch and a strength in ksi. *)
Definition plate (p : float * float) : Quantity float * Quantity float :=
  (qty (fst p) inch, qty (snd p) ksi).

(** Two lengths in inch and a strength in ksi. *)
Definition strip (p : float * float * float)
  : Quantity float * Quantity float * Quantity float :=
  (qty (fst (fst p)) inch, qty (snd (fst p)) inch, qty (snd p) ksi).

(** The three numbers of a part are in the engineering range. *)
Definition strip_engineering (p : float * float * float) : bool :=
  engineering (fst (fst p)) && engineering (snd (fst p)) && engineering (snd p).

Lemma strip_engineering_true (a b c : float) :
  strip_engineering (a, b, c) = true ->
  engineering a = true /\ engineering b = true /\ engineering c = true.
Proof.
  unfold strip_engineering. cbn [fst snd].
  rewrite !andb_true_iff. tauto.
Qed.

Section PartsAccuracy.
Variables (s : string) (m : DesignMethod).
Hypothesis method : parse_method s = Some m.

(** The accuracy of a sequence is the accuracy of each part. *)
Lemma strength_per_part_accuracy {P P' C : Type} (convert : P -> result C)
    (nominal : C -> result (Quantity float)) (fos str_reduction : float)
    (embed : P' -> P) (eps : Q) (spec : P' -> Q) (parts : list P') :
  Forall (fun p => exists r,
            strength_of_part convert nominal fos str_reduction s (embed p)
            = Ok (qty r kip) /\ within eps r (spec p)) parts ->
  exists rs,
    strength_per_part convert nominal fos str_reduction s (map embed parts)
    = Ok (kips rs) /\
    Forall2 (fun p r => within eps r (spec p)) parts rs.
Proof.
  induction 1 as [|p ps (r & Er & Hr) _ (rs & Ers & Hrs)].
  - exists []. split; [|constructor]. apply strength_per_part_nil.
    split; [reflexivity | congruence].
  - exists (r :: rs). split; [|now constructor].
    apply strength_per_part_cons. now exists (qty r kip), (kips rs).
Qed.

(** ** Bearing *)

(** One part: the statements of [bearing_strength_bolts] for one part, in
    binary64. *)
Lemma bearing_part_accuracy (d t u : float) :
  engineering d = true -> engineering t = true -> engineering u = true ->
  exists r,
    strength_of_part convert_t_ult (bearing_nominal (qty d inch))
      (lit 2.00) (lit 0.75) s (plate (t, u)) = Ok (qty r kip) /\
    within accuracy r
      (apply_factor m BoltBearing (Rn_bolt_bearing (B2Q d) (B2Q t) (B2Q u))).
Proof.
  intros Hd Ht Hu.
  unfold strength_of_part, convert_t_ult, bearing_nominal, available, plate,
    Rn_bolt_bearing.
  cbn [fst snd].
  apply parse_method_Some in method as [[-> ->]|[-> ->]];
    run_calculator; accurate.
Qed.

(** In binary64, under either method, for a diameter and any number of
    parts in the engineering range: [bearing_strength_parts] returns one
    strength per part, in the order of the parts, each within [2^-50] of
    the policy applied to [2.4 * d * t * f_u] of its part. *)
Theorem bearing_strength_parts_accuracy (d : float)
    (parts : list (float * float)) :
  engineering d = true ->
  Forall (fun p => engineering (fst p) = true /\ engineering (snd p) = true)
    parts ->
  exists rs,
    bearing_strength_parts s (qty d inch) (map plate parts) = Ok (kips rs) /\
    Forall2 (fun p r =>
               within accuracy r
                 (apply_factor m BoltBearing
                    (Rn_bolt_bearing (B2Q d) (B2Q (fst p)) (B2Q (snd p)))))
      parts rs.
Proof.
  intros Hd Hp. unfold bearing_strength_parts.
  rewrite to_name_inch_same. cbn [bind].
  apply strength_per_part_accuracy.
  eapply Forall_impl; [|exact Hp]. intros [t u] [Ht Hu].
  now apply bearing_part_accuracy.
Qed.

(** ** Tearout *)

Lemma tearout_part_accuracy (d e t u : float) :
  engineering d = true -> engineering e = true ->
  engineering t = true -> engineering u = true ->
  B2Q d + 0.125 <= B2Q e ->
  exists r,
    strength_of_part convert_len_len_str (tearout_nominal (qty d inch))
      (lit 2.00) (lit 0.75) s (strip (e, t, u)) = Ok (qty r kip) /\
    within accuracy r
      (apply_factor m BoltTearout
         (Rn_bolt_tearout (B2Q d) (B2Q e) (B2Q t) (B2Q u))).
Proof.
  intros Hd He Ht Hu Hh.
  unfold strength_of_part, convert_len_len_str, tearout_nominal, available,
    strip, Rn_bolt_tearout.
  cbn [fst snd].
  apply parse_method_Some in method as [[-> ->]|[-> ->]];
    run_calculator; accurate.
Qed.

(** C25. In binary64, under either method, for a diameter and any number of
    parts in the engineering range whose edge distance is at least the
    diameter of the hole: [tearout_strength_parts] returns one strength per
    part, in the order of the parts, each within [2^-50] of the policy
    applied to [1.2 * (edge - (d + 0.125) / 2) * t * f_u] of its part. *)
Theorem tearout_strength_parts_accuracy (d : float)
    (parts : list (float * float * float)) :
  engineering d = true ->
  Forall (fun p => strip_engineering p = true /\
                   B2Q d + 0.125 <= B2Q (fst (fst p))) parts ->
  exists rs,
    tearout_strength_parts s (qty d inch) (map strip parts) = Ok (kips rs) /\
    Forall2 (fun p r =>
               within accuracy r
                 (apply_factor m BoltTearout
                    (Rn_bolt_tearout (B2Q d) (B2Q (fst (fst p)))
                       (B2Q (snd (fst p))) (B2Q (snd p)))))
      parts rs.
Proof.
  intros Hd Hp. unfold tearout_strength_parts.
  rewrite to_name_inch_same. cbn [bind].
  apply strength_per_part_accuracy.
  eapply Forall_impl; [|exact Hp]. intros [[e t] u] [He Hh].
  apply strip_engineering_true in He as (He & Ht & Hu).
  now apply tearout_part_accuracy.
Qed.

(** ** Shear rupture *)

Lemma shear_rupture_part_accuracy (d : float) (n : Z) (t l u : float) :
  engineering d = true -> (0 < n < 2 ^ 63)%Z -> engineering t = true ->
  engineering l = true -> engineering u = true ->
  2 * ((B2Q d + 0.063) * inject_Z n) <= B2Q l ->
  exists r,
    strength_of_part convert_len_len_str
      (shear_rupture_nominal (qty d inch) n) (lit 2.00) (lit 0.75) s
      (strip (t, l, u)) = Ok (qty r kip) /\
    within net_accuracy r
      (apply_factor m ElementShearRupture
         (Rn_shear_rupture (B2Q d) n (B2Q t) (B2Q l) (B2Q u))).
Proof.
  intros Hd Hn Ht Hl Hu Hh.
  unfold strength_of_part, convert_len_len_str, shear_rupture_nominal,
    available, strip, Rn_shear_rupture, net_width.
  cbn [fst snd].
  apply parse_method_Some in method as [[-> ->]|[-> ->]];
    run_calculator; accurate.
Qed.

(** In binary64, under either method, for a diameter, a number of bolts
    below [2^63] and any number of parts in the engineering range of which
    the holes take at most half the width: [shear_rupture_parts] returns
    one strength per part, each within [2^-49] of the policy applied to
    [0.60 * f_u * (t * (len - (d + 0.063) * n))] of its part. *)
Theorem shear_rupture_parts_accuracy (d : float) (n : Z)
    (parts : list (float * float * float)) :
  engineering d = true -> (0 < n < 2 ^ 63)%Z ->
  Forall (fun p => strip_engineering p = true /\
                   2 * ((B2Q d + 0.063) * inject_Z n) <= B2Q (snd (fst p)))
    parts ->
  exists rs,
    shear_rupture_parts s (qty d inch) n (map strip parts) = Ok (kips rs) /\
    Forall2 (fun p r =>
               within net_accuracy r
                 (apply_factor m ElementShearRupture
                    (Rn_shear_rupture (B2Q d) n (B2Q (fst (fst p)))
                       (B2Q (snd (fst p))) (B2Q (snd p)))))
      parts rs.
Proof.
  intros Hd Hn Hp. unfold shear_rupture_parts.
  rewrite to_name_inch_same. cbn [bind].
  apply strength_per_part_accuracy.
  eapply Forall_impl; [|exact Hp]. intros [[t l] u] [He Hh].
  apply strip_engineering_true in He as (Ht & Hl & Hu).
  now apply shear_rupture_part_accuracy.
Qed.

End PartsAccuracy.

(** ** The theorems on three parts *)

Lemma bearing_strength_parts_accuracy_witness :
  exists rs,
    bearing_strength_parts "ASD" (qty 0.75%float inch)
      (map plate [(0.5, 58); (0.375, 65); (0.25, 58)]%float) = Ok (kips rs) /\
    Forall2 (fun p r =>
               within accuracy r
                 (apply_factor ASD BoltBearing
                    (Rn_bolt_bearing (B2Q 0.75) (B2Q (fst p)) (B2Q (snd p)))))
      [(0.5, 58); (0.375, 65); (0.25, 58)]%float rs.
Proof.
  apply (bearing_strength_parts_accuracy "ASD" ASD eq_refl);
    [reflexivity | repeat constructor].
Defined.

Lemma tearout_strength_parts_accuracy_witness :
  exists rs,
    tearout_strength_parts "LRFD" (qty 0.75%float inch)
      (map strip [(1.5, 0.5, 58); (1.25, 0.375, 65); (2, 0.25, 58)]%float)
    = Ok (kips rs) /\
    Forall2 (fun p r =>
               within accuracy r
                 (apply_factor LRFD BoltTearout
                    (Rn_bolt_tearout (B2Q 0.75) (B2Q (fst (fst p)))
                       (B2Q (snd (fst p))) (B2Q (snd p)))))
      [(1.5, 0.5, 58); (1.25, 0.375, 65); (2, 0.25, 58)]%float rs.
Proof.
  apply (tearout_strength_parts_accuracy "LRFD" LRFD eq_refl);
    [reflexivity|].
  repeat constructor; vm_compute; discriminate.
Defined.

Lemma shear_rupture_parts_accuracy_witness :
  exists rs,
    shear_rupture_parts "ASD" (qty 0.75%float inch) 3
      (map strip [(0.5, 9, 58); (0.375, 12, 65)]%float) = Ok (kips rs) /\
    Forall2 (fun p r =>
               within net_accuracy r
                 (apply_factor ASD ElementShearRupture
                    (Rn_shear_rupture (B2Q 0.75) 3 (B2Q (fst (fst p)))
                       (B2Q (snd (fst p))) (B2Q (snd p)))))
      [(0.5, 9, 58); (0.375, 12, 65)]%float rs.
Proof.
  apply (shear_rupture_parts_accuracy "ASD" ASD eq_refl);
    [reflexivity | lia |].
  repeat constructor; vm_compute; discriminate.
Defined.
