(* ===== verification/Binary64.v ===== *)
(** * Binary64: the calculators run on IEEE 754 double precision

    Python's [float] is binary64, and so is the [Float_Number] instance of
    [Numeric.v].  This file runs the definitions of [Bolt.v], [Element.v] and
    [Weld.v] at that instance on inputs given in the canonical units, where
    the conversions return the magnitude untouched, so that each result is
    the double the program computes.  The theorems record the results bit for
    bit, the example values of the documentation, and the behaviours that
    exist only in floating point: a NaN thickness falls through every bracket
    of [min_weld_size], a NaN strength silently disables the base-metal
    reduction of [weld_rupture_strength], the governing strength of a
    list of strengths, Python's [min], depends on the order of the list as
    soon as one of them is a NaN, and the two operations that raise
    [OverflowError] ([d ** 2] and the conversion of an [int]) do so from
    [2^512] and from [2^1024 - 2^970] on. *)

From Stdlib Require Import String List ZArith QArith Lia Floats.
From S2P Require Import Prelude Numeric Units Policy Bolt Element Weld Parts.
From S2P Require Import FloatOrder FloatOverflow.
Import ListNotations.

#[local] Set Warnings "-inexact-float".
#[local] Open Scope string_scope.
#[local] Open Scope float_scope.

(** A quantity whose magnitude is a double. *)
Definition fq (x : float) (u : Unit) : Quantity float := qty x u.

(** A double lies within [tol] of a decimal value. *)
Definition close_to (x v tol : float) : bool :=
  PrimFloat.ltb (PrimFloat.abs (PrimFloat.sub x v)) tol.

(** ** Bolts *)

(** The documented example of [nominal_fastener_strength]: 54 ksi in shear
    and 90 ksi in tension for a 120 ksi fastener. *)
Example nominal_fastener_strength_binary64 :
  nominal_fastener_strength (fq 120 ksi) = Ok (fq 54 ksi, fq 90 ksi).
Proof. vm_compute. reflexivity. Qed.

(** The documented example of [shear_strength_bolts]: a 3/4 in bolt of
    120 ksi under LRFD gives the double nearest to 17.89 kip. *)
Example shear_strength_bolts_binary64 :
  shear_strength_bolts "LRFD" (fq 0.75 inch) (fq 120 ksi)
  = Ok (fq 17.892351909898117 kip) /\
  close_to 17.892351909898117 17.89 0.005 = true.
Proof. split; vm_compute; reflexivity. Qed.

(** The same bolt under ASD, and the ratio of the two results. *)
Example shear_strength_bolts_ASD_binary64 :
  shear_strength_bolts "ASD" (fq 0.75 inch) (fq 120 ksi)
  = Ok (fq 11.928234606598746 kip) /\
  close_to (17.892351909898117 / 11.928234606598746) 1.5 0x1p-50 = true.
Proof. split; vm_compute; reflexivity. Qed.

Example tensile_strength_bolts_binary64 :
  tensile_strength_bolts "ASD" (fq 0.75 inch) (fq 120 ksi)
  = Ok (fq 19.880391010997911 kip).
Proof. vm_compute. reflexivity. Qed.

(** The documented example of [bearing_strength_bolts].  The second double
    is the one nearest to the decimal 19.575 of the documentation; the first
    is one unit in the last place below the double nearest to 26.1, since
    the product 2.4 * 0.75 * 0.5 * 58 is rounded before the division by 2. *)
Example bearing_strength_bolts_binary64 :
  bearing_strength_bolts "ASD" (fq 0.75 inch) (fq 0.5 inch) (fq 58 ksi)
                         (fq 0.375 inch) (fq 58 ksi)
  = Ok (fq 26.099999999999998 kip, fq 19.574999999999999 kip) /\
  PrimFloat.eqb 26.099999999999998 26.1 = false /\
  PrimFloat.eqb 19.574999999999999 19.575 = true /\
  close_to 26.099999999999998 26.1 0x1p-47 = true.
Proof. repeat split; vm_compute; reflexivity. Qed.

(** [tearout_strength_bolts] at comfortable edge distances, and at edge
    distances at and below half the hole: the strength is zero, then
    negative. *)
Example tearout_strength_bolts_binary64 :
  tearout_strength_bolts "LRFD" (fq 0.75 inch) (fq 1.5 inch) (fq 1.25 inch)
    (fq 0.5 inch) (fq 58 ksi) (fq 0.375 inch) (fq 58 ksi)
  = Ok (fq 27.731249999999996 kip, fq 15.904687499999998 kip) /\
  tearout_strength_bolts "LRFD" (fq 0.75 inch) (fq 0.4375 inch) (fq 0.25 inch)
    (fq 0.5 inch) (fq 58 ksi) (fq 0.375 inch) (fq 58 ksi)
  = Ok (fq 0 kip, fq (-3.6703124999999996) kip).
Proof. split; vm_compute; reflexivity. Qed.

(** The square of the diameter is the one operation of the bolt calculators
    that can raise on large doubles: [d ** 2] raises [OverflowError] when it
    overflows, before the selector is looked at, while a product that
    overflows gives an infinite strength silently. *)
Example shear_strength_bolts_overflow :
  shear_strength_bolts "XYZ" (fq 0x1p+512 inch) (fq 120 ksi)
  = Err OverflowError /\
  shear_strength_bolts "LRFD" (fq infinity inch) (fq 120 ksi)
  = Ok (fq infinity kip) /\
  bearing_strength_bolts "LRFD" (fq 0x1p+1023 inch) (fq 4 inch) (fq 58 ksi)
                         (fq 4 inch) (fq 58 ksi)
  = Ok (fq infinity kip, fq infinity kip).
Proof. repeat split; vm_compute; reflexivity. Qed.

(** ** Connected elements *)

Example connected_elem_shear_yield_str_binary64 :
  connected_elem_shear_yield_str "ASD" (fq 0.5 inch) (fq 6 inch) (fq 36 ksi)
    (fq 0.375 inch) (fq 6 inch) (fq 50 ksi)
  = Ok (fq 43.199999999999996 kip, fq 45 kip).
Proof. vm_compute. reflexivity. Qed.

Example connected_elem_shear_rupture_str_binary64 :
  connected_elem_shear_rupture_str "LRFD" (fq 0.75 inch) 2
    (fq 0.5 inch) (fq 6 inch) (fq 58 ksi) (fq 0.375 inch) (fq 6 inch) (fq 65 ksi)
  = Ok (fq 57.080700000000007 kip, fq 47.977312500000004 kip).
Proof. vm_compute. reflexivity. Qed.

(** Tensile yielding under both methods: 1.67 and 0.90 give a ratio of
    1.503, not the 1.5 of the other limit states. *)
Example connected_elem_tensile_yield_str_binary64 :
  connected_elem_tensile_yield_str "ASD" (fq 0.5 inch) (fq 6 inch) (fq 36 ksi)
    (fq 0.375 inch) (fq 6 inch) (fq 50 ksi)
  = Ok (fq 64.670658682634738 kip, fq 67.365269461077844 kip) /\
  connected_elem_tensile_yield_str "LRFD" (fq 0.5 inch) (fq 6 inch) (fq 36 ksi)
    (fq 0.375 inch) (fq 6 inch) (fq 50 ksi)
  = Ok (fq 97.200000000000003 kip, fq 101.25 kip) /\
  close_to (101.25 / 67.365269461077844) 1.503 0x1p-50 = true.
Proof. repeat split; vm_compute; reflexivity. Qed.

Example connected_elem_tensile_rupture_str_binary64 :
  connected_elem_tensile_rupture_str "ASD" (fq 0.75 inch) 2 0.85
    (fq 0.5 inch) (fq 6 inch) (fq 58 ksi) (fq 0.375 inch) (fq 6 inch) (fq 65 ksi)
  = Ok (fq 53.909550000000003 kip, fq 45.31190625 kip).
Proof. vm_compute. reflexivity. Qed.

(** ** Welds *)

(** The boundaries of [min_weld_size] in doubles: 0.25, 0.5 and 0.75 are
    exact in binary64 and belong to the upper bracket. *)
Example min_weld_size_binary64 :
  min_weld_size (fq 0.25 inch) (fq 0.5 inch) = Ok (Some 0.1875) /\
  min_weld_size (fq 1 inch) (fq 0.5 inch) = Ok (Some 0.25) /\
  min_weld_size (fq 0.75 inch) (fq 2 inch) = Ok (Some 0.3125) /\
  min_weld_size (fq 0.2499999999999999 inch) (fq 2 inch) = Ok (Some 0.125) /\
  min_weld_size (fq (-1) inch) (fq 0.5 inch) = Ok (Some 0.125) /\
  min_weld_size (fq infinity inch) (fq infinity inch) = Ok (Some 0.3125).
Proof. repeat split; vm_compute; reflexivity. Qed.

(** A NaN thickness fails every comparison, so [min_weld_size] falls off the
    end of its chain of tests and returns [None].  With Python's [min] the
    order matters: [min(nan, x)] is NaN, [min(x, nan)] is [x]. *)
Example min_weld_size_nan :
  min_weld_size (fq nan inch) (fq 0.5 inch) = Ok None /\
  min_weld_size (fq 0.5 inch) (fq nan inch) = Ok (Some 0.25).
Proof. split; vm_compute; reflexivity. Qed.

(** The two throat factors as doubles: [math.sqrt(2) / 2] in
    [weld_material_strength], the literal 0.707 in [weld_rupture_strength]. *)
Example throat_factors_binary64 :
  (math_sqrt2 / of_Z 2)%num = 0.70710678118654757 /\
  (lit 0.707 : float) = 0.70699999999999996 /\
  PrimFloat.ltb (lit 0.707) (math_sqrt2 / of_Z 2)%num = true.
Proof. repeat split; vm_compute; reflexivity. Qed.

Example weld_material_strength_binary64 :
  weld_material_strength "LRFD" 4 (fq 6 inch) 2 = Ok (fq 66.821590822128741 kip) /\
  weld_material_strength "ASD" 4 (fq 6 inch) 1 = Ok (fq 22.273863607376249 kip).
Proof. split; vm_compute; reflexivity. Qed.

(** [weld_material_strength] accepts any number of sides: three sides give
    three times one side, without an error. *)
Example weld_material_strength_three_sides :
  weld_material_strength "LRFD" 4 (fq 6 inch) 3 = Ok (fq 100.23238623319311 kip).
Proof. vm_compute. reflexivity. Qed.

(** [weld_rupture_strength] with thick parts returns the double that
    [weld_material_strength] returns; with a thin first part the base metal
    governs. *)
Example weld_rupture_strength_binary64 :
  weld_rupture_strength "LRFD" 4 (fq 6 inch) 2
    (fq 10 inch) (fq 58 ksi) (fq 10 inch) (fq 65 ksi)
  = weld_material_strength "LRFD" 4 (fq 6 inch) 2 /\
  weld_rupture_strength "LRFD" 4 (fq 6 inch) 2
    (fq 0.25 inch) (fq 58 ksi) (fq 10 inch) (fq 65 ksi)
  = Ok (fq 39.155912989325792 kip).
Proof. split; vm_compute; reflexivity. Qed.

(** The errors of [weld_rupture_strength] in doubles: three sides read an
    unassigned local before the selector is looked at; a zero weld size
    divides by zero; a NaN strength raises nothing and returns the strength
    of the weld metal, since [nan < 1] is false. *)
Example weld_rupture_strength_errors_binary64 :
  weld_rupture_strength "XYZ" 4 (fq 6 inch) 3
    (fq 0.25 inch) (fq 58 ksi) (fq 10 inch) (fq 65 ksi)
  = Err (UnboundLocalError "t1_min") /\
  weld_rupture_strength "LRFD" 0 (fq 6 inch) 2
    (fq 0.25 inch) (fq 58 ksi) (fq 10 inch) (fq 65 ksi)
  = Err ZeroDivisionError /\
  weld_rupture_strength "LRFD" 4 (fq 6 inch) 2
    (fq 0.25 inch) (fq nan ksi) (fq 10 inch) (fq 65 ksi)
  = Ok (fq 66.821590822128741 kip).
Proof. repeat split; vm_compute; reflexivity. Qed.

(** ** [min_weld_size] on every pair of doubles *)

(** The thresholds are doubles, not NaN. *)
Lemma thresholds_ordered :
  is_nan (lit 0.25) = false /\ is_nan (lit 0.5) = false /\
  is_nan (lit 0.75) = false.
Proof. repeat split; vm_compute; reflexivity. Qed.

(** On two thicknesses in inches, whatever doubles they are, the function
    returns nothing exactly when the thinner part, as Python's [min]
    computes it, is a NaN. *)
Lemma min_weld_size_binary64_cases (t1 t2 : float) :
  min_weld_size (fq t1 inch) (fq t2 inch)
  = if is_nan (pmin t1 t2) then Ok None
    else Ok (Some (weld_size_table (pmin t1 t2))).
Proof.
  destruct thresholds_ordered as (N1 & N2 & N3).
  exact (min_weld_size_cases t1 t2 N1 N2 N3).
Qed.

(** Python's [min] keeps its first argument unless the second is smaller,
    and nothing is smaller than a NaN or a NaN smaller than anything: the
    minimum is a NaN exactly when the first argument is. *)
Lemma pmin_nan (t1 t2 : float) :
  is_nan (pmin t1 t2) = is_nan t1.
Proof.
  unfold pmin. cbn [nltb Float_Number].
  destruct (t2 <? t1) eqn:E; [|reflexivity].
  destruct (ltb_true_ordered _ _ E) as [-> ->]. reflexivity.
Qed.

(** C19. On two thicknesses in inches, whatever doubles they are,
    [min_weld_size] returns nothing ([None]) exactly when the first
    thickness is a NaN; in every other case, infinite and negative
    thicknesses and a NaN in second place included, it returns the entry of
    the table for the thinner part as Python's [min] computes it. *)
Theorem min_weld_size_binary64_total (t1 t2 : float) :
  min_weld_size (fq t1 inch) (fq t2 inch)
  = if is_nan t1 then Ok None
    else Ok (Some (weld_size_table (pmin t1 t2))).
Proof. rewrite min_weld_size_binary64_cases, pmin_nan. reflexivity. Qed.

(** The thicknesses for which nothing is returned. *)
Corollary min_weld_size_binary64_None (t1 t2 : float) :
  min_weld_size (fq t1 inch) (fq t2 inch) = Ok None <-> is_nan t1 = true.
Proof.
  rewrite min_weld_size_binary64_cases, pmin_nan.
  destruct (is_nan t1); split; congruence.
Qed.

(** ** Monotonicity on every pair of doubles *)

(** On doubles, a thicker part never gets a smaller entry of the table:
    whenever [t <= t'] holds as a comparison of doubles (which excludes
    NaN), the entry for [t] is at most the entry for [t']. *)
Lemma weld_size_table_binary64_monotone (t t' : float) :
  (t <=? t') = true ->
  (weld_size_table t <=? weld_size_table t') = true.
Proof.
  intros H. pose proof (fun c => leb_ltb_trans t t' c H) as M.
  unfold weld_size_table. cbn [nltb Float_Number].
  destruct (t <? lit 0.25) eqn:A, (t <? lit 0.5) eqn:B, (t <? lit 0.75) eqn:C,
    (t' <? lit 0.25) eqn:A', (t' <? lit 0.5) eqn:B', (t' <? lit 0.75) eqn:C';
    try (vm_compute; reflexivity); exfalso;
    first [ rewrite (M _ A') in A; discriminate
          | rewrite (M _ B') in B; discriminate
          | rewrite (M _ C') in C; discriminate ].
Qed.

(** C34. On every four doubles: when the thinner part of one joint is at most
    the thinner part of another, as Python's [min] and [<=] compute them,
    [min_weld_size] returns a size for both joints and the size of the
    first is at most the size of the second. *)
Theorem min_weld_size_binary64_monotone (t1 t2 t1' t2' : float) :
  (pmin t1 t2 <=? pmin t1' t2') = true ->
  exists w w',
    min_weld_size (fq t1 inch) (fq t2 inch) = Ok (Some w) /\
    min_weld_size (fq t1' inch) (fq t2' inch) = Ok (Some w') /\
    (w <=? w') = true.
Proof.
  intros H. destruct (leb_true_ordered _ _ H) as [N N'].
  exists (weld_size_table (pmin t1 t2)), (weld_size_table (pmin t1' t2')).
  rewrite !min_weld_size_binary64_cases, N, N'.
  auto using weld_size_table_binary64_monotone.
Qed.

Lemma min_weld_size_binary64_monotone_witness :
  exists w w',
    min_weld_size (fq 0.3 inch) (fq 2 inch) = Ok (Some w) /\
    min_weld_size (fq infinity inch) (fq 0.6 inch) = Ok (Some w') /\
    (w <=? w') = true.
Proof.
  apply min_weld_size_binary64_monotone. vm_compute. reflexivity.
Defined.

(** ** The governing strength of a list of doubles *)

(** [min_from] on doubles none of which is a NaN returns one of them, below
    all the others in the order of the doubles. *)
Lemma min_from_binary64_least (rs : list float) :
  forall best : float,
  is_nan best = false -> Forall (fun x => is_nan x = false) rs ->
  exists g,
    min_from (fq best kip) (map (fun x => fq x kip) rs) = Ok (fq g kip) /\
    In g (best :: rs) /\ Forall (fun x => (g <=? x) = true) (best :: rs).
Proof.
  unfold fq. induction rs as [|r rs IH]; intros best Nb Hrs.
  - exists best.
    repeat split; [now left | repeat constructor; now apply leb_refl].
  - inversion Hrs as [|? ? Nr Hrs']; subst. cbn [map min_from].
    rewrite qlt_same. cbn [bind nltb Float_Number].
    destruct (r <? best) eqn:E.
    + destruct (IH r Nr Hrs') as (g & -> & Hin & Hle).
      exists g. split; [reflexivity|].
      inversion Hle as [|? ? Hgr Hrest]; subst.
      split; [right; exact Hin|].
      constructor; [eapply leb_trans; [exact Hgr | now apply ltb_leb]|].
      now constructor.
    + destruct (IH best Nb Hrs') as (g & -> & Hin & Hle).
      exists g. split; [reflexivity|].
      inversion Hle as [|? ? Hgb Hrest]; subst.
      split; [destruct Hin as [<-|Hin]; [now left | now do 2 right]|].
      constructor; [exact Hgb|]. constructor; [|exact Hrest].
      eapply leb_trans; [exact Hgb|]. now rewrite leb_negb_ltb, E.
Qed.

(** In binary64, the governing strength of a non-empty list of strengths in
    kip none of which is a NaN is one of them, and no strength of the list
    is below it. *)
Theorem governing_strength_binary64_least (rs : list float) :
  rs <> [] -> Forall (fun x => is_nan x = false) rs ->
  exists g,
    governing_strength (map (fun x => fq x kip) rs) = Ok (fq g kip) /\
    In g rs /\ Forall (fun x => (g <=? x) = true) rs.
Proof.
  destruct rs as [|r rs]; [contradiction|]. intros _ H.
  inversion H; subst. now apply min_from_binary64_least.
Qed.

Lemma governing_strength_binary64_least_witness :
  exists g,
    governing_strength (map (fun x => fq x kip) [1.5; 0.5; 2])
    = Ok (fq g kip) /\
    In g [1.5; 0.5; 2] /\ Forall (fun x => (g <=? x) = true) [1.5; 0.5; 2].
Proof.
  apply governing_strength_binary64_least;
    [discriminate | repeat constructor].
Defined.

(** With a NaN among the strengths the governing strength depends on the
    order of the list: a NaN in front stays, a NaN behind is skipped,
    because every comparison with it fails. *)
Theorem governing_strength_binary64_nan_order :
  governing_strength [fq nan kip; fq 1 kip] = Ok (fq nan kip) /\
  governing_strength [fq 1 kip; fq nan kip] = Ok (fq 1 kip).
Proof. split; vm_compute; reflexivity. Qed.

(** ** Where the doubles raise [OverflowError]

    Products, quotients, sums and differences of doubles never raise in
    Python: they overflow to an infinity.  Two operations of the program
    raise: the square [bolt_dia ** 2] and the conversion of the integers
    [bolt_count] and [weld_sides] by the multiplication they meet. *)

(** [squares_cases d] follows the square of the double [d]. *)
Ltac squares_cases d :=
  unfold qsquare, ppow2; cbn [magnitude units];
  rewrite sq_overflows_threshold;
  destruct (squares_to_infinity d); cbn [bind raise ret].

(** [not_overflow m] closes a goal that says that the branch on the method
    [m] does not end in [OverflowError]. *)
Ltac not_overflow m :=
  split; [|discriminate];
  destruct (String.eqb m "ASD"); [discriminate|];
  destruct (String.eqb m "LRFD"); discriminate.

(** C37. With a diameter in inch and a strength in ksi, [shear_strength_bolts]
    raises [OverflowError] exactly when the diameter is a finite double of
    absolute value at least [2^512], whatever the strength and the selector:
    an infinite or NaN diameter does not raise, and neither does any
    diameter below [2^512], however large the strength. *)
Theorem shear_strength_bolts_binary64_overflow (m : string) (d f_u : float) :
  shear_strength_bolts m (fq d inch) (fq f_u ksi) = Err OverflowError
  <-> squares_to_infinity d = true.
Proof.
  unfold shear_strength_bolts, nominal_fastener_strength, fq.
  rewrite to_name_ksi_same. cbn [bind]. rewrite to_name_inch_same.
  cbn [bind]. squares_cases d; [tauto | not_overflow m].
Qed.

(** The same for [tensile_strength_bolts]. *)
Lemma tensile_strength_bolts_binary64_overflow (m : string) (d f_u : float) :
  tensile_strength_bolts m (fq d inch) (fq f_u ksi) = Err OverflowError
  <-> squares_to_infinity d = true.
Proof.
  unfold tensile_strength_bolts, nominal_fastener_strength, fq.
  rewrite to_name_ksi_same. cbn [bind]. rewrite to_name_inch_same.
  cbn [bind]. squares_cases d; [tauto | not_overflow m].
Qed.

(** C38. With inputs in inch and ksi, [connected_elem_shear_rupture_str] raises
    [OverflowError] exactly when the bolt count is at least
    [2^1024 - 2^970] in absolute value, which is exactly when the double
    nearest to it is infinite; no double among the inputs makes it raise. *)
Theorem connected_elem_shear_rupture_str_binary64_overflow (m : string)
    (d : float) (n : Z) (t1 l1 u1 t2 l2 u2 : float) :
  (connected_elem_shear_rupture_str m (fq d inch) n (fq t1 inch) (fq l1 inch)
     (fq u1 ksi) (fq t2 inch) (fq l2 inch) (fq u2 ksi) = Err OverflowError
   <-> (float_int_limit <= Z.abs n)%Z) /\
  ((float_int_limit <= Z.abs n)%Z <-> is_infinity (float_of_Z n) = true).
Proof.
  split; [|rewrite <- float_of_Z_overflows_spec; symmetry; apply Z.leb_le].
  unfold connected_elem_shear_rupture_str, fq.
  rewrite !to_name_inch_same, !to_name_ksi_same. res_simpl.
  rewrite !muli_outcome. num_unfold. unfold float_of_Z_overflows.
  destruct (Z.leb_spec float_int_limit (Z.abs n)) as [Hn|Hn]; res_simpl.
  - tauto.
  - split; [|lia]. destruct (String.eqb m "ASD"); [discriminate|].
    destruct (String.eqb m "LRFD"); discriminate.
Qed.

(** The same for the number of sides of [weld_material_strength]. *)
Lemma weld_material_strength_binary64_overflow (m : string) (w L : float)
    (sides : Z) :
  weld_material_strength m w (fq L inch) sides = Err OverflowError
  <-> (float_int_limit <= Z.abs sides)%Z.
Proof.
  unfold weld_material_strength, fq. rewrite to_same. cbn [bind].
  rewrite muli_outcome. num_unfold. unfold float_of_Z_overflows.
  destruct (Z.leb_spec float_int_limit (Z.abs sides)) as [Hn|Hn];
    cbn [bind]; [tauto|].
  split; [|lia]. destruct (String.eqb m "ASD"); [discriminate|].
  destruct (String.eqb m "LRFD"); discriminate.
Qed.

(** The thresholds, run: the diameter [2^512] raises and the double below it
    does not; the bolt count [2^1024 - 2^970] raises and the integer below
    it gives the largest double. *)
Example overflow_thresholds_binary64 :
  shear_strength_bolts "LRFD" (fq 0x1p+512 inch) (fq 120 ksi)
  = Err OverflowError /\
  is_ok (shear_strength_bolts "LRFD" (fq 0x1.fffffffffffffp+511 inch)
           (fq 120 ksi)) = true /\
  connected_elem_shear_rupture_str "LRFD" (fq 0.75 inch) float_int_limit
    (fq 0.5 inch) (fq 6 inch) (fq 58 ksi) (fq 0.5 inch) (fq 6 inch) (fq 58 ksi)
  = Err OverflowError /\
  float_of_Z (float_int_limit - 1) = 0x1.fffffffffffffp+1023.
Proof. repeat split; vm_compute; reflexivity. Qed.
